(** * PoseDiffusion: the spatial / frustum volume pipeline

    A shallow embedding of
    [pose_diffusion/models/View_feature_extractor_net.py] and
    [pose_diffusion/models/View_feature_extractor.py].

    Tensors are modelled the way the tensor runtime keeps them: a tensor
    object is a shape and a view on a storage buffer, and a storage is a
    flat row-major list of entries.  Floating-point entries are idealised
    as real numbers, Python integers are [Z].  The numeric kernels of the
    runtime (convolution, normalisation, activation, grid sampling,
    parameter initialisation) are parameters of the development; their
    shape rules and their error conditions are written out. *)

From Stdlib Require Import Reals Lra Lia ZArith List String.
From stdpp Require Import base option list gmap strings pretty.

Open Scope Z_scope.

(** ** Python exceptions and results *)

Inductive PyError :=
| NameError (name : string)
| IndexError
| ValueError
| TypeError
| RuntimeError.

Inductive result (A : Type) :=
| Ok (a : A)
| Raise (e : PyError).
Arguments Ok {A} a.
Arguments Raise {A} e.

Definition rbind {A B} (r : result A) (f : A -> result B) : result B :=
  match r with
  | Ok a => f a
  | Raise e => Raise e
  end.

Fixpoint rmap {A B} (f : A -> result B) (xs : list A) : result (list B) :=
  match xs with
  | [] => Ok []
  | x :: xs' => rbind (f x) (fun y => rbind (rmap f xs') (fun ys => Ok (y :: ys)))
  end.

(** ** Tensor values: a shape and a row-major buffer *)

Module Tensor.

Record t := mk { shape : list Z; data : list R }.

Definition numel (sh : list Z) : Z := fold_right Z.mul 1 sh.

Definition nshape (sh : list Z) : list nat := map Z.to_nat sh.

Definition nnumel (sh : list nat) : nat := fold_right Nat.mul 1%nat sh.

(** [chunks n k xs]: the first [k] consecutive blocks of [n] entries. *)
Fixpoint chunks {A} (n k : nat) (xs : list A) : list (list A) :=
  match k with
  | O => []
  | S k' => firstn n xs :: chunks n k' (skipn n xs)
  end.

(** Row-major offset of a multi-index, [None] when out of bounds. *)
Fixpoint ravel (sh : list Z) (idx : list Z) : option Z :=
  match sh, idx with
  | [], [] => Some 0
  | d :: sh', i :: idx' =>
      if (0 <=? i) && (i <? d)
      then match ravel sh' idx' with
           | Some o => Some (i * numel sh' + o)
           | None => None
           end
      else None
  | _, _ => None
  end.

Definition get (x : t) (idx : list Z) : option R :=
  match ravel (shape x) idx with
  | Some o => data x !! Z.to_nat o
  | None => None
  end.

(** All multi-indices of a shape, in row-major order. *)
Fixpoint indices (sh : list nat) : list (list Z) :=
  match sh with
  | [] => [[]]
  | d :: sh' => flat_map (fun i => map (cons (Z.of_nat i)) (indices sh')) (seq 0 d)
  end.

Definition map_data (f : R -> R) (x : t) : t :=
  mk (shape x) (map f (data x)).

(** [torch.ones] of a shape, [torch.zeros_like(x)]. *)
Definition ones (sh : list Z) : result t :=
  if forallb (Z.leb 0) sh
  then Ok (mk sh (repeat 1%R (Z.to_nat (numel sh))))
  else Raise RuntimeError.

Definition zeros_like (x : t) : t := map_data (fun _ => 0%R) x.

(** Tensor-scalar arithmetic. *)
Definition mul_scalar (x : t) (c : R) : t := map_data (fun a => (a * c)%R) x.
Definition add_scalar (x : t) (c : R) : t := map_data (fun a => (a + c)%R) x.
Definition sub_scalar (x : t) (c : R) : t := map_data (fun a => (a - c)%R) x.
Definition rsub_scalar (c : R) (x : t) : t := map_data (fun a => (c - a)%R) x.
Definition div_scalar (x : t) (c : R) : t := map_data (fun a => (a / c)%R) x.
Definition neg (x : t) : t := map_data Ropp x.
Definition sin (x : t) : t := map_data Rtrigo_def.sin x.
Definition cos (x : t) : t := map_data Rtrigo_def.cos x.

(** [x[i]] on the first dimension; a negative index counts from the end. *)
Definition index0 (x : t) (i : Z) : result t :=
  match shape x with
  | [] => Raise IndexError
  | d :: sh =>
      if (- d <=? i) && (i <? d)
      then let j := if i <? 0 then i + d else i in
           let n := Z.to_nat (numel sh) in
           Ok (mk sh (firstn n (skipn (Z.to_nat j * n) (data x))))
      else Raise IndexError
  end.

(** [x[idx]] for a [torch.long] index tensor of shape [ish]: the selected
    blocks are copied one after the other. *)
Definition index_rows (x : t) (ish : list Z) (idx : list Z) : result t :=
  match shape x with
  | [] => Raise IndexError
  | d :: sh =>
      rbind (rmap (index0 x) idx)
            (fun rows => Ok (mk (ish ++ sh) (flat_map data rows)))
  end.

(** [x.unsqueeze(dim)] for [0 <= dim <= rank]. *)
Definition unsqueeze_shape (dim : Z) (sh : list Z) : result (list Z) :=
  if (0 <=? dim) && (dim <=? Z.of_nat (length sh))
  then Ok (firstn (Z.to_nat dim) sh ++ 1 :: skipn (Z.to_nat dim) sh)
  else Raise IndexError.

Definition unsqueeze (dim : Z) (x : t) : result t :=
  rbind (unsqueeze_shape dim (shape x)) (fun sh => Ok (mk sh (data x))).

(** [x.repeat] on the buffer: every dimension is tiled. *)
Fixpoint repeat_data (sh reps : list nat) (xs : list R) : list R :=
  match sh, reps with
  | d :: sh', r :: reps' =>
      concat (repeat (flat_map (repeat_data sh' reps') (chunks (nnumel sh') d xs)) r)
  | _, _ => xs
  end.

Definition pad_ones (n : nat) (sh : list Z) : list Z :=
  repeat 1 (n - length sh) ++ sh.

Definition repeat_ (reps : list Z) (x : t) : result t :=
  if (length (shape x) <=? length reps)%nat && forallb (Z.leb 0) reps
  then let sh := pad_ones (length reps) (shape x) in
       Ok (mk (zip_with Z.mul sh reps)
              (repeat_data (nshape sh) (nshape reps) (data x)))
  else Raise RuntimeError.

(** Broadcasting of two shapes, aligned on the right. *)
Fixpoint broadcast_aligned (a b : list Z) : option (list Z) :=
  match a, b with
  | [], [] => Some []
  | x :: a', y :: b' =>
      match broadcast_aligned a' b' with
      | Some r =>
          if x =? y then Some (x :: r)
          else if x =? 1 then Some (y :: r)
          else if y =? 1 then Some (x :: r)
          else None
      | None => None
      end
  | _, _ => None
  end.

Definition broadcast_shapes (a b : list Z) : option (list Z) :=
  let n := Nat.max (length a) (length b) in
  broadcast_aligned (pad_ones n a) (pad_ones n b).

(** The buffer of [x] expanded to the broadcast shape [target]. *)
Definition expand_data (target : list Z) (x : t) : list R :=
  let sh := pad_ones (length target) (shape x) in
  let reps := zip_with (fun d e => if d =? e then 1 else e) sh target in
  repeat_data (nshape sh) (nshape reps) (data x).

Definition binop (f : R -> R -> R) (x y : t) : result t :=
  match broadcast_shapes (shape x) (shape y) with
  | Some sh => Ok (mk sh (zip_with f (expand_data sh x) (expand_data sh y)))
  | None => Raise RuntimeError
  end.

Definition add := binop Rplus.
Definition sub := binop Rminus.

(** [torch.stack(xs, -1)]: the buffers are interleaved entry by entry. *)
Fixpoint interleave (n : nat) (xss : list (list R)) : list R :=
  match n with
  | O => []
  | S n' => flat_map (firstn 1) xss ++ interleave n' (map (skipn 1) xss)
  end.

Definition stack_last (xs : list t) : result t :=
  match xs with
  | [] => Raise RuntimeError
  | x :: rest =>
      if forallb (fun y => bool_decide (shape y = shape x)) rest
      then Ok (mk (shape x ++ [Z.of_nat (length xs)])
                  (interleave (Z.to_nat (numel (shape x))) (map data xs)))
      else Raise RuntimeError
  end.

(** [torch.stack(xs, 1)] of tensors [B, ...]: block [b] of every tensor in
    turn. *)
Definition stack1 (xs : list t) : result t :=
  match xs with
  | [] => Raise RuntimeError
  | x :: rest =>
      if forallb (fun y => bool_decide (shape y = shape x)) rest
      then match shape x with
           | [] => Raise IndexError
           | b :: sh =>
               let n := Z.to_nat (numel sh) in
               Ok (mk (b :: Z.of_nat (length xs) :: sh)
                      (flat_map (fun i => flat_map (fun y => firstn n (skipn (i * n) (data y))) xs)
                                (seq 0 (Z.to_nat b))))
           end
      else Raise RuntimeError
  end.

(** [x.permute(perm)]: entry [o] of the result is entry [i] of [x] with
    [i[perm[k]] = o[k]].  [permute_list] reorders any row-major list laid
    out with sizes [sh]. *)
Definition permute_sizes (perm : list nat) (sh : list Z) : list Z :=
  map (fun p => nth p sh 0) perm.

Definition permute_source (perm : list nat) (o : list Z) : list Z :=
  map (fun j => nth (default O (fst <$> list_find (eq j) perm)) o 0) (seq 0 (length perm)).

Definition permute_list {A} (d : A) (perm : list nat) (sh : list Z) (xs : list A) : list A :=
  map (fun o => match ravel sh (permute_source perm o) with
                | Some i => nth (Z.to_nat i) xs d
                | None => d
                end)
      (indices (nshape (permute_sizes perm sh))).

Definition permute (perm : list nat) (x : t) : result t :=
  if bool_decide (Permutation perm (seq 0 (length (shape x))))
  then Ok (mk (permute_sizes perm (shape x)) (permute_list 0%R perm (shape x) (data x)))
  else Raise RuntimeError.

(** [x.view(sh)] / [x.reshape(sh)] on a contiguous value. *)
Definition reshape (sh : list Z) (x : t) : result t :=
  if forallb (Z.leb 0) sh && (numel sh =? numel (shape x))
  then Ok (mk sh (data x))
  else Raise RuntimeError.

(** [x[..., cols]] on the last dimension with a tuple of columns. *)
Definition index_last (cols : list Z) (x : t) : result t :=
  match rev (shape x) with
  | [] => Raise IndexError
  | d :: rsh =>
      if forallb (fun c => (- d <=? c) && (c <? d)) cols
      then let n := Z.to_nat d in
           let rows := chunks n (Z.to_nat (numel (rev rsh))) (data x) in
           Ok (mk (rev rsh ++ [Z.of_nat (length cols)])
                  (flat_map (fun row => map (fun c => nth (Z.to_nat (if c <? 0 then c + d else c)) row 0%R) cols) rows))
      else Raise IndexError
  end.

(** [torch.linspace(a, b, n)]. *)
Definition linspace (a b : R) (n : Z) : result t :=
  if n <? 0 then Raise RuntimeError
  else Ok (mk [n] (map (fun i => if n =? 1 then a
                                  else (a + IZR (Z.of_nat i) * ((b - a) / IZR (n - 1)))%R)
                       (seq 0 (Z.to_nat n)))).

(** [torch.stack(torch.meshgrid(v, v, v), -1)] for a vector [v]. *)
Definition meshgrid3_stack (v : t) : result t :=
  match shape v with
  | [n] =>
      let e i := nth (Z.to_nat i) (data v) 0%R in
      Ok (mk [n; n; n; 3]
             (flat_map (fun ijk => match ijk with
                                   | [i; j; k] => [e i; e j; e k]
                                   | _ => []
                                   end)
                       (indices (nshape [n; n; n]))))
  | _ => Raise RuntimeError
  end.

(** [x[torch.arange(B)[:, None], idx]] with [idx] of shape [B, TN]:
    entry [(b, j)] of the result is [x[b, idx[b, j]]]. *)
Definition index_pairs (x : t) (B TN : Z) (idx : list Z) : result t :=
  match shape x with
  | _ :: _ :: sh =>
      rbind (rmap (fun b =>
                     rbind (index0 x (Z.of_nat b))
                           (fun xb => rmap (fun j => index0 xb (nth (b * Z.to_nat TN + j) idx 0))
                                           (seq 0 (Z.to_nat TN))))
                  (seq 0 (Z.to_nat B)))
            (fun rows => Ok (mk (B :: TN :: sh) (flat_map data (concat rows))))
  | _ => Raise IndexError
  end.

(** [np.diag(d) @ x] for a matrix [x]: row [i] is scaled by [d[i]]. *)
Definition diag_matmul (d : list R) (x : t) : result t :=
  match shape x with
  | [r; c] =>
      if r =? Z.of_nat (length d)
      then Ok (mk [r; c]
                  (concat (zip_with (fun di row => map (Rmult di) row) d
                                    (chunks (Z.to_nat c) (Z.to_nat r) (data x)))))
      else Raise ValueError
  | _ => Raise ValueError
  end.

(** *** Numeric kernels of the runtime

    What the kernels compute is left to the runtime; the functions below
    fix where each kernel is applied, on which shapes it is accepted and
    what shape it returns. *)

Record ConvSpec := mkConv {
  rank : nat;
  in_channels : Z;
  out_channels : Z;
  kernel_size : Z;
  stride : Z;
  padding : Z;
  output_padding : Z;
  transposed : bool }.

Record Kernels := mkKernels {
  k_conv : ConvSpec -> t -> t -> t -> list R;
  k_group_norm : Z -> t -> t -> t -> list R;
  k_silu : list R -> list R;
  k_grid_sample : t -> t -> list R;
  k_init : N -> list Z -> list R }.

Section Functional.
Context (K : Kernels).

(** Output extent of one spatial dimension. *)
Definition conv_out_dim (c : ConvSpec) (n : Z) : result Z :=
  if transposed c
  then Ok ((n - 1) * stride c - 2 * padding c + kernel_size c + output_padding c)
  else if n + 2 * padding c <? kernel_size c then Raise RuntimeError
       else Ok ((n + 2 * padding c - kernel_size c) / stride c + 1).

(** [nn.Conv2d], [nn.Conv3d], [nn.ConvTranspose3d]: the input is batched
    ([rank + 2] dimensions) or a single sample ([rank + 1]). *)
Definition conv (c : ConvSpec) (weight bias x : t) : result t :=
  let sh := shape x in
  if (length sh =? rank c + 2)%nat
  then match sh with
       | b :: ch :: sp =>
           if ch =? in_channels c
           then rbind (rmap (conv_out_dim c) sp)
                      (fun sp' => Ok (mk (b :: out_channels c :: sp') (k_conv K c weight bias x)))
           else Raise RuntimeError
       | _ => Raise RuntimeError
       end
  else if (length sh =? rank c + 1)%nat
  then match sh with
       | ch :: sp =>
           if ch =? in_channels c
           then rbind (rmap (conv_out_dim c) sp)
                      (fun sp' => Ok (mk (out_channels c :: sp') (k_conv K c weight bias x)))
           else Raise RuntimeError
       | _ => Raise RuntimeError
       end
  else Raise RuntimeError.

(** [F.group_norm]: at least two dimensions, more than one value per
    group ([_verify_batch_size]), and the channel count of the layer. *)
Definition group_norm (groups channels : Z) (weight bias x : t) : result t :=
  match shape x with
  | b :: ch :: sp =>
      if b * ch / groups * numel sp =? 1 then Raise ValueError
      else if (ch =? channels) && (ch mod groups =? 0)
           then Ok (mk (shape x) (k_group_norm K groups weight bias x))
           else Raise RuntimeError
  | _ => Raise RuntimeError
  end.

(** [F.grid_sample(x, grid, mode='bilinear', padding_mode='zeros',
    align_corners=True)]: [x] is [N, C, *in], [grid] is [N, *out, r] with
    [r] the number of spatial dimensions (2 or 3). *)
Definition grid_sample (x grid : t) : result t :=
  match shape x, shape grid with
  | n :: c :: sp, n' :: gsp =>
      if (n =? n') && (length gsp =? length sp + 1)%nat
         && ((length sp =? 2)%nat || (length sp =? 3)%nat)
         && (List.last gsp 0 =? Z.of_nat (length sp))
      then Ok (mk (n :: c :: removelast gsp) (k_grid_sample K x grid))
      else Raise RuntimeError
  | _, _ => Raise RuntimeError
  end.

End Functional.

End Tensor.

(** ** The tensor runtime: storages, tensor objects, the interpreter state *)

Module Torch.
Import Tensor.

Inductive Storage :=
| FloatStorage (xs : list R)
| LongStorage (xs : list Z).

Inductive DType := Float | Long.

(** A tensor object: the storage it views ([cell]), its sizes, its dtype
    and, in row-major order, the storage position of each of its entries
    ([sel]).  Views share the storage of their base. *)
Record Handle := mkHandle {
  cell : nat;
  sizes : list Z;
  dtype : DType;
  sel : list nat }.

(** The state a call runs in: the storages alive and the state of the
    default random generator. *)
Record World := mkWorld { heap : list Storage; rng : N }.

(** Computations: state passing, with the exception that ended them. *)
Definition M (A : Type) : Type := World -> result A * World.

Definition ret {A} (a : A) : M A := fun w => (Ok a, w).

Definition raise {A} (e : PyError) : M A := fun w => (Raise e, w).

Definition lift {A} (r : result A) : M A := fun w => (r, w).

Definition bind {A B} (m : M A) (f : A -> M B) : M B :=
  fun w => match m w with
           | (Ok a, w') => f a w'
           | (Raise e, w') => (Raise e, w')
           end.

Notation "x <- m ;; k" := (bind m (fun x => k))
  (at level 62, m at next level, right associativity, only parsing).

(** A [for] loop that collects one value per iteration. *)
Fixpoint for_each {A B} (xs : list A) (body : A -> M B) : M (list B) :=
  match xs with
  | [] => ret []
  | x :: xs' => y <- body x ;; ys <- for_each xs' body ;; ret (y :: ys)
  end.

Definition floats (s : Storage) : list R :=
  match s with FloatStorage xs => xs | LongStorage _ => [] end.

Definition longs (s : Storage) : list Z :=
  match s with LongStorage xs => xs | FloatStorage _ => [] end.

(** The value seen through a tensor object. *)
Definition value (w : World) (h : Handle) : Tensor.t :=
  mk (sizes h) (map (fun p => nth p (floats (nth (cell h) (heap w) (FloatStorage []))) 0%R) (sel h)).

Definition long_value (w : World) (h : Handle) : list Z :=
  map (fun p => nth p (longs (nth (cell h) (heap w) (LongStorage []))) 0) (sel h).

(** A new tensor on a storage of its own. *)
Definition new (x : Tensor.t) : M Handle :=
  fun w => (Ok (mkHandle (length (heap w)) (shape x) Float (seq 0 (length (data x)))),
            mkWorld (heap w ++ [FloatStorage (data x)]) (rng w)).

Definition new_long (sh : list Z) (xs : list Z) : M Handle :=
  fun w => (Ok (mkHandle (length (heap w)) sh Long (seq 0 (length xs))),
            mkWorld (heap w ++ [LongStorage xs]) (rng w)).

(** Out-of-place operators: the operands are read, the result is new. *)
Definition apply1 (f : Tensor.t -> result Tensor.t) (x : Handle) : M Handle :=
  fun w => match dtype x with
           | Float => (y <- lift (f (value w x)) ;; new y) w
           | Long => (Raise RuntimeError, w)
           end.

Definition apply2 (f : Tensor.t -> Tensor.t -> result Tensor.t) (x y : Handle) : M Handle :=
  fun w => match dtype x, dtype y with
           | Float, Float => (z <- lift (f (value w x) (value w y)) ;; new z) w
           | _, _ => (Raise RuntimeError, w)
           end.

(** In-place write through a tensor object: the entries it selects are
    replaced in the storage it views. *)
Fixpoint scatter (xs : list R) (ps : list nat) (ys : list R) : list R :=
  match ps, ys with
  | p :: ps', y :: ys' => scatter (<[p := y]> xs) ps' ys'
  | _, _ => xs
  end.

Definition write (h : Handle) (ys : list R) : M unit :=
  fun w => (Ok tt,
            mkWorld (alter (fun s => FloatStorage (scatter (floats s) (sel h) ys)) (cell h) (heap w))
                    (rng w)).

(** *** Views *)

Definition contiguous (h : Handle) : bool :=
  bool_decide (sel h = seq (hd O (sel h)) (length (sel h))).

Definition strip_ones (sh : list Z) : list Z := filter (fun d => d ≠ 1) sh.

(** A size [-1] is inferred from the number of entries. *)
Definition infer_sizes (sh : list Z) (total : Z) : result (list Z) :=
  let known := filter (fun d => d ≠ -1) sh in
  if forallb (Z.leb 0) known
  then match (length sh - length known)%nat with
       | O => if numel sh =? total then Ok sh else Raise RuntimeError
       | 1%nat =>
           if (numel known =? 0) || negb (total mod numel known =? 0)
           then Raise RuntimeError
           else Ok (map (fun d => if d =? -1 then total / numel known else d) sh)
       | _ => Raise RuntimeError
       end
  else Raise RuntimeError.

(** [x.view(sh)]: same storage, same entries, new sizes.  The runtime
    accepts it on a contiguous tensor, and on any tensor when only
    dimensions of size one are added or removed. *)
Definition view (sh : list Z) (h : Handle) : result Handle :=
  rbind (infer_sizes sh (numel (sizes h)))
        (fun sh' =>
           if contiguous h || bool_decide (strip_ones sh' = strip_ones (sizes h))
           then Ok (mkHandle (cell h) sh' (dtype h) (sel h))
           else Raise RuntimeError).

Definition unsqueeze (dim : Z) (h : Handle) : result Handle :=
  rbind (unsqueeze_shape dim (sizes h))
        (fun sh => Ok (mkHandle (cell h) sh (dtype h) (sel h))).

(** [x[:, i]]: a view on the blocks of index [i] of the second dimension. *)
Definition select1 (h : Handle) (i : Z) : result Handle :=
  match sizes h with
  | d0 :: d1 :: sh =>
      if (- d1 <=? i) && (i <? d1)
      then let j := Z.to_nat (if i <? 0 then i + d1 else i) in
           let n := Z.to_nat (numel sh) in
           Ok (mkHandle (cell h) (d0 :: sh) (dtype h)
                        (flat_map (fun b => firstn n (skipn ((b * Z.to_nat d1 + j) * n) (sel h)))
                                  (seq 0 (Z.to_nat d0))))
      else Raise IndexError
  | _ => Raise IndexError
  end.

(** [x.permute(perm)]: a view with the dimensions reordered. *)
Definition permute (perm : list nat) (h : Handle) : result Handle :=
  if bool_decide (Permutation perm (seq 0 (length (sizes h))))
  then Ok (mkHandle (cell h) (permute_sizes perm (sizes h)) (dtype h)
                    (permute_list O perm (sizes h) (sel h)))
  else Raise RuntimeError.

(** *** Indexing with [torch.long] tensors: the result is a copy *)

Definition index (x idx : Handle) : M Handle :=
  fun w => match dtype x, dtype idx with
           | Float, Long =>
               (y <- lift (index_rows (value w x) (sizes idx) (long_value w idx)) ;; new y) w
           | Float, Float => (Raise IndexError, w)
           | Long, _ => (Raise RuntimeError, w)
           end.

Definition index_arange (x : Handle) (B TN : Z) (idx : Handle) : M Handle :=
  fun w => match dtype x, dtype idx with
           | Float, Long =>
               (y <- lift (index_pairs (value w x) B TN (long_value w idx)) ;; new y) w
           | Float, Float => (Raise IndexError, w)
           | Long, _ => (Raise RuntimeError, w)
           end.

(** [torch.stack(xs, 1)] on tensor objects. *)
Definition stack (xs : list Handle) : M Handle :=
  fun w => if forallb (fun x => match dtype x with Float => true | Long => false end) xs
           then (y <- lift (stack1 (map (value w) xs)) ;; new y) w
           else (Raise RuntimeError, w).

(** [x.shape[1]] and [x.shape[-1]]. *)
Definition shape_at1 (h : Handle) : result Z :=
  match sizes h with
  | _ :: c :: _ => Ok c
  | _ => Raise IndexError
  end.

Definition shape_last (h : Handle) : result Z :=
  match rev (sizes h) with
  | d :: _ => Ok d
  | [] => Raise IndexError
  end.

(** *** Unpacking [x.shape] *)

Definition unpack2 (sh : list Z) : result (Z * Z) :=
  match sh with
  | [a; b] => Ok (a, b)
  | _ => Raise ValueError
  end.

Definition unpack4 (sh : list Z) : result (Z * Z * Z * Z) :=
  match sh with
  | [a; b; c; d] => Ok (a, b, c, d)
  | _ => Raise ValueError
  end.

Definition unpack5 (sh : list Z) : result (Z * Z * Z * Z * Z) :=
  match sh with
  | [a; b; c; d; e] => Ok (a, b, c, d, e)
  | _ => Raise ValueError
  end.

(** *** [torch.nn] layers *)

Section Layers.
Context (K : Kernels).

(** A learned parameter: a new storage filled from the random generator. *)
Definition new_parameter (sh : list Z) : M Handle :=
  fun w => if forallb (Z.leb 0) sh
           then new (mk sh (k_init K (rng w) sh)) (mkWorld (heap w) (N.succ (rng w)))
           else (Raise RuntimeError, w).

Record Conv := mkConvLayer { conv_spec : ConvSpec; conv_weight : Handle; conv_bias : Handle }.

Definition Conv_init (c : ConvSpec) : M Conv :=
  weight <- new_parameter (if transposed c
                       then in_channels c :: out_channels c :: repeat (kernel_size c) (rank c)
                       else out_channels c :: in_channels c :: repeat (kernel_size c) (rank c)) ;;
  bias <- new_parameter [out_channels c] ;;
  ret (mkConvLayer c weight bias).

(** [nn.Conv2d(in, out, kernel_size, stride, padding)] and the like. *)
Definition Conv2d (i o k s p : Z) : M Conv := Conv_init (mkConv 2 i o k s p 0 false).
Definition Conv3d (i o k s p : Z) : M Conv := Conv_init (mkConv 3 i o k s p 0 false).
Definition ConvTranspose3d (i o kernel_size padding output_padding stride : Z) : M Conv :=
  Conv_init (mkConv 3 i o kernel_size stride padding output_padding true).

Definition Conv_forward (c : Conv) (x : Handle) : M Handle :=
  fun w => apply1 (conv K (conv_spec c) (value w (conv_weight c)) (value w (conv_bias c))) x w.

Record GroupNorm := mkGroupNorm {
  num_groups : Z;
  num_channels : Z;
  gn_weight : Handle;
  gn_bias : Handle }.

Definition GroupNorm_init (groups channels : Z) : M GroupNorm :=
  if negb (channels mod groups =? 0) then raise ValueError
  else ones_ <- lift (ones [channels]) ;;
       weight <- new ones_ ;;
       bias <- new (zeros_like ones_) ;;
       ret (mkGroupNorm groups channels weight bias).

Definition GroupNorm_forward (g : GroupNorm) (x : Handle) : M Handle :=
  fun w => apply1 (group_norm K (num_groups g) (num_channels g)
                              (value w (gn_weight g)) (value w (gn_bias g))) x w.

(** [nn.SiLU(inplace)]: with [inplace] the input is overwritten and
    returned. *)
Record SiLU := mkSiLU { inplace : bool }.

Definition SiLU_forward (s : SiLU) (x : Handle) : M Handle :=
  fun w => match dtype x with
           | Float =>
               if inplace s
               then (_ <- write x (k_silu K (data (value w x))) ;; ret x) w
               else new (mk (sizes x) (k_silu K (data (value w x)))) w
           | Long => (Raise RuntimeError, w)
           end.

End Layers.

End Torch.

(** ** Module namespaces

    A global name is looked up in the namespace of the module that
    defines the function, when the function runs.  A namespace binds the
    names a file imports or defines at top level. *)

Module Python.
Import Torch.

Inductive PyObj :=
| PyModule
| PyClass
| PyWarp (f : Handle -> Z -> Z -> Handle -> Handle -> M Handle)
| PyVolume (f : Z -> Z -> Z -> Handle -> Handle -> Handle -> Handle -> M (Handle * Handle))
| PyReadPickle (f : string -> result (list Tensor.t)).

Definition load_global (G : gmap string PyObj) (name : string) : M PyObj :=
  match G !! name with
  | Some o => ret o
  | None => raise (NameError name)
  end.

(** Calling the object bound to a name as a function of the given kind. *)
Definition call_warp (o : PyObj) (verts : Handle) (size image_size : Z) (K_ pose : Handle) : M Handle :=
  match o with
  | PyWarp f => f verts size image_size K_ pose
  | _ => raise TypeError
  end.

Definition call_volume (o : PyObj) (D size image_size : Z) (poses Ks near far : Handle)
  : M (Handle * Handle) :=
  match o with
  | PyVolume f => f D size image_size poses Ks near far
  | _ => raise TypeError
  end.

Definition call_read_pickle (o : PyObj) (path : string) : M (list Tensor.t) :=
  match o with
  | PyReadPickle f => lift (f path)
  | _ => raise TypeError
  end.

End Python.

(** ** [View_feature_extractor_net.py] *)

Module View_feature_extractor_net.
Import Tensor Torch Python.

(** The names bound at the top level of the file: its two imports and
    the classes it defines. *)
Definition globals : gmap string PyObj :=
  list_to_map
    [("torch", PyModule); ("nn", PyModule);
     ("Image2DResBlockWithTV", PyClass); ("NoisyTargetViewEncoder", PyClass);
     ("SpatialUpTimeBlock", PyClass); ("SpatialTimeBlock", PyClass);
     ("SpatialTime3DNet", PyClass); ("FrustumTVBlock", PyClass);
     ("FrustumTVUpBlock", PyClass); ("FrustumTV3DNet", PyClass);
     ("SpatialVolumeNet", PyClass)].

Section Net.
Context (K : Kernels).

Definition add (x y : Handle) : M Handle := apply2 Tensor.add x y.

(** [nn.Sequential]. *)
Inductive Layer :=
| LConv (c : Conv)
| LNorm (g : GroupNorm)
| LSiLU (s : SiLU).

Definition Layer_forward (l : Layer) (x : Handle) : M Handle :=
  match l with
  | LConv c => Conv_forward K c x
  | LNorm g => GroupNorm_forward K g x
  | LSiLU s => SiLU_forward K s x
  end.

Fixpoint Sequential_forward (ls : list Layer) (x : Handle) : M Handle :=
  match ls with
  | [] => ret x
  | l :: ls' => y <- Layer_forward l x ;; Sequential_forward ls' y
  end.

(** *** class [Image2DResBlockWithTV] *)

Record Image2DResBlockWithTV := mkImage2DResBlockWithTV {
  res_time_embed : Conv;
  res_view_embed : Conv;
  res_conv : list Layer }.

Definition Image2DResBlockWithTV_init (dim tdim vdim : Z) : M Image2DResBlockWithTV :=
  let norm c := GroupNorm_init 8 c in
  time_embed <- Conv2d K tdim dim 1 1 0 ;;
  view_embed <- Conv2d K vdim dim 1 1 0 ;;
  n0 <- norm dim ;;
  c0 <- Conv2d K dim dim 3 1 1 ;;
  n1 <- norm dim ;;
  c1 <- Conv2d K dim dim 3 1 1 ;;
  ret (mkImage2DResBlockWithTV time_embed view_embed
         [LNorm n0; LSiLU (mkSiLU true); LConv c0; LNorm n1; LSiLU (mkSiLU true); LConv c1]).

(** [return x+self.conv(x+self.time_embed(t)+self.view_embed(v))] *)
Definition Image2DResBlockWithTV_forward (self : Image2DResBlockWithTV) (x t v : Handle) : M Handle :=
  te <- Conv_forward K (res_time_embed self) t ;;
  a <- add x te ;;
  ve <- Conv_forward K (res_view_embed self) v ;;
  b <- add a ve ;;
  c <- Sequential_forward (res_conv self) b ;;
  add x c.

(** *** class [NoisyTargetViewEncoder] *)

Record NoisyTargetViewEncoder := mkNoisyTargetViewEncoder {
  enc_init_conv : Conv;
  enc_out_conv0 : Image2DResBlockWithTV;
  enc_out_conv1 : Image2DResBlockWithTV;
  enc_out_conv2 : Image2DResBlockWithTV;
  enc_final_out : list Layer }.

(** [__init__(self, time_embed_dim, viewpoint_dim, run_dim=16, output_dim=8)] *)
Definition NoisyTargetViewEncoder_init (time_embed_dim viewpoint_dim run_dim output_dim : Z)
  : M NoisyTargetViewEncoder :=
  init_conv <- Conv2d K 4 run_dim 3 1 1 ;;
  out_conv0 <- Image2DResBlockWithTV_init run_dim time_embed_dim viewpoint_dim ;;
  out_conv1 <- Image2DResBlockWithTV_init run_dim time_embed_dim viewpoint_dim ;;
  out_conv2 <- Image2DResBlockWithTV_init run_dim time_embed_dim viewpoint_dim ;;
  n <- GroupNorm_init 8 run_dim ;;
  c <- Conv2d K run_dim output_dim 3 1 1 ;;
  ret (mkNoisyTargetViewEncoder init_conv out_conv0 out_conv1 out_conv2
         [LNorm n; LSiLU (mkSiLU true); LConv c]).

Definition NoisyTargetViewEncoder_forward (self : NoisyTargetViewEncoder) (x t v : Handle) : M Handle :=
  bdt <- lift (unpack2 (sizes t)) ;;
  let '(B, DT) := bdt in
  t <- lift (view [B; DT; 1; 1] t) ;;
  bdv <- lift (unpack2 (sizes v)) ;;
  let '(B, DV) := bdv in
  v <- lift (view [B; DV; 1; 1] v) ;;
  x <- Conv_forward K (enc_init_conv self) x ;;
  x <- Image2DResBlockWithTV_forward (enc_out_conv0 self) x t v ;;
  x <- Image2DResBlockWithTV_forward (enc_out_conv1 self) x t v ;;
  x <- Image2DResBlockWithTV_forward (enc_out_conv2 self) x t v ;;
  x <- Sequential_forward (enc_final_out self) x ;;
  ret x.

(** *** classes [SpatialUpTimeBlock] and [SpatialTimeBlock] *)

Record SpatialTimeBlock := mkSpatialTimeBlock {
  st_t_conv : Conv;
  st_bn : GroupNorm;
  st_silu : SiLU;
  st_conv : Conv }.

Definition SpatialUpTimeBlock_init (x_in_dim t_in_dim out_dim : Z) : M SpatialTimeBlock :=
  t_conv <- Conv3d K t_in_dim x_in_dim 1 1 0 ;;
  norm <- GroupNorm_init 8 x_in_dim ;;
  let silu := mkSiLU true in
  conv <- ConvTranspose3d K x_in_dim out_dim 3 1 1 2 ;;
  ret (mkSpatialTimeBlock t_conv norm silu conv).

Definition SpatialTimeBlock_init (x_in_dim t_in_dim out_dim stride : Z) : M SpatialTimeBlock :=
  t_conv <- Conv3d K t_in_dim x_in_dim 1 1 0 ;;
  bn <- GroupNorm_init 8 x_in_dim ;;
  let silu := mkSiLU true in
  conv <- Conv3d K x_in_dim out_dim 3 stride 1 ;;
  ret (mkSpatialTimeBlock t_conv bn silu conv).

(** Both classes have the same [forward]:
    [x = x + self.t_conv(t); return self.conv(self.silu(self.bn(x)))]. *)
Definition SpatialTimeBlock_forward (self : SpatialTimeBlock) (x t : Handle) : M Handle :=
  tc <- Conv_forward K (st_t_conv self) t ;;
  x <- add x tc ;;
  n <- GroupNorm_forward K (st_bn self) x ;;
  s <- SiLU_forward K (st_silu self) n ;;
  Conv_forward K (st_conv self) s.

(** *** class [SpatialTime3DNet] *)

Record SpatialTime3DNet := mkSpatialTime3DNet {
  s3_init_conv : Conv;
  s3_conv0 : SpatialTimeBlock;
  s3_conv1 : SpatialTimeBlock;
  s3_conv2_0 : SpatialTimeBlock;
  s3_conv2_1 : SpatialTimeBlock;
  s3_conv3 : SpatialTimeBlock;
  s3_conv4_0 : SpatialTimeBlock;
  s3_conv4_1 : SpatialTimeBlock;
  s3_conv5 : SpatialTimeBlock;
  s3_conv6_0 : SpatialTimeBlock;
  s3_conv6_1 : SpatialTimeBlock;
  s3_conv7 : SpatialTimeBlock;
  s3_conv8 : SpatialTimeBlock;
  s3_conv9 : SpatialTimeBlock }.

(** [__init__(self, time_dim=256, input_dim=128, dims=(32, 64, 128, 256))] *)
Definition SpatialTime3DNet_init (time_dim input_dim : Z) (dims : Z * Z * Z * Z) : M SpatialTime3DNet :=
  let '(d0, d1, d2, d3) := dims in
  let dt := time_dim in
  init_conv <- Conv3d K input_dim d0 3 1 1 ;;
  conv0 <- SpatialTimeBlock_init d0 dt d0 1 ;;
  conv1 <- SpatialTimeBlock_init d0 dt d1 2 ;;
  conv2_0 <- SpatialTimeBlock_init d1 dt d1 1 ;;
  conv2_1 <- SpatialTimeBlock_init d1 dt d1 1 ;;
  conv3 <- SpatialTimeBlock_init d1 dt d2 2 ;;
  conv4_0 <- SpatialTimeBlock_init d2 dt d2 1 ;;
  conv4_1 <- SpatialTimeBlock_init d2 dt d2 1 ;;
  conv5 <- SpatialTimeBlock_init d2 dt d3 2 ;;
  conv6_0 <- SpatialTimeBlock_init d3 dt d3 1 ;;
  conv6_1 <- SpatialTimeBlock_init d3 dt d3 1 ;;
  conv7 <- SpatialUpTimeBlock_init d3 dt d2 ;;
  conv8 <- SpatialUpTimeBlock_init d2 dt d1 ;;
  conv9 <- SpatialUpTimeBlock_init d1 dt d0 ;;
  ret (mkSpatialTime3DNet init_conv conv0 conv1 conv2_0 conv2_1 conv3 conv4_0 conv4_1
         conv5 conv6_0 conv6_1 conv7 conv8 conv9).

Definition SpatialTime3DNet_forward (self : SpatialTime3DNet) (x t : Handle) : M Handle :=
  bc <- lift (unpack2 (sizes t)) ;;
  let '(B, C) := bc in
  t <- lift (view [B; C; 1; 1; 1] t) ;;
  x <- Conv_forward K (s3_init_conv self) x ;;
  conv0 <- SpatialTimeBlock_forward (s3_conv0 self) x t ;;
  x <- SpatialTimeBlock_forward (s3_conv1 self) conv0 t ;;
  x <- SpatialTimeBlock_forward (s3_conv2_0 self) x t ;;
  conv2 <- SpatialTimeBlock_forward (s3_conv2_1 self) x t ;;
  x <- SpatialTimeBlock_forward (s3_conv3 self) conv2 t ;;
  x <- SpatialTimeBlock_forward (s3_conv4_0 self) x t ;;
  conv4 <- SpatialTimeBlock_forward (s3_conv4_1 self) x t ;;
  x <- SpatialTimeBlock_forward (s3_conv5 self) conv4 t ;;
  x <- SpatialTimeBlock_forward (s3_conv6_0 self) x t ;;
  x <- SpatialTimeBlock_forward (s3_conv6_1 self) x t ;;
  u <- SpatialTimeBlock_forward (s3_conv7 self) x t ;;
  x <- add conv4 u ;;
  u <- SpatialTimeBlock_forward (s3_conv8 self) x t ;;
  x <- add conv2 u ;;
  u <- SpatialTimeBlock_forward (s3_conv9 self) x t ;;
  x <- add conv0 u ;;
  ret x.

(** *** classes [FrustumTVBlock] and [FrustumTVUpBlock] *)

Record FrustumTVBlock := mkFrustumTVBlock {
  ftv_t_conv : Conv;
  ftv_v_conv : Conv;
  ftv_bn : GroupNorm;
  ftv_silu : SiLU;
  ftv_conv : Conv }.

Definition FrustumTVBlock_init (x_dim t_dim v_dim out_dim stride : Z) : M FrustumTVBlock :=
  t_conv <- Conv3d K t_dim x_dim 1 1 0 ;;
  v_conv <- Conv3d K v_dim x_dim 1 1 0 ;;
  bn <- GroupNorm_init 8 x_dim ;;
  let silu := mkSiLU true in
  conv <- Conv3d K x_dim out_dim 3 stride 1 ;;
  ret (mkFrustumTVBlock t_conv v_conv bn silu conv).

Definition FrustumTVUpBlock_init (x_dim t_dim v_dim out_dim : Z) : M FrustumTVBlock :=
  t_conv <- Conv3d K t_dim x_dim 1 1 0 ;;
  v_conv <- Conv3d K v_dim x_dim 1 1 0 ;;
  norm <- GroupNorm_init 8 x_dim ;;
  let silu := mkSiLU true in
  conv <- ConvTranspose3d K x_dim out_dim 3 1 1 2 ;;
  ret (mkFrustumTVBlock t_conv v_conv norm silu conv).

(** Both classes have the same [forward]:
    [x = x + self.t_conv(t) + self.v_conv(v);
     return self.conv(self.silu(self.bn(x)))]. *)
Definition FrustumTVBlock_forward (self : FrustumTVBlock) (x t v : Handle) : M Handle :=
  tc <- Conv_forward K (ftv_t_conv self) t ;;
  a <- add x tc ;;
  vc <- Conv_forward K (ftv_v_conv self) v ;;
  x <- add a vc ;;
  n <- GroupNorm_forward K (ftv_bn self) x ;;
  s <- SiLU_forward K (ftv_silu self) n ;;
  Conv_forward K (ftv_conv self) s.

(** *** class [FrustumTV3DNet] *)

Record FrustumTV3DNet := mkFrustumTV3DNet {
  f3_conv0 : Conv;
  f3_conv1 : FrustumTVBlock;
  f3_conv2 : FrustumTVBlock;
  f3_conv3 : FrustumTVBlock;
  f3_conv4 : FrustumTVBlock;
  f3_conv5 : FrustumTVBlock;
  f3_conv6 : FrustumTVBlock;
  f3_up0 : FrustumTVBlock;
  f3_up1 : FrustumTVBlock;
  f3_up2 : FrustumTVBlock }.

(** [__init__(self, in_dim, t_dim, v_dim, dims=(32, 64, 128, 256))] *)
Definition FrustumTV3DNet_init (in_dim t_dim v_dim : Z) (dims : Z * Z * Z * Z) : M FrustumTV3DNet :=
  let '(dims0, dims1, dims2, dims3) := dims in
  conv0 <- Conv3d K in_dim dims0 3 1 1 ;;
  conv1 <- FrustumTVBlock_init dims0 t_dim v_dim dims1 2 ;;
  conv2 <- FrustumTVBlock_init dims1 t_dim v_dim dims1 1 ;;
  conv3 <- FrustumTVBlock_init dims1 t_dim v_dim dims2 2 ;;
  conv4 <- FrustumTVBlock_init dims2 t_dim v_dim dims2 1 ;;
  conv5 <- FrustumTVBlock_init dims2 t_dim v_dim dims3 2 ;;
  conv6 <- FrustumTVBlock_init dims3 t_dim v_dim dims3 1 ;;
  up0 <- FrustumTVUpBlock_init dims3 t_dim v_dim dims2 ;;
  up1 <- FrustumTVUpBlock_init dims2 t_dim v_dim dims1 ;;
  up2 <- FrustumTVUpBlock_init dims1 t_dim v_dim dims0 ;;
  ret (mkFrustumTV3DNet conv0 conv1 conv2 conv3 conv4 conv5 conv6 up0 up1 up2).

(** [return {w: x0, w//2: x1, w//4: x2, w//8: x3}]: the entries are
    inserted from left to right, a later entry replaces an earlier one
    with the same key. *)
Definition FrustumTV3DNet_forward (self : FrustumTV3DNet) (x t v : Handle) : M (gmap Z Handle) :=
  bdt <- lift (unpack2 (sizes t)) ;;
  let '(B, DT) := bdt in
  t <- lift (view [B; DT; 1; 1; 1] t) ;;
  bdv <- lift (unpack2 (sizes v)) ;;
  let '(B, DV) := bdv in
  v <- lift (view [B; DV; 1; 1; 1] v) ;;
  sh <- lift (unpack5 (sizes x)) ;;
  let '(b, _, d, h, w) := sh in
  x0 <- Conv_forward K (f3_conv0 self) x ;;
  y <- FrustumTVBlock_forward (f3_conv1 self) x0 t v ;;
  x1 <- FrustumTVBlock_forward (f3_conv2 self) y t v ;;
  y <- FrustumTVBlock_forward (f3_conv3 self) x1 t v ;;
  x2 <- FrustumTVBlock_forward (f3_conv4 self) y t v ;;
  y <- FrustumTVBlock_forward (f3_conv5 self) x2 t v ;;
  x3 <- FrustumTVBlock_forward (f3_conv6 self) y t v ;;
  u <- FrustumTVBlock_forward (f3_up0 self) x3 t v ;;
  x2 <- add u x2 ;;
  u <- FrustumTVBlock_forward (f3_up1 self) x2 t v ;;
  x1 <- add u x1 ;;
  u <- FrustumTVBlock_forward (f3_up2 self) x1 t v ;;
  x0 <- add u x0 ;;
  ret (<[w / 8 := x3]> (<[w / 4 := x2]> (<[w / 2 := x1]> (<[w := x0]> ∅)))).

(** *** class [SpatialVolumeNet] (the copy in this file)

    [G] is the namespace of this module when a method runs; [globals] is
    the one the file sets up. *)

Context (G : gmap string PyObj).

Record SpatialVolumeNet := mkSpatialVolumeNet {
  target_encoder : NoisyTargetViewEncoder;
  spatial_volume_feats : SpatialTime3DNet;
  frustum_volume_feats : FrustumTV3DNet;
  frustum_volume_length : R;
  input_image_size : Z;
  spatial_volume_size : Z;
  spatial_volume_length : R;
  frustum_volume_size : Z;
  frustum_volume_depth : Z;
  time_dim : Z;
  view_dim : Z;
  default_origin_depth : R }.

(** [__init__(self, time_dim, view_dim, view_num, input_image_size=256,
    frustum_volume_depth=48, spatial_volume_size=32,
    spatial_volume_length=0.5, frustum_volume_length=0.86603)] *)
Definition SpatialVolumeNet_init (time_dim view_dim view_num input_image_size
    frustum_volume_depth spatial_volume_size : Z)
    (spatial_volume_length frustum_volume_length : R) : M SpatialVolumeNet :=
  _ <- load_global G "NoisyTargetViewEncoder" ;;
  target_encoder <- NoisyTargetViewEncoder_init time_dim view_dim 16 16 ;;
  _ <- load_global G "SpatialTime3DNet" ;;
  spatial_volume_feats <- SpatialTime3DNet_init time_dim (16 * view_num) (64, 128, 256, 512) ;;
  _ <- load_global G "FrustumTV3DNet" ;;
  frustum_volume_feats <- FrustumTV3DNet_init 64 time_dim view_dim (64, 128, 256, 512) ;;
  ret (mkSpatialVolumeNet target_encoder spatial_volume_feats frustum_volume_feats
         frustum_volume_length input_image_size spatial_volume_size spatial_volume_length
         (input_image_size / 8) frustum_volume_depth time_dim view_dim 1.5%R).

(** The canonical voxel grid, lines 229 to 232. *)
Definition spatial_volume_verts (self : SpatialVolumeNet) (B : Z) : result Tensor.t :=
  let V := spatial_volume_size self in
  rbind (linspace (- spatial_volume_length self) (spatial_volume_length self) V) (fun v =>
  rbind (meshgrid3_stack v) (fun v =>
  rbind (reshape [1; V ^ 3; 3] v) (fun v =>
  rbind (index_last [2; 1; 0] v) (fun v =>
  rbind (reshape [1; V; V; V; 3] v) (fun v =>
  rbind (Tensor.permute [0; 4; 1; 2; 3]%nat v) (fun v =>
  repeat_ [B; 1; 1; 1; 1] v)))))).

Definition construct_spatial_volume (self : SpatialVolumeNet)
    (x t_embed v_embed target_poses target_Ks : Handle) : M Handle :=
  sh <- lift (unpack5 (sizes x)) ;;
  let '(B, N, _, H, W) := sh in
  let V := spatial_volume_size self in
  _ <- load_global G "torch" ;;
  verts <- lift (spatial_volume_verts self B) ;;
  spatial_volume_verts <- new verts ;;
  (* encode source features *)
  t1 <- lift (view [B; 1; time_dim self] t_embed) ;;
  t2 <- apply1 (repeat_ [1; N; 1]) t1 ;;
  t_embed_ <- lift (view [B; N; time_dim self] t2) ;;
  let v_embed_ := v_embed in
  k1 <- lift (unsqueeze 0 target_Ks) ;;
  target_Ks <- apply1 (repeat_ [B; 1; 1; 1]) k1 ;;
  p1 <- lift (unsqueeze 0 target_poses) ;;
  target_poses <- apply1 (repeat_ [B; 1; 1; 1]) p1 ;;
  (* project source features *)
  feats <- for_each (map Z.of_nat (seq 0 (Z.to_nat N))) (fun ni =>
    pose_source_ <- lift (select1 target_poses ni) ;;
    K_source_ <- lift (select1 target_Ks ni) ;;
    xi <- lift (select1 x ni) ;;
    ti <- lift (select1 t_embed_ ni) ;;
    vi <- lift (select1 v_embed_ ni) ;;
    x_ <- NoisyTargetViewEncoder_forward (target_encoder self) xi ti vi ;;
    C <- lift (shape_at1 x_) ;;
    get_warp_coordinates <- load_global G "get_warp_coordinates" ;;
    size <- lift (shape_last x_) ;;
    coords <- call_warp get_warp_coordinates spatial_volume_verts size
                (input_image_size self) K_source_ pose_source_ ;;
    coords_source <- lift (view [B; V; V * V; 2] coords) ;;
    _ <- load_global G "F" ;;
    unproj_feats_ <- apply2 (grid_sample K) x_ coords_source ;;
    unproj_feats_ <- lift (view [B; C; V; V; V] unproj_feats_) ;;
    ret (unproj_feats_, C)) ;;
  _ <- load_global G "torch" ;;
  spatial_volume_feats_ <- stack (map fst feats) ;;
  N <- lift (shape_at1 spatial_volume_feats_) ;;
  let C := List.last (map snd feats) 0 in
  spatial_volume_feats_ <- lift (view [B; N * C; V; V; V] spatial_volume_feats_) ;;
  SpatialTime3DNet_forward (spatial_volume_feats self) spatial_volume_feats_ t_embed.

(** The near and far depth planes, lines 277 and 278. *)
Definition near_plane (self : SpatialVolumeNet) (B TN H W : Z) : result Tensor.t :=
  rbind (ones [B * TN; 1; H; W]) (fun o =>
  Ok (sub_scalar (mul_scalar o (default_origin_depth self)) (frustum_volume_length self))).

Definition far_plane (self : SpatialVolumeNet) (B TN H W : Z) : result Tensor.t :=
  rbind (ones [B * TN; 1; H; W]) (fun o =>
  Ok (add_scalar (mul_scalar o (default_origin_depth self)) (frustum_volume_length self))).

Definition construct_view_frustum_volume (self : SpatialVolumeNet)
    (spatial_volume t_embed v_embed poses Ks target_indices : Handle)
    : M (gmap Z Handle * Handle) :=
  btn <- lift (unpack2 (sizes target_indices)) ;;
  let '(B, TN) := btn in
  let H := frustum_volume_size self in
  let W := frustum_volume_size self in
  let D := frustum_volume_depth self in
  let V := spatial_volume_size self in
  _ <- load_global G "torch" ;;
  near_ <- lift (near_plane self B TN H W) ;;
  near <- new near_ ;;
  _ <- load_global G "torch" ;;
  far_ <- lift (far_plane self B TN H W) ;;
  far <- new far_ ;;
  target_indices <- lift (view [B * TN] target_indices) ;;
  poses_ <- index poses target_indices ;;
  Ks_ <- index Ks target_indices ;;
  create_target_volume <- load_global G "create_target_volume" ;;
  vol <- call_volume create_target_volume D (frustum_volume_size self) (input_image_size self)
           poses_ Ks_ near far ;;
  let '(volume_xyz, volume_depth) := vol in
  volume_xyz_ <- apply1 (fun v => Ok (div_scalar v (spatial_volume_length self))) volume_xyz ;;
  volume_xyz_ <- lift (Torch.permute [0; 2; 3; 4; 1]%nat volume_xyz_) ;;
  s1 <- lift (unsqueeze 1 spatial_volume) ;;
  s2 <- apply1 (repeat_ [1; TN; 1; 1; 1; 1]) s1 ;;
  spatial_volume_ <- lift (view [B * TN; -1; V; V; V] s2) ;;
  _ <- load_global G "F" ;;
  volume_feats <- apply2 (grid_sample K) spatial_volume_ volume_xyz_ ;;
  _ <- load_global G "torch" ;;
  ti <- lift (view [B; TN] target_indices) ;;
  ve <- index_arange v_embed B TN ti ;;
  v_embed_ <- lift (view [B * TN; -1] ve) ;;
  t1 <- lift (unsqueeze 1 t_embed) ;;
  t2 <- apply1 (repeat_ [1; TN; 1]) t1 ;;
  t_embed_ <- lift (view [B * TN; -1] t2) ;;
  volume_feats_dict <- FrustumTV3DNet_forward (frustum_volume_feats self) volume_feats t_embed_ v_embed_ ;;
  ret (volume_feats_dict, volume_depth).

End Net.

End View_feature_extractor_net.


(** ** [View_feature_extractor.py] *)

Module View_feature_extractor.
Import Tensor Torch Python.

(** The names bound at the top level of the file: its imports (lines 1
    to 12) and the classes it defines.  The second definition of
    [SyncMultiviewDiffusion] rebinds the name of the first. *)
Definition globals : gmap string PyObj :=
  <["SyncMultiviewDiffusion" := PyClass]>
  (list_to_map
    [("Path", PyClass); ("pl", PyModule); ("torch", PyModule); ("nn", PyModule);
     ("F", PyModule); ("np", PyModule); ("imsave", PyClass); ("LambdaLR", PyClass);
     ("tqdm", PyClass);
     ("NoisyTargetViewEncoder", PyClass); ("SpatialTime3DNet", PyClass);
     ("FrustumTV3DNet", PyClass);
     ("SpatialVolumeNet", PyClass); ("SyncMultiviewDiffusion", PyClass)]).

Section Net.
Context (K : Kernels).

(** [from models.View_feature_extractor_net import NoisyTargetViewEncoder,
    SpatialTime3DNet, FrustumTV3DNet] *)
Local Abbreviation NoisyTargetViewEncoder := View_feature_extractor_net.NoisyTargetViewEncoder.
Local Abbreviation SpatialTime3DNet := View_feature_extractor_net.SpatialTime3DNet.
Local Abbreviation FrustumTV3DNet := View_feature_extractor_net.FrustumTV3DNet.
Local Abbreviation NoisyTargetViewEncoder_init := (View_feature_extractor_net.NoisyTargetViewEncoder_init K).
Local Abbreviation SpatialTime3DNet_init := (View_feature_extractor_net.SpatialTime3DNet_init K).
Local Abbreviation FrustumTV3DNet_init := (View_feature_extractor_net.FrustumTV3DNet_init K).
Local Abbreviation NoisyTargetViewEncoder_forward := (View_feature_extractor_net.NoisyTargetViewEncoder_forward K).
Local Abbreviation SpatialTime3DNet_forward := (View_feature_extractor_net.SpatialTime3DNet_forward K).
Local Abbreviation FrustumTV3DNet_forward := (View_feature_extractor_net.FrustumTV3DNet_forward K).

(** *** class [SpatialVolumeNet] (lines 14 to 113)

    [G] is the namespace of this module when a method runs; [globals] is
    the one the file sets up. *)

Context (G : gmap string PyObj).

Record SpatialVolumeNet := mkSpatialVolumeNet {
  target_encoder : NoisyTargetViewEncoder;
  spatial_volume_feats : SpatialTime3DNet;
  frustum_volume_feats : FrustumTV3DNet;
  frustum_volume_length : R;
  input_image_size : Z;
  spatial_volume_size : Z;
  spatial_volume_length : R;
  frustum_volume_size : Z;
  frustum_volume_depth : Z;
  time_dim : Z;
  view_dim : Z;
  default_origin_depth : R }.

(** [__init__(self, time_dim, view_dim, view_num, input_image_size=256,
    frustum_volume_depth=48, spatial_volume_size=32,
    spatial_volume_length=0.5, frustum_volume_length=0.86603)] *)
Definition SpatialVolumeNet_init (time_dim view_dim view_num input_image_size
    frustum_volume_depth spatial_volume_size : Z)
    (spatial_volume_length frustum_volume_length : R) : M SpatialVolumeNet :=
  _ <- load_global G "NoisyTargetViewEncoder" ;;
  target_encoder <- NoisyTargetViewEncoder_init time_dim view_dim 16 16 ;;
  _ <- load_global G "SpatialTime3DNet" ;;
  spatial_volume_feats <- SpatialTime3DNet_init time_dim (16 * view_num) (64, 128, 256, 512) ;;
  _ <- load_global G "FrustumTV3DNet" ;;
  frustum_volume_feats <- FrustumTV3DNet_init 64 time_dim view_dim (64, 128, 256, 512) ;;
  ret (mkSpatialVolumeNet target_encoder spatial_volume_feats frustum_volume_feats
         frustum_volume_length input_image_size spatial_volume_size spatial_volume_length
         (input_image_size / 8) frustum_volume_depth time_dim view_dim 1.5%R).

(** The canonical voxel grid, lines 49 to 52. *)
Definition spatial_volume_verts (self : SpatialVolumeNet) (B : Z) : result Tensor.t :=
  let V := spatial_volume_size self in
  rbind (linspace (- spatial_volume_length self) (spatial_volume_length self) V) (fun v =>
  rbind (meshgrid3_stack v) (fun v =>
  rbind (reshape [1; V ^ 3; 3] v) (fun v =>
  rbind (index_last [2; 1; 0] v) (fun v =>
  rbind (reshape [1; V; V; V; 3] v) (fun v =>
  rbind (Tensor.permute [0; 4; 1; 2; 3]%nat v) (fun v =>
  repeat_ [B; 1; 1; 1; 1] v)))))).

Definition construct_spatial_volume (self : SpatialVolumeNet)
    (x t_embed v_embed target_poses target_Ks : Handle) : M Handle :=
  sh <- lift (unpack5 (sizes x)) ;;
  let '(B, N, _, H, W) := sh in
  let V := spatial_volume_size self in
  _ <- load_global G "torch" ;;
  verts <- lift (spatial_volume_verts self B) ;;
  spatial_volume_verts <- new verts ;;
  (* encode source features *)
  t1 <- lift (view [B; 1; time_dim self] t_embed) ;;
  t2 <- apply1 (repeat_ [1; N; 1]) t1 ;;
  t_embed_ <- lift (view [B; N; time_dim self] t2) ;;
  let v_embed_ := v_embed in
  k1 <- lift (unsqueeze 0 target_Ks) ;;
  target_Ks <- apply1 (repeat_ [B; 1; 1; 1]) k1 ;;
  p1 <- lift (unsqueeze 0 target_poses) ;;
  target_poses <- apply1 (repeat_ [B; 1; 1; 1]) p1 ;;
  (* project source features *)
  feats <- for_each (map Z.of_nat (seq 0 (Z.to_nat N))) (fun ni =>
    pose_source_ <- lift (select1 target_poses ni) ;;
    K_source_ <- lift (select1 target_Ks ni) ;;
    xi <- lift (select1 x ni) ;;
    ti <- lift (select1 t_embed_ ni) ;;
    vi <- lift (select1 v_embed_ ni) ;;
    x_ <- NoisyTargetViewEncoder_forward (target_encoder self) xi ti vi ;;
    C <- lift (shape_at1 x_) ;;
    get_warp_coordinates <- load_global G "get_warp_coordinates" ;;
    size <- lift (shape_last x_) ;;
    coords <- call_warp get_warp_coordinates spatial_volume_verts size
                (input_image_size self) K_source_ pose_source_ ;;
    coords_source <- lift (view [B; V; V * V; 2] coords) ;;
    _ <- load_global G "F" ;;
    unproj_feats_ <- apply2 (grid_sample K) x_ coords_source ;;
    unproj_feats_ <- lift (view [B; C; V; V; V] unproj_feats_) ;;
    ret (unproj_feats_, C)) ;;
  _ <- load_global G "torch" ;;
  spatial_volume_feats_ <- stack (map fst feats) ;;
  N <- lift (shape_at1 spatial_volume_feats_) ;;
  let C := List.last (map snd feats) 0 in
  spatial_volume_feats_ <- lift (view [B; N * C; V; V; V] spatial_volume_feats_) ;;
  SpatialTime3DNet_forward (spatial_volume_feats self) spatial_volume_feats_ t_embed.

(** The near and far depth planes, lines 97 and 98. *)
Definition near_plane (self : SpatialVolumeNet) (B TN H W : Z) : result Tensor.t :=
  rbind (ones [B * TN; 1; H; W]) (fun o =>
  Ok (sub_scalar (mul_scalar o (default_origin_depth self)) (frustum_volume_length self))).

Definition far_plane (self : SpatialVolumeNet) (B TN H W : Z) : result Tensor.t :=
  rbind (ones [B * TN; 1; H; W]) (fun o =>
  Ok (add_scalar (mul_scalar o (default_origin_depth self)) (frustum_volume_length self))).

Definition construct_view_frustum_volume (self : SpatialVolumeNet)
    (spatial_volume t_embed v_embed poses Ks target_indices : Handle)
    : M (gmap Z Handle * Handle) :=
  btn <- lift (unpack2 (sizes target_indices)) ;;
  let '(B, TN) := btn in
  let H := frustum_volume_size self in
  let W := frustum_volume_size self in
  let D := frustum_volume_depth self in
  let V := spatial_volume_size self in
  _ <- load_global G "torch" ;;
  near_ <- lift (near_plane self B TN H W) ;;
  near <- new near_ ;;
  _ <- load_global G "torch" ;;
  far_ <- lift (far_plane self B TN H W) ;;
  far <- new far_ ;;
  target_indices <- lift (view [B * TN] target_indices) ;;
  poses_ <- index poses target_indices ;;
  Ks_ <- index Ks target_indices ;;
  create_target_volume <- load_global G "create_target_volume" ;;
  vol <- call_volume create_target_volume D (frustum_volume_size self) (input_image_size self)
           poses_ Ks_ near far ;;
  let '(volume_xyz, volume_depth) := vol in
  volume_xyz_ <- apply1 (fun v => Ok (div_scalar v (spatial_volume_length self))) volume_xyz ;;
  volume_xyz_ <- lift (Torch.permute [0; 2; 3; 4; 1]%nat volume_xyz_) ;;
  s1 <- lift (unsqueeze 1 spatial_volume) ;;
  s2 <- apply1 (repeat_ [1; TN; 1; 1; 1; 1]) s1 ;;
  spatial_volume_ <- lift (view [B * TN; -1; V; V; V] s2) ;;
  _ <- load_global G "F" ;;
  volume_feats <- apply2 (grid_sample K) spatial_volume_ volume_xyz_ ;;
  _ <- load_global G "torch" ;;
  ti <- lift (view [B; TN] target_indices) ;;
  ve <- index_arange v_embed B TN ti ;;
  v_embed_ <- lift (view [B * TN; -1] ve) ;;
  t1 <- lift (unsqueeze 1 t_embed) ;;
  t2 <- apply1 (repeat_ [1; TN; 1]) t1 ;;
  t_embed_ <- lift (view [B * TN; -1] t2) ;;
  volume_feats_dict <- FrustumTV3DNet_forward (frustum_volume_feats self) volume_feats t_embed_ v_embed_ ;;
  ret (volume_feats_dict, volume_depth).

End Net.

(** *** class [SyncMultiviewDiffusion], the definition at lines 115 to 432 *)

Module SyncMultiviewDiffusion_first.
Section Class.
Context (K : Kernels) (G : gmap string PyObj).

Record SyncMultiviewDiffusion := mkSyncMultiviewDiffusion {
  view_num : Z;
  viewpoint_dim : Z;
  image_size : Z;
  poses : Handle;
  Ks : Handle;
  azimuth : Handle }.

(** NumPy's [%] on floats: the result has the sign of the divisor. *)
Definition np_mod (x m : R) : R := (x - m * IZR (Zfloor (x / m)))%R.

(** [np.deg2rad]. *)
Definition deg2rad (d : R) : R := (d * (PI / 180))%R.

(** Line 174: [azs = (azs + np.pi) % (np.pi * 2) - np.pi]. *)
Definition normalize_azimuth (azs : Tensor.t) : Tensor.t :=
  sub_scalar (map_data (fun a => np_mod a (PI * 2)) (add_scalar azs PI)) PI.

(** [_init_multiview]: the camera table is read, the intrinsics are
    scaled to the image size, and the three buffers are registered. *)
Definition _init_multiview (view_num image_size : Z) : M (Handle * Handle * Handle) :=
  read_pickle <- load_global G "read_pickle" ;;
  meta <- call_read_pickle read_pickle ("meta_info/camera-" +:+ pretty view_num +:+ ".pkl") ;;
  match meta with
  | [K_; azs; _; _; poses] =>
      let default_image_size := 256 in
      let ratio := (IZR image_size / IZR default_image_size)%R in
      K_ <- lift (diag_matmul [ratio; ratio; 1%R] K_) ;;
      K_ <- lift (Tensor.unsqueeze 0 K_) ;;
      K_ <- lift (repeat_ [view_num; 1; 1] K_) ;;
      poses <- new poses ;;
      Ks <- new K_ ;;
      let azs := normalize_azimuth azs in
      azimuth <- new azs ;;
      ret (poses, Ks, azimuth)
  | _ => raise ValueError
  end.

(** [get_viewpoint_embedding], lines 178 to 196, on the values of
    [self.azimuth] and [elevation_ref]. *)
Definition viewpoint_embedding (azimuth : Tensor.t) (batch_size : Z) (elevation_ref : Tensor.t)
  : result Tensor.t :=
  rbind (index0 azimuth 0) (fun a0 =>
  rbind (Tensor.unsqueeze 0 a0) (fun azimuth_input =>
  let azimuth_target := azimuth in
  let elevation_input := neg elevation_ref in
  let elevation_target := (- deg2rad 30)%R in
  let d_e := rsub_scalar elevation_target elevation_input in
  let N := hd 0 (shape azimuth) in
  let B := batch_size in
  rbind (Tensor.unsqueeze 1 d_e) (fun d_e =>
  rbind (repeat_ [1; N] d_e) (fun d_e =>
  rbind (sub azimuth_target azimuth_input) (fun d_a =>
  rbind (Tensor.unsqueeze 0 d_a) (fun d_a =>
  rbind (repeat_ [B; 1] d_a) (fun d_a =>
  let d_z := zeros_like d_a in
  stack_last [d_e; Tensor.sin d_a; Tensor.cos d_a; d_z]))))))).

Definition get_viewpoint_embedding (self : SyncMultiviewDiffusion) (batch_size : Z)
    (elevation_ref : Handle) : M Handle :=
  fun w => match dtype (azimuth self), dtype elevation_ref with
           | Float, Float =>
               (e <- lift (viewpoint_embedding (value w (azimuth self)) batch_size
                             (value w elevation_ref)) ;;
                new e) w
           | _, _ => (Raise RuntimeError, w)
           end.

End Class.
End SyncMultiviewDiffusion_first.

(** *** class [SyncMultiviewDiffusion], the definition at lines 435 to 752 *)

Module SyncMultiviewDiffusion.
Section Class.
Context (K : Kernels) (G : gmap string PyObj).

Record SyncMultiviewDiffusion := mkSyncMultiviewDiffusion {
  view_num : Z;
  viewpoint_dim : Z;
  image_size : Z;
  poses : Handle;
  Ks : Handle;
  azimuth : Handle }.

(** NumPy's [%] on floats: the result has the sign of the divisor. *)
Definition np_mod (x m : R) : R := (x - m * IZR (Zfloor (x / m)))%R.

(** [np.deg2rad]. *)
Definition deg2rad (d : R) : R := (d * (PI / 180))%R.

(** Line 494: [azs = (azs + np.pi) % (np.pi * 2) - np.pi]. *)
Definition normalize_azimuth (azs : Tensor.t) : Tensor.t :=
  sub_scalar (map_data (fun a => np_mod a (PI * 2)) (add_scalar azs PI)) PI.

(** [_init_multiview]: the camera table is read, the intrinsics are
    scaled to the image size, and the three buffers are registered. *)
Definition _init_multiview (view_num image_size : Z) : M (Handle * Handle * Handle) :=
  read_pickle <- load_global G "read_pickle" ;;
  meta <- call_read_pickle read_pickle ("meta_info/camera-" +:+ pretty view_num +:+ ".pkl") ;;
  match meta with
  | [K_; azs; _; _; poses] =>
      let default_image_size := 256 in
      let ratio := (IZR image_size / IZR default_image_size)%R in
      K_ <- lift (diag_matmul [ratio; ratio; 1%R] K_) ;;
      K_ <- lift (Tensor.unsqueeze 0 K_) ;;
      K_ <- lift (repeat_ [view_num; 1; 1] K_) ;;
      poses <- new poses ;;
      Ks <- new K_ ;;
      let azs := normalize_azimuth azs in
      azimuth <- new azs ;;
      ret (poses, Ks, azimuth)
  | _ => raise ValueError
  end.

(** [get_viewpoint_embedding], lines 498 to 516, on the values of
    [self.azimuth] and [elevation_ref]. *)
Definition viewpoint_embedding (azimuth : Tensor.t) (batch_size : Z) (elevation_ref : Tensor.t)
  : result Tensor.t :=
  rbind (index0 azimuth 0) (fun a0 =>
  rbind (Tensor.unsqueeze 0 a0) (fun azimuth_input =>
  let azimuth_target := azimuth in
  let elevation_input := neg elevation_ref in
  let elevation_target := (- deg2rad 30)%R in
  let d_e := rsub_scalar elevation_target elevation_input in
  let N := hd 0 (shape azimuth) in
  let B := batch_size in
  rbind (Tensor.unsqueeze 1 d_e) (fun d_e =>
  rbind (repeat_ [1; N] d_e) (fun d_e =>
  rbind (sub azimuth_target azimuth_input) (fun d_a =>
  rbind (Tensor.unsqueeze 0 d_a) (fun d_a =>
  rbind (repeat_ [B; 1] d_a) (fun d_a =>
  let d_z := zeros_like d_a in
  stack_last [d_e; Tensor.sin d_a; Tensor.cos d_a; d_z]))))))).

Definition get_viewpoint_embedding (self : SyncMultiviewDiffusion) (batch_size : Z)
    (elevation_ref : Handle) : M Handle :=
  fun w => match dtype (azimuth self), dtype elevation_ref with
           | Float, Float =>
               (e <- lift (viewpoint_embedding (value w (azimuth self)) batch_size
                             (value w elevation_ref)) ;;
                new e) w
           | _, _ => (Raise RuntimeError, w)
           end.

End Class.
End SyncMultiviewDiffusion.

End View_feature_extractor.

(** ** The noise schedule of [SyncMultiviewDiffusion]

    [_init_schedule] (lines 227 to 249, and again 547 to 569) computes
    seven vectors and registers them as buffers.  It is modelled on the
    values of the vectors; its [assert] is kept, with an outcome of its
    own. *)

Module Schedule.
Import Tensor.

Inductive Checked (A : Type) :=
| Passed (a : A)
| AssertionError
| Failed (e : PyError).
Arguments Passed {A} a.
Arguments AssertionError {A}.
Arguments Failed {A} e.

Definition run {A B} (r : result A) (k : A -> Checked B) : Checked B :=
  match r with
  | Ok a => k a
  | Raise e => Failed e
  end.

Record Buffers := mkBuffers {
  num_timesteps : Z;
  betas : Tensor.t;
  alphas : Tensor.t;
  alphas_cumprod : Tensor.t;
  sqrt_alphas_cumprod : Tensor.t;
  sqrt_one_minus_alphas_cumprod : Tensor.t;
  posterior_variance : Tensor.t;
  posterior_log_variance_clipped : Tensor.t }.

(** [torch.cumprod(x, dim=0)] of a vector. *)
Fixpoint cumprod_from (acc : R) (xs : list R) : list R :=
  match xs with
  | [] => []
  | x :: xs' => (acc * x)%R :: cumprod_from (acc * x)%R xs'
  end.

Definition cumprod (x : t) : t := mk (shape x) (cumprod_from 1%R (data x)).

(** [x[:-1]] of a vector. *)
Definition drop_last (x : t) : t :=
  mk [Z.max 0 (hd 0 (shape x) - 1)] (removelast (data x)).

(** [torch.cat([x, y], 0)] of two vectors. *)
Definition cat (x y : t) : result t :=
  match shape x, shape y with
  | [n], [m] => Ok (mk [n + m] (data x ++ data y))
  | _, _ => Raise RuntimeError
  end.

(** [torch.clamp(x, min=c)], [torch.log], [torch.sqrt], [x ** 2]. *)
Definition clamp_min (c : R) (x : t) : t := map_data (Rmax c) x.
Definition log (x : t) : t := map_data ln x.
Definition sqrt (x : t) : t := map_data R_sqrt.sqrt x.
Definition square (x : t) : t := map_data (fun a => (a * a)%R) x.

Definition _init_schedule : Checked Buffers :=
  let self_num_timesteps := 1000 in
  let linear_start := 0.00085%R in
  let linear_end := 0.0120%R in
  let num_timesteps := 1000 in
  run (linspace (R_sqrt.sqrt linear_start) (R_sqrt.sqrt linear_end) num_timesteps) (fun l =>
  let betas := square l in
  if negb (hd 0 (shape betas) =? self_num_timesteps) then AssertionError else
  let alphas := rsub_scalar 1 betas in
  let alphas_cumprod := cumprod alphas in
  run (ones [1]) (fun one =>
  run (cat one (drop_last alphas_cumprod)) (fun alphas_cumprod_prev =>
  run (binop Rmult betas (rsub_scalar 1 alphas_cumprod_prev)) (fun scaled =>
  run (binop Rdiv scaled (rsub_scalar 1 alphas_cumprod)) (fun posterior_variance =>
  let posterior_log_variance_clipped := log (clamp_min 1e-20%R posterior_variance) in
  let posterior_log_variance_clipped := clamp_min (-10)%R posterior_log_variance_clipped in
  Passed (mkBuffers self_num_timesteps betas alphas alphas_cumprod (sqrt alphas_cumprod)
            (sqrt (rsub_scalar 1 alphas_cumprod)) posterior_variance
            posterior_log_variance_clipped)))))).

End Schedule.

(** ** [SyncMultiviewDiffusion.add_noise] (lines 351 to 365, and again
    671 to 685)

    [self] is the pair of buffers the method reads.  The values
    [torch.randn_like] draws for a shape in a state of the generator are
    a parameter, like the kernels of the runtime. *)

Module AddNoise.
Section Method.
Import Tensor Torch Python.
Context (randn : N -> list Z -> list R) (G : gmap string PyObj).

Record SyncMultiviewDiffusion := mkSyncMultiviewDiffusion {
  sqrt_alphas_cumprod : Handle;
  sqrt_one_minus_alphas_cumprod : Handle }.

(** [torch.randn_like(x)]: a new tensor of the shape of [x], filled from
    the random generator. *)
Definition randn_like (x : Handle) : M Handle :=
  fun w => match dtype x with
           | Float => new (mk (sizes x) (randn (rng w) (sizes x)))
                          (mkWorld (heap w) (N.succ (rng w)))
           | Long => (Raise RuntimeError, w)
           end.

(** [x.shape[0]]. *)
Definition shape_at0 (h : Handle) : result Z :=
  match sizes h with
  | b :: _ => Ok b
  | [] => Raise IndexError
  end.

Definition mul (x y : Handle) : M Handle := apply2 (binop Rmult) x y.

Definition add_noise (self : SyncMultiviewDiffusion) (x_start t : Handle)
  : M (Handle * Handle) :=
  B <- lift (shape_at0 x_start) ;;
  _ <- load_global G "torch" ;;
  noise <- randn_like x_start ;;
  sqrt_alphas_cumprod_ <- index (sqrt_alphas_cumprod self) t ;;
  sqrt_one_minus_alphas_cumprod_ <- index (sqrt_one_minus_alphas_cumprod self) t ;;
  let ones := repeat 1 (length (sizes x_start) - 1) in
  sqrt_alphas_cumprod_ <- lift (view (B :: ones) sqrt_alphas_cumprod_) ;;
  sqrt_one_minus_alphas_cumprod_ <- lift (view (B :: ones) sqrt_one_minus_alphas_cumprod_) ;;
  signal <- mul sqrt_alphas_cumprod_ x_start ;;
  scaled_noise <- mul sqrt_one_minus_alphas_cumprod_ noise ;;
  x_noisy <- apply2 Tensor.add signal scaled_noise ;;
  ret (x_noisy, noise).

End Method.
End AddNoise.

(** ** The second text of [_init_schedule] and [add_noise]

    The second definition of [SyncMultiviewDiffusion] repeats
    [_init_schedule] (lines 547 to 569) and [add_noise] (lines 671 to
    685).  Its text is transcribed once more here, line by line and on
    the same operations, so that the two definitions can be compared. *)

Module SecondText.
Import Tensor Torch Python.

Definition _init_schedule : Schedule.Checked Schedule.Buffers :=
  let self_num_timesteps := 1000 in
  let linear_start := 0.00085%R in
  let linear_end := 0.0120%R in
  let num_timesteps := 1000 in
  Schedule.run (linspace (R_sqrt.sqrt linear_start) (R_sqrt.sqrt linear_end) num_timesteps)
    (fun l =>
  let betas := Schedule.square l in
  if negb (hd 0 (shape betas) =? self_num_timesteps) then Schedule.AssertionError else
  let alphas := rsub_scalar 1 betas in
  let alphas_cumprod := Schedule.cumprod alphas in
  Schedule.run (ones [1]) (fun one =>
  Schedule.run (Schedule.cat one (Schedule.drop_last alphas_cumprod)) (fun alphas_cumprod_prev =>
  Schedule.run (binop Rmult betas (rsub_scalar 1 alphas_cumprod_prev)) (fun scaled =>
  Schedule.run (binop Rdiv scaled (rsub_scalar 1 alphas_cumprod)) (fun posterior_variance =>
  let posterior_log_variance_clipped :=
    Schedule.log (Schedule.clamp_min 1e-20%R posterior_variance) in
  let posterior_log_variance_clipped :=
    Schedule.clamp_min (-10)%R posterior_log_variance_clipped in
  Schedule.Passed
    (Schedule.mkBuffers self_num_timesteps betas alphas alphas_cumprod
       (Schedule.sqrt alphas_cumprod) (Schedule.sqrt (rsub_scalar 1 alphas_cumprod))
       posterior_variance posterior_log_variance_clipped)))))).

Section Method.
Context (randn : N -> list Z -> list R) (G : gmap string PyObj).

Definition add_noise (self : AddNoise.SyncMultiviewDiffusion) (x_start t : Handle)
  : M (Handle * Handle) :=
  B <- lift (AddNoise.shape_at0 x_start) ;;
  _ <- load_global G "torch" ;;
  noise <- AddNoise.randn_like randn x_start ;;
  sqrt_alphas_cumprod_ <- index (AddNoise.sqrt_alphas_cumprod self) t ;;
  sqrt_one_minus_alphas_cumprod_ <- index (AddNoise.sqrt_one_minus_alphas_cumprod self) t ;;
  let ones := repeat 1 (length (sizes x_start) - 1) in
  sqrt_alphas_cumprod_ <- lift (view (B :: ones) sqrt_alphas_cumprod_) ;;
  sqrt_one_minus_alphas_cumprod_ <- lift (view (B :: ones) sqrt_one_minus_alphas_cumprod_) ;;
  signal <- AddNoise.mul sqrt_alphas_cumprod_ x_start ;;
  scaled_noise <- AddNoise.mul sqrt_one_minus_alphas_cumprod_ noise ;;
  x_noisy <- apply2 Tensor.add signal scaled_noise ;;
  ret (x_noisy, noise).

End Method.
End SecondText.

(** * Specifications

    The properties below are stated on outcomes of computations: what a
    call returns or raises, in which states, and what it leaves in the
    store. *)

Section Outcomes.
Import Tensor Torch Python.

(** [m] returns a value satisfying [P], in every state. *)
Definition returns {A} (m : M A) (P : A -> Prop) : Prop :=
  forall w, exists a w', m w = (Ok a, w') /\ P a.

(** [m] ends with the exception [e], in every state. *)
Definition raises {A} (m : M A) (e : PyError) : Prop :=
  forall w, exists w', m w = (Raise e, w').

(** [m] ends with an exception, in every state. *)
Definition never_returns {A} (m : M A) : Prop :=
  forall w, exists e, fst (m w) = Raise e.

(** Two computations with the same outcome in every state. *)
Definition same {A} (m1 m2 : M A) : Prop := forall w, m1 w = m2 w.

Definition on_result {A B} (f : A -> B) (o : result A * World) : result B * World :=
  match o with
  | (Ok a, w) => (Ok (f a), w)
  | (Raise e, w) => (Raise e, w)
  end.

(** Metadata of a floating tensor object. *)
Definition is_float (sh : list Z) (h : Handle) : Prop :=
  dtype h = Float /\ sizes h = sh.

(** [w'] keeps every storage that existed before position [n0], and the
    state of the random generator. *)
Definition stable (n0 : nat) (w w' : World) : Prop :=
  firstn n0 (heap w') = firstn n0 (heap w) /\ (n0 <= length (heap w'))%nat /\ rng w' = rng w.

(** A tensor object on a storage allocated at or after position [n0]. *)
Definition fresh (n0 : nat) (h : Handle) : Prop := (n0 <= cell h)%nat.

(** [m] changes no storage below [n0], whatever its outcome, and what
    it returns satisfies [P]. *)
Definition keeps {A} (n0 : nat) (m : M A) (P : A -> Prop) : Prop :=
  forall w, (n0 <= length (heap w))%nat ->
    stable n0 w (snd (m w)) /\ forall a, fst (m w) = Ok a -> P a.

(** The two geometry helpers, when the namespace binds them, are
    expected to leave existing storages alone as well. *)
Definition helpers_keep (G : gmap string PyObj) : Prop :=
  (forall f, G !! "get_warp_coordinates"%string = Some (PyWarp f) ->
     forall n0 verts size image_size K_ pose,
       keeps n0 (f verts size image_size K_ pose) (fun _ => True)) /\
  (forall f, G !! "create_target_volume"%string = Some (PyVolume f) ->
     forall n0 D size image_size poses Ks near far,
       keeps n0 (f D size image_size poses Ks near far) (fun _ => True)).

(** Every tensor object on a storage of [w] reads the same in [w']. *)
Definition unchanged (w w' : World) : Prop :=
  forall h, (cell h < length (heap w))%nat ->
    value w' h = value w h /\ long_value w' h = long_value w h.

(** [m] neither reads nor advances the random generator: started from
    the same storages with another generator state, it has the same
    outcome and leaves the same storages. *)
Definition rng_free {A} (m : M A) : Prop :=
  forall w r, m (mkWorld (heap w) r) = (fst (m w), mkWorld (heap (snd (m w))) r).

Definition helpers_rng_free (G : gmap string PyObj) : Prop :=
  (forall f, G !! "get_warp_coordinates"%string = Some (PyWarp f) ->
     forall verts size image_size K_ pose, rng_free (f verts size image_size K_ pose)) /\
  (forall f, G !! "create_target_volume"%string = Some (PyVolume f) ->
     forall D size image_size poses Ks near far,
       rng_free (f D size image_size poses Ks near far)).

End Outcomes.

Section Constructed.
Import Tensor Torch View_feature_extractor_net.

(** What [FrustumTVBlock.__init__] and [FrustumTVUpBlock.__init__] set
    up, with [cs] the final convolution. *)
Definition FrustumTVBlock_is (blk : FrustumTVBlock) (x_dim t_dim v_dim : Z) (cs : ConvSpec) : Prop :=
  conv_spec (ftv_t_conv blk) = mkConv 3 t_dim x_dim 1 1 0 0 false /\
  conv_spec (ftv_v_conv blk) = mkConv 3 v_dim x_dim 1 1 0 0 false /\
  num_groups (ftv_bn blk) = 8 /\ num_channels (ftv_bn blk) = x_dim /\
  conv_spec (ftv_conv blk) = cs.

(** What [FrustumTV3DNet.__init__] sets up. *)
Definition FrustumTV3DNet_is (net : FrustumTV3DNet) (in_dim t_dim v_dim : Z) (dims : Z * Z * Z * Z) : Prop :=
  let '(dims0, dims1, dims2, dims3) := dims in
  conv_spec (f3_conv0 net) = mkConv 3 in_dim dims0 3 1 1 0 false /\
  FrustumTVBlock_is (f3_conv1 net) dims0 t_dim v_dim (mkConv 3 dims0 dims1 3 2 1 0 false) /\
  FrustumTVBlock_is (f3_conv2 net) dims1 t_dim v_dim (mkConv 3 dims1 dims1 3 1 1 0 false) /\
  FrustumTVBlock_is (f3_conv3 net) dims1 t_dim v_dim (mkConv 3 dims1 dims2 3 2 1 0 false) /\
  FrustumTVBlock_is (f3_conv4 net) dims2 t_dim v_dim (mkConv 3 dims2 dims2 3 1 1 0 false) /\
  FrustumTVBlock_is (f3_conv5 net) dims2 t_dim v_dim (mkConv 3 dims2 dims3 3 2 1 0 false) /\
  FrustumTVBlock_is (f3_conv6 net) dims3 t_dim v_dim (mkConv 3 dims3 dims3 3 1 1 0 false) /\
  FrustumTVBlock_is (f3_up0 net) dims3 t_dim v_dim (mkConv 3 dims3 dims2 3 2 1 1 true) /\
  FrustumTVBlock_is (f3_up1 net) dims2 t_dim v_dim (mkConv 3 dims2 dims1 3 2 1 1 true) /\
  FrustumTVBlock_is (f3_up2 net) dims1 t_dim v_dim (mkConv 3 dims1 dims0 3 2 1 1 true).

(** The feature pyramid: four levels keyed by their width, level [i] with
    [dims[i]] channels at [1 / 2^i] of the input resolution. *)
Definition pyramid (dims : Z * Z * Z * Z) (B D H W : Z) (p : gmap Z Handle) : Prop :=
  let '(dims0, dims1, dims2, dims3) := dims in
  size p = 4%nat /\
  (exists x0, p !! W = Some x0 /\ is_float [B; dims0; D; H; W] x0) /\
  (exists x1, p !! (W / 2) = Some x1 /\ is_float [B; dims1; D / 2; H / 2; W / 2] x1) /\
  (exists x2, p !! (W / 4) = Some x2 /\ is_float [B; dims2; D / 4; H / 4; W / 4] x2) /\
  (exists x3, p !! (W / 8) = Some x3 /\ is_float [B; dims3; D / 8; H / 8; W / 8] x3).

(** [norm(dim), nn.SiLU(True), nn.Conv2d(dim, out, 3, 1, 1)] *)
Definition norm_act_conv (ls : list Layer) (dim out : Z) : Prop :=
  exists n c, ls = [LNorm n; LSiLU (mkSiLU true); LConv c] /\
    num_groups n = 8 /\ num_channels n = dim /\ conv_spec c = mkConv 2 dim out 3 1 1 0 false.

(** What [Image2DResBlockWithTV.__init__] sets up. *)
Definition Image2DResBlockWithTV_is (blk : Image2DResBlockWithTV) (dim tdim vdim : Z) : Prop :=
  conv_spec (res_time_embed blk) = mkConv 2 tdim dim 1 1 0 0 false /\
  conv_spec (res_view_embed blk) = mkConv 2 vdim dim 1 1 0 0 false /\
  exists l1 l2, res_conv blk = l1 ++ l2 /\ norm_act_conv l1 dim dim /\ norm_act_conv l2 dim dim.

(** What [NoisyTargetViewEncoder.__init__] sets up. *)
Definition NoisyTargetViewEncoder_is (enc : NoisyTargetViewEncoder)
    (time_embed_dim viewpoint_dim run_dim output_dim : Z) : Prop :=
  conv_spec (enc_init_conv enc) = mkConv 2 4 run_dim 3 1 1 0 false /\
  Image2DResBlockWithTV_is (enc_out_conv0 enc) run_dim time_embed_dim viewpoint_dim /\
  Image2DResBlockWithTV_is (enc_out_conv1 enc) run_dim time_embed_dim viewpoint_dim /\
  Image2DResBlockWithTV_is (enc_out_conv2 enc) run_dim time_embed_dim viewpoint_dim /\
  norm_act_conv (enc_final_out enc) run_dim output_dim.

(** What [SpatialVolumeNet.__init__] sets up. *)
Definition SpatialVolumeNet_is (self : View_feature_extractor.SpatialVolumeNet)
    (td vd isz fvd V : Z) (L FL : R) : Prop :=
  NoisyTargetViewEncoder_is (View_feature_extractor.target_encoder self) td vd 16 16 /\
  View_feature_extractor.time_dim self = td /\ View_feature_extractor.view_dim self = vd /\
  View_feature_extractor.input_image_size self = isz /\
  View_feature_extractor.frustum_volume_size self = isz / 8 /\
  View_feature_extractor.frustum_volume_depth self = fvd /\
  View_feature_extractor.spatial_volume_size self = V /\
  View_feature_extractor.spatial_volume_length self = L /\
  View_feature_extractor.frustum_volume_length self = FL /\
  View_feature_extractor.default_origin_depth self = 1.5%R.

(** An object of the first definition of [SyncMultiviewDiffusion], seen
    as one of the second. *)
Definition to_second (s : View_feature_extractor.SyncMultiviewDiffusion_first.SyncMultiviewDiffusion)
  : View_feature_extractor.SyncMultiviewDiffusion.SyncMultiviewDiffusion :=
  View_feature_extractor.SyncMultiviewDiffusion.mkSyncMultiviewDiffusion
    (View_feature_extractor.SyncMultiviewDiffusion_first.view_num s)
    (View_feature_extractor.SyncMultiviewDiffusion_first.viewpoint_dim s)
    (View_feature_extractor.SyncMultiviewDiffusion_first.image_size s)
    (View_feature_extractor.SyncMultiviewDiffusion_first.poses s)
    (View_feature_extractor.SyncMultiviewDiffusion_first.Ks s)
    (View_feature_extractor.SyncMultiviewDiffusion_first.azimuth s).

(** An object of the copy of [SpatialVolumeNet] in
    [View_feature_extractor_net.py], seen as one of the class in
    [View_feature_extractor.py]. *)
Definition of_net (s : View_feature_extractor_net.SpatialVolumeNet)
  : View_feature_extractor.SpatialVolumeNet :=
  View_feature_extractor.mkSpatialVolumeNet
    (View_feature_extractor_net.target_encoder s)
    (View_feature_extractor_net.spatial_volume_feats s)
    (View_feature_extractor_net.frustum_volume_feats s)
    (View_feature_extractor_net.frustum_volume_length s)
    (View_feature_extractor_net.input_image_size s)
    (View_feature_extractor_net.spatial_volume_size s)
    (View_feature_extractor_net.spatial_volume_length s)
    (View_feature_extractor_net.frustum_volume_size s)
    (View_feature_extractor_net.frustum_volume_depth s)
    (View_feature_extractor_net.time_dim s)
    (View_feature_extractor_net.view_dim s)
    (View_feature_extractor_net.default_origin_depth s).

End Constructed.

(** ** A small scene

    Concrete inputs on which the calls are run. *)

Module Example.
Import Tensor Torch Python.

(** Kernels that compute no values: shapes, aliasing and control flow of
    a call do not depend on what the kernels return. *)
Definition shape_only : Kernels :=
  mkKernels (fun _ _ _ _ => []) (fun _ _ _ _ => []) (fun _ => []) (fun _ _ => []) (fun _ _ => []).

Definition empty : World := mkWorld [] 0.

Definition zeros (sh : list Z) : Tensor.t := mk sh (repeat 0%R (Z.to_nat (numel sh))).

(** The sizes of the pyramid level stored under a key. *)
Definition level_sizes (o : result (gmap Z Handle) * World) (key : Z) : option (list Z) :=
  match fst o with
  | Ok p => sizes <$> p !! key
  | Raise _ => None
  end.

(** The frustum network as [SpatialVolumeNet] configures it, applied to
    one input volume of the given shape. *)
Definition frustum_net_on (sh : list Z) : M (gmap Z Handle) :=
  net <- View_feature_extractor_net.FrustumTV3DNet_init shape_only 64 4 4 (64, 128, 256, 512) ;;
  x <- new (zeros sh) ;;
  t <- new (zeros [1; 4]) ;;
  v <- new (zeros [1; 4]) ;;
  View_feature_extractor_net.FrustumTV3DNet_forward shape_only net x t v.

(** A model for two views of 8 by 8 images, with its camera tables, one
    batch element of latents and embeddings, and a spatial volume. *)
Record Scene := mkScene {
  net : View_feature_extractor.SpatialVolumeNet;
  poses : Handle;
  Ks : Handle;
  x : Handle;
  t_embed : Handle;
  v_embed : Handle;
  spatial_volume : Handle }.

Definition setup : M Scene :=
  net <- View_feature_extractor.SpatialVolumeNet_init shape_only View_feature_extractor.globals
           4 4 2 8 2 2 0.5%R 0.86603%R ;;
  poses <- new (zeros [2; 3; 4]) ;;
  Ks <- new (zeros [2; 3; 3]) ;;
  x <- new (zeros [1; 2; 4; 1; 1]) ;;
  t_embed <- new (zeros [1; 4]) ;;
  v_embed <- new (zeros [1; 2; 4]) ;;
  spatial_volume <- new (zeros [1; 64; 2; 2; 2]) ;;
  ret (mkScene net poses Ks x t_embed v_embed spatial_volume).

(** [construct_view_frustum_volume] on the scene, for one batch element
    and the given target indices. *)
Definition setup_with (idx : list Z) : M (Scene * Handle) :=
  s <- setup ;;
  target_indices <- new_long [1; Z.of_nat (length idx)] idx ;;
  ret (s, target_indices).

Definition frustum_volume_for (idx : list Z) : M (gmap Z Handle * Handle) :=
  p <- setup_with idx ;;
  View_feature_extractor.construct_view_frustum_volume shape_only View_feature_extractor.globals
    (net (fst p)) (spatial_volume (fst p)) (t_embed (fst p)) (v_embed (fst p))
    (poses (fst p)) (Ks (fst p)) (snd p).

Definition spatial_volume_of_scene : M Handle :=
  s <- setup ;;
  View_feature_extractor.construct_spatial_volume shape_only View_feature_extractor.globals
    (net s) (x s) (t_embed s) (v_embed s) (poses s) (Ks s).

End Example.

Section ConstructedSpatial.
Import Tensor Torch View_feature_extractor_net.

(** What [SpatialTimeBlock.__init__] and [SpatialUpTimeBlock.__init__]
    set up, with [cs] the final convolution. *)
Definition SpatialTimeBlock_is (blk : SpatialTimeBlock) (x_in_dim t_in_dim : Z) (cs : ConvSpec)
  : Prop :=
  conv_spec (st_t_conv blk) = mkConv 3 t_in_dim x_in_dim 1 1 0 0 false /\
  num_groups (st_bn blk) = 8 /\ num_channels (st_bn blk) = x_in_dim /\
  conv_spec (st_conv blk) = cs.

(** What [SpatialTime3DNet.__init__] sets up. *)
Definition SpatialTime3DNet_is (net : SpatialTime3DNet) (time_dim input_dim : Z)
    (dims : Z * Z * Z * Z) : Prop :=
  let '(d0, d1, d2, d3) := dims in
  let dt := time_dim in
  conv_spec (s3_init_conv net) = mkConv 3 input_dim d0 3 1 1 0 false /\
  SpatialTimeBlock_is (s3_conv0 net) d0 dt (mkConv 3 d0 d0 3 1 1 0 false) /\
  SpatialTimeBlock_is (s3_conv1 net) d0 dt (mkConv 3 d0 d1 3 2 1 0 false) /\
  SpatialTimeBlock_is (s3_conv2_0 net) d1 dt (mkConv 3 d1 d1 3 1 1 0 false) /\
  SpatialTimeBlock_is (s3_conv2_1 net) d1 dt (mkConv 3 d1 d1 3 1 1 0 false) /\
  SpatialTimeBlock_is (s3_conv3 net) d1 dt (mkConv 3 d1 d2 3 2 1 0 false) /\
  SpatialTimeBlock_is (s3_conv4_0 net) d2 dt (mkConv 3 d2 d2 3 1 1 0 false) /\
  SpatialTimeBlock_is (s3_conv4_1 net) d2 dt (mkConv 3 d2 d2 3 1 1 0 false) /\
  SpatialTimeBlock_is (s3_conv5 net) d2 dt (mkConv 3 d2 d3 3 2 1 0 false) /\
  SpatialTimeBlock_is (s3_conv6_0 net) d3 dt (mkConv 3 d3 d3 3 1 1 0 false) /\
  SpatialTimeBlock_is (s3_conv6_1 net) d3 dt (mkConv 3 d3 d3 3 1 1 0 false) /\
  SpatialTimeBlock_is (s3_conv7 net) d3 dt (mkConv 3 d3 d2 3 2 1 1 true) /\
  SpatialTimeBlock_is (s3_conv8 net) d2 dt (mkConv 3 d2 d1 3 2 1 1 true) /\
  SpatialTimeBlock_is (s3_conv9 net) d1 dt (mkConv 3 d1 d0 3 2 1 1 true).

End ConstructedSpatial.

Section Layout.
Import Tensor Torch.

(** A floating tensor whose entries lie in order in its storage, as the
    result of an out-of-place operator does. *)
Definition is_dense (sh : list Z) (h : Handle) : Prop :=
  is_float sh h /\ contiguous h = true.

(** [m] returns a value satisfying [P] from every state that holds at
    least [n0] storages and satisfies [Inv], and changes no storage below
    [n0]. *)
Definition succeeds {A} (n0 : nat) (Inv : World -> Prop) (m : M A) (P : A -> Prop) : Prop :=
  forall w, (n0 <= length (heap w))%nat -> Inv w ->
    exists a w', m w = (Ok a, w') /\ stable n0 w w' /\ P a.

End Layout.

(** ** Two calls in two stores

    To say that a call is a function of the values it is given, it is
    run twice, in two stores that have nothing in common but the values
    of corresponding arguments. *)

Section TwoStores.
Import Tensor Torch Python View_feature_extractor_net.

(** The states the first and the second call start in. *)
Context (start1 start2 : World).

(** The two runs are in step: each still has the storages it started
    with, and since then both have allocated the same storages. *)
Definition in_step (w1 w2 : World) : Prop :=
  exists made, heap w1 = heap start1 ++ made /\ heap w2 = heap start2 ++ made.

(** Equal arguments: a tensor object of the first store and one of the
    second, with the same dtype and the same layout, that have the same
    value. *)
Definition given_alike (h1 h2 : Handle) : Prop :=
  dtype h1 = dtype h2 /\ sel h1 = sel h2 /\
  (cell h1 < length (heap start1))%nat /\ (cell h2 < length (heap start2))%nat /\
  value start1 h1 = value start2 h2.

(** Tensor objects on the storage the two runs allocated at the same
    point. *)
Definition made_alike (h1 h2 : Handle) : Prop :=
  dtype h1 = dtype h2 /\ sizes h1 = sizes h2 /\ sel h1 = sel h2 /\
  exists j, cell h1 = (length (heap start1) + j)%nat /\
            cell h2 = (length (heap start2) + j)%nat.

Definition alike (h1 h2 : Handle) : Prop := given_alike h1 h2 \/ made_alike h1 h2.

Definition result_alike {A} (R : A -> A -> Prop) (r1 r2 : result A) : Prop :=
  match r1, r2 with
  | Ok a1, Ok a2 => R a1 a2
  | Raise e1, Raise e2 => e1 = e2
  | _, _ => False
  end.

(** From states in step, [m1] and [m2] end the same way, with results
    related by [R], in states in step. *)
Definition in_step_calls {A} (R : A -> A -> Prop) (m1 m2 : M A) : Prop :=
  forall w1 w2, in_step w1 w2 ->
    result_alike R (fst (m1 w1)) (fst (m2 w2)) /\ in_step (snd (m1 w1)) (snd (m2 w2)).

End TwoStores.

Section SameParameters.
Import Tensor Torch View_feature_extractor_net.
Context (related : Handle -> Handle -> Prop).

(** Two layers of the same configuration whose parameters are related
    by [related]; with [given_alike], equal network parameters. *)
Definition Conv_alike (c1 c2 : Conv) : Prop :=
  conv_spec c1 = conv_spec c2 /\
  related (conv_weight c1) (conv_weight c2) /\ related (conv_bias c1) (conv_bias c2).

Definition GroupNorm_alike (g1 g2 : GroupNorm) : Prop :=
  num_groups g1 = num_groups g2 /\ num_channels g1 = num_channels g2 /\
  related (gn_weight g1) (gn_weight g2) /\ related (gn_bias g1) (gn_bias g2).

Definition Layer_alike (l1 l2 : Layer) : Prop :=
  match l1, l2 with
  | LConv c1, LConv c2 => Conv_alike c1 c2
  | LNorm g1, LNorm g2 => GroupNorm_alike g1 g2
  | LSiLU s1, LSiLU s2 => s1 = s2
  | _, _ => False
  end.

Definition Image2DResBlockWithTV_alike (b1 b2 : Image2DResBlockWithTV) : Prop :=
  Conv_alike (res_time_embed b1) (res_time_embed b2) /\
  Conv_alike (res_view_embed b1) (res_view_embed b2) /\
  Forall2 Layer_alike (res_conv b1) (res_conv b2).

Definition NoisyTargetViewEncoder_alike (e1 e2 : NoisyTargetViewEncoder) : Prop :=
  Conv_alike (enc_init_conv e1) (enc_init_conv e2) /\
  Image2DResBlockWithTV_alike (enc_out_conv0 e1) (enc_out_conv0 e2) /\
  Image2DResBlockWithTV_alike (enc_out_conv1 e1) (enc_out_conv1 e2) /\
  Image2DResBlockWithTV_alike (enc_out_conv2 e1) (enc_out_conv2 e2) /\
  Forall2 Layer_alike (enc_final_out e1) (enc_final_out e2).

Definition SpatialTimeBlock_alike (b1 b2 : SpatialTimeBlock) : Prop :=
  Conv_alike (st_t_conv b1) (st_t_conv b2) /\ GroupNorm_alike (st_bn b1) (st_bn b2) /\
  st_silu b1 = st_silu b2 /\ Conv_alike (st_conv b1) (st_conv b2).

Definition SpatialTime3DNet_alike (n1 n2 : SpatialTime3DNet) : Prop :=
  Conv_alike (s3_init_conv n1) (s3_init_conv n2) /\
  SpatialTimeBlock_alike (s3_conv0 n1) (s3_conv0 n2) /\
  SpatialTimeBlock_alike (s3_conv1 n1) (s3_conv1 n2) /\
  SpatialTimeBlock_alike (s3_conv2_0 n1) (s3_conv2_0 n2) /\
  SpatialTimeBlock_alike (s3_conv2_1 n1) (s3_conv2_1 n2) /\
  SpatialTimeBlock_alike (s3_conv3 n1) (s3_conv3 n2) /\
  SpatialTimeBlock_alike (s3_conv4_0 n1) (s3_conv4_0 n2) /\
  SpatialTimeBlock_alike (s3_conv4_1 n1) (s3_conv4_1 n2) /\
  SpatialTimeBlock_alike (s3_conv5 n1) (s3_conv5 n2) /\
  SpatialTimeBlock_alike (s3_conv6_0 n1) (s3_conv6_0 n2) /\
  SpatialTimeBlock_alike (s3_conv6_1 n1) (s3_conv6_1 n2) /\
  SpatialTimeBlock_alike (s3_conv7 n1) (s3_conv7 n2) /\
  SpatialTimeBlock_alike (s3_conv8 n1) (s3_conv8 n2) /\
  SpatialTimeBlock_alike (s3_conv9 n1) (s3_conv9 n2).

(** What [construct_spatial_volume] reads of the model: the encoder, the
    spatial network and four settings. *)
Definition SpatialVolumeNet_alike (m1 m2 : View_feature_extractor.SpatialVolumeNet) : Prop :=
  NoisyTargetViewEncoder_alike (View_feature_extractor.target_encoder m1)
    (View_feature_extractor.target_encoder m2) /\
  SpatialTime3DNet_alike (View_feature_extractor.spatial_volume_feats m1)
    (View_feature_extractor.spatial_volume_feats m2) /\
  View_feature_extractor.input_image_size m1 = View_feature_extractor.input_image_size m2 /\
  View_feature_extractor.spatial_volume_size m1 = View_feature_extractor.spatial_volume_size m2 /\
  View_feature_extractor.spatial_volume_length m1
  = View_feature_extractor.spatial_volume_length m2 /\
  View_feature_extractor.time_dim m1 = View_feature_extractor.time_dim m2.

End SameParameters.

(** The warp helper, when the namespace binds it, is expected to be a
    function of the values it is given as well. *)
Definition helper_functional (G : gmap string Python.PyObj) : Prop :=
  forall f, G !! "get_warp_coordinates"%string = Some (Python.PyWarp f) ->
    forall start1 start2 verts1 verts2 size image_size K1 K2 pose1 pose2,
      alike start1 start2 verts1 verts2 -> alike start1 start2 K1 K2 ->
      alike start1 start2 pose1 pose2 ->
      in_step_calls start1 start2 (alike start1 start2)
        (f verts1 size image_size K1 pose1) (f verts2 size image_size K2 pose2).

Section Allocation.
Import Tensor Torch.

(** [m], when it returns, has only added storages, and what it returns
    satisfies [P] for the number of storages that there are then. *)
Definition allocates {A} (m : M A) (P : nat -> A -> Prop) : Prop :=
  forall w a w', m w = (Ok a, w') ->
    (length (heap w) <= length (heap w'))%nat /\ P (length (heap w')) a.

(** One tensor object, on one of the first [n] storages. *)
Definition alive (n : nat) (h1 h2 : Handle) : Prop := h1 = h2 /\ (cell h1 < n)%nat.

End Allocation.

(** One model and the same inputs in two places: the model is built
    first; then one store receives the inputs in the order of the
    arguments, and the other, with the generator in another state,
    receives them in the reverse order, with one more tensor among
    them. *)
Module TwoScenes.
Import Tensor Torch Python Example.

Definition globals_with_warp : gmap string PyObj :=
  <["get_warp_coordinates"%string := PyWarp (fun _ _ _ _ _ => new (zeros [1; 512; 2]))]>
    View_feature_extractor.globals.

Definition model : M View_feature_extractor.SpatialVolumeNet :=
  View_feature_extractor.SpatialVolumeNet_init shape_only globals_with_warp
    4 4 2 8 2 8 0.5%R 0.86603%R.

Record Inputs := mkInputs {
  in_x : Handle;
  in_t_embed : Handle;
  in_v_embed : Handle;
  in_poses : Handle;
  in_Ks : Handle }.

(** The tensor object [new z] returns when [j] storages have been added
    to [w]. *)
Definition placed (w : World) (j : nat) (z : Tensor.t) : Handle :=
  mkHandle (length (heap w) + j) (shape z) Float (seq 0 (length (data z))).

Definition first_inputs : M Inputs :=
  x <- new (zeros [1; 2; 4; 1; 1]) ;;
  t_embed <- new (zeros [1; 4]) ;;
  v_embed <- new (zeros [1; 2; 4]) ;;
  poses <- new (zeros [2; 3; 4]) ;;
  Ks <- new (zeros [2; 3; 3]) ;;
  ret (mkInputs x t_embed v_embed poses Ks).

Definition second_inputs : M Inputs :=
  Ks <- new (zeros [2; 3; 3]) ;;
  poses <- new (zeros [2; 3; 4]) ;;
  _ <- new (zeros [7]) ;;
  v_embed <- new (zeros [1; 2; 4]) ;;
  t_embed <- new (zeros [1; 4]) ;;
  x <- new (zeros [1; 2; 4; 1; 1]) ;;
  ret (mkInputs x t_embed v_embed poses Ks).

End TwoScenes.

(** * Proofs *)

(** ** Reasoning about computations *)

Section Reasoning.
Import Tensor Torch.

Lemma returns_ret {A} (a : A) (P : A -> Prop) : P a -> returns (ret a) P.
Proof. intros H w. exists a, w. split; [reflexivity | exact H]. Qed.

Lemma returns_lift {A} (r : result A) (a : A) (P : A -> Prop) :
  r = Ok a -> P a -> returns (lift r) P.
Proof. intros -> H w. exists a, w. split; [reflexivity | exact H]. Qed.

Lemma returns_bind {A B} (m : M A) (f : A -> M B) (P : A -> Prop) (Q : B -> Prop) :
  returns m P -> (forall a, P a -> returns (f a) Q) -> returns (bind m f) Q.
Proof.
  intros Hm Hf w. destruct (Hm w) as (a & w1 & E & Ha).
  destruct (Hf a Ha w1) as (b & w2 & E2 & Hb).
  exists b, w2. unfold bind. rewrite E. split; [exact E2 | exact Hb].
Qed.

Lemma returns_mono {A} (m : M A) (P Q : A -> Prop) :
  returns m P -> (forall a, P a -> Q a) -> returns m Q.
Proof.
  intros Hm H w. destruct (Hm w) as (a & w' & E & Ha). exists a, w'. auto.
Qed.

Lemma returns_new (x : Tensor.t) : returns (new x) (is_float (shape x)).
Proof. intros w. eexists _, _. split; [reflexivity|]. split; reflexivity. Qed.

Lemma returns_apply1 (f : Tensor.t -> result Tensor.t) (x : Handle) (sh : list Z) :
  dtype x = Float ->
  (forall v, shape v = sizes x -> exists y, f v = Ok y /\ shape y = sh) ->
  returns (apply1 f x) (is_float sh).
Proof.
  intros Hd Hf w. unfold apply1. rewrite Hd.
  destruct (Hf (value w x) eq_refl) as (y & E & Hy).
  unfold bind, lift. rewrite E. cbn. eexists _, _. split; [reflexivity|].
  split; [reflexivity | exact Hy].
Qed.

Lemma returns_apply2 (f : Tensor.t -> Tensor.t -> result Tensor.t) (x y : Handle) (sh : list Z) :
  dtype x = Float -> dtype y = Float ->
  (forall u v, shape u = sizes x -> shape v = sizes y -> exists z, f u v = Ok z /\ shape z = sh) ->
  returns (apply2 f x y) (is_float sh).
Proof.
  intros Hx Hy Hf w. unfold apply2. rewrite Hx, Hy.
  destruct (Hf (value w x) (value w y) eq_refl eq_refl) as (z & E & Hz).
  unfold bind, lift. rewrite E. cbn. eexists _, _. split; [reflexivity|].
  split; [reflexivity | exact Hz].
Qed.

(** *** Shape rules of the operators *)

Lemma conv_out_dim_pointwise (c : ConvSpec) (n : Z) :
  transposed c = false -> kernel_size c = 1 -> stride c = 1 -> padding c = 0 ->
  1 <= n -> conv_out_dim c n = Ok n.
Proof.
  intros Ht Hk Hs Hp Hn. unfold conv_out_dim. rewrite Ht, Hk, Hs, Hp.
  destruct (Z.ltb_spec (n + 2 * 0) 1); [lia|].
  f_equal. rewrite Z.div_1_r. lia.
Qed.

Lemma conv_out_dim_same (c : ConvSpec) (n : Z) :
  transposed c = false -> kernel_size c = 3 -> stride c = 1 -> padding c = 1 ->
  1 <= n -> conv_out_dim c n = Ok n.
Proof.
  intros Ht Hk Hs Hp Hn. unfold conv_out_dim. rewrite Ht, Hk, Hs, Hp.
  destruct (Z.ltb_spec (n + 2 * 1) 3); [lia|].
  f_equal. rewrite Z.div_1_r. lia.
Qed.

Lemma conv_out_dim_half (c : ConvSpec) (j : Z) :
  transposed c = false -> kernel_size c = 3 -> stride c = 2 -> padding c = 1 ->
  1 <= j -> conv_out_dim c (2 * j) = Ok j.
Proof.
  intros Ht Hk Hs Hp Hn. unfold conv_out_dim. rewrite Ht, Hk, Hs, Hp.
  destruct (Z.ltb_spec (2 * j + 2 * 1) 3); [lia|].
  f_equal.
  replace (2 * j + 2 * 1 - 3) with (1 + (j - 1) * 2) by lia.
  rewrite Z.div_add by lia. change (1 / 2) with 0. lia.
Qed.

Lemma conv_out_dim_double (c : ConvSpec) (n : Z) :
  transposed c = true -> kernel_size c = 3 -> stride c = 2 -> padding c = 1 ->
  output_padding c = 1 -> conv_out_dim c n = Ok (2 * n).
Proof.
  intros Ht Hk Hs Hp Ho. unfold conv_out_dim. rewrite Ht, Hk, Hs, Hp, Ho.
  f_equal. lia.
Qed.

Lemma conv_shape3 (K : Kernels) (c : ConvSpec) (wt bs x : Tensor.t) (B ch d h w d' h' w' : Z) :
  shape x = [B; ch; d; h; w] -> rank c = 3%nat -> ch = in_channels c ->
  conv_out_dim c d = Ok d' -> conv_out_dim c h = Ok h' -> conv_out_dim c w = Ok w' ->
  exists y, conv K c wt bs x = Ok y /\ shape y = [B; out_channels c; d'; h'; w'].
Proof.
  intros Hx Hr Hc Hd Hh Hw. unfold conv. rewrite Hx, Hr. cbn [length Nat.eqb Nat.add].
  rewrite Hc, Z.eqb_refl. cbn [rmap]. rewrite Hd, Hh, Hw. cbn [rbind].
  eexists. split; reflexivity.
Qed.

Lemma conv_shape2 (K : Kernels) (c : ConvSpec) (wt bs x : Tensor.t) (B ch h w h' w' : Z) :
  shape x = [B; ch; h; w] -> rank c = 2%nat -> ch = in_channels c ->
  conv_out_dim c h = Ok h' -> conv_out_dim c w = Ok w' ->
  exists y, conv K c wt bs x = Ok y /\ shape y = [B; out_channels c; h'; w'].
Proof.
  intros Hx Hr Hc Hh Hw. unfold conv. rewrite Hx, Hr. cbn [length Nat.eqb Nat.add].
  rewrite Hc, Z.eqb_refl. cbn [rmap]. rewrite Hh, Hw. cbn [rbind].
  eexists. split; reflexivity.
Qed.

Lemma group_norm_shape (K : Kernels) (g ch : Z) (wt bs x : Tensor.t) (b : Z) (sp : list Z) :
  shape x = b :: ch :: sp -> b * ch / g * numel sp <> 1 -> ch mod g = 0 ->
  exists y, group_norm K g ch wt bs x = Ok y /\ shape y = shape x.
Proof.
  intros Hx Hn Hm. unfold group_norm. rewrite Hx.
  destruct (Z.eqb_spec (b * ch / g * numel sp) 1); [contradiction|].
  rewrite Z.eqb_refl, Hm. cbn. eexists. split; [reflexivity|]. cbn. congruence.
Qed.

Lemma broadcast_aligned_refl (a : list Z) : broadcast_aligned a a = Some a.
Proof.
  induction a as [|x a IH]; [reflexivity|]. cbn. rewrite IH, Z.eqb_refl. reflexivity.
Qed.

Lemma pad_ones_same (sh : list Z) : pad_ones (length sh) sh = sh.
Proof. unfold pad_ones. rewrite Nat.sub_diag. reflexivity. Qed.

Lemma broadcast_shapes_refl (a : list Z) : broadcast_shapes a a = Some a.
Proof.
  unfold broadcast_shapes. rewrite Nat.max_id, pad_ones_same. apply broadcast_aligned_refl.
Qed.

Lemma broadcast_aligned_ones (a : list Z) :
  broadcast_aligned a (repeat 1 (length a)) = Some a.
Proof.
  induction a as [|x a IH]; [reflexivity|]. cbn. rewrite IH.
  destruct (Z.eqb_spec x 1); [reflexivity|]. reflexivity.
Qed.

(** A feature map plus a per-channel embedding [B, C, 1, ..., 1]. *)
Lemma broadcast_shapes_embed (B C : Z) (sp : list Z) :
  broadcast_shapes (B :: C :: sp) (B :: C :: repeat 1 (length sp)) = Some (B :: C :: sp).
Proof.
  unfold broadcast_shapes. cbn [length]. rewrite repeat_length, Nat.max_id.
  replace (S (S (length sp))) with (length (B :: C :: sp)) at 1 by reflexivity.
  rewrite pad_ones_same.
  replace (S (S (length sp))) with (length (B :: C :: repeat 1 (length sp)))
    by (cbn; rewrite repeat_length; reflexivity).
  rewrite pad_ones_same. cbn. rewrite broadcast_aligned_ones, !Z.eqb_refl. reflexivity.
Qed.

Lemma add_shape (x y : Tensor.t) (sh : list Z) :
  broadcast_shapes (shape x) (shape y) = Some sh ->
  exists z, Tensor.add x y = Ok z /\ shape z = sh.
Proof.
  intros H. unfold Tensor.add, binop. rewrite H. eexists. split; reflexivity.
Qed.

(** *** Views *)

Lemma filter_nonneg_id (sh : list Z) :
  forallb (Z.leb 0) sh = true -> filter (fun d => d <> -1) sh = sh.
Proof.
  induction sh as [|d sh IH]; [reflexivity|]. cbn [forallb]. intros H.
  apply andb_prop in H as [Hd Hs]. apply Z.leb_le in Hd.
  rewrite filter_cons. destruct (decide (d <> -1)) as [_|Hc]; [rewrite IH by exact Hs; reflexivity|].
  exfalso. apply Hc. lia.
Qed.

Lemma infer_sizes_nonneg (sh : list Z) (total : Z) :
  forallb (Z.leb 0) sh = true -> numel sh = total -> infer_sizes sh total = Ok sh.
Proof.
  intros Hs Hn. unfold infer_sizes. rewrite (filter_nonneg_id sh Hs), Hs, Nat.sub_diag.
  rewrite Hn, Z.eqb_refl. reflexivity.
Qed.

Lemma strip_ones_app_ones (sh : list Z) (n : nat) :
  strip_ones (sh ++ repeat 1 n) = strip_ones sh.
Proof.
  unfold strip_ones. rewrite filter_app.
  assert (E : filter (fun d : Z => d <> 1) (repeat 1 n) = []).
  { induction n as [|n IH]; [reflexivity|]. cbn [repeat]. rewrite filter_cons.
    destruct (decide (1 <> 1)); [congruence | exact IH]. }
  rewrite E, app_nil_r. reflexivity.
Qed.

(** [t.view(B, D, 1, ..., 1)] of a [B, D] tensor. *)
Lemma view_embed (h : Handle) (B D : Z) (n : nat) :
  sizes h = [B; D] -> 0 <= B -> 0 <= D ->
  view ([B; D] ++ repeat 1 n) h =
    Ok (mkHandle (cell h) ([B; D] ++ repeat 1 n) (dtype h) (sel h)).
Proof.
  intros Hs HB HD. unfold view.
  rewrite infer_sizes_nonneg.
  - cbn [rbind]. rewrite strip_ones_app_ones, Hs.
    rewrite bool_decide_eq_true_2 by reflexivity. rewrite orb_true_r. reflexivity.
  - rewrite forallb_app. cbn [forallb].
    rewrite (proj2 (Z.leb_le 0 B) HB), (proj2 (Z.leb_le 0 D) HD). cbn.
    induction n; [reflexivity | exact IHn].
  - rewrite Hs. unfold numel. rewrite fold_right_app.
    assert (E : fold_right Z.mul 1 (repeat 1 n) = 1).
    { induction n as [|n IH]; [reflexivity|]. cbn. rewrite IH. reflexivity. }
    rewrite E. reflexivity.
Qed.

(** *** Layers *)

Lemma returns_Conv_forward3 (K : Kernels) (c : Conv) (x : Handle) (B d h w d' h' w' : Z) :
  is_float [B; in_channels (conv_spec c); d; h; w] x -> rank (conv_spec c) = 3%nat ->
  conv_out_dim (conv_spec c) d = Ok d' -> conv_out_dim (conv_spec c) h = Ok h' ->
  conv_out_dim (conv_spec c) w = Ok w' ->
  returns (Conv_forward K c x) (is_float [B; out_channels (conv_spec c); d'; h'; w']).
Proof.
  intros [Hd Hs] Hr H1 H2 H3 wd. unfold Conv_forward, apply1. rewrite Hd.
  destruct (conv_shape3 K (conv_spec c) (value wd (conv_weight c)) (value wd (conv_bias c))
              (value wd x) B _ d h w d' h' w' Hs Hr eq_refl H1 H2 H3) as (y & E & Hy).
  unfold bind, lift. rewrite E. cbn. eexists _, _. split; [reflexivity|].
  split; [reflexivity | exact Hy].
Qed.

Lemma returns_Conv_forward2 (K : Kernels) (c : Conv) (x : Handle) (B h w h' w' : Z) :
  is_float [B; in_channels (conv_spec c); h; w] x -> rank (conv_spec c) = 2%nat ->
  conv_out_dim (conv_spec c) h = Ok h' -> conv_out_dim (conv_spec c) w = Ok w' ->
  returns (Conv_forward K c x) (is_float [B; out_channels (conv_spec c); h'; w']).
Proof.
  intros [Hd Hs] Hr H2 H3 wd. unfold Conv_forward, apply1. rewrite Hd.
  destruct (conv_shape2 K (conv_spec c) (value wd (conv_weight c)) (value wd (conv_bias c))
              (value wd x) B _ h w h' w' Hs Hr eq_refl H2 H3) as (y & E & Hy).
  unfold bind, lift. rewrite E. cbn. eexists _, _. split; [reflexivity|].
  split; [reflexivity | exact Hy].
Qed.

Lemma returns_GroupNorm_forward (K : Kernels) (g : GroupNorm) (x : Handle) (b : Z) (sp : list Z) :
  is_float (b :: num_channels g :: sp) x ->
  b * num_channels g / num_groups g * numel sp <> 1 ->
  num_channels g mod num_groups g = 0 ->
  returns (GroupNorm_forward K g x) (is_float (b :: num_channels g :: sp)).
Proof.
  intros [Hd Hs] Hn Hm wd. unfold GroupNorm_forward, apply1. rewrite Hd.
  destruct (group_norm_shape K (num_groups g) (num_channels g) (value wd (gn_weight g))
              (value wd (gn_bias g)) (value wd x) b sp Hs Hn Hm) as (y & E & Hy).
  unfold bind, lift. rewrite E. cbn. eexists _, _. split; [reflexivity|].
  split; [reflexivity|]. rewrite Hy. exact Hs.
Qed.

Lemma returns_SiLU_forward (K : Kernels) (s : SiLU) (x : Handle) (sh : list Z) :
  is_float sh x -> returns (SiLU_forward K s x) (is_float sh).
Proof.
  intros [Hd Hs] wd. unfold SiLU_forward. rewrite Hd. destruct (inplace s).
  - eexists _, _. split; [reflexivity|]. split; assumption.
  - eexists _, _. split; [reflexivity|]. split; [reflexivity | exact Hs].
Qed.

Lemma returns_add (x y : Handle) (sx sy sh : list Z) :
  is_float sx x -> is_float sy y -> broadcast_shapes sx sy = Some sh ->
  returns (View_feature_extractor_net.add x y) (is_float sh).
Proof.
  intros [Hdx Hsx] [Hdy Hsy] Hb. unfold View_feature_extractor_net.add.
  apply returns_apply2; [assumption..|].
  intros u v Hu Hv. apply add_shape. rewrite Hu, Hv, Hsx, Hsy. exact Hb.
Qed.

(** *** Constructors *)

Lemma returns_new_parameter (K : Kernels) (sh : list Z) :
  forallb (Z.leb 0) sh = true -> returns (new_parameter K sh) (fun _ => True).
Proof.
  intros H w. unfold new_parameter. rewrite H. eexists _, _. split; [reflexivity | exact I].
Qed.

Lemma forallb_repeat_nonneg (k : Z) (n : nat) : 0 <= k -> forallb (Z.leb 0) (repeat k n) = true.
Proof.
  intros Hk. induction n as [|n IH]; [reflexivity|]. cbn.
  rewrite IH, (proj2 (Z.leb_le 0 k) Hk). reflexivity.
Qed.

Lemma returns_Conv_init (K : Kernels) (c : ConvSpec) :
  0 <= in_channels c -> 0 <= out_channels c -> 0 <= kernel_size c ->
  returns (Conv_init K c) (fun l => conv_spec l = c).
Proof.
  intros Hi Ho Hk. unfold Conv_init.
  eapply returns_bind.
  { apply returns_new_parameter. destruct (transposed c); cbn [forallb];
      rewrite (proj2 (Z.leb_le 0 _) Hi), (proj2 (Z.leb_le 0 _) Ho), forallb_repeat_nonneg by exact Hk;
      reflexivity. }
  intros weight _. eapply returns_bind.
  { apply returns_new_parameter. cbn. rewrite (proj2 (Z.leb_le 0 _) Ho). reflexivity. }
  intros bias _. apply returns_ret. reflexivity.
Qed.

Lemma returns_GroupNorm_init (g ch : Z) :
  ch mod g = 0 -> 0 <= ch ->
  returns (GroupNorm_init g ch) (fun n => num_groups n = g /\ num_channels n = ch).
Proof.
  intros Hm Hc. unfold GroupNorm_init. rewrite Hm. cbn [Z.eqb negb].
  eapply returns_bind.
  { eapply returns_lift with (P := fun _ => True); [|exact I].
    unfold ones. cbn [forallb]. rewrite (proj2 (Z.leb_le 0 ch) Hc). reflexivity. }
  intros o _. eapply returns_bind; [apply returns_new|].
  intros wt _. eapply returns_bind; [apply returns_new|].
  intros bs _. apply returns_ret. split; reflexivity.
Qed.

End Reasoning.

(** ** The resampler network [FrustumTV3DNet] *)

Section FrustumNet.
Import Tensor Torch View_feature_extractor_net.
Context (K : Kernels).

Lemma returns_FrustumTVBlock_init (x_dim t_dim v_dim out_dim stride : Z) :
  0 <= x_dim -> 0 <= t_dim -> 0 <= v_dim -> 0 <= out_dim -> x_dim mod 8 = 0 ->
  returns (FrustumTVBlock_init K x_dim t_dim v_dim out_dim stride)
    (fun blk => FrustumTVBlock_is blk x_dim t_dim v_dim (mkConv 3 x_dim out_dim 3 stride 1 0 false)).
Proof.
  intros Hx Ht Hv Ho Hm. unfold FrustumTVBlock_init, Conv3d.
  eapply returns_bind; [apply returns_Conv_init; cbn; lia|]. intros tc Htc.
  eapply returns_bind; [apply returns_Conv_init; cbn; lia|]. intros vc Hvc.
  eapply returns_bind; [apply returns_GroupNorm_init; [exact Hm | lia]|]. intros bn [Hg Hc].
  eapply returns_bind; [apply returns_Conv_init; cbn; lia|]. intros cv Hcv.
  apply returns_ret. repeat split; assumption.
Qed.

Lemma returns_FrustumTVUpBlock_init (x_dim t_dim v_dim out_dim : Z) :
  0 <= x_dim -> 0 <= t_dim -> 0 <= v_dim -> 0 <= out_dim -> x_dim mod 8 = 0 ->
  returns (FrustumTVUpBlock_init K x_dim t_dim v_dim out_dim)
    (fun blk => FrustumTVBlock_is blk x_dim t_dim v_dim (mkConv 3 x_dim out_dim 3 2 1 1 true)).
Proof.
  intros Hx Ht Hv Ho Hm. unfold FrustumTVUpBlock_init, Conv3d, ConvTranspose3d.
  eapply returns_bind; [apply returns_Conv_init; cbn; lia|]. intros tc Htc.
  eapply returns_bind; [apply returns_Conv_init; cbn; lia|]. intros vc Hvc.
  eapply returns_bind; [apply returns_GroupNorm_init; [exact Hm | lia]|]. intros bn [Hg Hc].
  eapply returns_bind; [apply returns_Conv_init; cbn; lia|]. intros cv Hcv.
  apply returns_ret. repeat split; assumption.
Qed.

Lemma returns_embed_conv3 (c : Conv) (t : Handle) (B i o : Z) :
  conv_spec c = mkConv 3 i o 1 1 0 0 false -> is_float [B; i; 1; 1; 1] t ->
  returns (Conv_forward K c t) (is_float [B; o; 1; 1; 1]).
Proof.
  intros Hc Ht.
  pose proof (returns_Conv_forward3 K c t B 1 1 1 1 1 1) as H.
  rewrite Hc in H. cbn [in_channels out_channels rank] in H.
  apply H; try assumption; try reflexivity;
    apply conv_out_dim_pointwise; cbn; (reflexivity || lia).
Qed.

Lemma returns_FrustumTVBlock_forward (blk : FrustumTVBlock) (x t v : Handle)
    (x_dim t_dim v_dim : Z) (cs : ConvSpec) (B d h w d' h' w' : Z) :
  FrustumTVBlock_is blk x_dim t_dim v_dim cs ->
  in_channels cs = x_dim -> rank cs = 3%nat ->
  is_float [B; x_dim; d; h; w] x ->
  is_float [B; t_dim; 1; 1; 1] t -> is_float [B; v_dim; 1; 1; 1] v ->
  x_dim mod 8 = 0 -> B * x_dim / 8 * numel [d; h; w] <> 1 ->
  conv_out_dim cs d = Ok d' -> conv_out_dim cs h = Ok h' -> conv_out_dim cs w = Ok w' ->
  returns (FrustumTVBlock_forward K blk x t v) (is_float [B; out_channels cs; d'; h'; w']).
Proof.
  intros (Htc & Hvc & Hg & Hc & Hcv) Hin Hr Hx Ht Hv Hm Hn Hd Hh Hw.
  unfold FrustumTVBlock_forward.
  eapply returns_bind; [exact (returns_embed_conv3 _ t B t_dim x_dim Htc Ht)|].
  intros tc Htc'.
  eapply returns_bind.
  { eapply returns_add; [exact Hx | exact Htc' | apply (broadcast_shapes_embed B x_dim [d; h; w])]. }
  intros a Ha.
  eapply returns_bind; [exact (returns_embed_conv3 _ v B v_dim x_dim Hvc Hv)|].
  intros vc Hvc'.
  eapply returns_bind.
  { eapply returns_add; [exact Ha | exact Hvc' | apply (broadcast_shapes_embed B x_dim [d; h; w])]. }
  intros x1 Hx1.
  pose proof (returns_GroupNorm_forward K (ftv_bn blk) x1 B [d; h; w]) as Hgn.
  rewrite Hg, Hc in Hgn.
  eapply returns_bind; [exact (Hgn Hx1 Hn Hm)|].
  intros n Hn'.
  eapply returns_bind; [apply returns_SiLU_forward; exact Hn'|].
  intros s Hs.
  pose proof (returns_Conv_forward3 K (ftv_conv blk) s B d h w d' h' w') as Hcf.
  rewrite Hcv, Hin in Hcf. apply Hcf; assumption.
Qed.

Section Pyramid.
Variables in_dim t_dim v_dim dims0 dims1 dims2 dims3 : Z.
Hypothesis in_dim_pos : 0 < in_dim.
Hypothesis t_dim_pos : 0 < t_dim.
Hypothesis v_dim_pos : 0 < v_dim.
Hypothesis dims0_pos : 0 < dims0.
Hypothesis dims1_pos : 0 < dims1.
Hypothesis dims2_pos : 0 < dims2.
Hypothesis dims3_pos : 0 < dims3.
Hypothesis dims0_groups : dims0 mod 8 = 0.
Hypothesis dims1_groups : dims1 mod 8 = 0.
Hypothesis dims2_groups : dims2 mod 8 = 0.
Hypothesis dims3_groups : dims3 mod 8 = 0.

Lemma returns_FrustumTV3DNet_init :
  returns (FrustumTV3DNet_init K in_dim t_dim v_dim (dims0, dims1, dims2, dims3))
    (fun net => FrustumTV3DNet_is net in_dim t_dim v_dim (dims0, dims1, dims2, dims3)).
Proof.
  unfold FrustumTV3DNet_init, Conv3d.
  eapply returns_bind; [apply returns_Conv_init; cbn; lia|]. intros c0 H0.
  eapply returns_bind; [apply returns_FrustumTVBlock_init; (lia || assumption)|]. intros c1 H1.
  eapply returns_bind; [apply returns_FrustumTVBlock_init; (lia || assumption)|]. intros c2 H2.
  eapply returns_bind; [apply returns_FrustumTVBlock_init; (lia || assumption)|]. intros c3 H3.
  eapply returns_bind; [apply returns_FrustumTVBlock_init; (lia || assumption)|]. intros c4 H4.
  eapply returns_bind; [apply returns_FrustumTVBlock_init; (lia || assumption)|]. intros c5 H5.
  eapply returns_bind; [apply returns_FrustumTVBlock_init; (lia || assumption)|]. intros c6 H6.
  eapply returns_bind; [apply returns_FrustumTVUpBlock_init; (lia || assumption)|]. intros u0 Hu0.
  eapply returns_bind; [apply returns_FrustumTVUpBlock_init; (lia || assumption)|]. intros u1 Hu1.
  eapply returns_bind; [apply returns_FrustumTVUpBlock_init; (lia || assumption)|]. intros u2 Hu2.
  apply returns_ret.
  exact (conj H0 (conj H1 (conj H2 (conj H3 (conj H4 (conj H5 (conj H6 (conj Hu0 (conj Hu1 Hu2))))))))).
Qed.

Variables B d h w : Z.
Hypothesis B_pos : 0 < B.
Hypothesis d_pos : 0 < d.
Hypothesis h_pos : 0 < h.
Hypothesis w_pos : 0 < w.
Hypothesis coarsest_group : B * (dims3 / 8) * (d * h * w) <> 1.

Lemma group_size_ok (c s : Z) :
  0 < c -> c mod 8 = 0 -> 0 < s -> (B * (c / 8) * s <> 1) -> B * c / 8 * s <> 1.
Proof.
  intros Hc Hm Hs Hn.
  assert (E : c = 8 * (c / 8)) by (apply Z.div_exact; lia).
  rewrite E at 1. replace (B * (8 * (c / 8))) with (B * (c / 8) * 8) by lia.
  rewrite Z.div_mul by lia. exact Hn.
Qed.

Lemma group_size_big (c s : Z) :
  0 < c -> c mod 8 = 0 -> 1 < s -> B * c / 8 * s <> 1.
Proof.
  intros Hc Hm Hs. apply group_size_ok; try lia.
  assert (E : c = 8 * (c / 8)) by (apply Z.div_exact; lia).
  assert (0 < c / 8) by lia. nia.
Qed.

Lemma returns_FrustumTV3DNet_forward (net : FrustumTV3DNet) (x t v : Handle) :
  FrustumTV3DNet_is net in_dim t_dim v_dim (dims0, dims1, dims2, dims3) ->
  is_float [B; in_dim; 8 * d; 8 * h; 8 * w] x ->
  is_float [B; t_dim] t -> is_float [B; v_dim] v ->
  returns (FrustumTV3DNet_forward K net x t v)
    (fun p => size p = 4%nat /\
      (exists x0, p !! (8 * w) = Some x0 /\ is_float [B; dims0; 8 * d; 8 * h; 8 * w] x0) /\
      (exists x1, p !! (4 * w) = Some x1 /\ is_float [B; dims1; 4 * d; 4 * h; 4 * w] x1) /\
      (exists x2, p !! (2 * w) = Some x2 /\ is_float [B; dims2; 2 * d; 2 * h; 2 * w] x2) /\
      (exists x3, p !! w = Some x3 /\ is_float [B; dims3; d; h; w] x3)).
Proof.
  intros (H0 & H1 & H2 & H3 & H4 & H5 & H6 & Hu0 & Hu1 & Hu2) Hx Ht Hv.
  unfold FrustumTV3DNet_forward.
  eapply returns_bind with (P := fun p => p = (B, t_dim)).
  { apply returns_lift with (a := (B, t_dim)); [|reflexivity].
    destruct Ht as [_ ->]. reflexivity. }
  intros ? ->.
  eapply returns_bind with (P := is_float [B; t_dim; 1; 1; 1]).
  { eapply returns_lift.
    - apply (view_embed t B t_dim 3); [apply Ht | lia | lia].
    - split; [apply Ht | reflexivity]. }
  intros t' Ht'.
  eapply returns_bind with (P := fun p => p = (B, v_dim)).
  { apply returns_lift with (a := (B, v_dim)); [|reflexivity].
    destruct Hv as [_ ->]. reflexivity. }
  intros ? ->.
  eapply returns_bind with (P := is_float [B; v_dim; 1; 1; 1]).
  { eapply returns_lift.
    - apply (view_embed v B v_dim 3); [apply Hv | lia | lia].
    - split; [apply Hv | reflexivity]. }
  intros v' Hv'.
  eapply returns_bind with (P := fun p => p = (B, in_dim, 8 * d, 8 * h, 8 * w)).
  { apply returns_lift with (a := (B, in_dim, 8 * d, 8 * h, 8 * w)); [|reflexivity].
    destruct Hx as [_ ->]. reflexivity. }
  intros ? ->.
  (* x0 = self.conv0(x) *)
  eapply returns_bind with (P := is_float [B; dims0; 8 * d; 8 * h; 8 * w]).
  { pose proof (returns_Conv_forward3 K (f3_conv0 net) x B (8 * d) (8 * h) (8 * w)
                  (8 * d) (8 * h) (8 * w)) as Hc.
    rewrite H0 in Hc. apply Hc; try assumption; try reflexivity;
      apply conv_out_dim_same; cbn; (reflexivity || lia). }
  intros x0 Hx0.
  (* x1 = self.conv2(self.conv1(x0, t, v), t, v) *)
  eapply returns_bind with (P := is_float [B; dims1; 4 * d; 4 * h; 4 * w]).
  { apply (returns_FrustumTVBlock_forward _ x0 t' v' _ _ _ _ B (8 * d) (8 * h) (8 * w) _ _ _ H1);
      try assumption; try reflexivity.
    - apply group_size_big; try assumption. cbn. nia.
    - replace (8 * d) with (2 * (4 * d)) by lia. apply conv_out_dim_half; cbn; (reflexivity || lia).
    - replace (8 * h) with (2 * (4 * h)) by lia. apply conv_out_dim_half; cbn; (reflexivity || lia).
    - replace (8 * w) with (2 * (4 * w)) by lia. apply conv_out_dim_half; cbn; (reflexivity || lia). }
  intros y1 Hy1.
  eapply returns_bind with (P := is_float [B; dims1; 4 * d; 4 * h; 4 * w]).
  { apply (returns_FrustumTVBlock_forward _ y1 t' v' _ _ _ _ B (4 * d) (4 * h) (4 * w) _ _ _ H2);
      try assumption; try reflexivity.
    - apply group_size_big; try assumption. cbn. nia.
    - apply conv_out_dim_same; cbn; (reflexivity || lia).
    - apply conv_out_dim_same; cbn; (reflexivity || lia).
    - apply conv_out_dim_same; cbn; (reflexivity || lia). }
  intros x1 Hx1.
  (* x2 = self.conv4(self.conv3(x1, t, v), t, v) *)
  eapply returns_bind with (P := is_float [B; dims2; 2 * d; 2 * h; 2 * w]).
  { apply (returns_FrustumTVBlock_forward _ x1 t' v' _ _ _ _ B (4 * d) (4 * h) (4 * w) _ _ _ H3);
      try assumption; try reflexivity.
    - apply group_size_big; try assumption. cbn. nia.
    - replace (4 * d) with (2 * (2 * d)) by lia. apply conv_out_dim_half; cbn; (reflexivity || lia).
    - replace (4 * h) with (2 * (2 * h)) by lia. apply conv_out_dim_half; cbn; (reflexivity || lia).
    - replace (4 * w) with (2 * (2 * w)) by lia. apply conv_out_dim_half; cbn; (reflexivity || lia). }
  intros y2 Hy2.
  eapply returns_bind with (P := is_float [B; dims2; 2 * d; 2 * h; 2 * w]).
  { apply (returns_FrustumTVBlock_forward _ y2 t' v' _ _ _ _ B (2 * d) (2 * h) (2 * w) _ _ _ H4);
      try assumption; try reflexivity.
    - apply group_size_big; try assumption. cbn. nia.
    - apply conv_out_dim_same; cbn; (reflexivity || lia).
    - apply conv_out_dim_same; cbn; (reflexivity || lia).
    - apply conv_out_dim_same; cbn; (reflexivity || lia). }
  intros x2 Hx2.
  (* x3 = self.conv6(self.conv5(x2, t, v), t, v) *)
  eapply returns_bind with (P := is_float [B; dims3; d; h; w]).
  { apply (returns_FrustumTVBlock_forward _ x2 t' v' _ _ _ _ B (2 * d) (2 * h) (2 * w) _ _ _ H5);
      try assumption; try reflexivity.
    - apply group_size_big; try assumption. cbn. nia.
    - apply conv_out_dim_half; cbn; (reflexivity || lia).
    - apply conv_out_dim_half; cbn; (reflexivity || lia).
    - apply conv_out_dim_half; cbn; (reflexivity || lia). }
  intros y3 Hy3.
  eapply returns_bind with (P := is_float [B; dims3; d; h; w]).
  { apply (returns_FrustumTVBlock_forward _ y3 t' v' _ _ _ _ B d h w _ _ _ H6);
      try assumption; try reflexivity.
    - apply group_size_ok; try assumption; cbn; [nia|].
      replace (d * (h * (w * 1))) with (d * h * w) by lia. exact coarsest_group.
    - apply conv_out_dim_same; cbn; (reflexivity || lia).
    - apply conv_out_dim_same; cbn; (reflexivity || lia).
    - apply conv_out_dim_same; cbn; (reflexivity || lia). }
  intros x3 Hx3.
  (* x2 = self.up0(x3, t, v) + x2 *)
  eapply returns_bind with (P := is_float [B; dims2; 2 * d; 2 * h; 2 * w]).
  { apply (returns_FrustumTVBlock_forward _ x3 t' v' _ _ _ _ B d h w _ _ _ Hu0);
      try assumption; try reflexivity.
    - apply group_size_ok; try assumption; cbn; [nia|].
      replace (d * (h * (w * 1))) with (d * h * w) by lia. exact coarsest_group.
    - apply conv_out_dim_double; reflexivity.
    - apply conv_out_dim_double; reflexivity.
    - apply conv_out_dim_double; reflexivity. }
  intros u0 Hu0'.
  eapply returns_bind; [exact (returns_add _ _ _ _ _ Hu0' Hx2 (broadcast_shapes_refl _))|].
  intros x2' Hx2'.
  (* x1 = self.up1(x2, t, v) + x1 *)
  eapply returns_bind with (P := is_float [B; dims1; 4 * d; 4 * h; 4 * w]).
  { pose proof (returns_FrustumTVBlock_forward _ x2' t' v' _ _ _ _ B (2 * d) (2 * h) (2 * w)
                  (2 * (2 * d)) (2 * (2 * h)) (2 * (2 * w)) Hu1) as Hb.
    replace (4 * d) with (2 * (2 * d)) by lia. replace (4 * h) with (2 * (2 * h)) by lia.
    replace (4 * w) with (2 * (2 * w)) by lia.
    apply Hb; try assumption; try reflexivity; try (apply conv_out_dim_double; reflexivity).
    apply group_size_big; try assumption. cbn. nia. }
  intros u1 Hu1'.
  eapply returns_bind; [exact (returns_add _ _ _ _ _ Hu1' Hx1 (broadcast_shapes_refl _))|].
  intros x1' Hx1'.
  (* x0 = self.up2(x1, t, v) + x0 *)
  eapply returns_bind with (P := is_float [B; dims0; 8 * d; 8 * h; 8 * w]).
  { pose proof (returns_FrustumTVBlock_forward _ x1' t' v' _ _ _ _ B (4 * d) (4 * h) (4 * w)
                  (2 * (4 * d)) (2 * (4 * h)) (2 * (4 * w)) Hu2) as Hb.
    replace (8 * d) with (2 * (4 * d)) by lia. replace (8 * h) with (2 * (4 * h)) by lia.
    replace (8 * w) with (2 * (4 * w)) by lia.
    apply Hb; try assumption; try reflexivity; try (apply conv_out_dim_double; reflexivity).
    apply group_size_big; try assumption. cbn. nia. }
  intros u2 Hu2'.
  eapply returns_bind; [exact (returns_add _ _ _ _ _ Hu2' Hx0 (broadcast_shapes_refl _))|].
  intros x0' Hx0'.
  apply returns_ret.
  replace (8 * w / 8) with w by (apply Z.div_unique_exact; lia).
  replace (8 * w / 4) with (2 * w) by (apply Z.div_unique_exact; lia).
  replace (8 * w / 2) with (4 * w) by (apply Z.div_unique_exact; lia).
  split; [|repeat split].
  - rewrite !map_size_insert_None; [rewrite map_size_empty; reflexivity | ..];
      repeat (rewrite lookup_insert_ne by lia); apply lookup_empty.
  - exists x0'. split; [|exact Hx0'].
    repeat (rewrite lookup_insert_ne by lia). apply lookup_insert_eq.
  - exists x1'. split; [|exact Hx1'].
    repeat (rewrite lookup_insert_ne by lia). apply lookup_insert_eq.
  - exists x2'. split; [|exact Hx2'].
    repeat (rewrite lookup_insert_ne by lia). apply lookup_insert_eq.
  - exists x3. split; [|exact Hx3]. apply lookup_insert_eq.
Qed.

End Pyramid.

End FrustumNet.

(** ** Exceptions *)

Section Raises.
Import Tensor Torch Python.

Lemma raises_bind {A B} (m : M A) (f : A -> M B) (e : PyError) :
  raises m e -> raises (bind m f) e.
Proof.
  intros H w. destruct (H w) as [w' E]. exists w'. unfold bind. rewrite E. reflexivity.
Qed.

Lemma raises_after {A B} (m : M A) (f : A -> M B) (P : A -> Prop) (e : PyError) :
  returns m P -> (forall a, P a -> raises (f a) e) -> raises (bind m f) e.
Proof.
  intros Hm Hf w. destruct (Hm w) as (a & w1 & E & Ha).
  destruct (Hf a Ha w1) as [w2 E2]. exists w2. unfold bind. rewrite E. exact E2.
Qed.

Lemma raises_unbound (G : gmap string PyObj) (name : string) :
  G !! name = None -> raises (load_global G name) (NameError name).
Proof. intros H w. exists w. unfold load_global. rewrite H. reflexivity. Qed.

Lemma returns_load_global (G : gmap string PyObj) (name : string) (o : PyObj) :
  G !! name = Some o -> returns (load_global G name) (fun _ => True).
Proof. intros H w. exists o, w. unfold load_global. rewrite H. split; [reflexivity | exact I]. Qed.

End Raises.

(** ** The per-view encoder [NoisyTargetViewEncoder] *)

Section Encoder.
Import Tensor Torch View_feature_extractor_net.
Context (K : Kernels).

Lemma returns_embed_conv2 (c : Conv) (t : Handle) (B i o : Z) :
  conv_spec c = mkConv 2 i o 1 1 0 0 false -> is_float [B; i; 1; 1] t ->
  returns (Conv_forward K c t) (is_float [B; o; 1; 1]).
Proof.
  intros Hc Ht.
  pose proof (returns_Conv_forward2 K c t B 1 1 1 1) as H.
  rewrite Hc in H. cbn [in_channels out_channels rank] in H.
  apply H; try assumption; try reflexivity;
    apply conv_out_dim_pointwise; cbn; (reflexivity || lia).
Qed.

Lemma returns_same_conv2 (c : Conv) (x : Handle) (B i o H W : Z) :
  conv_spec c = mkConv 2 i o 3 1 1 0 false -> 1 <= H -> 1 <= W -> is_float [B; i; H; W] x ->
  returns (Conv_forward K c x) (is_float [B; o; H; W]).
Proof.
  intros Hc HH HW Hx.
  pose proof (returns_Conv_forward2 K c x B H W H W) as Hr.
  rewrite Hc in Hr. cbn [in_channels out_channels rank] in Hr.
  apply Hr; try assumption; try reflexivity;
    apply conv_out_dim_same; cbn; (reflexivity || lia).
Qed.

Lemma returns_norm_act_conv (ls : list Layer) (x : Handle) (dim out B H W : Z) :
  norm_act_conv ls dim out -> dim mod 8 = 0 -> B * dim / 8 * (H * W) <> 1 ->
  1 <= H -> 1 <= W -> is_float [B; dim; H; W] x ->
  returns (Sequential_forward K ls x) (is_float [B; out; H; W]).
Proof.
  intros (n & c & -> & Hg & Hc & Hcv) Hm Hn HH HW Hx. cbn [Sequential_forward Layer_forward].
  pose proof (returns_GroupNorm_forward K n x B [H; W]) as Hgn.
  rewrite Hg, Hc in Hgn.
  eapply returns_bind.
  { apply Hgn; [exact Hx | cbn; rewrite Z.mul_1_r; exact Hn | exact Hm]. }
  intros y Hy.
  eapply returns_bind; [apply returns_SiLU_forward; exact Hy|]. intros s Hs.
  eapply returns_bind; [exact (returns_same_conv2 c s B dim out H W Hcv HH HW Hs)|].
  intros z Hz. apply returns_ret, Hz.
Qed.

Lemma Sequential_forward_app (l1 l2 : list Layer) (x : Handle) (w : World) :
  Sequential_forward K (l1 ++ l2) x w =
  bind (Sequential_forward K l1 x) (Sequential_forward K l2) w.
Proof.
  revert x w. induction l1 as [|l l1 IH]; intros x w; cbn [Sequential_forward app].
  - reflexivity.
  - unfold bind in *. destruct (Layer_forward K l x w) as [[y|e] w1]; [|reflexivity].
    apply IH.
Qed.

Lemma returns_ext {A} (m1 m2 : M A) (P : A -> Prop) :
  (forall w, m1 w = m2 w) -> returns m2 P -> returns m1 P.
Proof. intros E H w. rewrite E. apply H. Qed.

Lemma returns_Image2DResBlockWithTV_forward (blk : Image2DResBlockWithTV) (x t v : Handle)
    (dim tdim vdim B H W : Z) :
  Image2DResBlockWithTV_is blk dim tdim vdim ->
  dim mod 8 = 0 -> B * dim / 8 * (H * W) <> 1 -> 1 <= H -> 1 <= W ->
  is_float [B; dim; H; W] x -> is_float [B; tdim; 1; 1] t -> is_float [B; vdim; 1; 1] v ->
  returns (Image2DResBlockWithTV_forward K blk x t v) (is_float [B; dim; H; W]).
Proof.
  intros (Hte & Hve & l1 & l2 & Hl & H1 & H2) Hm Hn HH HW Hx Ht Hv.
  unfold Image2DResBlockWithTV_forward.
  eapply returns_bind; [exact (returns_embed_conv2 _ t B tdim dim Hte Ht)|]. intros te Hte'.
  eapply returns_bind.
  { eapply returns_add; [exact Hx | exact Hte' | apply (broadcast_shapes_embed B dim [H; W])]. }
  intros a Ha.
  eapply returns_bind; [exact (returns_embed_conv2 _ v B vdim dim Hve Hv)|]. intros ve Hve'.
  eapply returns_bind.
  { eapply returns_add; [exact Ha | exact Hve' | apply (broadcast_shapes_embed B dim [H; W])]. }
  intros b Hb.
  eapply returns_bind with (P := is_float [B; dim; H; W]).
  { rewrite Hl. eapply returns_ext; [intros w; apply Sequential_forward_app|].
    eapply returns_bind; [exact (returns_norm_act_conv l1 b dim dim B H W H1 Hm Hn HH HW Hb)|].
    intros y Hy. exact (returns_norm_act_conv l2 y dim dim B H W H2 Hm Hn HH HW Hy). }
  intros c Hc.
  exact (returns_add _ _ _ _ _ Hx Hc (broadcast_shapes_refl _)).
Qed.

Lemma returns_NoisyTargetViewEncoder_forward (enc : NoisyTargetViewEncoder) (x t v : Handle)
    (td vd run out B H W : Z) :
  NoisyTargetViewEncoder_is enc td vd run out ->
  run mod 8 = 0 -> B * run / 8 * (H * W) <> 1 -> 0 <= B -> 0 <= td -> 0 <= vd ->
  1 <= H -> 1 <= W ->
  is_float [B; 4; H; W] x -> is_float [B; td] t -> is_float [B; vd] v ->
  returns (NoisyTargetViewEncoder_forward K enc x t v) (is_float [B; out; H; W]).
Proof.
  intros (Hi & H0 & H1 & H2 & Hf) Hm Hn HB Htd Hvd HH HW Hx Ht Hv.
  unfold NoisyTargetViewEncoder_forward.
  eapply returns_bind with (P := fun p => p = (B, td)).
  { apply returns_lift with (a := (B, td)); [|reflexivity]. destruct Ht as [_ ->]. reflexivity. }
  intros ? ->.
  eapply returns_bind with (P := is_float [B; td; 1; 1]).
  { eapply returns_lift.
    - apply (view_embed t B td 2); [apply Ht | lia | lia].
    - split; [apply Ht | reflexivity]. }
  intros t' Ht'.
  eapply returns_bind with (P := fun p => p = (B, vd)).
  { apply returns_lift with (a := (B, vd)); [|reflexivity]. destruct Hv as [_ ->]. reflexivity. }
  intros ? ->.
  eapply returns_bind with (P := is_float [B; vd; 1; 1]).
  { eapply returns_lift.
    - apply (view_embed v B vd 2); [apply Hv | lia | lia].
    - split; [apply Hv | reflexivity]. }
  intros v' Hv'.
  eapply returns_bind; [exact (returns_same_conv2 _ x B 4 run H W Hi HH HW Hx)|]. intros x0 Hx0.
  eapply returns_bind;
    [exact (returns_Image2DResBlockWithTV_forward _ x0 t' v' run td vd B H W H0 Hm Hn HH HW Hx0 Ht' Hv')|].
  intros x1 Hx1.
  eapply returns_bind;
    [exact (returns_Image2DResBlockWithTV_forward _ x1 t' v' run td vd B H W H1 Hm Hn HH HW Hx1 Ht' Hv')|].
  intros x2 Hx2.
  eapply returns_bind;
    [exact (returns_Image2DResBlockWithTV_forward _ x2 t' v' run td vd B H W H2 Hm Hn HH HW Hx2 Ht' Hv')|].
  intros x3 Hx3.
  eapply returns_bind; [exact (returns_norm_act_conv _ x3 run out B H W Hf Hm Hn HH HW Hx3)|].
  intros x4 Hx4. apply returns_ret, Hx4.
Qed.

(** Constructors. *)

Lemma returns_Image2DResBlockWithTV_init (dim tdim vdim : Z) :
  0 <= dim -> 0 <= tdim -> 0 <= vdim -> dim mod 8 = 0 ->
  returns (Image2DResBlockWithTV_init K dim tdim vdim)
    (fun blk => Image2DResBlockWithTV_is blk dim tdim vdim).
Proof.
  intros Hd Ht Hv Hm. unfold Image2DResBlockWithTV_init, Conv2d.
  eapply returns_bind; [apply returns_Conv_init; cbn; lia|]. intros te Hte.
  eapply returns_bind; [apply returns_Conv_init; cbn; lia|]. intros ve Hve.
  eapply returns_bind; [apply returns_GroupNorm_init; [exact Hm | lia]|]. intros n0 [Hg0 Hc0].
  eapply returns_bind; [apply returns_Conv_init; cbn; lia|]. intros c0 Hcv0.
  eapply returns_bind; [apply returns_GroupNorm_init; [exact Hm | lia]|]. intros n1 [Hg1 Hc1].
  eapply returns_bind; [apply returns_Conv_init; cbn; lia|]. intros c1 Hcv1.
  apply returns_ret. split; [exact Hte|]. split; [exact Hve|].
  exists [LNorm n0; LSiLU (mkSiLU true); LConv c0], [LNorm n1; LSiLU (mkSiLU true); LConv c1].
  split; [reflexivity|]. split.
  - exists n0, c0. repeat split; assumption.
  - exists n1, c1. repeat split; assumption.
Qed.

Lemma returns_NoisyTargetViewEncoder_init (td vd run out : Z) :
  0 <= td -> 0 <= vd -> 0 <= run -> 0 <= out -> run mod 8 = 0 ->
  returns (NoisyTargetViewEncoder_init K td vd run out)
    (fun enc => NoisyTargetViewEncoder_is enc td vd run out).
Proof.
  intros Ht Hv Hr Ho Hm. unfold NoisyTargetViewEncoder_init, Conv2d.
  eapply returns_bind; [apply returns_Conv_init; cbn; lia|]. intros ic Hic.
  eapply returns_bind; [apply returns_Image2DResBlockWithTV_init; assumption|]. intros b0 Hb0.
  eapply returns_bind; [apply returns_Image2DResBlockWithTV_init; assumption|]. intros b1 Hb1.
  eapply returns_bind; [apply returns_Image2DResBlockWithTV_init; assumption|]. intros b2 Hb2.
  eapply returns_bind; [apply returns_GroupNorm_init; [exact Hm | lia]|]. intros n [Hg Hc].
  eapply returns_bind; [apply returns_Conv_init; cbn; lia|]. intros c Hcv.
  apply returns_ret. split; [exact Hic|]. split; [exact Hb0|]. split; [exact Hb1|].
  split; [exact Hb2|]. exists n, c. repeat split; assumption.
Qed.

Lemma returns_SpatialTimeBlock_init (x_in_dim t_in_dim out_dim stride : Z) :
  0 <= x_in_dim -> 0 <= t_in_dim -> 0 <= out_dim -> x_in_dim mod 8 = 0 ->
  returns (SpatialTimeBlock_init K x_in_dim t_in_dim out_dim stride) (fun _ => True).
Proof.
  intros Hx Ht Ho Hm. unfold SpatialTimeBlock_init, Conv3d.
  eapply returns_bind; [apply returns_Conv_init; cbn; lia|]. intros tc _.
  eapply returns_bind; [apply returns_GroupNorm_init; [exact Hm | lia]|]. intros bn _.
  eapply returns_bind; [apply returns_Conv_init; cbn; lia|]. intros cv _.
  apply returns_ret. exact I.
Qed.

Lemma returns_SpatialUpTimeBlock_init (x_in_dim t_in_dim out_dim : Z) :
  0 <= x_in_dim -> 0 <= t_in_dim -> 0 <= out_dim -> x_in_dim mod 8 = 0 ->
  returns (SpatialUpTimeBlock_init K x_in_dim t_in_dim out_dim) (fun _ => True).
Proof.
  intros Hx Ht Ho Hm. unfold SpatialUpTimeBlock_init, Conv3d, ConvTranspose3d.
  eapply returns_bind; [apply returns_Conv_init; cbn; lia|]. intros tc _.
  eapply returns_bind; [apply returns_GroupNorm_init; [exact Hm | lia]|]. intros bn _.
  eapply returns_bind; [apply returns_Conv_init; cbn; lia|]. intros cv _.
  apply returns_ret. exact I.
Qed.

Lemma returns_SpatialTime3DNet_init (time_dim input_dim : Z) :
  0 <= time_dim -> 0 <= input_dim ->
  returns (SpatialTime3DNet_init K time_dim input_dim (64, 128, 256, 512)) (fun _ => True).
Proof.
  intros Ht Hi. unfold SpatialTime3DNet_init, Conv3d.
  eapply returns_bind; [apply returns_Conv_init; cbn; lia|]. intros ic _.
  do 10 (eapply returns_bind;
         [apply returns_SpatialTimeBlock_init; (lia || reflexivity)|]; intros ? _).
  do 3 (eapply returns_bind;
        [apply returns_SpatialUpTimeBlock_init; (lia || reflexivity)|]; intros ? _).
  apply returns_ret. exact I.
Qed.

End Encoder.

(** ** Indexing the camera tables *)

Section Indexing.
Import Tensor Torch Python.

Lemma bind_ok {A B} (m : M A) (f : A -> M B) (w w' : World) (a : A) :
  m w = (Ok a, w') -> bind m f w = f a w'.
Proof. intros H. unfold bind. rewrite H. reflexivity. Qed.

Lemma bind_raise {A B} (m : M A) (f : A -> M B) (w w' : World) (e : PyError) :
  m w = (Raise e, w') -> bind m f w = (Raise e, w').
Proof. intros H. unfold bind. rewrite H. reflexivity. Qed.

Lemma index0_in_range (x : Tensor.t) (N i : Z) (sh : list Z) :
  shape x = N :: sh -> - N <= i < N -> exists y, index0 x i = Ok y /\ shape y = sh.
Proof.
  intros Hs Hi. unfold index0. rewrite Hs.
  destruct (Z.leb_spec (- N) i); [|lia]. destruct (Z.ltb_spec i N); [|lia].
  cbn [andb]. eexists. split; reflexivity.
Qed.

Lemma index0_out_of_range (x : Tensor.t) (N i : Z) (sh : list Z) :
  shape x = N :: sh -> ~ (- N <= i < N) -> index0 x i = Raise IndexError.
Proof.
  intros Hs Hi. unfold index0. rewrite Hs.
  destruct (Z.leb_spec (- N) i); destruct (Z.ltb_spec i N); cbn [andb]; try reflexivity. lia.
Qed.

Lemma rmap_index0_in_range (x : Tensor.t) (N : Z) (sh : list Z) (idx : list Z) :
  shape x = N :: sh -> Forall (fun i => - N <= i < N) idx ->
  exists rows, rmap (index0 x) idx = Ok rows.
Proof.
  intros Hs. induction 1 as [|i idx Hi _ IH]; cbn [rmap].
  - eexists. reflexivity.
  - destruct (index0_in_range x N i sh Hs Hi) as (y & -> & _).
    destruct IH as [rows ->]. cbn [rbind]. eexists. reflexivity.
Qed.

Lemma index_rows_in_range (x : Tensor.t) (N : Z) (sh ish : list Z) (idx : list Z) :
  shape x = N :: sh -> Forall (fun i => - N <= i < N) idx ->
  exists y, index_rows x ish idx = Ok y /\ shape y = ish ++ sh.
Proof.
  intros Hs Hi. unfold index_rows. rewrite Hs.
  destruct (rmap_index0_in_range x N sh idx Hs Hi) as [rows ->].
  cbn [rbind]. eexists. split; reflexivity.
Qed.

Lemma rmap_index0_out_of_range (x : Tensor.t) (N : Z) (sh : list Z) (idx : list Z) :
  shape x = N :: sh -> Exists (fun i => ~ (- N <= i < N)) idx ->
  rmap (index0 x) idx = Raise IndexError.
Proof.
  intros Hs. induction 1 as [i idx Hi | i idx _ IH]; cbn [rmap].
  - rewrite (index0_out_of_range x N i sh Hs Hi). reflexivity.
  - rewrite IH. unfold index0. rewrite Hs. destruct (_ && _); reflexivity.
Qed.

(** Reading an old tensor after new storages were added. *)
Lemma long_value_app (w : World) (h : Handle) (l : list Storage) (r : N) :
  (cell h < length (heap w))%nat ->
  long_value (mkWorld (heap w ++ l) r) h = long_value w h.
Proof.
  intros H. unfold long_value. cbn [heap]. rewrite app_nth1 by exact H. reflexivity.
Qed.

Lemma value_app (w : World) (h : Handle) (l : list Storage) (r : N) :
  (cell h < length (heap w))%nat ->
  value (mkWorld (heap w ++ l) r) h = value w h.
Proof.
  intros H. unfold value. cbn [heap]. rewrite app_nth1 by exact H. reflexivity.
Qed.

Lemma index_ok (w : World) (x idx : Handle) (N : Z) (sh : list Z) :
  dtype x = Float -> dtype idx = Long -> sizes x = N :: sh ->
  Forall (fun i => - N <= i < N) (long_value w idx) ->
  exists y, index x idx w =
    (Ok (mkHandle (length (heap w)) (sizes idx ++ sh) Float (seq 0 (length (data y)))),
     mkWorld (heap w ++ [FloatStorage (data y)]) (rng w)).
Proof.
  intros Hx Hi Hs Hr. unfold index. rewrite Hx, Hi.
  destruct (index_rows_in_range (value w x) N sh (sizes idx) (long_value w idx) Hs Hr)
    as (y & E & Hy).
  exists y. unfold bind, lift. rewrite E. unfold new. rewrite Hy. reflexivity.
Qed.

Lemma index_out_of_range (w : World) (x idx : Handle) (N : Z) (sh : list Z) :
  dtype x = Float -> dtype idx = Long -> sizes x = N :: sh ->
  Exists (fun i => ~ (- N <= i < N)) (long_value w idx) ->
  index x idx w = (Raise IndexError, w).
Proof.
  intros Hx Hi Hs Hr. unfold index. rewrite Hx, Hi.
  unfold bind, lift, index_rows. cbn [shape value]. rewrite Hs.
  rewrite (rmap_index0_out_of_range (value w x) N sh _ Hs Hr). reflexivity.
Qed.

End Indexing.

(** ** The frame of a call *)

Section Frame.
Import Tensor Torch Python View_feature_extractor_net.

Lemma stable_refl (n0 : nat) (w : World) : (n0 <= length (heap w))%nat -> stable n0 w w.
Proof. intros H. repeat split. exact H. Qed.

Lemma stable_trans (n0 : nat) (w1 w2 w3 : World) :
  stable n0 w1 w2 -> stable n0 w2 w3 -> stable n0 w1 w3.
Proof.
  intros (E1 & L1 & R1) (E2 & L2 & R2). repeat split; [congruence | exact L2 | congruence].
Qed.

Lemma keeps_ret {A} (n0 : nat) (a : A) (P : A -> Prop) : P a -> keeps n0 (ret a) P.
Proof.
  intros H w Hw. split; [apply stable_refl, Hw|]. cbn. intros b [= <-]. exact H.
Qed.

Lemma keeps_raise {A} (n0 : nat) (e : PyError) (P : A -> Prop) : keeps n0 (raise e) P.
Proof. intros w Hw. split; [apply stable_refl, Hw|]. cbn. intros b [=]. Qed.

Lemma keeps_lift {A} (n0 : nat) (r : result A) (P : A -> Prop) :
  (forall a, r = Ok a -> P a) -> keeps n0 (lift r) P.
Proof. intros H w Hw. split; [apply stable_refl, Hw|]. cbn. exact H. Qed.

Lemma keeps_bind {A B} (n0 : nat) (m : M A) (f : A -> M B) (P : A -> Prop) (Q : B -> Prop) :
  keeps n0 m P -> (forall a, P a -> keeps n0 (f a) Q) -> keeps n0 (bind m f) Q.
Proof.
  intros Hm Hf w Hw. destruct (Hm w Hw) as [S1 H1]. unfold bind.
  destruct (m w) as [[a|e] w1]; cbn in *.
  - destruct (Hf a (H1 a eq_refl) w1 (proj1 (proj2 S1))) as [S2 H2].
    split; [eapply stable_trans; eassumption | exact H2].
  - split; [exact S1 | intros b [=]].
Qed.

Lemma keeps_mono {A} (n0 : nat) (m : M A) (P Q : A -> Prop) :
  keeps n0 m P -> (forall a, P a -> Q a) -> keeps n0 m Q.
Proof. intros Hm H w Hw. destruct (Hm w Hw) as [S1 H1]. split; auto. Qed.

Lemma keeps_state_dep {A} (n0 : nat) (m : World -> M A) (P : A -> Prop) :
  (forall w0, keeps n0 (m w0) P) -> keeps n0 (fun w => m w w) P.
Proof. intros H w Hw. exact (H w w Hw). Qed.

Lemma keeps_new (n0 : nat) (x : Tensor.t) : keeps n0 (new x) (fresh n0).
Proof.
  intros w Hw. cbn. split.
  - repeat split; cbn.
    + rewrite firstn_app. replace (n0 - length (heap w))%nat with O by lia.
      cbn. rewrite app_nil_r. reflexivity.
    + rewrite length_app. lia.
  - intros a [= <-]. exact Hw.
Qed.

Lemma keeps_lift_new (n0 : nat) (r : result Tensor.t) :
  keeps n0 (bind (lift r) new) (fresh n0).
Proof.
  eapply keeps_bind; [apply keeps_lift with (P := fun _ => True); auto|].
  intros y _. apply keeps_new.
Qed.

Lemma keeps_apply1 (n0 : nat) (f : Tensor.t -> result Tensor.t) (x : Handle) :
  keeps n0 (apply1 f x) (fresh n0).
Proof.
  intros w Hw. unfold apply1. destruct (dtype x).
  - exact (keeps_lift_new n0 _ w Hw).
  - exact (keeps_raise n0 RuntimeError _ w Hw).
Qed.

Lemma keeps_apply2 (n0 : nat) (f : Tensor.t -> Tensor.t -> result Tensor.t) (x y : Handle) :
  keeps n0 (apply2 f x y) (fresh n0).
Proof.
  intros w Hw. unfold apply2. destruct (dtype x), (dtype y);
    first [exact (keeps_lift_new n0 _ w Hw) | exact (keeps_raise n0 RuntimeError _ w Hw)].
Qed.

(** An in-place write is harmless on a storage of the call's own. *)
Lemma keeps_write (n0 : nat) (h : Handle) (ys : list R) :
  fresh n0 h -> keeps n0 (write h ys) (fun _ => True).
Proof.
  intros Hf w Hw. cbn. split; [|auto]. repeat split; cbn.
  - apply list_eq. intros i.
    rewrite !lookup_take. destruct (decide (i < n0)%nat) as [Hi|Hi]; [|reflexivity].
    rewrite list_lookup_alter_ne; [reflexivity|]. unfold fresh in Hf. lia.
  - rewrite length_alter. exact Hw.
Qed.

Context (K : Kernels).

Lemma keeps_Conv_forward (n0 : nat) (c : Conv) (x : Handle) :
  keeps n0 (Conv_forward K c x) (fresh n0).
Proof. intros w Hw. exact (keeps_apply1 n0 _ x w Hw). Qed.

Lemma keeps_GroupNorm_forward (n0 : nat) (g : GroupNorm) (x : Handle) :
  keeps n0 (GroupNorm_forward K g x) (fresh n0).
Proof. intros w Hw. exact (keeps_apply1 n0 _ x w Hw). Qed.

(** The in-place activation needs its input to be a tensor of the call. *)
Lemma keeps_SiLU_forward (n0 : nat) (s : SiLU) (x : Handle) :
  fresh n0 x -> keeps n0 (SiLU_forward K s x) (fresh n0).
Proof.
  intros Hx w Hw. unfold SiLU_forward. destruct (dtype x).
  - destruct (inplace s).
    + refine (keeps_bind n0 _ _ (fun _ => True) _ _ _ w Hw).
      * apply keeps_write, Hx.
      * intros _ _. apply keeps_ret, Hx.
    + exact (keeps_new n0 _ w Hw).
  - exact (keeps_raise n0 RuntimeError _ w Hw).
Qed.

Lemma keeps_add (n0 : nat) (x y : Handle) : keeps n0 (add x y) (fresh n0).
Proof. apply keeps_apply2. Qed.

Lemma keeps_Layer_forward (n0 : nat) (l : Layer) (x : Handle) :
  fresh n0 x -> keeps n0 (Layer_forward K l x) (fresh n0).
Proof.
  intros Hx. destruct l; cbn.
  - apply keeps_Conv_forward.
  - apply keeps_GroupNorm_forward.
  - apply keeps_SiLU_forward, Hx.
Qed.

Lemma keeps_Sequential_forward (n0 : nat) (ls : list Layer) (x : Handle) :
  fresh n0 x -> keeps n0 (Sequential_forward K ls x) (fresh n0).
Proof.
  revert x. induction ls as [|l ls IH]; intros x Hx; cbn.
  - apply keeps_ret, Hx.
  - eapply keeps_bind; [apply keeps_Layer_forward, Hx|]. exact IH.
Qed.

Ltac frame_step :=
  first
    [ apply keeps_Conv_forward | apply keeps_GroupNorm_forward | apply keeps_add
    | apply keeps_apply1 | apply keeps_apply2 | apply keeps_new
    | apply keeps_SiLU_forward; assumption
    | apply keeps_Sequential_forward; assumption
    | apply keeps_lift with (P := fun _ => True); intros; exact I ].

Lemma keeps_Image2DResBlockWithTV_forward (n0 : nat) (self : Image2DResBlockWithTV) (x t v : Handle) :
  keeps n0 (Image2DResBlockWithTV_forward K self x t v) (fresh n0).
Proof.
  unfold Image2DResBlockWithTV_forward.
  eapply keeps_bind; [frame_step|]. intros te Hte.
  eapply keeps_bind; [frame_step|]. intros a Ha.
  eapply keeps_bind; [frame_step|]. intros ve Hve.
  eapply keeps_bind; [frame_step|]. intros b Hb.
  eapply keeps_bind; [frame_step|]. intros c Hc.
  frame_step.
Qed.

Lemma keeps_NoisyTargetViewEncoder_forward (n0 : nat) (self : NoisyTargetViewEncoder) (x t v : Handle) :
  keeps n0 (NoisyTargetViewEncoder_forward K self x t v) (fresh n0).
Proof.
  unfold NoisyTargetViewEncoder_forward.
  eapply keeps_bind; [frame_step|]. intros [B DT] _.
  eapply keeps_bind; [frame_step|]. intros t' _.
  eapply keeps_bind; [frame_step|]. intros [B' DV] _.
  eapply keeps_bind; [frame_step|]. intros v' _.
  eapply keeps_bind; [frame_step|]. intros x0 Hx0.
  eapply keeps_bind; [apply keeps_Image2DResBlockWithTV_forward|]. intros x1 Hx1.
  eapply keeps_bind; [apply keeps_Image2DResBlockWithTV_forward|]. intros x2 Hx2.
  eapply keeps_bind; [apply keeps_Image2DResBlockWithTV_forward|]. intros x3 Hx3.
  eapply keeps_bind; [frame_step|]. intros x4 Hx4.
  apply keeps_ret, Hx4.
Qed.

Lemma keeps_SpatialTimeBlock_forward (n0 : nat) (self : SpatialTimeBlock) (x t : Handle) :
  keeps n0 (SpatialTimeBlock_forward K self x t) (fresh n0).
Proof.
  unfold SpatialTimeBlock_forward.
  eapply keeps_bind; [frame_step|]. intros tc _.
  eapply keeps_bind; [frame_step|]. intros x1 _.
  eapply keeps_bind; [frame_step|]. intros n Hn.
  eapply keeps_bind; [frame_step|]. intros s _.
  frame_step.
Qed.

Lemma keeps_SpatialTime3DNet_forward (n0 : nat) (self : SpatialTime3DNet) (x t : Handle) :
  keeps n0 (SpatialTime3DNet_forward K self x t) (fresh n0).
Proof.
  unfold SpatialTime3DNet_forward.
  eapply keeps_bind; [frame_step|]. intros [B C] _.
  eapply keeps_bind; [frame_step|]. intros t' _.
  eapply keeps_bind; [frame_step|]. intros x0 _.
  repeat (eapply keeps_bind; [first [apply keeps_SpatialTimeBlock_forward | frame_step]|]; intros ? ?).
  apply keeps_ret. assumption.
Qed.

Lemma keeps_FrustumTVBlock_forward (n0 : nat) (self : FrustumTVBlock) (x t v : Handle) :
  keeps n0 (FrustumTVBlock_forward K self x t v) (fresh n0).
Proof.
  unfold FrustumTVBlock_forward.
  eapply keeps_bind; [frame_step|]. intros tc _.
  eapply keeps_bind; [frame_step|]. intros a _.
  eapply keeps_bind; [frame_step|]. intros vc _.
  eapply keeps_bind; [frame_step|]. intros x1 _.
  eapply keeps_bind; [frame_step|]. intros n Hn.
  eapply keeps_bind; [frame_step|]. intros s _.
  frame_step.
Qed.

Lemma keeps_FrustumTV3DNet_forward (n0 : nat) (self : FrustumTV3DNet) (x t v : Handle) :
  keeps n0 (FrustumTV3DNet_forward K self x t v) (fun _ => True).
Proof.
  unfold FrustumTV3DNet_forward.
  eapply keeps_bind; [frame_step|]. intros [B DT] _.
  eapply keeps_bind; [frame_step|]. intros t' _.
  eapply keeps_bind; [frame_step|]. intros [B' DV] _.
  eapply keeps_bind; [frame_step|]. intros v' _.
  eapply keeps_bind; [frame_step|]. intros [[[[b c] d] h] w] _.
  repeat (eapply keeps_bind; [first [apply keeps_FrustumTVBlock_forward | frame_step]|]; intros ? ?).
  apply keeps_ret. exact I.
Qed.

Lemma keeps_index (n0 : nat) (x idx : Handle) : keeps n0 (index x idx) (fresh n0).
Proof.
  intros w Hw. unfold index. destruct (dtype x), (dtype idx);
    first [exact (keeps_lift_new n0 _ w Hw) | exact (keeps_raise n0 _ _ w Hw)].
Qed.

Lemma keeps_index_arange (n0 : nat) (x : Handle) (B TN : Z) (idx : Handle) :
  keeps n0 (index_arange x B TN idx) (fresh n0).
Proof.
  intros w Hw. unfold index_arange. destruct (dtype x), (dtype idx);
    first [exact (keeps_lift_new n0 _ w Hw) | exact (keeps_raise n0 _ _ w Hw)].
Qed.

Lemma keeps_stack (n0 : nat) (xs : list Handle) : keeps n0 (stack xs) (fresh n0).
Proof.
  intros w Hw. unfold stack. destruct (forallb _ xs);
    first [exact (keeps_lift_new n0 _ w Hw) | exact (keeps_raise n0 _ _ w Hw)].
Qed.

Lemma keeps_load_global (n0 : nat) (G : gmap string PyObj) (name : string) :
  keeps n0 (load_global G name) (fun o => G !! name = Some o).
Proof.
  unfold load_global. destruct (G !! name) as [o|]; [apply keeps_ret; reflexivity | apply keeps_raise].
Qed.

Lemma keeps_for_each {A B} (n0 : nat) (xs : list A) (body : A -> M B) :
  (forall x, keeps n0 (body x) (fun _ => True)) ->
  keeps n0 (for_each xs body) (fun _ => True).
Proof.
  intros Hb. induction xs as [|x xs IH]; cbn.
  - apply keeps_ret. exact I.
  - eapply keeps_bind; [apply Hb|]. intros y _.
    eapply keeps_bind; [apply IH|]. intros ys _. apply keeps_ret. exact I.
Qed.

Ltac frame_auto :=
  repeat (lazymatch goal with |- keeps _ (bind _ _) _ => idtac end;
          eapply keeps_bind;
          [first [ apply keeps_load_global with (name := "torch"%string)
                 | apply keeps_load_global with (name := "F"%string)
                 | apply keeps_index | apply keeps_index_arange | apply keeps_stack
                 | frame_step ]
          | intros ? ?]).

Section MainFile.
Import View_feature_extractor.
Context (G : gmap string PyObj) (HG : helpers_keep G).

Lemma keeps_construct_spatial_volume (n0 : nat) (self : SpatialVolumeNet)
    (x t_embed v_embed target_poses target_Ks : Handle) :
  keeps n0 (construct_spatial_volume K G self x t_embed v_embed target_poses target_Ks)
    (fresh n0).
Proof.
  unfold construct_spatial_volume.
  eapply keeps_bind; [frame_step|]. intros [[[[B N] c] H] W] _.
  frame_auto.
  eapply keeps_bind.
  { apply keeps_for_each. intros ni.
    frame_auto.
    eapply keeps_bind; [apply keeps_NoisyTargetViewEncoder_forward|]. intros x_ Hx_.
    frame_auto.
    eapply keeps_bind; [apply keeps_load_global|]. intros o Ho.
    frame_auto.
    eapply keeps_bind with (P := fun _ => True).
    { destruct o; try apply keeps_raise. cbn. apply (proj1 HG _ Ho). }
    intros coords _.
    frame_auto.
    apply keeps_ret. exact I. }
  intros feats _.
  frame_auto.
  apply keeps_SpatialTime3DNet_forward.
Qed.

Lemma keeps_construct_view_frustum_volume (n0 : nat) (self : SpatialVolumeNet)
    (spatial_volume t_embed v_embed poses Ks target_indices : Handle) :
  keeps n0 (construct_view_frustum_volume K G self spatial_volume t_embed v_embed poses Ks
              target_indices)
    (fun _ => True).
Proof.
  unfold construct_view_frustum_volume.
  eapply keeps_bind; [frame_step|]. intros [B TN] _.
  frame_auto.
  eapply keeps_bind; [apply keeps_load_global|]. intros o Ho.
  eapply keeps_bind with (P := fun _ => True).
  { destruct o; try apply keeps_raise. cbn. apply (proj2 HG _ Ho). }
  intros [volume_xyz volume_depth] _.
  frame_auto.
  eapply keeps_bind; [apply keeps_FrustumTV3DNet_forward|]. intros d _.
  apply keeps_ret. exact I.
Qed.

(** The first two storages [construct_view_frustum_volume] allocates are
    the near and the far plane, and nothing that follows touches them,
    however the call ends. *)
Lemma frustum_volume_builds_planes (self : SpatialVolumeNet)
    (spatial_volume t_embed v_embed poses Ks target_indices : Handle) (w : World)
    (B TN : Z) (near far : Tensor.t) :
  is_Some (G !! "torch"%string) ->
  sizes target_indices = [B; TN] ->
  near_plane self B TN (frustum_volume_size self) (frustum_volume_size self) = Ok near ->
  far_plane self B TN (frustum_volume_size self) (frustum_volume_size self) = Ok far ->
  firstn (length (heap w) + 2)
    (heap (snd (construct_view_frustum_volume K G self spatial_volume t_embed v_embed poses Ks
                  target_indices w)))
  = heap w ++ [FloatStorage (data near); FloatStorage (data far)].
Proof.
  intros [torch_ torch_bound] Hs Hnear Hfar.
  unfold construct_view_frustum_volume.
  rewrite Hs. cbn [unpack2]. unfold bind at 1. cbn [lift].
  unfold bind at 1. unfold load_global at 1. rewrite torch_bound. cbn [ret].
  rewrite Hnear. unfold bind at 1. cbn [lift].
  unfold bind at 1. cbn [new].
  unfold bind at 1. unfold load_global at 1. rewrite torch_bound. cbn [ret].
  rewrite Hfar. unfold bind at 1. cbn [lift].
  unfold bind at 1. cbn [new heap rng].
  set (w2 := mkWorld _ _).
  assert (Hw2 : heap w2 = heap w ++ [FloatStorage (data near); FloatStorage (data far)]).
  { subst w2. cbn [heap]. rewrite <- app_assoc. reflexivity. }
  assert (Hl : (length (heap w) + 2 = length (heap w2))%nat).
  { rewrite Hw2, length_app. reflexivity. }
  match goal with |- context [snd (?m w2)] =>
    assert (Hk : keeps (length (heap w2)) m (fun _ => True))
  end.
  { frame_auto.
    eapply keeps_bind; [apply keeps_load_global|]. intros o Ho.
    eapply keeps_bind with (P := fun _ => True).
    { destruct o; try apply keeps_raise. cbn. apply (proj2 HG _ Ho). }
    intros [volume_xyz volume_depth] _.
    frame_auto.
    eapply keeps_bind; [apply keeps_FrustumTV3DNet_forward|]. intros d _.
    apply keeps_ret. exact I. }
  destruct (Hk w2 (Nat.le_refl _)) as [(Hf & _ & _) _].
  rewrite Hl, Hf, firstn_all. exact Hw2.
Qed.

End MainFile.

End Frame.

(** ** Calls that cannot return *)

Section NeverReturns.
Import Tensor Torch Python.

Lemma never_returns_raise {A} (e : PyError) : never_returns (@raise A e).
Proof. intros w. exists e. reflexivity. Qed.

Lemma never_returns_bind {A B} (m : M A) (f : A -> M B) :
  never_returns m -> never_returns (bind m f).
Proof.
  intros H w. destruct (H w) as [e He]. exists e. unfold bind.
  destruct (m w) as [[a|e'] w']; cbn in *; congruence.
Qed.

Lemma never_returns_then {A B} (m : M A) (f : A -> M B) :
  (forall a, never_returns (f a)) -> never_returns (bind m f).
Proof.
  intros H w. unfold bind. destruct (m w) as [[a|e] w'].
  - apply H.
  - exists e. reflexivity.
Qed.

Lemma never_returns_unbound {B} (G : gmap string PyObj) (name : string) (f : PyObj -> M B) :
  G !! name = None -> never_returns (bind (load_global G name) f).
Proof.
  intros H. apply never_returns_bind. intros w. exists (NameError name).
  unfold load_global. rewrite H. reflexivity.
Qed.

Lemma never_returns_for_each {A B C} (xs : list A) (body : A -> M B) (k : list B -> M C) :
  (forall x, never_returns (body x)) -> never_returns (k []) ->
  never_returns (bind (for_each xs body) k).
Proof.
  intros Hb Hk. destruct xs as [|x xs].
  - intros w. exact (Hk w).
  - apply never_returns_bind. cbn [for_each]. apply never_returns_bind, Hb.
Qed.

Lemma never_returns_stack_nil {B} (f : Handle -> M B) : never_returns (bind (stack []) f).
Proof. apply never_returns_bind. intros w. exists RuntimeError. reflexivity. Qed.

Ltac never_returns_steps :=
  repeat (lazymatch goal with
          | |- never_returns (bind (load_global _ "get_warp_coordinates") _) => fail
          | |- never_returns (bind (load_global _ "create_target_volume") _) => fail
          | |- never_returns (bind (for_each _ _) _) => fail
          | |- never_returns (bind _ _) => apply never_returns_then; intros ?
          | |- never_returns (let '(_, _) := ?p in _) => destruct p
          end).

Section MainFile.
Import View_feature_extractor.
Context (K : Kernels) (G : gmap string PyObj).
Hypothesis warp_unbound : G !! "get_warp_coordinates"%string = None.
Hypothesis volume_unbound : G !! "create_target_volume"%string = None.

Lemma construct_spatial_volume_never_returns (self : SpatialVolumeNet)
    (x t_embed v_embed target_poses target_Ks : Handle) :
  never_returns (construct_spatial_volume K G self x t_embed v_embed target_poses target_Ks).
Proof.
  unfold construct_spatial_volume.
  never_returns_steps.
  apply never_returns_for_each.
  - intros ni. never_returns_steps. apply never_returns_unbound, warp_unbound.
  - apply never_returns_then. intros _. apply never_returns_stack_nil.
Qed.

Lemma construct_view_frustum_volume_never_returns (self : SpatialVolumeNet)
    (spatial_volume t_embed v_embed poses Ks target_indices : Handle) :
  never_returns (construct_view_frustum_volume K G self spatial_volume t_embed v_embed poses Ks
                   target_indices).
Proof.
  unfold construct_view_frustum_volume.
  never_returns_steps.
  apply never_returns_unbound, volume_unbound.
Qed.

End MainFile.

Lemma globals_warp_unbound : View_feature_extractor.globals !! "get_warp_coordinates"%string = None.
Proof. vm_compute. reflexivity. Qed.

Lemma globals_volume_unbound : View_feature_extractor.globals !! "create_target_volume"%string = None.
Proof. vm_compute. reflexivity. Qed.

End NeverReturns.

(** ** Target indices in [construct_view_frustum_volume] *)

Section FrustumIndices.
Import Tensor Torch Python View_feature_extractor.
Context (K : Kernels) (G : gmap string PyObj) (torch_ : PyObj).
Hypothesis torch_bound : G !! "torch"%string = Some torch_.
Hypothesis volume_unbound : G !! "create_target_volume"%string = None.

Variables (self : SpatialVolumeNet) (spatial_volume t_embed v_embed poses Ks target_indices : Handle).
Variables (w : World) (B TN N : Z) (psh ksh : list Z).
Hypothesis indices_sizes : sizes target_indices = [B; TN].
Hypothesis indices_long : dtype target_indices = Long.
Hypothesis indices_contiguous : contiguous target_indices = true.
Hypothesis indices_alive : (cell target_indices < length (heap w))%nat.
Hypothesis B_nonneg : 0 <= B.
Hypothesis TN_nonneg : 0 <= TN.
Hypothesis size_nonneg : 0 <= frustum_volume_size self.
Hypothesis poses_float : is_float (N :: psh) poses.
Hypothesis Ks_float : is_float (N :: ksh) Ks.

Lemma planes_ok :
  exists near far,
    near_plane self B TN (frustum_volume_size self) (frustum_volume_size self) = Ok near /\
    far_plane self B TN (frustum_volume_size self) (frustum_volume_size self) = Ok far.
Proof.
  unfold near_plane, far_plane, ones. cbn [forallb].
  rewrite (proj2 (Z.leb_le 0 (B * TN))) by nia.
  rewrite (proj2 (Z.leb_le 0 (frustum_volume_size self))) by exact size_nonneg.
  cbn [andb Z.leb rbind]. eexists _, _. split; reflexivity.
Qed.

Lemma flat_view_ok :
  view [B * TN] target_indices =
    Ok (mkHandle (cell target_indices) [B * TN] Long (sel target_indices)).
Proof.
  unfold view. rewrite infer_sizes_nonneg.
  - cbn [rbind]. rewrite indices_contiguous, indices_long. reflexivity.
  - cbn [forallb]. rewrite (proj2 (Z.leb_le 0 (B * TN))) by nia. reflexivity.
  - rewrite indices_sizes. cbn. lia.
Qed.

(** With every index in range the two table look-ups pass, and the call
    goes on to the geometry helper. *)
Lemma frustum_volume_reaches_helper :
  Forall (fun i => 0 <= i < N) (long_value w target_indices) ->
  exists w', construct_view_frustum_volume K G self spatial_volume t_embed v_embed poses Ks
               target_indices w
             = (Raise (NameError "create_target_volume"), w') /\
             length (heap w') = (length (heap w) + 4)%nat.
Proof.
  intros Hin.
  assert (Hin' : Forall (fun i => - N <= i < N) (long_value w target_indices)).
  { eapply Forall_impl; [exact Hin|]. cbn. intros. lia. }
  destruct planes_ok as (near & far & Hnear & Hfar).
  unfold construct_view_frustum_volume.
  rewrite indices_sizes. cbn [unpack2]. unfold bind at 1. cbn [lift].
  unfold bind at 1. unfold load_global at 1. rewrite torch_bound. cbn [ret].
  rewrite Hnear. unfold bind at 1. cbn [lift].
  unfold bind at 1. cbn [new].
  unfold bind at 1. unfold load_global at 1. rewrite torch_bound. cbn [ret].
  rewrite Hfar. unfold bind at 1. cbn [lift].
  unfold bind at 1. cbn [new heap rng].
  rewrite flat_view_ok. unfold bind at 1. cbn [lift].
  set (w2 := mkWorld _ _).
  set (ti := mkHandle _ [B * TN] Long _).
  assert (Hv2 : long_value w2 ti = long_value w target_indices).
  { subst w2 ti. rewrite <- app_assoc. unfold long_value. cbn [heap cell sel].
    rewrite app_nth1 by exact indices_alive. reflexivity. }
  destruct (index_ok w2 poses ti N psh (proj1 poses_float) eq_refl (proj2 poses_float))
    as (y1 & E1); [rewrite Hv2; exact Hin'|].
  unfold bind at 1. rewrite E1.
  set (w3 := mkWorld _ _).
  assert (Hv3 : long_value w3 ti = long_value w target_indices).
  { subst w3 w2 ti. cbn [heap]. rewrite <- !app_assoc. unfold long_value. cbn [heap cell sel].
    rewrite app_nth1 by exact indices_alive. reflexivity. }
  destruct (index_ok w3 Ks ti N ksh (proj1 Ks_float) eq_refl (proj2 Ks_float))
    as (y2 & E2); [rewrite Hv3; exact Hin'|].
  unfold bind at 1. rewrite E2.
  unfold bind at 1. unfold load_global at 1. rewrite volume_unbound.
  eexists. split; [reflexivity|].
  subst w3 w2. cbn [heap]. rewrite !length_app. cbn [length]. lia.
Qed.

(** An index outside [-N, N) stops the call at the first look-up, with the
    runtime's own indexing error. *)
Lemma frustum_volume_index_error :
  Exists (fun i => ~ (- N <= i < N)) (long_value w target_indices) ->
  exists w', construct_view_frustum_volume K G self spatial_volume t_embed v_embed poses Ks
               target_indices w
             = (Raise IndexError, w').
Proof.
  intros Hout.
  destruct planes_ok as (near & far & Hnear & Hfar).
  unfold construct_view_frustum_volume.
  rewrite indices_sizes. cbn [unpack2]. unfold bind at 1. cbn [lift].
  unfold bind at 1. unfold load_global at 1. rewrite torch_bound. cbn [ret].
  rewrite Hnear. unfold bind at 1. cbn [lift].
  unfold bind at 1. cbn [new].
  unfold bind at 1. unfold load_global at 1. rewrite torch_bound. cbn [ret].
  rewrite Hfar. unfold bind at 1. cbn [lift].
  unfold bind at 1. cbn [new heap rng].
  rewrite flat_view_ok. unfold bind at 1. cbn [lift].
  set (w2 := mkWorld _ _).
  set (ti := mkHandle _ [B * TN] Long _).
  assert (Hv2 : long_value w2 ti = long_value w target_indices).
  { subst w2 ti. rewrite <- app_assoc. unfold long_value. cbn [heap cell sel].
    rewrite app_nth1 by exact indices_alive. reflexivity. }
  unfold bind at 1.
  rewrite (index_out_of_range w2 poses ti N psh (proj1 poses_float) eq_refl (proj2 poses_float));
    [|rewrite Hv2; exact Hout].
  eexists. reflexivity.
Qed.

End FrustumIndices.

(** ** [construct_spatial_volume] up to the warp *)

Section SpatialVolume.
Import Tensor Torch Python View_feature_extractor.
Context (K : Kernels) (G : gmap string PyObj).

Lemma strip_ones_cons (a : Z) (l : list Z) :
  strip_ones (a :: l) = (if decide (a <> 1) then [a] else []) ++ strip_ones l.
Proof. unfold strip_ones. rewrite filter_cons. destruct (decide (a <> 1)); reflexivity. Qed.

Lemma view_regroup (h : Handle) (sh : list Z) :
  forallb (Z.leb 0) sh = true -> numel sh = numel (sizes h) ->
  strip_ones sh = strip_ones (sizes h) ->
  view sh h = Ok (mkHandle (cell h) sh (dtype h) (sel h)).
Proof.
  intros Hn He Hs. unfold view. rewrite infer_sizes_nonneg by assumption. cbn [rbind].
  rewrite (bool_decide_eq_true_2 _ Hs), orb_true_r. reflexivity.
Qed.

Lemma returns_repeat (reps : list Z) (x : Handle) (sh : list Z) :
  is_float sh x -> length sh = length reps -> forallb (Z.leb 0) reps = true ->
  returns (apply1 (repeat_ reps) x) (is_float (zip_with Z.mul sh reps)).
Proof.
  intros [Hd Hs] Hl Hr. apply returns_apply1; [exact Hd|].
  intros v Hv. unfold repeat_. rewrite Hv, Hs, Hl, Nat.leb_refl, Hr. cbn [andb].
  rewrite <- Hl, pad_ones_same. eexists. split; reflexivity.
Qed.

Lemma select1_float (h : Handle) (d0 d1 : Z) (sh : list Z) :
  is_float (d0 :: d1 :: sh) h -> 1 <= d1 ->
  exists h', select1 h 0 = Ok h' /\ is_float (d0 :: sh) h'.
Proof.
  intros [Hd Hs] H1. unfold select1. rewrite Hs.
  destruct (Z.leb_spec (- d1) 0); [|lia]. destruct (Z.ltb_spec 0 d1); [|lia].
  cbn [andb]. eexists. split; [reflexivity|]. split; [exact Hd | reflexivity].
Qed.

Lemma linspace_ok (a b : R) (n : Z) :
  0 <= n -> exists v, linspace a b n = Ok v /\ shape v = [n].
Proof.
  intros Hn. unfold linspace. destruct (Z.ltb_spec n 0); [lia|].
  eexists. split; reflexivity.
Qed.

Lemma meshgrid3_stack_ok (v : Tensor.t) (n : Z) :
  shape v = [n] -> exists y, meshgrid3_stack v = Ok y /\ shape y = [n; n; n; 3].
Proof.
  intros Hv. unfold meshgrid3_stack. rewrite Hv. eexists. split; reflexivity.
Qed.

Lemma reshape_ok (sh : list Z) (x : Tensor.t) :
  forallb (Z.leb 0) sh = true -> numel sh = numel (shape x) ->
  exists y, reshape sh x = Ok y /\ shape y = sh.
Proof.
  intros Hn He. unfold reshape. rewrite Hn, He, Z.eqb_refl. eexists. split; reflexivity.
Qed.

Lemma index_last_ok (cols : list Z) (x : Tensor.t) (sh : list Z) (d : Z) :
  shape x = sh ++ [d] -> forallb (fun c => (- d <=? c) && (c <? d)) cols = true ->
  exists y, index_last cols x = Ok y /\ shape y = sh ++ [Z.of_nat (length cols)].
Proof.
  intros Hx Hc. unfold index_last. rewrite Hx, rev_app_distr. cbn [rev app].
  rewrite Hc, rev_involutive. eexists. split; reflexivity.
Qed.

Lemma permute_ok (perm : list nat) (x : Tensor.t) :
  Permutation perm (seq 0 (length (shape x))) ->
  exists y, Tensor.permute perm x = Ok y /\ shape y = permute_sizes perm (shape x).
Proof.
  intros Hp. unfold Tensor.permute. rewrite (bool_decide_eq_true_2 _ Hp).
  eexists. split; reflexivity.
Qed.

Lemma repeat_ok (reps : list Z) (x : Tensor.t) :
  length (shape x) = length reps -> forallb (Z.leb 0) reps = true ->
  exists y, repeat_ reps x = Ok y /\ shape y = zip_with Z.mul (shape x) reps.
Proof.
  intros Hl Hr. unfold repeat_. rewrite Hl, Nat.leb_refl, Hr. cbn [andb].
  rewrite <- Hl, pad_ones_same. eexists. split; reflexivity.
Qed.

Lemma spatial_volume_verts_ok (self : SpatialVolumeNet) (B : Z) :
  0 <= spatial_volume_size self -> 0 <= B -> exists v, spatial_volume_verts self B = Ok v.
Proof.
  intros HV HB. unfold spatial_volume_verts.
  set (V := spatial_volume_size self) in *.
  assert (HV3 : 0 <= V ^ 3) by (apply Z.pow_nonneg; exact HV).
  destruct (linspace_ok (- spatial_volume_length self) (spatial_volume_length self) V HV)
    as (v1 & -> & S1). cbn [rbind].
  destruct (meshgrid3_stack_ok v1 V S1) as (v2 & -> & S2). cbn [rbind].
  destruct (reshape_ok [1; V ^ 3; 3] v2) as (v3 & -> & S3).
  { cbn [forallb]. rewrite (proj2 (Z.leb_le 0 (V ^ 3)) HV3). reflexivity. }
  { rewrite S2. cbn. ring. }
  cbn [rbind].
  destruct (index_last_ok [2; 1; 0] v3 [1; V ^ 3] 3 S3 eq_refl) as (v4 & -> & S4). cbn [rbind].
  destruct (reshape_ok [1; V; V; V; 3] v4) as (v5 & -> & S5).
  { cbn [forallb]. rewrite (proj2 (Z.leb_le 0 V) HV). reflexivity. }
  { rewrite S4. cbn. ring. }
  cbn [rbind].
  destruct (permute_ok [0; 4; 1; 2; 3]%nat v5) as (v6 & -> & S6).
  { rewrite S5. cbn [length seq].
    change [0; 4; 1; 2; 3]%nat with ([0%nat] ++ [4%nat] ++ [1; 2; 3]%nat).
    change [0; 1; 2; 3; 4]%nat with ([0%nat] ++ [1; 2; 3]%nat ++ [4%nat]).
    apply Permutation_app_head. apply Permutation_app_comm. }
  cbn [rbind].
  destruct (repeat_ok [B; 1; 1; 1; 1] v6) as (v7 & -> & S7).
  { rewrite S6, S5. reflexivity. }
  { cbn [forallb]. rewrite (proj2 (Z.leb_le 0 B) HB). reflexivity. }
  eexists. reflexivity.
Qed.

Hypothesis encoder_bound : is_Some (G !! "NoisyTargetViewEncoder"%string).
Hypothesis spatial_net_bound : is_Some (G !! "SpatialTime3DNet"%string).
Hypothesis frustum_net_bound : is_Some (G !! "FrustumTV3DNet"%string).

Lemma returns_SpatialVolumeNet_init (td vd view_num isz fvd V : Z) (L FL : R) :
  0 < td -> 0 < vd -> 0 < view_num ->
  returns (SpatialVolumeNet_init K G td vd view_num isz fvd V L FL)
    (fun self => SpatialVolumeNet_is self td vd isz fvd V L FL).
Proof.
  intros Ht Hv Hn. unfold SpatialVolumeNet_init.
  destruct encoder_bound as [o1 H1], spatial_net_bound as [o2 H2], frustum_net_bound as [o3 H3].
  eapply returns_bind; [exact (returns_load_global G _ o1 H1)|]. intros _ _.
  eapply returns_bind;
    [apply (returns_NoisyTargetViewEncoder_init K td vd 16 16); (lia || reflexivity)|].
  intros enc Henc.
  eapply returns_bind; [exact (returns_load_global G _ o2 H2)|]. intros _ _.
  eapply returns_bind; [apply (returns_SpatialTime3DNet_init K td (16 * view_num)); lia|].
  intros s3 _.
  eapply returns_bind; [exact (returns_load_global G _ o3 H3)|]. intros _ _.
  eapply returns_bind.
  { apply (returns_FrustumTV3DNet_init K 64 td vd 64 128 256 512); (lia || reflexivity). }
  intros f3 _.
  apply returns_ret. split; [exact Henc|]. repeat split.
Qed.

Hypothesis torch_bound : is_Some (G !! "torch"%string).
Hypothesis warp_unbound : G !! "get_warp_coordinates"%string = None.

(** On well-shaped inputs the first source view is encoded, and the call
    then stops at the look-up of [get_warp_coordinates]. *)
Lemma construct_spatial_volume_raises (self : SpatialVolumeNet)
    (x t_embed v_embed target_poses target_Ks : Handle)
    (td vd isz fvd V B N Nv Np Nk H W : Z) (L FL : R) :
  SpatialVolumeNet_is self td vd isz fvd V L FL ->
  0 < td -> 0 < vd -> 0 <= V -> 0 < B -> 0 < N -> 0 < Nv -> 0 < Np -> 0 < Nk -> 0 < H -> 0 < W ->
  is_float [B; N; 4; H; W] x -> is_float [B; td] t_embed -> is_float [B; Nv; vd] v_embed ->
  is_float [Np; 3; 4] target_poses -> is_float [Nk; 3; 3] target_Ks ->
  raises (construct_spatial_volume K G self x t_embed v_embed target_poses target_Ks)
    (NameError "get_warp_coordinates").
Proof.
  intros (Henc & Htd & Hvd & _ & _ & _ & HVs & _) Ht Hv HV HB HN HNv HNp HNk HH HW
    Hx Hte Hve Hp Hk.
  destruct torch_bound as [o Ho].
  unfold construct_spatial_volume. rewrite Htd.
  eapply raises_after with (P := fun p => p = (B, N, 4, H, W)).
  { apply returns_lift with (a := (B, N, 4, H, W)); [|reflexivity].
    destruct Hx as [_ ->]. reflexivity. }
  intros ? ->.
  eapply raises_after; [exact (returns_load_global G _ o Ho)|]. intros ? _.
  destruct (spatial_volume_verts_ok self B) as [verts Hverts]; [rewrite HVs; exact HV | lia |].
  eapply raises_after; [exact (returns_lift _ verts (fun _ => True) Hverts I)|]. intros ? _.
  eapply raises_after; [apply returns_new|]. intros vh _.
  (* t_embed_ *)
  eapply raises_after with (P := is_float [B; 1; td]).
  { eapply returns_lift.
    - apply view_regroup.
      + cbn [forallb]. rewrite (proj2 (Z.leb_le 0 B)), (proj2 (Z.leb_le 0 td)) by lia. reflexivity.
      + rewrite (proj2 Hte). cbn. lia.
      + rewrite (proj2 Hte), !strip_ones_cons. destruct (decide (1 <> 1)); [congruence|].
        reflexivity.
    - split; [apply Hte | reflexivity]. }
  intros t1 Ht1.
  eapply raises_after with (P := is_float [B; N; td]).
  { eapply returns_mono; [apply (returns_repeat [1; N; 1] t1 [B; 1; td] Ht1 eq_refl)|].
    - cbn [forallb]. rewrite (proj2 (Z.leb_le 0 N)) by lia. reflexivity.
    - cbn [zip_with]. rewrite Z.mul_1_r, Z.mul_1_l, Z.mul_1_r. auto. }
  intros t2 Ht2.
  eapply raises_after with (P := is_float [B; N; td]).
  { eapply returns_lift.
    - apply view_regroup.
      + cbn [forallb]. rewrite (proj2 (Z.leb_le 0 B)), (proj2 (Z.leb_le 0 N)),
          (proj2 (Z.leb_le 0 td)) by lia. reflexivity.
      + rewrite (proj2 Ht2). reflexivity.
      + rewrite (proj2 Ht2). reflexivity.
    - split; [apply Ht2 | reflexivity]. }
  intros t_embed_ Ht_.
  (* target_Ks, target_poses *)
  eapply raises_after with (P := is_float [1; Nk; 3; 3]).
  { eapply returns_lift.
    - unfold unsqueeze, unsqueeze_shape. rewrite (proj2 Hk). reflexivity.
    - split; [apply Hk | reflexivity]. }
  intros k1 Hk1.
  eapply raises_after with (P := is_float [B; Nk; 3; 3]).
  { eapply returns_mono; [apply (returns_repeat [B; 1; 1; 1] k1 [1; Nk; 3; 3] Hk1 eq_refl)|].
    - cbn [forallb]. rewrite (proj2 (Z.leb_le 0 B)) by lia. reflexivity.
    - cbn [zip_with]. rewrite Z.mul_1_l, Z.mul_1_r. auto. }
  intros Ks_ HKs.
  eapply raises_after with (P := is_float [1; Np; 3; 4]).
  { eapply returns_lift.
    - unfold unsqueeze, unsqueeze_shape. rewrite (proj2 Hp). reflexivity.
    - split; [apply Hp | reflexivity]. }
  intros p1 Hp1.
  eapply raises_after with (P := is_float [B; Np; 3; 4]).
  { eapply returns_mono; [apply (returns_repeat [B; 1; 1; 1] p1 [1; Np; 3; 4] Hp1 eq_refl)|].
    - cbn [forallb]. rewrite (proj2 (Z.leb_le 0 B)) by lia. reflexivity.
    - cbn [zip_with]. rewrite Z.mul_1_l, Z.mul_1_r. auto. }
  intros poses_ Hposes.
  (* the first iteration of the loop *)
  apply raises_bind.
  destruct (Z.to_nat N) as [|n] eqn:EN; [lia|].
  cbn [seq map for_each]. change (Z.of_nat 0) with 0. apply raises_bind.
  destruct (select1_float poses_ B Np [3; 4] Hposes) as (ps & -> & Hps); [lia|].
  eapply raises_after; [exact (returns_lift _ ps (fun _ => True) eq_refl I)|]. intros ? _.
  destruct (select1_float Ks_ B Nk [3; 3] HKs) as (ks & -> & Hks); [lia|].
  eapply raises_after; [exact (returns_lift _ ks (fun _ => True) eq_refl I)|]. intros ? _.
  destruct (select1_float x B N [4; H; W] Hx) as (xi & -> & Hxi); [lia|].
  eapply raises_after; [exact (returns_lift _ xi (is_float [B; 4; H; W]) eq_refl Hxi)|].
  intros xi' Hxi'.
  destruct (select1_float t_embed_ B N [td] Ht_) as (ti & -> & Hti); [lia|].
  eapply raises_after; [exact (returns_lift _ ti (is_float [B; td]) eq_refl Hti)|].
  intros ti' Hti'.
  destruct (select1_float v_embed B Nv [vd] Hve) as (vi & -> & Hvi); [lia|].
  eapply raises_after; [exact (returns_lift _ vi (is_float [B; vd]) eq_refl Hvi)|].
  intros vi' Hvi'.
  eapply raises_after.
  { apply (returns_NoisyTargetViewEncoder_forward K _ xi' ti' vi' td vd 16 16 B H W Henc);
      try assumption; try reflexivity; try lia.
    replace (B * 16 / 8) with (2 * B) by (apply Z.div_unique_exact; lia).
    intros E. assert (E2 : 2 * (B * (H * W)) = 1) by (rewrite <- E; ring). lia. }
  intros x_ Hx_.
  eapply raises_after with (P := fun _ => True).
  { eapply returns_lift; [|exact I]. unfold shape_at1. rewrite (proj2 Hx_). reflexivity. }
  intros C _.
  apply raises_bind, raises_unbound, warp_unbound.
Qed.

End SpatialVolume.

(** ** The viewpoint embedding *)

Section ViewpointEmbedding.
Import Tensor Torch.

Lemma chunks_singletons {A} (xs : list A) :
  chunks 1 (length xs) xs = map (fun x => [x]) xs.
Proof.
  induction xs as [|x xs IH]; [reflexivity|].
  cbn [length chunks firstn skipn map]. f_equal. exact IH.
Qed.

Lemma chunks_whole {A} (xs : list A) : chunks (length xs) 1 xs = [xs].
Proof. cbn. rewrite firstn_all. reflexivity. Qed.

Lemma concat_repeat_singleton {A} (x : A) (n : nat) : concat (repeat [x] n) = repeat x n.
Proof. induction n as [|n IH]; [reflexivity|]. cbn. rewrite IH. reflexivity. Qed.

Lemma flat_map_singletons {A} (xs : list A) : flat_map (fun x => [x]) xs = xs.
Proof. induction xs as [|x xs IH]; [reflexivity|]. cbn. rewrite IH. reflexivity. Qed.

Lemma flat_map_chunks1 {A B} (f : list A -> list B) (xs : list A) :
  flat_map f (chunks 1 (length xs) xs) = flat_map (fun x => f [x]) xs.
Proof.
  rewrite chunks_singletons. induction xs as [|x xs IH]; [reflexivity|].
  cbn [map flat_map]. rewrite IH. reflexivity.
Qed.

(** The tilings of [get_viewpoint_embedding] on the buffer. *)
Lemma repeat_data_vector (xs : list R) :
  repeat_data [length xs] [1%nat] xs = xs.
Proof.
  cbn [repeat_data nnumel fold_right repeat concat]. rewrite app_nil_r.
  rewrite flat_map_chunks1. apply flat_map_singletons.
Qed.

Lemma repeat_data_entry (x : R) (n : nat) : repeat_data [1%nat] [n] [x] = repeat x n.
Proof. cbn. apply concat_repeat_singleton. Qed.

Lemma repeat_data_columns (xs : list R) (n : nat) :
  repeat_data [length xs; 1%nat] [1%nat; n] xs = flat_map (fun x => repeat x n) xs.
Proof.
  cbn [repeat_data nnumel fold_right repeat concat]. rewrite app_nil_r.
  change (1 * 1)%nat with 1%nat. rewrite flat_map_chunks1.
  apply flat_map_ext. intros x. apply (repeat_data_entry x n).
Qed.

Lemma repeat_data_rows (xs : list R) (n : nat) :
  repeat_data [1%nat; length xs] [n; 1%nat] xs = concat (repeat xs n).
Proof.
  cbn [repeat_data nnumel fold_right]. rewrite Nat.mul_1_r, chunks_whole.
  cbn [flat_map]. rewrite app_nil_r. f_equal. f_equal.
  apply (repeat_data_vector xs).
Qed.

Lemma lookup_repeat_lt {A} (x : A) (n j : nat) : (j < n)%nat -> repeat x n !! j = Some x.
Proof.
  revert j. induction n as [|n IH]; intros j Hj; [lia|].
  destruct j as [|j]; [reflexivity|]. cbn. apply IH. lia.
Qed.

Lemma lookup_flat_map_repeat {A} (xs : list A) (n b j : nat) :
  (j < n)%nat -> flat_map (fun x => repeat x n) xs !! (b * n + j)%nat = xs !! b.
Proof.
  intros Hj. revert b. induction xs as [|x xs IH]; intros b; cbn [flat_map].
  - rewrite !lookup_nil. reflexivity.
  - destruct b as [|b].
    + cbn [Nat.mul Nat.add]. rewrite lookup_app_l by (rewrite repeat_length; exact Hj).
      rewrite lookup_repeat_lt by exact Hj. reflexivity.
    + rewrite lookup_app_r by (rewrite repeat_length; lia).
      rewrite repeat_length. replace (S b * n + j - n)%nat with (b * n + j)%nat by lia.
      apply IH.
Qed.

Lemma lookup_concat_repeat {A} (xs : list A) (m b j : nat) :
  (b < m)%nat -> (j < length xs)%nat ->
  concat (repeat xs m) !! (b * length xs + j)%nat = xs !! j.
Proof.
  revert b. induction m as [|m IH]; intros b Hb Hj; [lia|]. cbn [repeat concat].
  destruct b as [|b].
  - cbn [Nat.mul Nat.add]. apply lookup_app_l. exact Hj.
  - rewrite lookup_app_r by lia.
    replace (S b * length xs + j - length xs)%nat with (b * length xs + j)%nat by lia.
    apply IH; lia.
Qed.

Lemma interleave4 (n : nat) (a b c d : list R) (p : nat) :
  length a = n -> length b = n -> length c = n -> length d = n -> (p < n)%nat ->
  interleave n [a; b; c; d] !! (4 * p)%nat = a !! p /\
  interleave n [a; b; c; d] !! (4 * p + 1)%nat = b !! p /\
  interleave n [a; b; c; d] !! (4 * p + 2)%nat = c !! p /\
  interleave n [a; b; c; d] !! (4 * p + 3)%nat = d !! p.
Proof.
  revert a b c d p. induction n as [|n IH]; intros a b c d p Ha Hb Hc Hd Hp; [lia|].
  destruct a as [|a0 a]; [discriminate|]. destruct b as [|b0 b]; [discriminate|].
  destruct c as [|c0 c]; [discriminate|]. destruct d as [|d0 d]; [discriminate|].
  cbn [interleave flat_map firstn map skipn app].
  destruct p as [|p].
  - repeat split; reflexivity.
  - injection Ha as Ha. injection Hb as Hb. injection Hc as Hc. injection Hd as Hd.
    destruct (IH a b c d p Ha Hb Hc Hd ltac:(lia)) as (I0 & I1 & I2 & I3).
    replace (4 * S p)%nat with (S (S (S (S (4 * p))))) by lia.
    replace (S (S (S (S (4 * p)))) + 1)%nat with (S (S (S (S (4 * p + 1))))) by lia.
    replace (S (S (S (S (4 * p)))) + 2)%nat with (S (S (S (S (4 * p + 2))))) by lia.
    replace (S (S (S (S (4 * p)))) + 3)%nat with (S (S (S (S (4 * p + 3))))) by lia.
    cbn [lookup list_lookup]. repeat split; assumption.
Qed.

Import View_feature_extractor.SyncMultiviewDiffusion.

Lemma expand_vector (xs : list R) (N : Z) :
  Z.of_nat (length xs) = N -> expand_data [N] (mk [N] xs) = xs.
Proof.
  intros HN. unfold expand_data. cbn [shape length pad_ones Nat.sub repeat app zip_with].
  rewrite Z.eqb_refl. cbn [nshape map]. rewrite <- HN, Nat2Z.id.
  apply repeat_data_vector.
Qed.

Lemma expand_entry (x : R) (N : Z) :
  expand_data [N] (mk [1] [x]) = repeat x (Z.to_nat N).
Proof.
  unfold expand_data. cbn [shape length pad_ones Nat.sub repeat app zip_with nshape map].
  destruct (Z.eqb_spec 1 N) as [<-|_]; apply repeat_data_entry.
Qed.

Lemma zip_with_repeat_r (f : R -> R -> R) (xs : list R) (y : R) :
  zip_with f xs (repeat y (length xs)) = map (fun x => f x y) xs.
Proof. induction xs as [|x xs IH]; [reflexivity|]. cbn. rewrite IH. reflexivity. Qed.

Lemma index0_first (x : Tensor.t) (N : Z) (a0 : R) (rest : list R) :
  shape x = [N] -> 1 <= N -> data x = a0 :: rest -> index0 x 0 = Ok (mk [] [a0]).
Proof.
  intros Hs HN Hd. unfold index0. rewrite Hs, Hd.
  destruct (Z.leb_spec (- N) 0); [|lia]. destruct (Z.ltb_spec 0 N); [|lia]. reflexivity.
Qed.

Lemma repeat_2d (x : Tensor.t) (a b r c : Z) :
  shape x = [a; b] -> 0 <= r -> 0 <= c ->
  repeat_ [r; c] x =
    Ok (mk [a * r; b * c] (repeat_data [Z.to_nat a; Z.to_nat b] [Z.to_nat r; Z.to_nat c] (data x))).
Proof.
  intros Hs Hr Hc. unfold repeat_. rewrite Hs. cbn [length Nat.leb forallb].
  rewrite (proj2 (Z.leb_le 0 r) Hr), (proj2 (Z.leb_le 0 c) Hc). reflexivity.
Qed.

Lemma sub_vector_entry (xs : list R) (y : R) (N : Z) :
  Z.of_nat (length xs) = N ->
  sub (mk [N] xs) (mk [1] [y]) = Ok (mk [N] (map (fun x => (x - y)%R) xs)).
Proof.
  intros HN. unfold sub, binop, broadcast_shapes.
  cbn [shape length Nat.max pad_ones Nat.sub repeat app broadcast_aligned].
  replace (if N =? 1 then Some [N] else if N =? 1 then Some [1] else if 1 =? 1 then Some [N] else None)
    with (Some [N]) by (destruct (N =? 1); reflexivity).
  rewrite (expand_vector xs N HN), expand_entry.
  replace (Z.to_nat N) with (length xs) by lia. rewrite zip_with_repeat_r. reflexivity.
Qed.

(** The buffer [get_viewpoint_embedding] builds: one block per batch
    element, one row [d_e, sin d_a, cos d_a, 0] per view. *)
Lemma viewpoint_embedding_value (az els : list R) (a0 : R) (B N : Z) :
  az !! 0%nat = Some a0 -> Z.of_nat (length az) = N -> Z.of_nat (length els) = B ->
  exists e, viewpoint_embedding (mk [N] az) B (mk [B] els) = Ok e /\
    shape e = [B; N; 4] /\
    data e = interleave (length els * length az)
               [flat_map (fun x => repeat x (length az))
                  (map (fun a => (- deg2rad 30 - a)%R) (map Ropp els));
                map Rtrigo_def.sin (concat (repeat (map (fun a => (a - a0)%R) az) (length els)));
                map Rtrigo_def.cos (concat (repeat (map (fun a => (a - a0)%R) az) (length els)));
                map (fun _ => 0%R) (concat (repeat (map (fun a => (a - a0)%R) az) (length els)))].
Proof.
  intros Ha0 HN HB.
  destruct az as [|a az']; [discriminate|]. injection Ha0 as ->.
  set (az := a0 :: az') in *.
  assert (HN1 : 1 <= N) by (subst N az; cbn [length]; lia).
  unfold viewpoint_embedding.
  rewrite (index0_first (mk [N] az) N a0 az' eq_refl HN1 eq_refl). cbn [rbind].
  change (Tensor.unsqueeze 0 (mk [] [a0])) with (Ok (mk [1] [a0])). cbn [rbind].
  change (Tensor.unsqueeze 1 (rsub_scalar (- deg2rad 30) (neg (mk [B] els))))
    with (Ok (mk [B; 1] (map (fun a => (- deg2rad 30 - a)%R) (map Ropp els)))).
  cbn [rbind shape hd].
  rewrite (repeat_2d (mk [B; 1] _) B 1 1 N eq_refl) by lia. cbn [rbind data].
  rewrite (sub_vector_entry az a0 N HN). cbn [rbind].
  change (Tensor.unsqueeze 0 (mk [N] (map (fun x => (x - a0)%R) az)))
    with (Ok (mk [1; N] (map (fun x => (x - a0)%R) az))).
  cbn [rbind].
  rewrite (repeat_2d (mk [1; N] _) 1 N B 1 eq_refl) by lia. cbn [rbind data].
  unfold stack_last. cbn [forallb shape Tensor.sin Tensor.cos zeros_like map_data].
  rewrite !Z.mul_1_r, !Z.mul_1_l.
  rewrite !bool_decide_eq_true_2 by reflexivity. cbn [andb].
  eexists. split; [reflexivity|]. split; [reflexivity|].
  cbn [data map length Z.of_nat].
  replace (Z.to_nat 1) with 1%nat by reflexivity.
  replace (Z.to_nat B) with (length els) by lia.
  replace (Z.to_nat N) with (length az) by lia.
  replace (Z.to_nat (numel [B; N])) with (length els * length az)%nat
    by (cbn [numel fold_right]; nia).
  assert (E1 : repeat_data [length els; 1%nat] [1%nat; length az]
                 (map (fun a => (- deg2rad 30 - a)%R) (map Ropp els))
               = flat_map (fun x => repeat x (length az))
                   (map (fun a => (- deg2rad 30 - a)%R) (map Ropp els))).
  { rewrite <- repeat_data_columns, !length_map. reflexivity. }
  assert (E2 : repeat_data [1%nat; length az] [length els; 1%nat] (map (fun x => (x - a0)%R) az)
               = concat (repeat (map (fun x => (x - a0)%R) az) (length els))).
  { rewrite <- repeat_data_rows, length_map. reflexivity. }
  rewrite E1, E2. reflexivity.
Qed.

Lemma length_flat_map_repeat {A} (xs : list A) (n : nat) :
  length (flat_map (fun x => repeat x n) xs) = (length xs * n)%nat.
Proof.
  induction xs as [|x xs IH]; [reflexivity|].
  cbn [flat_map length]. rewrite length_app, repeat_length, IH. reflexivity.
Qed.

Lemma ravel3 (B N C b n j : Z) :
  0 <= b < B -> 0 <= n < N -> 0 <= j < C ->
  ravel [B; N; C] [b; n; j] = Some (b * (N * (C * 1)) + (n * (C * 1) + (j * 1 + 0))).
Proof.
  intros Hb Hn Hj. cbn [ravel numel fold_right].
  destruct (Z.leb_spec 0 b); [|lia]. destruct (Z.ltb_spec b B); [|lia].
  destruct (Z.leb_spec 0 n); [|lia]. destruct (Z.ltb_spec n N); [|lia].
  destruct (Z.leb_spec 0 j); [|lia]. destruct (Z.ltb_spec j C); [|lia].
  reflexivity.
Qed.

Lemma ravel1 (B b : Z) : 0 <= b < B -> ravel [B] [b] = Some (b * 1 + 0).
Proof.
  intros Hb. cbn [ravel numel fold_right].
  destruct (Z.leb_spec 0 b); [|lia]. destruct (Z.ltb_spec b B); [|lia]. reflexivity.
Qed.

Lemma map_nth_seq (xs : list R) : map (fun p => nth p xs 0%R) (seq 0 (length xs)) = xs.
Proof.
  apply nth_ext with (d := 0%R) (d' := 0%R).
  - rewrite length_map, length_seq. reflexivity.
  - intros i Hi. rewrite length_map, length_seq in Hi.
    rewrite (nth_indep _ 0%R (nth 0 xs 0%R)) by (rewrite length_map, length_seq; exact Hi).
    rewrite (map_nth (fun p => nth p xs 0%R)), seq_nth by exact Hi. reflexivity.
Qed.

(** A new tensor reads back as the value it was made from. *)
Lemma value_new (w : World) (x : Tensor.t) :
  value (snd (new x w)) (mkHandle (length (heap w)) (shape x) Float (seq 0 (length (data x)))) = x.
Proof.
  unfold value. cbn [new snd heap cell sizes sel].
  rewrite app_nth2 by lia. rewrite Nat.sub_diag. cbn [nth floats].
  rewrite map_nth_seq. destruct x; reflexivity.
Qed.

Section Method.
Variables (self : SyncMultiviewDiffusion) (elevation_ref : Handle) (w : World) (B N : Z).
Hypothesis azimuth_float : is_float [N] (azimuth self).
Hypothesis azimuth_entries : Z.of_nat (length (sel (azimuth self))) = N.
Hypothesis views : 0 < N.
Hypothesis elevation_float : is_float [B] elevation_ref.
Hypothesis elevation_entries : Z.of_nat (length (sel elevation_ref)) = B.

Lemma get_viewpoint_embedding_entries :
  exists h w', get_viewpoint_embedding self B elevation_ref w = (Ok h, w') /\
    sizes h = [B; N; 4] /\
    forall b n el a a0, 0 <= b < B -> 0 <= n < N ->
      get (value w elevation_ref) [b] = Some el ->
      get (value w (azimuth self)) [n] = Some a ->
      get (value w (azimuth self)) [0] = Some a0 ->
      get (value w' h) [b; n; 0] = Some (- deg2rad 30 - - el)%R /\
      get (value w' h) [b; n; 1] = Some (Rtrigo_def.sin (a - a0)) /\
      get (value w' h) [b; n; 2] = Some (Rtrigo_def.cos (a - a0)) /\
      get (value w' h) [b; n; 3] = Some 0%R.
Proof.
  destruct azimuth_float as [Had Has]. destruct elevation_float as [Hed Hes].
  unfold get_viewpoint_embedding. rewrite Had, Hed.
  set (az := data (value w (azimuth self))).
  set (els := data (value w elevation_ref)).
  assert (Haz : value w (azimuth self) = mk [N] az) by (unfold value; rewrite Has; reflexivity).
  assert (Hels : value w elevation_ref = mk [B] els) by (unfold value; rewrite Hes; reflexivity).
  assert (Hlaz : Z.of_nat (length az) = N).
  { subst az. unfold value. cbn [data]. rewrite length_map. exact azimuth_entries. }
  assert (Hlels : Z.of_nat (length els) = B).
  { subst els. unfold value. cbn [data]. rewrite length_map. exact elevation_entries. }
  destruct az as [|a0' az'] eqn:Eaz; [cbn in Hlaz; lia|]. rewrite <- Eaz in *.
  destruct (viewpoint_embedding_value az els a0' B N) as (e & He & Hsh & Hdata);
    [rewrite Eaz; reflexivity | exact Hlaz | exact Hlels |].
  rewrite Haz, Hels. unfold bind, lift. rewrite He.
  eexists _, _. split; [reflexivity|]. split; [exact Hsh|].
  intros b n el a a0 Hb Hn Hel Ha Ha0.
  change (mkWorld (heap w ++ [FloatStorage (data e)]) (rng w)) with (snd (new e w)).
  rewrite value_new.
  unfold get in Hel, Ha, Ha0. cbn [shape data] in Hel, Ha, Ha0.
  rewrite ravel1 in Hel, Ha, Ha0 by lia.
  assert (Ea0 : a0 = a0').
  { replace (Z.to_nat (0 * 1 + 0)) with 0%nat in Ha0 by lia. rewrite Eaz in Ha0.
    cbn in Ha0. congruence. }
  subst a0'.
  unfold get. rewrite Hsh, !ravel3 by lia. rewrite Hdata.
  assert (Hp : (Z.to_nat b * length az + Z.to_nat n < length els * length az)%nat) by nia.
  set (p := (Z.to_nat b * length az + Z.to_nat n)%nat) in *.
  replace (Z.to_nat (b * (N * (4 * 1)) + (n * (4 * 1) + (0 * 1 + 0)))) with (4 * p)%nat by (subst p; nia).
  replace (Z.to_nat (b * (N * (4 * 1)) + (n * (4 * 1) + (1 * 1 + 0)))) with (4 * p + 1)%nat by (subst p; nia).
  replace (Z.to_nat (b * (N * (4 * 1)) + (n * (4 * 1) + (2 * 1 + 0)))) with (4 * p + 2)%nat by (subst p; nia).
  replace (Z.to_nat (b * (N * (4 * 1)) + (n * (4 * 1) + (3 * 1 + 0)))) with (4 * p + 3)%nat by (subst p; nia).
  assert (Hla : length (concat (repeat (map (fun a1 => (a1 - a0)%R) az) (length els)))
                = (length els * length az)%nat).
  { clear. induction (length els) as [|k IH]; [reflexivity|].
    cbn [repeat concat]. rewrite length_app, IH, length_map. reflexivity. }
  destruct (interleave4 (length els * length az)
              (flat_map (fun x => repeat x (length az))
                 (map (fun a1 => (- deg2rad 30 - a1)%R) (map Ropp els)))
              (map Rtrigo_def.sin (concat (repeat (map (fun a1 => (a1 - a0)%R) az) (length els))))
              (map Rtrigo_def.cos (concat (repeat (map (fun a1 => (a1 - a0)%R) az) (length els))))
              (map (fun _ => 0%R) (concat (repeat (map (fun a1 => (a1 - a0)%R) az) (length els))))
              p) as (I0 & I1 & I2 & I3); try (rewrite length_map; exact Hla); try exact Hp.
  { rewrite length_flat_map_repeat, !length_map. reflexivity. }
  rewrite I0, I1, I2, I3.
  assert (Hda : concat (repeat (map (fun a1 => (a1 - a0)%R) az) (length els)) !! p
                = Some (a - a0)%R).
  { subst p. rewrite <- (length_map (fun a1 => (a1 - a0)%R) az) at 1.
    rewrite lookup_concat_repeat by (rewrite ?length_map; lia).
    rewrite list_lookup_fmap. replace (Z.to_nat (n * 1 + 0)) with (Z.to_nat n) in Ha by lia.
    rewrite Ha. reflexivity. }
  rewrite !list_lookup_fmap, Hda. cbn [fmap option_fmap option_map].
  subst p. rewrite lookup_flat_map_repeat by lia.
  rewrite !list_lookup_fmap. replace (Z.to_nat (b * 1 + 0)) with (Z.to_nat b) in Hel by lia.
  rewrite Hel. repeat split; reflexivity.
Qed.

End Method.

End ViewpointEmbedding.

(** ** Azimuth normalisation *)

Section AzimuthNormalization.
Import Tensor View_feature_extractor.SyncMultiviewDiffusion.
Open Scope R_scope.

Lemma np_mod_range (x m : R) : 0 < m -> 0 <= np_mod x m < m.
Proof.
  intros Hm. unfold np_mod.
  pose proof (Zfloor_bound (x / m)) as [Hlo Hhi].
  assert (Hx : x = m * (x / m)) by (field; lra).
  split.
  - assert (m * IZR (Zfloor (x / m)) <= m * (x / m)) by (apply Rmult_le_compat_l; lra).
    lra.
  - assert (m * (x / m) < m * (IZR (Zfloor (x / m)) + 1)) by (apply Rmult_lt_compat_l; lra).
    lra.
Qed.

Lemma np_mod_shift (k : Z) (m r : R) :
  0 < m -> 0 <= r < m -> np_mod (IZR k * m + r) m = r.
Proof.
  intros Hm Hr. unfold np_mod.
  assert (Hq : Zfloor ((IZR k * m + r) / m) = k).
  { apply Zfloor_eq.
    assert (E : (IZR k * m + r) / m = IZR k + r / m) by (field; lra).
    rewrite E.
    assert (Hr' : r = m * (r / m)) by (field; lra).
    assert (0 <= r / m) by (apply Rmult_le_reg_l with m; lra).
    assert (r / m < 1) by (apply Rmult_lt_reg_l with m; lra).
    lra. }
  rewrite Hq. lra.
Qed.

Lemma normalize_azimuth_data (azs : Tensor.t) :
  data (normalize_azimuth azs) = map (fun a => np_mod (a + PI) (PI * 2) - PI) (data azs).
Proof.
  unfold normalize_azimuth, sub_scalar, add_scalar, map_data. simpl.
  rewrite !map_map. reflexivity.
Qed.

(** C7: the normalisation [(a + pi) % (2 pi) - pi] keeps the shape of the
    azimuth table and maps every entry [a] to a value of [[-pi, pi]] that
    differs from [a] by a multiple of [2 pi]; the entry of view 0 becomes
    0 when the loaded azimuth of view 0 is a multiple of [2 pi]. *)
Theorem normalize_azimuth_range (azs : Tensor.t) (i : nat) (a : R)
    (Ha : data azs !! i = Some a) :
  shape (normalize_azimuth azs) = shape azs /\
  exists r, data (normalize_azimuth azs) !! i = Some r /\
    - PI <= r <= PI /\
    (exists k : Z, r = a + IZR k * (2 * PI)) /\
    (i = 0%nat -> (exists k : Z, a = IZR k * (2 * PI)) -> r = 0).
Proof.
  split; [reflexivity|].
  rewrite normalize_azimuth_data.
  exists (np_mod (a + PI) (PI * 2) - PI).
  pose proof PI_RGT_0 as Hpi.
  split.
  { rewrite list_lookup_fmap, Ha. reflexivity. }
  pose proof (np_mod_range (a + PI) (PI * 2) ltac:(lra)) as Hr.
  split; [lra|]. split.
  - exists (- Zfloor ((a + PI) / (PI * 2)))%Z. unfold np_mod. rewrite opp_IZR. lra.
  - intros _ [k Hk]. subst a.
    replace (IZR k * (2 * PI) + PI) with (IZR k * (PI * 2) + PI) by lra.
    rewrite np_mod_shift; lra.
Qed.

Lemma normalize_azimuth_range_witness :
  data (mk [2%Z] [0; PI / 2]) !! 0%nat = Some 0 /\
  exists r, data (normalize_azimuth (mk [2%Z] [0; PI / 2])) !! 0%nat = Some r /\
    - PI <= r <= PI.
Proof.
  split; [reflexivity|].
  destruct (normalize_azimuth_range (mk [2%Z] [0; PI / 2]) 0 0 eq_refl) as (_ & r & Hr & Hb & _).
  exists r. split; [exact Hr | exact Hb].
Defined.

End AzimuthNormalization.

(** ** Viewpoint embedding and depth planes: the statements *)

Section ViewpointEmbeddingSpec.
Import Tensor Torch View_feature_extractor.SyncMultiviewDiffusion.

Lemma get_vector (x : Handle) (w : World) (B b : Z) :
  sizes x = [B] -> Z.of_nat (length (sel x)) = B -> 0 <= b < B ->
  exists e, get (value w x) [b] = Some e.
Proof.
  intros Hs Hl Hb. unfold get, value. cbn [shape data]. rewrite Hs, ravel1 by exact Hb.
  apply lookup_lt_is_Some_2. rewrite length_map. lia.
Qed.

(** C4: every call of [get_viewpoint_embedding] with [B] reference
    elevations returns a tensor of shape [(B, N, 4)] whose fourth
    component is zero everywhere; at view 0, for a reference elevation of
    30 degrees, the entry is [(0, sin = 0, cos = 1, 0)]. *)
Theorem get_viewpoint_embedding_spec (self : SyncMultiviewDiffusion) (elevation_ref : Handle)
    (w : World) (B N : Z) :
  is_float [N] (azimuth self) -> Z.of_nat (length (sel (azimuth self))) = N -> 0 < N ->
  is_float [B] elevation_ref -> Z.of_nat (length (sel elevation_ref)) = B ->
  exists h w', get_viewpoint_embedding self B elevation_ref w = (Ok h, w') /\
    sizes h = [B; N; 4] /\
    (forall b n, 0 <= b < B -> 0 <= n < N -> get (value w' h) [b; n; 3] = Some 0%R) /\
    (forall b, 0 <= b < B -> get (value w elevation_ref) [b] = Some (deg2rad 30) ->
       get (value w' h) [b; 0; 0] = Some 0%R /\ get (value w' h) [b; 0; 1] = Some 0%R /\
       get (value w' h) [b; 0; 2] = Some 1%R /\ get (value w' h) [b; 0; 3] = Some 0%R).
Proof.
  intros Haz Hlaz HN Hel Hlel.
  destruct (get_viewpoint_embedding_entries self elevation_ref w B N Haz Hlaz HN Hel Hlel)
    as (h & w' & E & Hs & Hentries).
  exists h, w'. split; [exact E|]. split; [exact Hs|]. split.
  - intros b n Hb Hn.
    destruct (get_vector elevation_ref w B b (proj2 Hel) Hlel Hb) as [el Hel'].
    destruct (get_vector (azimuth self) w N n (proj2 Haz) Hlaz Hn) as [a Ha].
    destruct (get_vector (azimuth self) w N 0 (proj2 Haz) Hlaz) as [a0 Ha0]; [lia|].
    apply (Hentries b n el a a0 Hb Hn Hel' Ha Ha0).
  - intros b Hb Hel'.
    destruct (get_vector (azimuth self) w N 0 (proj2 Haz) Hlaz) as [a0 Ha0]; [lia|].
    destruct (Hentries b 0 (deg2rad 30) a0 a0 Hb ltac:(lia) Hel' Ha0 Ha0) as (E0 & E1 & E2 & E3).
    rewrite E0, E1, E2, E3.
    replace (- deg2rad 30 - - deg2rad 30)%R with 0%R by ring.
    replace (a0 - a0)%R with 0%R by ring. rewrite sin_0, cos_0. auto.
Qed.

End ViewpointEmbeddingSpec.

Section DepthPlanes.
Import Tensor Torch Python View_feature_extractor.

Lemma bind_inversion {A B} (m : M A) (f : A -> M B) (w w' : World) (b : B) :
  bind m f w = (Ok b, w') -> exists a w1, m w = (Ok a, w1) /\ f a w1 = (Ok b, w').
Proof.
  unfold bind. destruct (m w) as [[a|e] w1]; [|discriminate].
  intros E. exists a, w1. split; [reflexivity | exact E].
Qed.

Lemma SpatialVolumeNet_init_fields (K : Kernels) (G : gmap string PyObj)
    (td vd vn isz fvd V : Z) (SL FL : R) (w0 w1 : World) (self : SpatialVolumeNet) :
  SpatialVolumeNet_init K G td vd vn isz fvd V SL FL w0 = (Ok self, w1) ->
  default_origin_depth self = 1.5%R /\ frustum_volume_length self = FL /\
  frustum_volume_size self = isz / 8 /\ input_image_size self = isz.
Proof.
  unfold SpatialVolumeNet_init. intros E.
  repeat (apply bind_inversion in E; destruct E as (? & ? & _ & E)).
  unfold ret in E. injection E as <- _. repeat split.
Qed.

Lemma ravel_bound (sh idx : list Z) (o : Z) :
  ravel sh idx = Some o -> 0 <= o < numel sh.
Proof.
  revert idx o. induction sh as [|d sh IH]; intros [|i idx] o; cbn [ravel numel fold_right];
    try discriminate.
  - intros [= <-]. lia.
  - destruct (Z.leb_spec 0 i); [|discriminate]. destruct (Z.ltb_spec i d); [|discriminate].
    cbn [andb]. destruct (ravel sh idx) as [o'|] eqn:E; [|discriminate].
    intros [= <-]. specialize (IH idx o' E). fold (numel sh). nia.
Qed.

(** The two planes hold, at every pixel of every batch element, the
    constants [1.5 - frustum_volume_length] and
    [1.5 + frustum_volume_length]. *)
Lemma plane_values (K : Kernels) (G : gmap string PyObj)
    (td vd vn isz fvd V : Z) (SL FL : R) (w0 w1 : World) (self : SpatialVolumeNet) (B TN : Z) :
  SpatialVolumeNet_init K G td vd vn isz fvd V SL FL w0 = (Ok self, w1) ->
  0 <= B * TN -> 0 <= isz / 8 ->
  exists near far,
    near_plane self B TN (frustum_volume_size self) (frustum_volume_size self) = Ok near /\
    far_plane self B TN (frustum_volume_size self) (frustum_volume_size self) = Ok far /\
    shape near = [B * TN; 1; isz / 8; isz / 8] /\
    shape far = [B * TN; 1; isz / 8; isz / 8] /\
    default_origin_depth self = 1.5%R /\
    forall b d i j, 0 <= b < B * TN -> 0 <= d < 1 -> 0 <= i < isz / 8 -> 0 <= j < isz / 8 ->
      exists n f, get near [b; d; i; j] = Some n /\ get far [b; d; i; j] = Some f /\
        n = (1.5 - FL)%R /\ f = (1.5 + FL)%R /\
        ((n + f) / 2 = default_origin_depth self)%R /\
        ((0 < FL)%R -> (n < f)%R) /\ (FL = 0.86603%R -> (n < f)%R).
Proof.
  intros Hinit HB Hs.
  destruct (SpatialVolumeNet_init_fields _ _ _ _ _ _ _ _ _ _ _ _ _ Hinit) as (Hd & HL & HS & _).
  unfold near_plane, far_plane. rewrite Hd, HL, HS. unfold ones.
  assert (Hnn : forallb (Z.leb 0) [B * TN; 1; isz / 8; isz / 8] = true).
  { cbn [forallb]. rewrite !(proj2 (Z.leb_le 0 _)) by lia. reflexivity. }
  rewrite Hnn. cbn [rbind]. eexists _, _.
  split; [reflexivity|]. split; [reflexivity|]. split; [reflexivity|]. split; [reflexivity|].
  split; [reflexivity|].
  intros b d i j Hb Hd' Hi Hj.
  assert (Hr : exists o, ravel [B * TN; 1; isz / 8; isz / 8] [b; d; i; j] = Some o).
  { cbn [ravel].
    rewrite (proj2 (Z.leb_le 0 b)), (proj2 (Z.ltb_lt b _)) by lia.
    rewrite (proj2 (Z.leb_le 0 d)), (proj2 (Z.ltb_lt d _)) by lia.
    rewrite (proj2 (Z.leb_le 0 i)), (proj2 (Z.ltb_lt i _)) by lia.
    rewrite (proj2 (Z.leb_le 0 j)), (proj2 (Z.ltb_lt j _)) by lia.
    cbn [andb]. eexists. reflexivity. }
  destruct Hr as [o Hr]. pose proof (ravel_bound _ _ _ Hr) as Ho.
  exists (1 * 1.5 - FL)%R, (1 * 1.5 + FL)%R.
  unfold get, sub_scalar, add_scalar, mul_scalar, map_data. cbn [shape data]. rewrite Hr.
  rewrite !list_lookup_fmap.
  rewrite (lookup_repeat_lt 1%R _ (Z.to_nat o)) by lia.
  cbn [fmap option_fmap option_map].
  split; [reflexivity|]. split; [reflexivity|].
  split; [lra|]. split; [lra|]. split; [lra|]. split; intros; lra.
Qed.

End DepthPlanes.

(** ** The duplicated classes *)

Section CopiesAgree.
Import Tensor Torch Python.

Lemma same_refl {A} (m : M A) : same m m.
Proof. intros w. reflexivity. Qed.

Lemma same_bind {A B} (m1 m2 : M A) (f1 f2 : A -> M B) :
  same m1 m2 -> (forall a, same (f1 a) (f2 a)) -> same (bind m1 f1) (bind m2 f2).
Proof.
  intros Hm Hf w. unfold bind. rewrite (Hm w). destruct (m2 w) as [[a|e] w1]; [apply Hf | reflexivity].
Qed.

Lemma same_raise_bind {A B} (e : PyError) (f1 f2 : A -> M B) :
  same (bind (raise e) f1) (bind (raise e) f2).
Proof. intros w. reflexivity. Qed.

(** Names that both files bind, and names that neither binds. *)
Lemma load_torch :
  load_global View_feature_extractor_net.globals "torch" = load_global View_feature_extractor.globals "torch".
Proof. vm_compute. reflexivity. Qed.

Lemma load_warp_net :
  load_global View_feature_extractor_net.globals "get_warp_coordinates"
  = raise (NameError "get_warp_coordinates").
Proof. vm_compute. reflexivity. Qed.

Lemma load_warp_main :
  load_global View_feature_extractor.globals "get_warp_coordinates"
  = raise (NameError "get_warp_coordinates").
Proof. vm_compute. reflexivity. Qed.

Lemma load_volume_net :
  load_global View_feature_extractor_net.globals "create_target_volume"
  = raise (NameError "create_target_volume").
Proof. vm_compute. reflexivity. Qed.

Lemma load_volume_main :
  load_global View_feature_extractor.globals "create_target_volume"
  = raise (NameError "create_target_volume").
Proof. vm_compute. reflexivity. Qed.

Lemma load_classes :
  load_global View_feature_extractor_net.globals "NoisyTargetViewEncoder"
  = load_global View_feature_extractor.globals "NoisyTargetViewEncoder" /\
  load_global View_feature_extractor_net.globals "SpatialTime3DNet"
  = load_global View_feature_extractor.globals "SpatialTime3DNet" /\
  load_global View_feature_extractor_net.globals "FrustumTV3DNet"
  = load_global View_feature_extractor.globals "FrustumTV3DNet".
Proof. repeat split; vm_compute; reflexivity. Qed.

Ltac same_steps :=
  repeat (lazymatch goal with |- same (bind _ _) (bind _ _) => idtac end;
          first [ apply same_raise_bind | apply same_bind; [apply same_refl | intros ?] ]).

Section SpatialVolumeNetCopies.
Context (K : Kernels).

(** With one namespace for both, the two texts are the same function. *)
Lemma SpatialVolumeNet_copies_same_text (G : gmap string PyObj)
    (self : View_feature_extractor_net.SpatialVolumeNet) :
  (forall x t v p k,
     View_feature_extractor_net.construct_spatial_volume K G self x t v p k
     = View_feature_extractor.construct_spatial_volume K G (of_net self) x t v p k) /\
  (forall s t v p k i,
     View_feature_extractor_net.construct_view_frustum_volume K G self s t v p k i
     = View_feature_extractor.construct_view_frustum_volume K G (of_net self) s t v p k i).
Proof. split; intros; reflexivity. Qed.

Lemma construct_spatial_volume_copies (self : View_feature_extractor_net.SpatialVolumeNet)
    (x t v p k : Handle) :
  same (View_feature_extractor_net.construct_spatial_volume K View_feature_extractor_net.globals
          self x t v p k)
       (View_feature_extractor.construct_spatial_volume K View_feature_extractor.globals
          (of_net self) x t v p k).
Proof.
  unfold View_feature_extractor_net.construct_spatial_volume,
    View_feature_extractor.construct_spatial_volume.
  rewrite load_torch, load_warp_net, load_warp_main.
  apply same_bind; [apply same_refl|]. intros [[[[B N] c] H] W].
  same_steps; try apply same_refl.
Qed.

Lemma construct_view_frustum_volume_copies (self : View_feature_extractor_net.SpatialVolumeNet)
    (s t v p k i : Handle) :
  same (View_feature_extractor_net.construct_view_frustum_volume K View_feature_extractor_net.globals
          self s t v p k i)
       (View_feature_extractor.construct_view_frustum_volume K View_feature_extractor.globals
          (of_net self) s t v p k i).
Proof.
  unfold View_feature_extractor_net.construct_view_frustum_volume,
    View_feature_extractor.construct_view_frustum_volume.
  rewrite load_torch, load_volume_net, load_volume_main.
  apply same_bind; [apply same_refl|]. intros [B TN].
  same_steps; try apply same_refl.
Qed.

Lemma SpatialVolumeNet_init_copies (td vd vn isz fvd V : Z) (SL FL : R) (w : World) :
  View_feature_extractor.SpatialVolumeNet_init K View_feature_extractor.globals
    td vd vn isz fvd V SL FL w
  = on_result of_net
      (View_feature_extractor_net.SpatialVolumeNet_init K View_feature_extractor_net.globals
         td vd vn isz fvd V SL FL w).
Proof.
  unfold View_feature_extractor.SpatialVolumeNet_init,
    View_feature_extractor_net.SpatialVolumeNet_init.
  destruct load_classes as (-> & -> & ->).
  unfold bind.
  destruct (load_global View_feature_extractor.globals "NoisyTargetViewEncoder" w)
    as [[o1|e1] w1]; [|reflexivity].
  destruct (View_feature_extractor_net.NoisyTargetViewEncoder_init K td vd 16 16 w1)
    as [[enc|e2] w2]; [|reflexivity].
  destruct (load_global View_feature_extractor.globals "SpatialTime3DNet" w2)
    as [[o3|e3] w3]; [|reflexivity].
  destruct (View_feature_extractor_net.SpatialTime3DNet_init K td (16 * vn) (64, 128, 256, 512) w3)
    as [[s3|e4] w4]; [|reflexivity].
  destruct (load_global View_feature_extractor.globals "FrustumTV3DNet" w4)
    as [[o5|e5] w5]; [|reflexivity].
  destruct (View_feature_extractor_net.FrustumTV3DNet_init K 64 td vd (64, 128, 256, 512) w5)
    as [[f3|e6] w6]; reflexivity.
Qed.

End SpatialVolumeNetCopies.

Lemma SpatialVolumeNet_init_same_text (K : Kernels) (G : gmap string PyObj)
    (td vd vn isz fvd V : Z) (SL FL : R) (w : World) :
  View_feature_extractor.SpatialVolumeNet_init K G td vd vn isz fvd V SL FL w
  = on_result of_net
      (View_feature_extractor_net.SpatialVolumeNet_init K G td vd vn isz fvd V SL FL w).
Proof.
  unfold View_feature_extractor.SpatialVolumeNet_init,
    View_feature_extractor_net.SpatialVolumeNet_init.
  unfold bind.
  destruct (load_global G "NoisyTargetViewEncoder" w) as [[o1|e1] w1]; [|reflexivity].
  destruct (View_feature_extractor_net.NoisyTargetViewEncoder_init K td vd 16 16 w1)
    as [[enc|e2] w2]; [|reflexivity].
  destruct (load_global G "SpatialTime3DNet" w2) as [[o3|e3] w3]; [|reflexivity].
  destruct (View_feature_extractor_net.SpatialTime3DNet_init K td (16 * vn) (64, 128, 256, 512) w3)
    as [[s3|e4] w4]; [|reflexivity].
  destruct (load_global G "FrustumTV3DNet" w4) as [[o5|e5] w5]; [|reflexivity].
  destruct (View_feature_extractor_net.FrustumTV3DNet_init K 64 td vd (64, 128, 256, 512) w5)
    as [[f3|e6] w6]; reflexivity.
Qed.

(** X20: What is modelled of the duplicated classes agrees.  Of the two
    definitions of [SyncMultiviewDiffusion], the azimuth normalisation,
    [_init_multiview], [get_viewpoint_embedding], [_init_schedule] and
    [add_noise] of the second are the same functions as those of the
    first; the other methods of the class are not modelled.  Of the two
    copies of [SpatialVolumeNet], [__init__], [construct_spatial_volume]
    and [construct_view_frustum_volume] are the same functions of the
    namespace they run in; and each run in the namespace of its own file,
    where [View_feature_extractor_net.py] does not bind [F] but neither
    file binds the geometry helpers that are looked up first, they have
    the same outcome in every state. *)
Theorem embedded_copies_agree :
  ((forall azs,
      View_feature_extractor.SyncMultiviewDiffusion_first.normalize_azimuth azs
      = View_feature_extractor.SyncMultiviewDiffusion.normalize_azimuth azs) /\
   (forall G view_num image_size w,
      View_feature_extractor.SyncMultiviewDiffusion_first._init_multiview G view_num image_size w
      = View_feature_extractor.SyncMultiviewDiffusion._init_multiview G view_num image_size w) /\
   (forall self batch_size elevation_ref w,
      View_feature_extractor.SyncMultiviewDiffusion_first.get_viewpoint_embedding
        self batch_size elevation_ref w
      = View_feature_extractor.SyncMultiviewDiffusion.get_viewpoint_embedding
          (to_second self) batch_size elevation_ref w) /\
   Schedule._init_schedule = SecondText._init_schedule /\
   (forall randn G self x_start t w,
      AddNoise.add_noise randn G self x_start t w
      = SecondText.add_noise randn G self x_start t w)) /\
  ((forall K G td vd vn isz fvd V SL FL w,
      View_feature_extractor.SpatialVolumeNet_init K G td vd vn isz fvd V SL FL w
      = on_result of_net
          (View_feature_extractor_net.SpatialVolumeNet_init K G td vd vn isz fvd V SL FL w)) /\
   (forall K G self x t_embed v_embed target_poses target_Ks w,
      View_feature_extractor_net.construct_spatial_volume K G
        self x t_embed v_embed target_poses target_Ks w
      = View_feature_extractor.construct_spatial_volume K G
          (of_net self) x t_embed v_embed target_poses target_Ks w) /\
   (forall K G self spatial_volume t_embed v_embed poses Ks target_indices w,
      View_feature_extractor_net.construct_view_frustum_volume K G
        self spatial_volume t_embed v_embed poses Ks target_indices w
      = View_feature_extractor.construct_view_frustum_volume K G
          (of_net self) spatial_volume t_embed v_embed poses Ks target_indices w)) /\
  ((forall K td vd vn isz fvd V SL FL w,
      View_feature_extractor.SpatialVolumeNet_init K View_feature_extractor.globals
        td vd vn isz fvd V SL FL w
      = on_result of_net
          (View_feature_extractor_net.SpatialVolumeNet_init K View_feature_extractor_net.globals
             td vd vn isz fvd V SL FL w)) /\
   (forall K self x t_embed v_embed target_poses target_Ks w,
      View_feature_extractor_net.construct_spatial_volume K View_feature_extractor_net.globals
        self x t_embed v_embed target_poses target_Ks w
      = View_feature_extractor.construct_spatial_volume K View_feature_extractor.globals
          (of_net self) x t_embed v_embed target_poses target_Ks w) /\
   (forall K self spatial_volume t_embed v_embed poses Ks target_indices w,
      View_feature_extractor_net.construct_view_frustum_volume K
        View_feature_extractor_net.globals
        self spatial_volume t_embed v_embed poses Ks target_indices w
      = View_feature_extractor.construct_view_frustum_volume K View_feature_extractor.globals
          (of_net self) spatial_volume t_embed v_embed poses Ks target_indices w)).
Proof.
  split; [|split].
  - split; [reflexivity|]. split; [reflexivity|]. split; [intros [] ? ? ?; reflexivity|].
    split; [reflexivity|]. intros. reflexivity.
  - split; [intros; apply SpatialVolumeNet_init_same_text|]. split; intros; reflexivity.
  - split; [intros; apply SpatialVolumeNet_init_copies|].
    split; intros.
    + apply construct_spatial_volume_copies.
    + apply construct_view_frustum_volume_copies.
Qed.

End CopiesAgree.

(** ** Independence from the random generator *)

Section RngFree.
Import Tensor Torch Python View_feature_extractor_net.

Lemma rng_free_ret {A} (a : A) : rng_free (ret a).
Proof. intros w r. reflexivity. Qed.

Lemma rng_free_raise {A} (e : PyError) : rng_free (@raise A e).
Proof. intros w r. reflexivity. Qed.

Lemma rng_free_lift {A} (x : result A) : rng_free (lift x).
Proof. intros w r. reflexivity. Qed.

Lemma rng_free_bind {A B} (m : M A) (f : A -> M B) :
  rng_free m -> (forall a, rng_free (f a)) -> rng_free (bind m f).
Proof.
  intros Hm Hf w r. unfold bind. rewrite (Hm w r).
  destruct (m w) as [[a|e] w1]; cbn [fst snd]; [apply Hf | reflexivity].
Qed.

Lemma rng_free_new (x : Tensor.t) : rng_free (new x).
Proof. intros w r. reflexivity. Qed.

Lemma rng_free_lift_new (x : result Tensor.t) : rng_free (bind (lift x) new).
Proof. apply rng_free_bind; [apply rng_free_lift | intros; apply rng_free_new]. Qed.

Lemma rng_free_apply1 (f : Tensor.t -> result Tensor.t) (x : Handle) : rng_free (apply1 f x).
Proof.
  intros w r. unfold apply1. destruct (dtype x); [|reflexivity].
  exact (rng_free_lift_new (f (value w x)) w r).
Qed.

Lemma rng_free_apply2 (f : Tensor.t -> Tensor.t -> result Tensor.t) (x y : Handle) :
  rng_free (apply2 f x y).
Proof.
  intros w r. unfold apply2. destruct (dtype x), (dtype y); try reflexivity.
  exact (rng_free_lift_new (f (value w x) (value w y)) w r).
Qed.

Lemma rng_free_index (x idx : Handle) : rng_free (index x idx).
Proof.
  intros w r. unfold index. destruct (dtype x), (dtype idx); try reflexivity.
  exact (rng_free_lift_new _ w r).
Qed.

Lemma rng_free_index_arange (x : Handle) (B TN : Z) (idx : Handle) :
  rng_free (index_arange x B TN idx).
Proof.
  intros w r. unfold index_arange. destruct (dtype x), (dtype idx); try reflexivity.
  exact (rng_free_lift_new _ w r).
Qed.

Lemma rng_free_stack (xs : list Handle) : rng_free (stack xs).
Proof.
  intros w r. unfold stack. destruct (forallb _ xs); [|reflexivity].
  exact (rng_free_lift_new _ w r).
Qed.

Lemma rng_free_load_global (G : gmap string PyObj) (name : string) :
  rng_free (load_global G name).
Proof. unfold load_global. destruct (G !! name); [apply rng_free_ret | apply rng_free_raise]. Qed.

Lemma rng_free_for_each {A B} (xs : list A) (body : A -> M B) :
  (forall x, rng_free (body x)) -> rng_free (for_each xs body).
Proof.
  intros Hb. induction xs as [|x xs IH]; cbn [for_each]; [apply rng_free_ret|].
  apply rng_free_bind; [apply Hb|]. intros y.
  apply rng_free_bind; [exact IH|]. intros ys. apply rng_free_ret.
Qed.

Context (K : Kernels).

Lemma rng_free_Conv_forward (c : Conv) (x : Handle) : rng_free (Conv_forward K c x).
Proof. intros w r. exact (rng_free_apply1 _ x w r). Qed.

Lemma rng_free_GroupNorm_forward (g : GroupNorm) (x : Handle) : rng_free (GroupNorm_forward K g x).
Proof. intros w r. exact (rng_free_apply1 _ x w r). Qed.

Lemma rng_free_SiLU_forward (s : SiLU) (x : Handle) : rng_free (SiLU_forward K s x).
Proof.
  intros w r. unfold SiLU_forward. destruct (dtype x); [|reflexivity].
  destruct (inplace s); reflexivity.
Qed.

Lemma rng_free_add (x y : Handle) : rng_free (add x y).
Proof. apply rng_free_apply2. Qed.

Lemma rng_free_Sequential_forward (ls : list Layer) (x : Handle) :
  rng_free (Sequential_forward K ls x).
Proof.
  revert x. induction ls as [|l ls IH]; intros x; cbn [Sequential_forward].
  - apply rng_free_ret.
  - apply rng_free_bind; [|exact IH].
    destruct l; cbn [Layer_forward];
      [apply rng_free_Conv_forward | apply rng_free_GroupNorm_forward | apply rng_free_SiLU_forward].
Qed.

Create HintDb rng_free.

#[local] Hint Resolve rng_free_ret rng_free_raise rng_free_lift rng_free_new rng_free_apply1
  rng_free_apply2 rng_free_index rng_free_index_arange rng_free_stack rng_free_load_global
  rng_free_Conv_forward rng_free_GroupNorm_forward rng_free_SiLU_forward rng_free_add
  rng_free_Sequential_forward : rng_free.

Lemma rng_free_bind_load {B} (G : gmap string PyObj) (name : string) (f : PyObj -> M B) :
  (forall o, G !! name = Some o -> rng_free (f o)) -> rng_free (bind (load_global G name) f).
Proof.
  intros Hf. unfold load_global. destruct (G !! name) as [o|].
  - intros w r. exact (Hf o eq_refl w r).
  - intros w r. reflexivity.
Qed.

Lemma rng_free_call_warp (G : gmap string PyObj) (o : PyObj) (verts : Handle)
    (size image_size : Z) (K_ pose : Handle) :
  helpers_rng_free G -> G !! "get_warp_coordinates"%string = Some o ->
  rng_free (call_warp o verts size image_size K_ pose).
Proof.
  intros HG Ho. destruct o; cbn [call_warp]; try apply rng_free_raise. apply (proj1 HG _ Ho).
Qed.

Lemma rng_free_call_volume (G : gmap string PyObj) (o : PyObj) (D size image_size : Z)
    (poses Ks near far : Handle) :
  helpers_rng_free G -> G !! "create_target_volume"%string = Some o ->
  rng_free (call_volume o D size image_size poses Ks near far).
Proof.
  intros HG Ho. destruct o; cbn [call_volume]; try apply rng_free_raise. apply (proj2 HG _ Ho).
Qed.

Ltac rng_free_steps :=
  repeat first
    [ lazymatch goal with |- rng_free (bind (load_global _ _) _) => idtac end;
      apply rng_free_bind_load; intros ? ?
    | lazymatch goal with |- rng_free (bind _ _) => idtac end;
      apply rng_free_bind;
      [solve [ auto with rng_free
             | eapply rng_free_call_warp; eassumption
             | eapply rng_free_call_volume; eassumption ]
      | intros ?]
    | lazymatch goal with |- rng_free (let '(_, _) := ?p in _) => destruct p end ];
  try solve [auto with rng_free].

Lemma rng_free_Image2DResBlockWithTV_forward (self : Image2DResBlockWithTV) (x t v : Handle) :
  rng_free (Image2DResBlockWithTV_forward K self x t v).
Proof. unfold Image2DResBlockWithTV_forward. rng_free_steps. Qed.

#[local] Hint Resolve rng_free_Image2DResBlockWithTV_forward : rng_free.

Lemma rng_free_NoisyTargetViewEncoder_forward (self : NoisyTargetViewEncoder) (x t v : Handle) :
  rng_free (NoisyTargetViewEncoder_forward K self x t v).
Proof. unfold NoisyTargetViewEncoder_forward. rng_free_steps. Qed.

Lemma rng_free_SpatialTimeBlock_forward (self : SpatialTimeBlock) (x t : Handle) :
  rng_free (SpatialTimeBlock_forward K self x t).
Proof. unfold SpatialTimeBlock_forward. rng_free_steps. Qed.

#[local] Hint Resolve rng_free_NoisyTargetViewEncoder_forward rng_free_SpatialTimeBlock_forward
  : rng_free.

Lemma rng_free_SpatialTime3DNet_forward (self : SpatialTime3DNet) (x t : Handle) :
  rng_free (SpatialTime3DNet_forward K self x t).
Proof. unfold SpatialTime3DNet_forward. rng_free_steps. Qed.

Lemma rng_free_FrustumTVBlock_forward (self : FrustumTVBlock) (x t v : Handle) :
  rng_free (FrustumTVBlock_forward K self x t v).
Proof. unfold FrustumTVBlock_forward. rng_free_steps. Qed.

#[local] Hint Resolve rng_free_SpatialTime3DNet_forward rng_free_FrustumTVBlock_forward : rng_free.

Lemma rng_free_FrustumTV3DNet_forward (self : FrustumTV3DNet) (x t v : Handle) :
  rng_free (FrustumTV3DNet_forward K self x t v).
Proof. unfold FrustumTV3DNet_forward. rng_free_steps. Qed.

#[local] Hint Resolve rng_free_FrustumTV3DNet_forward : rng_free.

Section MainFile.
Import View_feature_extractor.
Context (G : gmap string PyObj) (HG : helpers_rng_free G).

Lemma rng_free_construct_spatial_volume (self : SpatialVolumeNet)
    (x t_embed v_embed target_poses target_Ks : Handle) :
  rng_free (construct_spatial_volume K G self x t_embed v_embed target_poses target_Ks).
Proof.
  unfold construct_spatial_volume.
  apply rng_free_bind; [apply rng_free_lift|]. intros [[[[B N] c] H] W].
  rng_free_steps.
  apply rng_free_bind; [|intros feats; rng_free_steps].
  apply rng_free_for_each. intros ni.
  rng_free_steps.
Qed.

Lemma rng_free_construct_view_frustum_volume (self : SpatialVolumeNet)
    (spatial_volume t_embed v_embed poses Ks target_indices : Handle) :
  rng_free (construct_view_frustum_volume K G self spatial_volume t_embed v_embed poses Ks
              target_indices).
Proof.
  unfold construct_view_frustum_volume.
  apply rng_free_bind; [apply rng_free_lift|]. intros [B TN].
  rng_free_steps.
Qed.

End MainFile.

End RngFree.

(** ** The feature pyramid and the unbound helpers *)

Section PyramidSpec.
Import Tensor Torch View_feature_extractor_net Example.

(** C1: for positive extents [D], [H], [W] that are multiples of 8 (and
    channel counts the normalisation layers accept), [FrustumTV3DNet]
    returns a dictionary with exactly four entries, keyed [W], [W // 2],
    [W // 4] and [W // 8]; the level keyed [W // 2^i] has [dims[i]]
    channels and [1 / 2^i] of the input resolution. *)
Theorem FrustumTV3DNet_pyramid (K : Kernels)
    (in_dim t_dim v_dim dims0 dims1 dims2 dims3 B D H W : Z) :
  0 < in_dim -> 0 < t_dim -> 0 < v_dim ->
  0 < dims0 -> 0 < dims1 -> 0 < dims2 -> 0 < dims3 ->
  dims0 mod 8 = 0 -> dims1 mod 8 = 0 -> dims2 mod 8 = 0 -> dims3 mod 8 = 0 ->
  0 < B -> 0 < D -> 0 < H -> 0 < W ->
  D mod 8 = 0 -> H mod 8 = 0 -> W mod 8 = 0 ->
  B * (dims3 / 8) * (D / 8 * (H / 8) * (W / 8)) <> 1 ->
  returns (FrustumTV3DNet_init K in_dim t_dim v_dim (dims0, dims1, dims2, dims3))
    (fun net => forall x t v,
       is_float [B; in_dim; D; H; W] x -> is_float [B; t_dim] t -> is_float [B; v_dim] v ->
       returns (FrustumTV3DNet_forward K net x t v)
               (pyramid (dims0, dims1, dims2, dims3) B D H W)).
Proof.
  intros Hin Ht Hv H0 H1 H2 H3 G0 G1 G2 G3 HB HD HH HW MD MH MW Hg.
  eapply returns_mono.
  { apply (returns_FrustumTV3DNet_init K in_dim t_dim v_dim dims0 dims1 dims2 dims3);
      assumption. }
  intros net Hnet x t v Hx Ht' Hv'.
  assert (ED : D = 8 * (D / 8)) by (apply Z.div_exact; lia).
  assert (EH : H = 8 * (H / 8)) by (apply Z.div_exact; lia).
  assert (EW : W = 8 * (W / 8)) by (apply Z.div_exact; lia).
  assert (Hx' : is_float [B; in_dim; 8 * (D / 8); 8 * (H / 8); 8 * (W / 8)] x).
  { rewrite <- ED, <- EH, <- EW. exact Hx. }
  eapply returns_mono.
  { apply (returns_FrustumTV3DNet_forward K) with (in_dim := in_dim) (t_dim := t_dim)
      (v_dim := v_dim) (dims0 := dims0) (dims1 := dims1) (dims2 := dims2) (dims3 := dims3)
      (B := B) (d := D / 8) (h := H / 8) (w := W / 8);
      first [assumption | lia]. }
  intros p. unfold pyramid.
  replace (D / 2) with (4 * (D / 8)) by (apply Z.div_unique_exact; lia).
  replace (H / 2) with (4 * (H / 8)) by (apply Z.div_unique_exact; lia).
  replace (W / 2) with (4 * (W / 8)) by (apply Z.div_unique_exact; lia).
  replace (D / 4) with (2 * (D / 8)) by (apply Z.div_unique_exact; lia).
  replace (H / 4) with (2 * (H / 8)) by (apply Z.div_unique_exact; lia).
  replace (W / 4) with (2 * (W / 8)) by (apply Z.div_unique_exact; lia).
  rewrite <- ED, <- EH, <- EW. exact (fun H => H).
Qed.

Lemma FrustumTV3DNet_pyramid_witness :
  returns (FrustumTV3DNet_init shape_only 64 4 4 (64, 128, 256, 512))
    (fun net => forall x t v,
       is_float [1; 64; 8; 8; 8] x -> is_float [1; 4] t -> is_float [1; 4] v ->
       returns (FrustumTV3DNet_forward shape_only net x t v)
               (pyramid (64, 128, 256, 512) 1 8 8 8)).
Proof.
  apply (FrustumTV3DNet_pyramid shape_only 64 4 4 64 128 256 512 1 8 8 8);
    first [lia | reflexivity | (vm_compute; discriminate)].
Defined.

(** An input whose width is a multiple of 8 but whose depth is not: the
    skip connection of the second up-sampling meets extents 4 and 2.  On
    an input the network accepts, the levels keyed 8 and 4 have 64 and
    128 channels. *)
Lemma FrustumTV3DNet_depth_4_raises :
  fst (frustum_net_on [1; 64; 4; 8; 8] empty) = Raise RuntimeError /\
  level_sizes (frustum_net_on [1; 64; 8; 8; 8] empty) 8 = Some [1; 64; 8; 8; 8] /\
  level_sizes (frustum_net_on [1; 64; 8; 8; 8] empty) 4 = Some [1; 128; 4; 4; 4].
Proof. repeat split; vm_compute; reflexivity. Qed.

End PyramidSpec.

Section HelpersUnbound.
Import Tensor Torch Python View_feature_extractor Example.

Lemma globals_torch_bound : View_feature_extractor.globals !! "torch"%string = Some PyModule.
Proof. vm_compute. reflexivity. Qed.

Lemma never_returns_same {A} (m1 m2 : M A) :
  (forall w, m1 w = m2 w) -> never_returns m2 -> never_returns m1.
Proof. intros E H w. rewrite E. apply H. Qed.

(** C2: run in the namespace of its file, neither method returns,
    whatever its arguments, in either copy of the class:
    [get_warp_coordinates] and [create_target_volume] are bound nowhere.
    On arguments of the documented shapes the exception is the
    [NameError] of the helper; for [construct_view_frustum_volume] this
    needs the target indices to be in range. *)
Theorem geometry_helpers_unbound (K : Kernels) (self : SpatialVolumeNet) :
  (forall x t_embed v_embed target_poses target_Ks,
     never_returns (construct_spatial_volume K globals self x t_embed v_embed
                      target_poses target_Ks)) /\
  (forall spatial_volume t_embed v_embed poses Ks target_indices,
     never_returns (construct_view_frustum_volume K globals self spatial_volume t_embed v_embed
                      poses Ks target_indices)) /\
  (forall self' x t_embed v_embed target_poses target_Ks,
     never_returns (View_feature_extractor_net.construct_spatial_volume K
                      View_feature_extractor_net.globals self' x t_embed v_embed
                      target_poses target_Ks)) /\
  (forall self' spatial_volume t_embed v_embed poses Ks target_indices,
     never_returns (View_feature_extractor_net.construct_view_frustum_volume K
                      View_feature_extractor_net.globals self' spatial_volume t_embed v_embed
                      poses Ks target_indices)) /\
  (forall x t_embed v_embed target_poses target_Ks td vd isz fvd V B N Nv Np Nk H W L FL,
     SpatialVolumeNet_is self td vd isz fvd V L FL ->
     0 < td -> 0 < vd -> 0 <= V -> 0 < B -> 0 < N -> 0 < Nv -> 0 < Np -> 0 < Nk ->
     0 < H -> 0 < W ->
     is_float [B; N; 4; H; W] x -> is_float [B; td] t_embed -> is_float [B; Nv; vd] v_embed ->
     is_float [Np; 3; 4] target_poses -> is_float [Nk; 3; 3] target_Ks ->
     raises (construct_spatial_volume K globals self x t_embed v_embed target_poses target_Ks)
       (NameError "get_warp_coordinates")) /\
  (forall spatial_volume t_embed v_embed poses Ks target_indices w B TN N psh ksh,
     sizes target_indices = [B; TN] -> dtype target_indices = Long ->
     contiguous target_indices = true -> (cell target_indices < length (heap w))%nat ->
     0 <= B -> 0 <= TN -> 0 <= frustum_volume_size self ->
     is_float (N :: psh) poses -> is_float (N :: ksh) Ks ->
     Forall (fun i => 0 <= i < N) (long_value w target_indices) ->
     exists w', construct_view_frustum_volume K globals self spatial_volume t_embed v_embed
                  poses Ks target_indices w
                = (Raise (NameError "create_target_volume"), w')).
Proof.
  split; [|split; [|split; [|split; [|split]]]].
  - intros. apply construct_spatial_volume_never_returns, globals_warp_unbound.
  - intros. apply construct_view_frustum_volume_never_returns, globals_volume_unbound.
  - intros. eapply never_returns_same; [apply construct_spatial_volume_copies|].
    apply construct_spatial_volume_never_returns, globals_warp_unbound.
  - intros. eapply never_returns_same; [apply construct_view_frustum_volume_copies|].
    apply construct_view_frustum_volume_never_returns, globals_volume_unbound.
  - intros x t v p k td vd isz fvd V B N Nv Np Nk H W L FL Hself.
    exact (construct_spatial_volume_raises K globals (ex_intro _ PyModule globals_torch_bound)
             globals_warp_unbound self x t v p k td vd isz fvd V B N Nv Np Nk H W L FL Hself).
  - intros sv t v poses Ks ti w B TN N psh ksh Hs Hl Hc Ha HB HTN Hf Hp Hk Hin.
    destruct (frustum_volume_reaches_helper K globals PyModule globals_torch_bound
                globals_volume_unbound self sv t v poses Ks ti w B TN N psh ksh
                Hs Hl Hc Ha HB HTN Hf Hp Hk Hin) as (w' & E & _).
    exists w'. exact E.
Qed.

(** An index past the last stored pose: the exception is the runtime's
    [IndexError], raised before [create_target_volume] is looked up. *)
Lemma frustum_volume_index_2_of_2 :
  fst (frustum_volume_for [2] empty) = Raise IndexError.
Proof. vm_compute. reflexivity. Qed.

(** [construct_spatial_volume] on the scene stops at the look-up of the
    warp helper. *)
Lemma spatial_volume_of_scene_raises :
  fst (spatial_volume_of_scene empty) = Raise (NameError "get_warp_coordinates").
Proof. vm_compute. reflexivity. Qed.

(** C3 (what the code does): with the target indices [[0]] and with
    [[0, 0]] the call ends in the [NameError] of [create_target_volume];
    no feature volume is produced to compare. *)
Theorem repeated_target_index_calls_raise :
  fst (frustum_volume_for [0] empty) = Raise (NameError "create_target_volume") /\
  fst (frustum_volume_for [0; 0] empty) = Raise (NameError "create_target_volume").
Proof. split; vm_compute; reflexivity. Qed.

(** C5: [construct_view_frustum_volume] passes the target indices to the
    runtime as they are.  With every index in [[0, N)] the two table
    look-ups succeed (the call allocates the two planes and the two
    selections, and stops at the look-up of [create_target_volume]); with
    an index outside [[-N, N)] the call ends in the runtime's
    [IndexError]. *)
Theorem target_indices_not_validated (K : Kernels) (self : SpatialVolumeNet)
    (spatial_volume t_embed v_embed poses Ks target_indices : Handle) (w : World)
    (B TN N : Z) (psh ksh : list Z) :
  sizes target_indices = [B; TN] -> dtype target_indices = Long ->
  contiguous target_indices = true -> (cell target_indices < length (heap w))%nat ->
  0 <= B -> 0 <= TN -> 0 <= frustum_volume_size self ->
  is_float (N :: psh) poses -> is_float (N :: ksh) Ks ->
  let call := construct_view_frustum_volume K globals self spatial_volume t_embed v_embed
                poses Ks target_indices in
  (Forall (fun i => 0 <= i < N) (long_value w target_indices) ->
     exists w', call w = (Raise (NameError "create_target_volume"), w') /\
                length (heap w') = (length (heap w) + 4)%nat) /\
  (Exists (fun i => ~ (- N <= i < N)) (long_value w target_indices) ->
     exists w', call w = (Raise IndexError, w')).
Proof.
  intros Hs Hl Hc Ha HB HTN Hf Hp Hk call. split; intros Hin.
  - exact (frustum_volume_reaches_helper K globals PyModule globals_torch_bound
             globals_volume_unbound self spatial_volume t_embed v_embed poses Ks target_indices
             w B TN N psh ksh Hs Hl Hc Ha HB HTN Hf Hp Hk Hin).
  - exact (frustum_volume_index_error K globals PyModule globals_torch_bound
             self spatial_volume t_embed v_embed poses Ks target_indices
             w B TN N psh Hs Hl Hc Ha HB HTN Hf Hp Hin).
Qed.

End HelpersUnbound.

(** ** The scene, and the frame of a forward pass *)

Section Scene.
Import Tensor Torch Python View_feature_extractor Example.

Lemma map_nth_seq_long (xs : list Z) : map (fun p => nth p xs 0) (seq 0 (length xs)) = xs.
Proof.
  apply nth_ext with (d := 0) (d' := 0).
  - rewrite length_map, length_seq. reflexivity.
  - intros i Hi. rewrite length_map, length_seq in Hi.
    rewrite (nth_indep _ 0 (nth 0 xs 0)) by (rewrite length_map, length_seq; exact Hi).
    rewrite (map_nth (fun p => nth p xs 0)), seq_nth by exact Hi. reflexivity.
Qed.

Lemma contiguous_seq (c : nat) (sh : list Z) (d : DType) (n : nat) :
  contiguous (mkHandle c sh d (seq 0 n)) = true.
Proof.
  unfold contiguous. cbn [sel]. apply bool_decide_eq_true. rewrite length_seq.
  destruct n; reflexivity.
Qed.

Lemma globals_classes_bound :
  is_Some (globals !! "NoisyTargetViewEncoder"%string) /\
  is_Some (globals !! "SpatialTime3DNet"%string) /\
  is_Some (globals !! "FrustumTV3DNet"%string).
Proof. repeat split; exists PyClass; vm_compute; reflexivity. Qed.

(** What the example scene holds. *)
Lemma setup_with_returns (idx : list Z) :
  exists s ti w, setup_with idx empty = (Ok (s, ti), w) /\
    SpatialVolumeNet_is (net s) 4 4 8 2 2 0.5%R 0.86603%R /\
    is_float [2; 3; 4] (poses s) /\ is_float [2; 3; 3] (Ks s) /\
    is_float [1; 2; 4; 1; 1] (x s) /\ is_float [1; 4] (t_embed s) /\
    is_float [1; 2; 4] (v_embed s) /\
    sizes ti = [1; Z.of_nat (length idx)] /\ dtype ti = Long /\ contiguous ti = true /\
    (cell ti < length (heap w))%nat /\ long_value w ti = idx /\
    exists w1, SpatialVolumeNet_init shape_only globals 4 4 2 8 2 2 0.5%R 0.86603%R empty
               = (Ok (net s), w1).
Proof.
  destruct globals_classes_bound as (H1 & H2 & H3).
  destruct (returns_SpatialVolumeNet_init shape_only globals H1 H2 H3 4 4 2 8 2 2 0.5%R 0.86603%R
              ltac:(lia) ltac:(lia) ltac:(lia) empty) as (self & w1 & E & Hself).
  unfold setup_with, setup, bind. rewrite E. cbn [new new_long ret heap rng].
  eexists _, _, _. split; [reflexivity|]. cbn [net poses Ks x t_embed v_embed fst snd].
  split; [exact Hself|].
  do 5 (split; [split; reflexivity|]).
  split; [reflexivity|]. split; [reflexivity|]. split; [apply contiguous_seq|].
  split.
  - cbn [cell heap]. rewrite !length_app. cbn [length]. lia.
  - split; [|exists w1; reflexivity].
    unfold long_value. cbn [cell sel heap]. rewrite nth_middle. cbn [longs].
    apply map_nth_seq_long.
Qed.

Lemma target_indices_not_validated_witness :
  (exists s ti w w', setup_with [0; 1] empty = (Ok (s, ti), w) /\
     construct_view_frustum_volume shape_only globals (net s) (spatial_volume s)
       (t_embed s) (v_embed s) (poses s) (Ks s) ti w
     = (Raise (NameError "create_target_volume"), w')) /\
  (exists s ti w w', setup_with [0; 2] empty = (Ok (s, ti), w) /\
     construct_view_frustum_volume shape_only globals (net s) (spatial_volume s)
       (t_embed s) (v_embed s) (poses s) (Ks s) ti w
     = (Raise IndexError, w')).
Proof.
  split.
  - destruct (setup_with_returns [0; 1])
      as (s & ti & w & E & Hself & Hp & Hk & _ & _ & _ & Hs & Hl & Hc & Ha & Hv & _).
    destruct (target_indices_not_validated shape_only (net s) (spatial_volume s) (t_embed s)
                (v_embed s) (poses s) (Ks s) ti w 1 2 2 [3; 4] [3; 3] Hs Hl Hc Ha
                ltac:(lia) ltac:(lia)) as [Hin _]; [| exact Hp | exact Hk |].
    { destruct Hself as (_ & _ & _ & _ & -> & _). vm_compute. discriminate. }
    destruct Hin as (w' & E' & _).
    { rewrite Hv. repeat constructor; lia. }
    exists s, ti, w, w'. split; [exact E | exact E'].
  - destruct (setup_with_returns [0; 2])
      as (s & ti & w & E & Hself & Hp & Hk & _ & _ & _ & Hs & Hl & Hc & Ha & Hv & _).
    destruct (target_indices_not_validated shape_only (net s) (spatial_volume s) (t_embed s)
                (v_embed s) (poses s) (Ks s) ti w 1 2 2 [3; 4] [3; 3] Hs Hl Hc Ha
                ltac:(lia) ltac:(lia)) as [_ Hout]; [| exact Hp | exact Hk |].
    { destruct Hself as (_ & _ & _ & _ & -> & _). vm_compute. discriminate. }
    destruct Hout as (w' & E').
    { rewrite Hv. apply Exists_cons_tl, Exists_cons_hd. lia. }
    exists s, ti, w, w'. split; [exact E | exact E'].
Defined.

End Scene.

Section FrameSpec.
Import Tensor Torch Python View_feature_extractor Example.

Lemma stable_unchanged (w w' : World) : stable (length (heap w)) w w' -> unchanged w w'.
Proof.
  intros (Hf & _ & _) h Hh.
  assert (E : forall d, nth (cell h) (heap w') d = nth (cell h) (heap w) d).
  { intros d.
    rewrite <- (firstn_skipn (length (heap w)) (heap w')), Hf.
    rewrite firstn_all, app_nth1 by exact Hh. reflexivity. }
  unfold value, long_value. rewrite !E. split; reflexivity.
Qed.

Lemma globals_helpers_keep : helpers_keep globals.
Proof.
  split; intros f Hf.
  - rewrite globals_warp_unbound in Hf. discriminate.
  - rewrite globals_volume_unbound in Hf. discriminate.
Qed.

Lemma globals_helpers_rng_free : helpers_rng_free globals.
Proof.
  split; intros f Hf.
  - rewrite globals_warp_unbound in Hf. discriminate.
  - rewrite globals_volume_unbound in Hf. discriminate.
Qed.

(** C10: whatever the outcome of [construct_spatial_volume], of
    [construct_view_frustum_volume], or of the two in sequence, every
    tensor that existed before the call (parameters, camera tables,
    arguments) reads as before and the random generator is where it was;
    a returned spatial volume is on a storage allocated by the call. *)
Theorem forward_pass_keeps_state (K : Kernels) (G : gmap string PyObj) (self : SpatialVolumeNet)
    (x t_embed v_embed poses Ks target_indices : Handle) (w : World) :
  helpers_keep G ->
  let spatial := construct_spatial_volume K G self x t_embed v_embed poses Ks in
  let frustum := fun spatial_volume =>
    construct_view_frustum_volume K G self spatial_volume t_embed v_embed poses Ks
      target_indices in
  (unchanged w (snd (spatial w)) /\ rng (snd (spatial w)) = rng w /\
   forall out, fst (spatial w) = Ok out -> (length (heap w) <= cell out)%nat) /\
  (forall spatial_volume,
     unchanged w (snd (frustum spatial_volume w)) /\ rng (snd (frustum spatial_volume w)) = rng w) /\
  (unchanged w (snd (bind spatial frustum w)) /\ rng (snd (bind spatial frustum w)) = rng w).
Proof.
  intros HG spatial frustum.
  pose proof (keeps_construct_spatial_volume K G HG (length (heap w)) self x t_embed v_embed
                poses Ks) as Hs. fold spatial in Hs.
  assert (Hf : forall sv, keeps (length (heap w)) (frustum sv) (fun _ => True)).
  { intros sv. apply (keeps_construct_view_frustum_volume K G HG). }
  split; [|split].
  - destruct (Hs w (Nat.le_refl _)) as [Hst Hout].
    split; [exact (stable_unchanged _ _ Hst)|]. split; [apply Hst|]. exact Hout.
  - intros sv. destruct (Hf sv w (Nat.le_refl _)) as [Hst _].
    split; [exact (stable_unchanged _ _ Hst) | apply Hst].
  - assert (Hb : keeps (length (heap w)) (bind spatial frustum) (fun _ => True)).
    { eapply keeps_bind; [exact Hs|]. intros sv _. apply Hf. }
    destruct (Hb w (Nat.le_refl _)) as [Hst _].
    split; [exact (stable_unchanged _ _ Hst) | apply Hst].
Qed.

Lemma forward_pass_keeps_state_witness :
  exists s ti w, setup_with [0; 1] empty = (Ok (s, ti), w) /\
    unchanged w (snd (construct_spatial_volume shape_only globals (net s) (x s) (t_embed s)
                        (v_embed s) (poses s) (Ks s) w)) /\
    forall spatial_volume,
      unchanged w (snd (construct_view_frustum_volume shape_only globals (net s) spatial_volume
                          (t_embed s) (v_embed s) (poses s) (Ks s) ti w)).
Proof.
  destruct (setup_with_returns [0; 1]) as (s & ti & w & E & _).
  exists s, ti, w. split; [exact E|].
  destruct (forward_pass_keeps_state shape_only globals (net s) (x s) (t_embed s) (v_embed s)
              (poses s) (Ks s) ti w globals_helpers_keep) as ((H1 & _) & H2 & _).
  split; [exact H1|]. intros sv. apply H2.
Defined.

Lemma geometry_helpers_unbound_witness :
  exists s ti w, setup_with [0] empty = (Ok (s, ti), w) /\
    raises (construct_spatial_volume shape_only globals (net s) (x s) (t_embed s) (v_embed s)
              (poses s) (Ks s))
      (NameError "get_warp_coordinates") /\
    exists w', construct_view_frustum_volume shape_only globals (net s) (spatial_volume s)
                 (t_embed s) (v_embed s) (poses s) (Ks s) ti w
               = (Raise (NameError "create_target_volume"), w').
Proof.
  destruct (setup_with_returns [0])
    as (s & ti & w & E & Hself & Hp & Hk & Hx & Ht & Hv & Hs & Hl & Hc & Ha & Hi & _).
  exists s, ti, w. split; [exact E|].
  destruct (geometry_helpers_unbound shape_only (net s)) as (_ & _ & _ & _ & Hw & Hf).
  split.
  - apply (Hw (x s) (t_embed s) (v_embed s) (poses s) (Ks s) 4 4 8 2 2 1 2 2 2 2 1 1
              0.5%R 0.86603%R Hself); first [lia | assumption].
  - apply (Hf (spatial_volume s) (t_embed s) (v_embed s) (poses s) (Ks s) ti w 1 1 2
              [3; 4] [3; 3] Hs Hl Hc Ha); first [lia | assumption | idtac].
    + destruct Hself as (_ & _ & _ & _ & -> & _). vm_compute. discriminate.
    + rewrite Hi. repeat constructor; lia.
Defined.

(** C6: whatever its outcome, [construct_view_frustum_volume] has built
    the near and the far plane, one value per batch element and pixel of
    the frustum grid: the constants [1.5 - frustum_volume_length] and
    [1.5 + frustum_volume_length].  Their midpoint is the default origin
    depth 1.5, and near is below far for a positive length such as the
    default 0.86603. *)
Theorem near_far_planes (K : Kernels) (G : gmap string PyObj)
    (td vd vn isz fvd V : Z) (SL FL : R) (w0 w1 : World) (self : SpatialVolumeNet)
    (spatial_volume t_embed v_embed poses Ks target_indices : Handle) (w : World) (B TN : Z) :
  SpatialVolumeNet_init K G td vd vn isz fvd V SL FL w0 = (Ok self, w1) ->
  helpers_keep G -> is_Some (G !! "torch"%string) ->
  sizes target_indices = [B; TN] -> 0 <= B * TN -> 0 <= isz / 8 ->
  exists near far,
    near_plane self B TN (frustum_volume_size self) (frustum_volume_size self) = Ok near /\
    far_plane self B TN (frustum_volume_size self) (frustum_volume_size self) = Ok far /\
    firstn (length (heap w) + 2)
      (heap (snd (construct_view_frustum_volume K G self spatial_volume t_embed v_embed
                    poses Ks target_indices w)))
    = heap w ++ [FloatStorage (data near); FloatStorage (data far)] /\
    shape near = [B * TN; 1; isz / 8; isz / 8] /\
    shape far = [B * TN; 1; isz / 8; isz / 8] /\
    default_origin_depth self = 1.5%R /\
    forall b d i j, 0 <= b < B * TN -> 0 <= d < 1 -> 0 <= i < isz / 8 -> 0 <= j < isz / 8 ->
      exists n f, get near [b; d; i; j] = Some n /\ get far [b; d; i; j] = Some f /\
        n = (1.5 - FL)%R /\ f = (1.5 + FL)%R /\
        ((n + f) / 2 = default_origin_depth self)%R /\
        ((0 < FL)%R -> (n < f)%R) /\ (FL = 0.86603%R -> (n < f)%R).
Proof.
  intros Hinit HG Htorch Hs HB Hsz.
  destruct (plane_values K G td vd vn isz fvd V SL FL w0 w1 self B TN Hinit HB Hsz)
    as (near & far & Hn & Hf & Hsn & Hsf & Hd & Hpix).
  exists near, far. split; [exact Hn|]. split; [exact Hf|].
  split.
  { apply (frustum_volume_builds_planes K G HG) with (B := B) (TN := TN); assumption. }
  auto.
Qed.

Lemma near_far_planes_witness :
  exists s ti w, setup_with [0; 1] empty = (Ok (s, ti), w) /\
    exists near far,
      firstn (length (heap w) + 2)
        (heap (snd (construct_view_frustum_volume shape_only globals (net s) (spatial_volume s)
                      (t_embed s) (v_embed s) (poses s) (Ks s) ti w)))
      = heap w ++ [FloatStorage (data near); FloatStorage (data far)] /\
      exists n f, get near [1; 0; 0; 0] = Some n /\ get far [1; 0; 0; 0] = Some f /\
        n = (1.5 - 0.86603)%R /\ f = (1.5 + 0.86603)%R /\ (n < f)%R.
Proof.
  destruct (setup_with_returns [0; 1])
    as (s & ti & w & E & _ & _ & _ & _ & _ & _ & Hs & _ & _ & _ & _ & w1 & Hinit).
  exists s, ti, w. split; [exact E|].
  destruct (near_far_planes shape_only globals 4 4 2 8 2 2 0.5%R 0.86603%R empty w1 (net s)
              (spatial_volume s) (t_embed s) (v_embed s) (poses s) (Ks s) ti w 1 2 Hinit
              globals_helpers_keep (ex_intro _ PyModule globals_torch_bound) Hs)
    as (near & far & _ & _ & Hheap & _ & _ & _ & Hpix); [lia | (vm_compute; discriminate) |].
  exists near, far. split; [exact Hheap|].
  destruct (Hpix 1 0 0 0) as (n & f & Gn & Gf & En & Ef & _ & _ & Hlt);
    [lia | lia | (vm_compute; split; [discriminate | reflexivity])
    | (vm_compute; split; [discriminate | reflexivity]) |].
  exists n, f. repeat (split; [assumption|]). exact (Hlt eq_refl).
Defined.

End FrameSpec.

Section EmbeddingWitness.
Import Tensor Torch View_feature_extractor.SyncMultiviewDiffusion.

Lemma get_viewpoint_embedding_spec_witness :
  exists h w',
    get_viewpoint_embedding
      (mkSyncMultiviewDiffusion 2 4 256 (mkHandle 0 [2; 3; 4] Float (seq 0 24))
         (mkHandle 1 [2; 3; 3] Float (seq 0 18)) (mkHandle 2 [2] Float [0; 1]%nat))
      1 (mkHandle 3 [1] Float [0%nat])
      (mkWorld [FloatStorage (repeat 0%R 24); FloatStorage (repeat 0%R 18);
                FloatStorage [0%R; (PI / 2)%R]; FloatStorage [deg2rad 30]] 0)
    = (Ok h, w') /\
    sizes h = [1; 2; 4] /\
    get (value w' h) [0; 0; 0] = Some 0%R /\ get (value w' h) [0; 0; 1] = Some 0%R /\
    get (value w' h) [0; 0; 2] = Some 1%R /\ get (value w' h) [0; 0; 3] = Some 0%R /\
    get (value w' h) [0; 1; 3] = Some 0%R.
Proof.
  destruct (get_viewpoint_embedding_spec
              (mkSyncMultiviewDiffusion 2 4 256 (mkHandle 0 [2; 3; 4] Float (seq 0 24))
                 (mkHandle 1 [2; 3; 3] Float (seq 0 18)) (mkHandle 2 [2] Float [0; 1]%nat))
              (mkHandle 3 [1] Float [0%nat])
              (mkWorld [FloatStorage (repeat 0%R 24); FloatStorage (repeat 0%R 18);
                        FloatStorage [0%R; (PI / 2)%R]; FloatStorage [deg2rad 30]] 0)
              1 2) as (h & w' & E & Hs & Hz & H0);
    [split; reflexivity | reflexivity | lia | split; reflexivity | reflexivity |].
  exists h, w'. split; [exact E|]. split; [exact Hs|].
  destruct (H0 0 ltac:(lia) eq_refl) as (A & B & C & D).
  repeat (split; [assumption|]). apply Hz; lia.
Defined.

End EmbeddingWitness.

(** ** The image encoder: shapes *)

Section EncoderShapes.
Import Tensor Torch View_feature_extractor_net Example.

(** X1: [Image2DResBlockWithTV]: the residual block keeps the shape of its
    input, for every batch size and image size; the two embeddings are
    added on every pixel. *)
Theorem Image2DResBlockWithTV_keeps_shape (K : Kernels) (dim tdim vdim B H W : Z) :
  0 < dim -> 0 < tdim -> 0 < vdim -> dim mod 8 = 0 ->
  0 < B -> 0 < H -> 0 < W -> B * (dim / 8) * (H * W) <> 1 ->
  returns (Image2DResBlockWithTV_init K dim tdim vdim)
    (fun blk => forall x t v,
       is_float [B; dim; H; W] x -> is_float [B; tdim; 1; 1] t -> is_float [B; vdim; 1; 1] v ->
       returns (Image2DResBlockWithTV_forward K blk x t v) (is_float [B; dim; H; W])).
Proof.
  intros Hd Ht Hv Hm HB HH HW Hg.
  eapply returns_mono.
  { apply (returns_Image2DResBlockWithTV_init K dim tdim vdim); (lia || assumption). }
  intros blk Hblk x t v Hx Ht' Hv'.
  apply (returns_Image2DResBlockWithTV_forward K blk x t v dim tdim vdim B H W);
    try assumption; try lia.
  replace (B * dim / 8) with (B * (dim / 8)); [exact Hg|].
  apply Z.div_unique_exact; [lia|].
  assert (E : dim = 8 * (dim / 8)) by (apply Z.div_exact; lia). rewrite E at 1. ring.
Qed.

Lemma Image2DResBlockWithTV_keeps_shape_witness :
  returns (Image2DResBlockWithTV_init shape_only 16 4 4)
    (fun blk => forall x t v,
       is_float [2; 16; 3; 5] x -> is_float [2; 4; 1; 1] t -> is_float [2; 4; 1; 1] v ->
       returns (Image2DResBlockWithTV_forward shape_only blk x t v) (is_float [2; 16; 3; 5])).
Proof.
  apply (Image2DResBlockWithTV_keeps_shape shape_only 16 4 4 2 3 5);
    first [lia | reflexivity | (vm_compute; discriminate)].
Defined.

(** X2: [NoisyTargetViewEncoder]: a latent image [(B, 4, H, W)] with its
    time and viewpoint embeddings is encoded to [(B, output_dim, H, W)]:
    the spatial size is kept, whatever it is. *)
Theorem NoisyTargetViewEncoder_output_shape (K : Kernels)
    (time_embed_dim viewpoint_dim run_dim output_dim B H W : Z) :
  0 < time_embed_dim -> 0 < viewpoint_dim -> 0 < run_dim -> 0 < output_dim ->
  run_dim mod 8 = 0 -> 0 < B -> 0 < H -> 0 < W -> B * (run_dim / 8) * (H * W) <> 1 ->
  returns (NoisyTargetViewEncoder_init K time_embed_dim viewpoint_dim run_dim output_dim)
    (fun enc => forall x t v,
       is_float [B; 4; H; W] x -> is_float [B; time_embed_dim] t ->
       is_float [B; viewpoint_dim] v ->
       returns (NoisyTargetViewEncoder_forward K enc x t v) (is_float [B; output_dim; H; W])).
Proof.
  intros Ht Hv Hr Ho Hm HB HH HW Hg.
  eapply returns_mono.
  { apply (returns_NoisyTargetViewEncoder_init K time_embed_dim viewpoint_dim run_dim output_dim);
      (lia || assumption). }
  intros enc Henc x t v Hx Ht' Hv'.
  apply (returns_NoisyTargetViewEncoder_forward K enc x t v time_embed_dim viewpoint_dim
           run_dim output_dim B H W); try assumption; try lia.
  replace (B * run_dim / 8) with (B * (run_dim / 8)); [exact Hg|].
  apply Z.div_unique_exact; [lia|].
  assert (E : run_dim = 8 * (run_dim / 8)) by (apply Z.div_exact; lia). rewrite E at 1. ring.
Qed.

Lemma NoisyTargetViewEncoder_output_shape_witness :
  returns (NoisyTargetViewEncoder_init shape_only 256 4 16 16)
    (fun enc => forall x t v,
       is_float [1; 4; 32; 32] x -> is_float [1; 256] t -> is_float [1; 4] v ->
       returns (NoisyTargetViewEncoder_forward shape_only enc x t v)
               (is_float [1; 16; 32; 32])).
Proof.
  apply (NoisyTargetViewEncoder_output_shape shape_only 256 4 16 16 1 32 32);
    first [lia | reflexivity | (vm_compute; discriminate)].
Defined.

End EncoderShapes.

(** ** The networks: what a forward pass leaves in the store *)

Section NetworkFrames.
Import Tensor Torch View_feature_extractor_net.
Context (K : Kernels).

Lemma stable_gives_unchanged (w w' : World) : stable (length (heap w)) w w' -> unchanged w w'.
Proof.
  intros (Hf & _ & _) h Hh.
  assert (E : forall d, nth (cell h) (heap w') d = nth (cell h) (heap w) d).
  { intros d.
    rewrite <- (firstn_skipn (length (heap w)) (heap w')), Hf.
    rewrite firstn_all, app_nth1 by exact Hh. reflexivity. }
  unfold value, long_value. rewrite !E. split; reflexivity.
Qed.

(** X3: The [forward] of each network leaves every tensor that existed
    before the call as it was, arguments and parameters included, however
    the call ends: its in-place [SiLU] layers only overwrite tensors the
    call itself allocated.  What the encoder and the spatial network
    return is on a new storage. *)
Theorem network_forward_keeps_state (w : World) :
  (forall self x t v,
     unchanged w (snd (NoisyTargetViewEncoder_forward K self x t v w)) /\
     forall y, fst (NoisyTargetViewEncoder_forward K self x t v w) = Ok y ->
       (length (heap w) <= cell y)%nat) /\
  (forall self x t,
     unchanged w (snd (SpatialTime3DNet_forward K self x t w)) /\
     forall y, fst (SpatialTime3DNet_forward K self x t w) = Ok y ->
       (length (heap w) <= cell y)%nat) /\
  (forall self x t v,
     unchanged w (snd (FrustumTV3DNet_forward K self x t v w))).
Proof.
  split; [|split].
  - intros self x t v.
    destruct (keeps_NoisyTargetViewEncoder_forward K (length (heap w)) self x t v w
                (Nat.le_refl _)) as [Hs Hy].
    split; [exact (stable_gives_unchanged _ _ Hs) | exact Hy].
  - intros self x t.
    destruct (keeps_SpatialTime3DNet_forward K (length (heap w)) self x t w
                (Nat.le_refl _)) as [Hs Hy].
    split; [exact (stable_gives_unchanged _ _ Hs) | exact Hy].
  - intros self x t v.
    destruct (keeps_FrustumTV3DNet_forward K (length (heap w)) self x t v w
                (Nat.le_refl _)) as [Hs _].
    exact (stable_gives_unchanged _ _ Hs).
Qed.

End NetworkFrames.

(** ** The viewpoint embedding: every entry *)

Section EmbeddingValues.
Import Tensor Torch View_feature_extractor.SyncMultiviewDiffusion.

(** X4: [get_viewpoint_embedding]: entry [(b, n)] of the result is
    [(elevation_ref[b] - 30 degrees, sin d, cos d, 0)] with
    [d = azimuth[n] - azimuth[0]]. *)
Theorem get_viewpoint_embedding_values (self : SyncMultiviewDiffusion)
    (elevation_ref : Handle) (w : World) (B N : Z) :
  is_float [N] (azimuth self) -> Z.of_nat (length (sel (azimuth self))) = N -> 0 < N ->
  is_float [B] elevation_ref -> Z.of_nat (length (sel elevation_ref)) = B ->
  exists h w', get_viewpoint_embedding self B elevation_ref w = (Ok h, w') /\
    sizes h = [B; N; 4] /\
    forall b n el a a0, 0 <= b < B -> 0 <= n < N ->
      get (value w elevation_ref) [b] = Some el ->
      get (value w (azimuth self)) [n] = Some a ->
      get (value w (azimuth self)) [0] = Some a0 ->
      get (value w' h) [b; n; 0] = Some (el - deg2rad 30)%R /\
      get (value w' h) [b; n; 1] = Some (Rtrigo_def.sin (a - a0)) /\
      get (value w' h) [b; n; 2] = Some (Rtrigo_def.cos (a - a0)) /\
      get (value w' h) [b; n; 3] = Some 0%R.
Proof.
  intros Haz Hlaz HN Hel Hlel.
  destruct (get_viewpoint_embedding_entries self elevation_ref w B N Haz Hlaz HN Hel Hlel)
    as (h & w' & E & Hs & Hentries).
  exists h, w'. split; [exact E|]. split; [exact Hs|].
  intros b n el a a0 Hb Hn Gel Ga Ga0.
  destruct (Hentries b n el a a0 Hb Hn Gel Ga Ga0) as (E0 & E1 & E2 & E3).
  rewrite E0, E1, E2, E3.
  replace (- deg2rad 30 - - el)%R with (el - deg2rad 30)%R by ring. auto.
Qed.

Lemma get_viewpoint_embedding_values_witness :
  exists h w',
    get_viewpoint_embedding
      (mkSyncMultiviewDiffusion 2 4 256 (mkHandle 0 [2; 3; 4] Float (seq 0 24))
         (mkHandle 1 [2; 3; 3] Float (seq 0 18)) (mkHandle 2 [2] Float [0; 1]%nat))
      1 (mkHandle 3 [1] Float [0%nat])
      (mkWorld [FloatStorage (repeat 0%R 24); FloatStorage (repeat 0%R 18);
                FloatStorage [0%R; (PI / 2)%R]; FloatStorage [0%R]] 0)
    = (Ok h, w') /\
    get (value w' h) [0; 1; 0] = Some (0 - deg2rad 30)%R /\
    get (value w' h) [0; 1; 1] = Some (Rtrigo_def.sin (PI / 2 - 0)) /\
    get (value w' h) [0; 1; 2] = Some (Rtrigo_def.cos (PI / 2 - 0)).
Proof.
  destruct (get_viewpoint_embedding_values
              (mkSyncMultiviewDiffusion 2 4 256 (mkHandle 0 [2; 3; 4] Float (seq 0 24))
                 (mkHandle 1 [2; 3; 3] Float (seq 0 18)) (mkHandle 2 [2] Float [0; 1]%nat))
              (mkHandle 3 [1] Float [0%nat])
              (mkWorld [FloatStorage (repeat 0%R 24); FloatStorage (repeat 0%R 18);
                        FloatStorage [0%R; (PI / 2)%R]; FloatStorage [0%R]] 0)
              1 2) as (h & w' & E & _ & Hv);
    [split; reflexivity | reflexivity | lia | split; reflexivity | reflexivity |].
  exists h, w'. split; [exact E|].
  destruct (Hv 0 1 0%R (PI / 2)%R 0%R ltac:(lia) ltac:(lia) eq_refl eq_refl eq_refl)
    as (A & B & C & _).
  auto.
Defined.

End EmbeddingValues.

(** ** The spatial network [SpatialTime3DNet]: shapes *)

Section SpatialNet.
Import Tensor Torch View_feature_extractor_net Example.

Lemma returns_SpatialTimeBlock_init_is (K : Kernels) (x_in_dim t_in_dim out_dim stride : Z) :
  0 <= x_in_dim -> 0 <= t_in_dim -> 0 <= out_dim -> x_in_dim mod 8 = 0 ->
  returns (SpatialTimeBlock_init K x_in_dim t_in_dim out_dim stride)
    (fun blk => SpatialTimeBlock_is blk x_in_dim t_in_dim
                  (mkConv 3 x_in_dim out_dim 3 stride 1 0 false)).
Proof.
  intros Hx Ht Ho Hm. unfold SpatialTimeBlock_init, Conv3d.
  eapply returns_bind; [apply returns_Conv_init; cbn; lia|]. intros tc Htc.
  eapply returns_bind; [apply returns_GroupNorm_init; [exact Hm | lia]|]. intros bn [Hg Hc].
  eapply returns_bind; [apply returns_Conv_init; cbn; lia|]. intros cv Hcv.
  apply returns_ret. repeat split; assumption.
Qed.

Lemma returns_SpatialUpTimeBlock_init_is (K : Kernels) (x_in_dim t_in_dim out_dim : Z) :
  0 <= x_in_dim -> 0 <= t_in_dim -> 0 <= out_dim -> x_in_dim mod 8 = 0 ->
  returns (SpatialUpTimeBlock_init K x_in_dim t_in_dim out_dim)
    (fun blk => SpatialTimeBlock_is blk x_in_dim t_in_dim
                  (mkConv 3 x_in_dim out_dim 3 2 1 1 true)).
Proof.
  intros Hx Ht Ho Hm. unfold SpatialUpTimeBlock_init, Conv3d, ConvTranspose3d.
  eapply returns_bind; [apply returns_Conv_init; cbn; lia|]. intros tc Htc.
  eapply returns_bind; [apply returns_GroupNorm_init; [exact Hm | lia]|]. intros bn [Hg Hc].
  eapply returns_bind; [apply returns_Conv_init; cbn; lia|]. intros cv Hcv.
  apply returns_ret. repeat split; assumption.
Qed.

Lemma returns_SpatialTimeBlock_forward (K : Kernels) (blk : SpatialTimeBlock) (x t : Handle)
    (x_dim t_dim : Z) (cs : ConvSpec) (B d h w d' h' w' : Z) :
  SpatialTimeBlock_is blk x_dim t_dim cs ->
  in_channels cs = x_dim -> rank cs = 3%nat ->
  is_float [B; x_dim; d; h; w] x -> is_float [B; t_dim; 1; 1; 1] t ->
  x_dim mod 8 = 0 -> B * x_dim / 8 * numel [d; h; w] <> 1 ->
  conv_out_dim cs d = Ok d' -> conv_out_dim cs h = Ok h' -> conv_out_dim cs w = Ok w' ->
  returns (SpatialTimeBlock_forward K blk x t) (is_float [B; out_channels cs; d'; h'; w']).
Proof.
  intros (Htc & Hg & Hc & Hcv) Hin Hr Hx Ht Hm Hn Hd Hh Hw.
  unfold SpatialTimeBlock_forward.
  eapply returns_bind; [exact (returns_embed_conv3 K _ t B t_dim x_dim Htc Ht)|].
  intros tc Htc'.
  eapply returns_bind.
  { eapply returns_add; [exact Hx | exact Htc' | apply (broadcast_shapes_embed B x_dim [d; h; w])]. }
  intros x1 Hx1.
  pose proof (returns_GroupNorm_forward K (st_bn blk) x1 B [d; h; w]) as Hgn.
  rewrite Hg, Hc in Hgn.
  eapply returns_bind; [exact (Hgn Hx1 Hn Hm)|].
  intros n Hn'.
  eapply returns_bind; [apply returns_SiLU_forward; exact Hn'|].
  intros s Hs.
  pose proof (returns_Conv_forward3 K (st_conv blk) s B d h w d' h' w') as Hcf.
  rewrite Hcv, Hin in Hcf. apply Hcf; assumption.
Qed.

Section Shapes.
Variables (K : Kernels) (time_dim input_dim d0 d1 d2 d3 : Z).
Hypothesis time_dim_pos : 0 < time_dim.
Hypothesis input_dim_pos : 0 < input_dim.
Hypothesis d0_pos : 0 < d0.
Hypothesis d1_pos : 0 < d1.
Hypothesis d2_pos : 0 < d2.
Hypothesis d3_pos : 0 < d3.
Hypothesis d0_groups : d0 mod 8 = 0.
Hypothesis d1_groups : d1 mod 8 = 0.
Hypothesis d2_groups : d2 mod 8 = 0.
Hypothesis d3_groups : d3 mod 8 = 0.

Lemma returns_SpatialTime3DNet_init_is :
  returns (SpatialTime3DNet_init K time_dim input_dim (d0, d1, d2, d3))
    (fun net => SpatialTime3DNet_is net time_dim input_dim (d0, d1, d2, d3)).
Proof.
  unfold SpatialTime3DNet_init, Conv3d.
  eapply returns_bind; [apply returns_Conv_init; cbn; lia|]. intros c0 H0.
  eapply returns_bind; [apply returns_SpatialTimeBlock_init_is; (lia || assumption)|]. intros b0 B0.
  eapply returns_bind; [apply returns_SpatialTimeBlock_init_is; (lia || assumption)|]. intros b1 B1.
  eapply returns_bind; [apply returns_SpatialTimeBlock_init_is; (lia || assumption)|]. intros b2 B2.
  eapply returns_bind; [apply returns_SpatialTimeBlock_init_is; (lia || assumption)|]. intros b3 B3.
  eapply returns_bind; [apply returns_SpatialTimeBlock_init_is; (lia || assumption)|]. intros b4 B4.
  eapply returns_bind; [apply returns_SpatialTimeBlock_init_is; (lia || assumption)|]. intros b5 B5.
  eapply returns_bind; [apply returns_SpatialTimeBlock_init_is; (lia || assumption)|]. intros b6 B6.
  eapply returns_bind; [apply returns_SpatialTimeBlock_init_is; (lia || assumption)|]. intros b7 B7.
  eapply returns_bind; [apply returns_SpatialTimeBlock_init_is; (lia || assumption)|]. intros b8 B8.
  eapply returns_bind; [apply returns_SpatialTimeBlock_init_is; (lia || assumption)|]. intros b9 B9.
  eapply returns_bind; [apply returns_SpatialUpTimeBlock_init_is; (lia || assumption)|]. intros u0 U0.
  eapply returns_bind; [apply returns_SpatialUpTimeBlock_init_is; (lia || assumption)|]. intros u1 U1.
  eapply returns_bind; [apply returns_SpatialUpTimeBlock_init_is; (lia || assumption)|]. intros u2 U2.
  apply returns_ret.
  exact (conj H0 (conj B0 (conj B1 (conj B2 (conj B3 (conj B4 (conj B5 (conj B6 (conj B7
        (conj B8 (conj B9 (conj U0 (conj U1 U2))))))))))))).
Qed.

Variables B d h w : Z.
Hypothesis B_pos : 0 < B.
Hypothesis d_pos : 0 < d.
Hypothesis h_pos : 0 < h.
Hypothesis w_pos : 0 < w.
Hypothesis coarsest_group : B * (d3 / 8) * (d * h * w) <> 1.

Lemma groups_ok (c s : Z) :
  0 < c -> c mod 8 = 0 -> 0 < s -> (B * (c / 8) * s <> 1) -> B * c / 8 * s <> 1.
Proof.
  intros Hc Hm Hs Hn.
  assert (E : c = 8 * (c / 8)) by (apply Z.div_exact; lia).
  rewrite E at 1. replace (B * (8 * (c / 8))) with (B * (c / 8) * 8) by lia.
  rewrite Z.div_mul by lia. exact Hn.
Qed.

Lemma groups_big (c s : Z) :
  0 < c -> c mod 8 = 0 -> 1 < s -> B * c / 8 * s <> 1.
Proof.
  intros Hc Hm Hs. apply groups_ok; try lia.
  assert (E : c = 8 * (c / 8)) by (apply Z.div_exact; lia).
  assert (0 < c / 8) by lia. nia.
Qed.

Ltac block_same x t e f g Hb :=
  apply (returns_SpatialTimeBlock_forward K _ x t _ _ _ B e f g _ _ _ Hb);
  try assumption; try reflexivity;
  [ first [ apply groups_big; try assumption; cbn; nia
          | apply groups_ok; try assumption; cbn; [nia|];
            replace (d * (h * (w * 1))) with (d * h * w) by lia; exact coarsest_group ]
  | apply conv_out_dim_same; cbn; (reflexivity || lia)
  | apply conv_out_dim_same; cbn; (reflexivity || lia)
  | apply conv_out_dim_same; cbn; (reflexivity || lia) ].

Lemma returns_SpatialTime3DNet_forward (net : SpatialTime3DNet) (x t : Handle) :
  SpatialTime3DNet_is net time_dim input_dim (d0, d1, d2, d3) ->
  is_float [B; input_dim; 8 * d; 8 * h; 8 * w] x -> is_float [B; time_dim] t ->
  returns (SpatialTime3DNet_forward K net x t) (is_float [B; d0; 8 * d; 8 * h; 8 * w]).
Proof.
  intros (H0 & B0 & B1 & B2 & B3 & B4 & B5 & B6 & B7 & B8 & B9 & U0 & U1 & U2) Hx Ht.
  unfold SpatialTime3DNet_forward.
  eapply returns_bind with (P := fun p => p = (B, time_dim)).
  { apply returns_lift with (a := (B, time_dim)); [|reflexivity].
    destruct Ht as [_ ->]. reflexivity. }
  intros ? ->.
  eapply returns_bind with (P := is_float [B; time_dim; 1; 1; 1]).
  { eapply returns_lift.
    - apply (view_embed t B time_dim 3); [apply Ht | lia | lia].
    - split; [apply Ht | reflexivity]. }
  intros t' Ht'.
  (* x = self.init_conv(x) *)
  eapply returns_bind with (P := is_float [B; d0; 8 * d; 8 * h; 8 * w]).
  { pose proof (returns_Conv_forward3 K (s3_init_conv net) x B (8 * d) (8 * h) (8 * w)
                  (8 * d) (8 * h) (8 * w)) as Hc.
    rewrite H0 in Hc. apply Hc; try assumption; try reflexivity;
      apply conv_out_dim_same; cbn; (reflexivity || lia). }
  intros x0 Hx0.
  (* conv0 *)
  eapply returns_bind with (P := is_float [B; d0; 8 * d; 8 * h; 8 * w]).
  { block_same x0 t' (8 * d) (8 * h) (8 * w) B0. }
  intros conv0 Hconv0.
  (* conv1, conv2_0, conv2_1 *)
  eapply returns_bind with (P := is_float [B; d1; 4 * d; 4 * h; 4 * w]).
  { apply (returns_SpatialTimeBlock_forward K _ conv0 t' _ _ _ B (8 * d) (8 * h) (8 * w) _ _ _ B1);
      try assumption; try reflexivity.
    - apply groups_big; try assumption. cbn. nia.
    - replace (8 * d) with (2 * (4 * d)) by lia. apply conv_out_dim_half; cbn; (reflexivity || lia).
    - replace (8 * h) with (2 * (4 * h)) by lia. apply conv_out_dim_half; cbn; (reflexivity || lia).
    - replace (8 * w) with (2 * (4 * w)) by lia. apply conv_out_dim_half; cbn; (reflexivity || lia). }
  intros y1 Hy1.
  eapply returns_bind with (P := is_float [B; d1; 4 * d; 4 * h; 4 * w]).
  { block_same y1 t' (4 * d) (4 * h) (4 * w) B2. }
  intros y2 Hy2.
  eapply returns_bind with (P := is_float [B; d1; 4 * d; 4 * h; 4 * w]).
  { block_same y2 t' (4 * d) (4 * h) (4 * w) B3. }
  intros conv2 Hconv2.
  (* conv3, conv4_0, conv4_1 *)
  eapply returns_bind with (P := is_float [B; d2; 2 * d; 2 * h; 2 * w]).
  { apply (returns_SpatialTimeBlock_forward K _ conv2 t' _ _ _ B (4 * d) (4 * h) (4 * w) _ _ _ B4);
      try assumption; try reflexivity.
    - apply groups_big; try assumption. cbn. nia.
    - replace (4 * d) with (2 * (2 * d)) by lia. apply conv_out_dim_half; cbn; (reflexivity || lia).
    - replace (4 * h) with (2 * (2 * h)) by lia. apply conv_out_dim_half; cbn; (reflexivity || lia).
    - replace (4 * w) with (2 * (2 * w)) by lia. apply conv_out_dim_half; cbn; (reflexivity || lia). }
  intros y3 Hy3.
  eapply returns_bind with (P := is_float [B; d2; 2 * d; 2 * h; 2 * w]).
  { block_same y3 t' (2 * d) (2 * h) (2 * w) B5. }
  intros y4 Hy4.
  eapply returns_bind with (P := is_float [B; d2; 2 * d; 2 * h; 2 * w]).
  { block_same y4 t' (2 * d) (2 * h) (2 * w) B6. }
  intros conv4 Hconv4.
  (* conv5, conv6_0, conv6_1 *)
  eapply returns_bind with (P := is_float [B; d3; d; h; w]).
  { apply (returns_SpatialTimeBlock_forward K _ conv4 t' _ _ _ B (2 * d) (2 * h) (2 * w) _ _ _ B7);
      try assumption; try reflexivity.
    - apply groups_big; try assumption. cbn. nia.
    - apply conv_out_dim_half; cbn; (reflexivity || lia).
    - apply conv_out_dim_half; cbn; (reflexivity || lia).
    - apply conv_out_dim_half; cbn; (reflexivity || lia). }
  intros y5 Hy5.
  eapply returns_bind with (P := is_float [B; d3; d; h; w]).
  { block_same y5 t' d h w B8. }
  intros y6 Hy6.
  eapply returns_bind with (P := is_float [B; d3; d; h; w]).
  { block_same y6 t' d h w B9. }
  intros y7 Hy7.
  (* x = conv4 + self.conv7(x, t) *)
  eapply returns_bind with (P := is_float [B; d2; 2 * d; 2 * h; 2 * w]).
  { apply (returns_SpatialTimeBlock_forward K _ y7 t' _ _ _ B d h w _ _ _ U0);
      try assumption; try reflexivity.
    - apply groups_ok; try assumption; cbn; [nia|].
      replace (d * (h * (w * 1))) with (d * h * w) by lia. exact coarsest_group.
    - apply conv_out_dim_double; reflexivity.
    - apply conv_out_dim_double; reflexivity.
    - apply conv_out_dim_double; reflexivity. }
  intros u0 Hu0.
  eapply returns_bind; [exact (returns_add _ _ _ _ _ Hconv4 Hu0 (broadcast_shapes_refl _))|].
  intros x4 Hx4.
  (* x = conv2 + self.conv8(x, t) *)
  eapply returns_bind with (P := is_float [B; d1; 4 * d; 4 * h; 4 * w]).
  { pose proof (returns_SpatialTimeBlock_forward K _ x4 t' _ _ _ B (2 * d) (2 * h) (2 * w)
                  (2 * (2 * d)) (2 * (2 * h)) (2 * (2 * w)) U1) as Hb.
    replace (4 * d) with (2 * (2 * d)) by lia. replace (4 * h) with (2 * (2 * h)) by lia.
    replace (4 * w) with (2 * (2 * w)) by lia.
    apply Hb; try assumption; try reflexivity; try (apply conv_out_dim_double; reflexivity).
    apply groups_big; try assumption. cbn. nia. }
  intros u1 Hu1.
  eapply returns_bind; [exact (returns_add _ _ _ _ _ Hconv2 Hu1 (broadcast_shapes_refl _))|].
  intros x2 Hx2.
  (* x = conv0 + self.conv9(x, t) *)
  eapply returns_bind with (P := is_float [B; d0; 8 * d; 8 * h; 8 * w]).
  { pose proof (returns_SpatialTimeBlock_forward K _ x2 t' _ _ _ B (4 * d) (4 * h) (4 * w)
                  (2 * (4 * d)) (2 * (4 * h)) (2 * (4 * w)) U2) as Hb.
    replace (8 * d) with (2 * (4 * d)) by lia. replace (8 * h) with (2 * (4 * h)) by lia.
    replace (8 * w) with (2 * (4 * w)) by lia.
    apply Hb; try assumption; try reflexivity; try (apply conv_out_dim_double; reflexivity).
    apply groups_big; try assumption. cbn. nia. }
  intros u2 Hu2.
  eapply returns_bind; [exact (returns_add _ _ _ _ _ Hconv0 Hu2 (broadcast_shapes_refl _))|].
  intros x0' Hx0'.
  apply returns_ret. exact Hx0'.
Qed.

End Shapes.

(** X5: [SpatialTime3DNet]: a volume [(B, input_dim, D, H, W)] whose extents
    are positive multiples of 8 is mapped to [(B, dims[0], D, H, W)]:
    the three down-samplings and the three up-samplings with their skip
    additions give back the input resolution. *)
Theorem SpatialTime3DNet_output_shape (K : Kernels) (time_dim input_dim d0 d1 d2 d3 B D H W : Z) :
  0 < time_dim -> 0 < input_dim ->
  0 < d0 -> 0 < d1 -> 0 < d2 -> 0 < d3 ->
  d0 mod 8 = 0 -> d1 mod 8 = 0 -> d2 mod 8 = 0 -> d3 mod 8 = 0 ->
  0 < B -> 0 < D -> 0 < H -> 0 < W ->
  D mod 8 = 0 -> H mod 8 = 0 -> W mod 8 = 0 ->
  B * (d3 / 8) * (D / 8 * (H / 8) * (W / 8)) <> 1 ->
  returns (SpatialTime3DNet_init K time_dim input_dim (d0, d1, d2, d3))
    (fun net => forall x t,
       is_float [B; input_dim; D; H; W] x -> is_float [B; time_dim] t ->
       returns (SpatialTime3DNet_forward K net x t) (is_float [B; d0; D; H; W])).
Proof.
  intros Ht Hi H0 H1 H2 H3 G0 G1 G2 G3 HB HD HH HW MD MH MW Hg.
  eapply returns_mono.
  { apply (returns_SpatialTime3DNet_init_is K time_dim input_dim d0 d1 d2 d3); assumption. }
  intros net Hnet x t Hx Ht'.
  assert (ED : D = 8 * (D / 8)) by (apply Z.div_exact; lia).
  assert (EH : H = 8 * (H / 8)) by (apply Z.div_exact; lia).
  assert (EW : W = 8 * (W / 8)) by (apply Z.div_exact; lia).
  assert (Hx' : is_float [B; input_dim; 8 * (D / 8); 8 * (H / 8); 8 * (W / 8)] x).
  { rewrite <- ED, <- EH, <- EW. exact Hx. }
  rewrite ED, EH, EW at 1.
  apply (returns_SpatialTime3DNet_forward K) with (time_dim := time_dim) (input_dim := input_dim)
    (d1 := d1) (d2 := d2) (d3 := d3); first [assumption | lia].
Qed.

Lemma SpatialTime3DNet_output_shape_witness :
  returns (SpatialTime3DNet_init shape_only 256 32 (64, 128, 256, 512))
    (fun net => forall x t,
       is_float [1; 32; 32; 32; 32] x -> is_float [1; 256] t ->
       returns (SpatialTime3DNet_forward shape_only net x t) (is_float [1; 64; 32; 32; 32])).
Proof.
  apply (SpatialTime3DNet_output_shape shape_only 256 32 64 128 256 512 1 32 32 32);
    first [lia | reflexivity | (vm_compute; discriminate)].
Defined.

End SpatialNet.

(** ** Constructors: channel counts the normalisation rejects *)

Section ConstructorErrors.
Import Tensor Torch View_feature_extractor_net Example.

Lemma raises_GroupNorm_init (channels : Z) :
  channels mod 8 <> 0 -> raises (GroupNorm_init 8 channels) ValueError.
Proof.
  intros Hm w. unfold GroupNorm_init.
  destruct (Z.eqb_spec (channels mod 8) 0) as [E|_]; [contradiction|].
  exists w. reflexivity.
Qed.

Lemma returns_Conv_init_any (K : Kernels) (c : ConvSpec) :
  0 <= in_channels c -> 0 <= out_channels c -> 0 <= kernel_size c ->
  returns (Conv_init K c) (fun _ => True).
Proof.
  intros. eapply returns_mono; [apply returns_Conv_init; assumption|]. auto.
Qed.

Lemma raises_FrustumTVBlock_init (K : Kernels) (x_dim t_dim v_dim out_dim stride : Z) :
  0 <= x_dim -> 0 <= t_dim -> 0 <= v_dim -> x_dim mod 8 <> 0 ->
  raises (FrustumTVBlock_init K x_dim t_dim v_dim out_dim stride) ValueError.
Proof.
  intros Hx Ht Hv Hm. unfold FrustumTVBlock_init, Conv3d.
  eapply raises_after; [apply returns_Conv_init_any; cbn; lia|]. intros tc _.
  eapply raises_after; [apply returns_Conv_init_any; cbn; lia|]. intros vc _.
  apply raises_bind, raises_GroupNorm_init, Hm.
Qed.

Lemma raises_FrustumTVUpBlock_init (K : Kernels) (x_dim t_dim v_dim out_dim : Z) :
  0 <= x_dim -> 0 <= t_dim -> 0 <= v_dim -> x_dim mod 8 <> 0 ->
  raises (FrustumTVUpBlock_init K x_dim t_dim v_dim out_dim) ValueError.
Proof.
  intros Hx Ht Hv Hm. unfold FrustumTVUpBlock_init, Conv3d.
  eapply raises_after; [apply returns_Conv_init_any; cbn; lia|]. intros tc _.
  eapply raises_after; [apply returns_Conv_init_any; cbn; lia|]. intros vc _.
  apply raises_bind, raises_GroupNorm_init, Hm.
Qed.

Lemma raises_SpatialTimeBlock_init (K : Kernels) (x_in_dim t_in_dim out_dim stride : Z) :
  0 <= x_in_dim -> 0 <= t_in_dim -> x_in_dim mod 8 <> 0 ->
  raises (SpatialTimeBlock_init K x_in_dim t_in_dim out_dim stride) ValueError.
Proof.
  intros Hx Ht Hm. unfold SpatialTimeBlock_init, Conv3d.
  eapply raises_after; [apply returns_Conv_init_any; cbn; lia|]. intros tc _.
  apply raises_bind, raises_GroupNorm_init, Hm.
Qed.

Lemma raises_Image2DResBlockWithTV_init (K : Kernels) (dim tdim vdim : Z) :
  0 <= dim -> 0 <= tdim -> 0 <= vdim -> dim mod 8 <> 0 ->
  raises (Image2DResBlockWithTV_init K dim tdim vdim) ValueError.
Proof.
  intros Hd Ht Hv Hm. unfold Image2DResBlockWithTV_init, Conv2d.
  eapply raises_after; [apply returns_Conv_init_any; cbn; lia|]. intros tc _.
  eapply raises_after; [apply returns_Conv_init_any; cbn; lia|]. intros vc _.
  apply raises_bind, raises_GroupNorm_init, Hm.
Qed.

Ltac ok_block lemma :=
  eapply raises_after; [apply lemma; (lia || assumption)|]; intros ? _.

(** X6: The constructors build a [GroupNorm(8, c)] for each block, so a
    channel count that is not a multiple of 8 ends the construction in a
    [ValueError]: any of the four entries of [dims] for the two 3-D
    networks, [run_dim] for the encoder, [dim] for the residual block. *)
Theorem constructors_reject_channels (K : Kernels) :
  (forall in_dim t_dim v_dim dims0 dims1 dims2 dims3,
     0 < in_dim -> 0 < t_dim -> 0 < v_dim ->
     0 < dims0 -> 0 < dims1 -> 0 < dims2 -> 0 < dims3 ->
     dims0 mod 8 <> 0 \/ dims1 mod 8 <> 0 \/ dims2 mod 8 <> 0 \/ dims3 mod 8 <> 0 ->
     raises (FrustumTV3DNet_init K in_dim t_dim v_dim (dims0, dims1, dims2, dims3)) ValueError) /\
  (forall time_dim input_dim d0 d1 d2 d3,
     0 < time_dim -> 0 < input_dim -> 0 < d0 -> 0 < d1 -> 0 < d2 -> 0 < d3 ->
     d0 mod 8 <> 0 \/ d1 mod 8 <> 0 \/ d2 mod 8 <> 0 \/ d3 mod 8 <> 0 ->
     raises (SpatialTime3DNet_init K time_dim input_dim (d0, d1, d2, d3)) ValueError) /\
  (forall time_embed_dim viewpoint_dim run_dim output_dim,
     0 < time_embed_dim -> 0 < viewpoint_dim -> 0 < run_dim -> run_dim mod 8 <> 0 ->
     raises (NoisyTargetViewEncoder_init K time_embed_dim viewpoint_dim run_dim output_dim)
       ValueError) /\
  (forall dim tdim vdim,
     0 < dim -> 0 < tdim -> 0 < vdim -> dim mod 8 <> 0 ->
     raises (Image2DResBlockWithTV_init K dim tdim vdim) ValueError).
Proof.
  split; [|split; [|split]].
  - intros in_dim t_dim v_dim dims0 dims1 dims2 dims3 Hi Ht Hv H0 H1 H2 H3 Hbad.
    unfold FrustumTV3DNet_init, Conv3d.
    eapply raises_after; [apply returns_Conv_init_any; cbn; lia|]. intros c0 _.
    destruct (Z.eq_dec (dims0 mod 8) 0) as [E0|N0];
      [|apply raises_bind, raises_FrustumTVBlock_init; (lia || assumption)].
    eapply raises_after;
      [apply (returns_FrustumTVBlock_init K dims0 t_dim v_dim dims1 2); (lia || assumption)|].
    intros b1 _.
    destruct (Z.eq_dec (dims1 mod 8) 0) as [E1|N1];
      [|apply raises_bind, raises_FrustumTVBlock_init; (lia || assumption)].
    eapply raises_after;
      [apply (returns_FrustumTVBlock_init K dims1 t_dim v_dim dims1 1); (lia || assumption)|].
    intros b2 _.
    eapply raises_after;
      [apply (returns_FrustumTVBlock_init K dims1 t_dim v_dim dims2 2); (lia || assumption)|].
    intros b3 _.
    destruct (Z.eq_dec (dims2 mod 8) 0) as [E2|N2];
      [|apply raises_bind, raises_FrustumTVBlock_init; (lia || assumption)].
    eapply raises_after;
      [apply (returns_FrustumTVBlock_init K dims2 t_dim v_dim dims2 1); (lia || assumption)|].
    intros b4 _.
    eapply raises_after;
      [apply (returns_FrustumTVBlock_init K dims2 t_dim v_dim dims3 2); (lia || assumption)|].
    intros b5 _.
    assert (N3 : dims3 mod 8 <> 0) by (destruct Hbad as [?|[?|[?|?]]]; congruence).
    apply raises_bind, raises_FrustumTVBlock_init; (lia || assumption).
  - intros time_dim input_dim d0 d1 d2 d3 Ht Hi H0 H1 H2 H3 Hbad.
    unfold SpatialTime3DNet_init, Conv3d.
    eapply raises_after; [apply returns_Conv_init_any; cbn; lia|]. intros c0 _.
    destruct (Z.eq_dec (d0 mod 8) 0) as [E0|N0];
      [|apply raises_bind, raises_SpatialTimeBlock_init; (lia || assumption)].
    do 2 (eapply raises_after;
          [apply returns_SpatialTimeBlock_init; (lia || assumption)|]; intros ? _).
    destruct (Z.eq_dec (d1 mod 8) 0) as [E1|N1];
      [|apply raises_bind, raises_SpatialTimeBlock_init; (lia || assumption)].
    do 3 (eapply raises_after;
          [apply returns_SpatialTimeBlock_init; (lia || assumption)|]; intros ? _).
    destruct (Z.eq_dec (d2 mod 8) 0) as [E2|N2];
      [|apply raises_bind, raises_SpatialTimeBlock_init; (lia || assumption)].
    do 3 (eapply raises_after;
          [apply returns_SpatialTimeBlock_init; (lia || assumption)|]; intros ? _).
    assert (N3 : d3 mod 8 <> 0) by (destruct Hbad as [?|[?|[?|?]]]; congruence).
    apply raises_bind, raises_SpatialTimeBlock_init; (lia || assumption).
  - intros td vd run out Ht Hv Hr Hm.
    unfold NoisyTargetViewEncoder_init, Conv2d.
    eapply raises_after; [apply returns_Conv_init_any; cbn; lia|]. intros c0 _.
    apply raises_bind, raises_Image2DResBlockWithTV_init; (lia || assumption).
  - intros dim tdim vdim Hd Ht Hv Hm.
    apply raises_Image2DResBlockWithTV_init; (lia || assumption).
Qed.

End ConstructorErrors.

(** ** The embedding's arguments: what [get_viewpoint_embedding] rejects *)

Section EmbeddingErrors.
Import Tensor Torch View_feature_extractor.SyncMultiviewDiffusion.

Lemma viewpoint_embedding_empty (az els : list R) (batch_size : Z) (esh : list Z) :
  viewpoint_embedding (mk [0] az) batch_size (mk esh els) = Raise IndexError.
Proof. reflexivity. Qed.

Lemma viewpoint_embedding_mismatch (az els : list R) (batch_size N E : Z) :
  0 < N -> Z.of_nat (length az) = N -> batch_size <> E ->
  viewpoint_embedding (mk [N] az) batch_size (mk [E] els) = Raise RuntimeError.
Proof.
  intros HN Hlen Hne.
  destruct az as [|a0 az']; [cbn [length Z.of_nat] in Hlen; lia|].
  set (az := a0 :: az') in *.
  unfold viewpoint_embedding.
  rewrite (index0_first (mk [N] az) N a0 az' eq_refl ltac:(lia) eq_refl). cbn [rbind].
  change (Tensor.unsqueeze 0 (mk [] [a0])) with (Ok (mk [1] [a0])). cbn [rbind].
  change (Tensor.unsqueeze 1 (rsub_scalar (- deg2rad 30) (neg (mk [E] els))))
    with (Ok (mk [E; 1] (map (fun a => (- deg2rad 30 - a)%R) (map Ropp els)))).
  cbn [rbind shape hd].
  rewrite (repeat_2d (mk [E; 1] _) E 1 1 N eq_refl) by lia. cbn [rbind data].
  rewrite (sub_vector_entry az a0 N Hlen). cbn [rbind].
  change (Tensor.unsqueeze 0 (mk [N] (map (fun x => (x - a0)%R) az)))
    with (Ok (mk [1; N] (map (fun x => (x - a0)%R) az))).
  cbn [rbind].
  destruct (Z.le_gt_cases 0 batch_size) as [HB|HB].
  - rewrite (repeat_2d (mk [1; N] _) 1 N batch_size 1 eq_refl) by lia. cbn [rbind data].
    unfold stack_last. cbn [forallb shape Tensor.sin Tensor.cos zeros_like map_data].
    rewrite bool_decide_false; [reflexivity|].
    intros Heq. injection Heq as H1 _. lia.
  - unfold repeat_. cbn [shape length Nat.leb forallb andb].
    replace (0 <=? batch_size) with false by (symmetry; apply Z.leb_gt; lia).
    reflexivity.
Qed.

(** X7: [get_viewpoint_embedding] has two ways to fail on floating
    arguments: on an azimuth table with no view, [self.azimuth[0]]
    raises [IndexError]; with views, a [batch_size] that differs from the
    number of reference elevations makes [torch.stack] raise
    [RuntimeError].  Only the exception is stated: the tensors the method
    creates on the way are not counted. *)
Theorem get_viewpoint_embedding_rejects (self : SyncMultiviewDiffusion) (elevation_ref : Handle)
    (batch_size N E : Z) :
  is_float [N] (azimuth self) -> Z.of_nat (length (sel (azimuth self))) = N ->
  is_float [E] elevation_ref ->
  (N = 0 -> raises (get_viewpoint_embedding self batch_size elevation_ref) IndexError) /\
  (0 < N -> batch_size <> E ->
   raises (get_viewpoint_embedding self batch_size elevation_ref) RuntimeError).
Proof.
  intros [Had Has] Hlen [Hed Hes].
  split; [intros HN w | intros HN Hne w]; exists w;
    unfold get_viewpoint_embedding; rewrite Had, Hed;
    unfold value; rewrite Has, Hes; unfold bind, lift.
  - rewrite HN, viewpoint_embedding_empty. reflexivity.
  - rewrite viewpoint_embedding_mismatch;
      [reflexivity | assumption | rewrite length_map; assumption | assumption].
Qed.

Lemma get_viewpoint_embedding_rejects_witness :
  raises
    (get_viewpoint_embedding
       (mkSyncMultiviewDiffusion 2 4 256 (mkHandle 0 [2; 3; 4] Float (seq 0 24))
          (mkHandle 1 [2; 3; 3] Float (seq 0 18)) (mkHandle 2 [2] Float [0; 1]%nat))
       3 (mkHandle 3 [1] Float [0%nat]))
    RuntimeError.
Proof.
  refine (proj2 (get_viewpoint_embedding_rejects
                   (mkSyncMultiviewDiffusion 2 4 256 (mkHandle 0 [2; 3; 4] Float (seq 0 24))
                      (mkHandle 1 [2; 3; 3] Float (seq 0 18)) (mkHandle 2 [2] Float [0; 1]%nat))
                   (mkHandle 3 [1] Float [0%nat])
                   3 2 1 _ _ _) _ _);
    [split; reflexivity | reflexivity | split; reflexivity | lia | lia].
Defined.

End EmbeddingErrors.

(** ** No source view: [construct_spatial_volume] on an empty list of features *)

Section NoSourceView.
Import Tensor Torch Python View_feature_extractor.

(** X8: With no source view ([N = 0]) the loop of [construct_spatial_volume]
    is not entered, so neither the encoder nor [get_warp_coordinates] is
    reached: in any namespace that binds [torch], the call ends at
    [torch.stack] of an empty list, with [RuntimeError]. *)
Theorem construct_spatial_volume_no_source_view (K : Kernels) (G : gmap string PyObj)
    (self : SpatialVolumeNet) (x t_embed v_embed target_poses target_Ks : Handle)
    (td vd isz fvd V B C Np Nk H W : Z) (L FL : R) :
  is_Some (G !! "torch"%string) ->
  SpatialVolumeNet_is self td vd isz fvd V L FL ->
  0 < td -> 0 <= V -> 0 < B ->
  is_float [B; 0; C; H; W] x -> is_float [B; td] t_embed ->
  is_float [Np; 3; 4] target_poses -> is_float [Nk; 3; 3] target_Ks ->
  raises (construct_spatial_volume K G self x t_embed v_embed target_poses target_Ks)
    RuntimeError.
Proof.
  intros [o Ho] (Henc & Htd & Hvd & _ & _ & _ & HVs & _) Ht HV HB Hx Hte Hp Hk.
  unfold construct_spatial_volume. rewrite Htd.
  eapply raises_after with (P := fun p => p = (B, 0, C, H, W)).
  { apply returns_lift with (a := (B, 0, C, H, W)); [|reflexivity].
    destruct Hx as [_ ->]. reflexivity. }
  intros ? ->.
  eapply raises_after; [exact (returns_load_global G _ o Ho)|]. intros ? _.
  destruct (spatial_volume_verts_ok self B) as [verts Hverts]; [rewrite HVs; exact HV | lia |].
  eapply raises_after; [exact (returns_lift _ verts (fun _ => True) Hverts I)|]. intros ? _.
  eapply raises_after; [apply returns_new|]. intros vh _.
  eapply raises_after with (P := is_float [B; 1; td]).
  { eapply returns_lift.
    - apply view_regroup.
      + cbn [forallb]. rewrite (proj2 (Z.leb_le 0 B)), (proj2 (Z.leb_le 0 td)) by lia. reflexivity.
      + rewrite (proj2 Hte). cbn. lia.
      + rewrite (proj2 Hte), !strip_ones_cons. destruct (decide (1 <> 1)); [congruence|].
        reflexivity.
    - split; [apply Hte | reflexivity]. }
  intros t1 Ht1.
  eapply raises_after with (P := is_float [B; 0; td]).
  { eapply returns_mono; [apply (returns_repeat [1; 0; 1] t1 [B; 1; td] Ht1 eq_refl)|].
    - reflexivity.
    - cbn [zip_with]. rewrite Z.mul_1_r, Z.mul_1_r. auto. }
  intros t2 Ht2.
  eapply raises_after with (P := is_float [B; 0; td]).
  { eapply returns_lift.
    - apply view_regroup.
      + cbn [forallb]. rewrite (proj2 (Z.leb_le 0 B)), (proj2 (Z.leb_le 0 td)) by lia.
        reflexivity.
      + rewrite (proj2 Ht2). reflexivity.
      + rewrite (proj2 Ht2). reflexivity.
    - split; [apply Ht2 | reflexivity]. }
  intros t_embed_ Ht_.
  eapply raises_after with (P := is_float [1; Nk; 3; 3]).
  { eapply returns_lift.
    - unfold unsqueeze, unsqueeze_shape. rewrite (proj2 Hk). reflexivity.
    - split; [apply Hk | reflexivity]. }
  intros k1 Hk1.
  eapply raises_after with (P := is_float [B; Nk; 3; 3]).
  { eapply returns_mono; [apply (returns_repeat [B; 1; 1; 1] k1 [1; Nk; 3; 3] Hk1 eq_refl)|].
    - cbn [forallb]. rewrite (proj2 (Z.leb_le 0 B)) by lia. reflexivity.
    - cbn [zip_with]. rewrite Z.mul_1_l, Z.mul_1_r. auto. }
  intros Ks_ HKs.
  eapply raises_after with (P := is_float [1; Np; 3; 4]).
  { eapply returns_lift.
    - unfold unsqueeze, unsqueeze_shape. rewrite (proj2 Hp). reflexivity.
    - split; [apply Hp | reflexivity]. }
  intros p1 Hp1.
  eapply raises_after with (P := is_float [B; Np; 3; 4]).
  { eapply returns_mono; [apply (returns_repeat [B; 1; 1; 1] p1 [1; Np; 3; 4] Hp1 eq_refl)|].
    - cbn [forallb]. rewrite (proj2 (Z.leb_le 0 B)) by lia. reflexivity.
    - cbn [zip_with]. rewrite Z.mul_1_l, Z.mul_1_r. auto. }
  intros poses_ Hposes.
  change (Z.to_nat 0) with 0%nat. cbn [seq map for_each].
  eapply raises_after; [apply returns_ret with (P := fun l => l = []); reflexivity|].
  intros ? ->.
  eapply raises_after; [exact (returns_load_global G _ o Ho)|]. intros ? _.
  apply raises_bind. intros w. exists w. reflexivity.
Qed.

End NoSourceView.

Section NoSourceViewScene.
Import Tensor Torch Python View_feature_extractor Example.

Lemma construct_spatial_volume_no_source_view_witness :
  exists s ti w, setup_with [0] empty = (Ok (s, ti), w) /\
    raises (construct_spatial_volume shape_only globals (net s)
              (mkHandle 0 [1; 0; 4; 1; 1] Float []) (t_embed s) (v_embed s) (poses s) (Ks s))
      RuntimeError.
Proof.
  destruct (setup_with_returns [0])
    as (s & ti & w & E & Hself & Hp & Hk & Hx & Ht & Hv & _).
  exists s, ti, w. split; [exact E|].
  apply (construct_spatial_volume_no_source_view shape_only globals (net s)
           (mkHandle 0 [1; 0; 4; 1; 1] Float []) (t_embed s) (v_embed s) (poses s) (Ks s)
           4 4 8 2 2 1 4 2 2 1 1 0.5%R 0.86603%R
           (ex_intro _ PyModule globals_torch_bound) Hself);
    first [lia | assumption | split; reflexivity].
Defined.

End NoSourceViewScene.

(** ** Negative target indices: views counted from the end *)

Section SelectedViews.
Import Tensor Torch Python View_feature_extractor.

Lemma index0_mod (x : Tensor.t) (N i : Z) (sh : list Z) :
  shape x = N :: sh -> - N <= i < N -> index0 x i = index0 x (i mod N).
Proof.
  intros Hs Hi. unfold index0. rewrite Hs.
  assert (Hm : 0 <= i mod N < N) by (apply Z.mod_pos_bound; lia).
  destruct (Z.leb_spec (- N) i); [|lia]. destruct (Z.ltb_spec i N); [|lia].
  destruct (Z.leb_spec (- N) (i mod N)); [|lia]. destruct (Z.ltb_spec (i mod N) N); [|lia].
  cbn [andb].
  destruct (Z.ltb_spec (i mod N) 0); [lia|].
  destruct (Z.ltb_spec i 0) as [Hneg|Hpos].
  - replace (i mod N) with (i + N); [reflexivity|].
    apply (Z.mod_unique i N (-1) (i + N)); lia.
  - rewrite Z.mod_small by lia. reflexivity.
Qed.

Lemma index_rows_mod (x : Tensor.t) (N : Z) (sh ish idx : list Z) :
  shape x = N :: sh -> Forall (fun i => - N <= i < N) idx ->
  index_rows x ish idx = index_rows x ish (map (fun i => i mod N) idx).
Proof.
  intros Hs Hi. unfold index_rows. rewrite Hs. f_equal.
  induction Hi as [|i idx Hi _ IH]; [reflexivity|].
  cbn [rmap map]. rewrite (index0_mod x N i sh Hs Hi), IH. reflexivity.
Qed.

Context (K : Kernels) (G : gmap string PyObj).

Lemma value_of_new (h : list Storage) (x : Tensor.t) (l : list Storage) (r : N) :
  value (mkWorld (h ++ FloatStorage (data x) :: l) r)
    (mkHandle (length h) (shape x) Float (seq 0 (length (data x)))) = x.
Proof.
  unfold value. cbn [heap cell sizes sel].
  rewrite nth_middle. cbn [floats]. rewrite map_nth_seq. destruct x; reflexivity.
Qed.

(** X9: [construct_view_frustum_volume] hands the target indices to the
    indexing of the runtime, which counts a negative index from the end.
    With every index in [[-N, N)] both look-ups pass, and they select the
    rows of [poses] and of [Ks] at the indices taken modulo [N].  These
    rows are what [create_target_volume] is called with: where the name is
    bound, an exception the helper raises on them ends the call; where it
    is not, as in the file, the call ends in its [NameError]. *)
Theorem target_indices_count_from_end (self : SpatialVolumeNet)
    (spatial_volume t_embed v_embed poses Ks target_indices : Handle) (w : World)
    (B TN N : Z) (psh ksh : list Z) :
  is_Some (G !! "torch"%string) ->
  sizes target_indices = [B; TN] -> dtype target_indices = Long ->
  contiguous target_indices = true -> (cell target_indices < length (heap w))%nat ->
  (cell poses < length (heap w))%nat -> (cell Ks < length (heap w))%nat ->
  0 <= B -> 0 <= TN -> 0 <= frustum_volume_size self ->
  is_float (N :: psh) poses -> is_float (N :: ksh) Ks ->
  Forall (fun i => - N <= i < N) (long_value w target_indices) ->
  let call := construct_view_frustum_volume K G self spatial_volume t_embed v_embed
                poses Ks target_indices in
  exists ps ks,
    index_rows (value w poses) [B * TN]
      (map (fun i => i mod N) (long_value w target_indices)) = Ok ps /\
    index_rows (value w Ks) [B * TN]
      (map (fun i => i mod N) (long_value w target_indices)) = Ok ks /\
    (G !! "create_target_volume"%string = None ->
     fst (call w) = Raise (NameError "create_target_volume")) /\
    (forall f, G !! "create_target_volume"%string = Some (PyVolume f) ->
       exists poses_ Ks_ near far w1,
         value w1 poses_ = ps /\ value w1 Ks_ = ks /\
         forall e w2,
           f (frustum_volume_depth self) (frustum_volume_size self) (input_image_size self)
             poses_ Ks_ near far w1 = (Raise e, w2) ->
           call w = (Raise e, w2)).
Proof.
  intros [torch_ torch_bound] Hs Hl Hc Ha Hap Hak HB HTN Hf Hp Hk Hin call.
  destruct (planes_ok self target_indices w B TN Ha HB HTN Hf) as (near & far & Hnear & Hfar).
  destruct (index_rows_in_range (value w poses) N psh [B * TN] (long_value w target_indices)
              (proj2 Hp) Hin) as (ps & Eps & _).
  destruct (index_rows_in_range (value w Ks) N ksh [B * TN] (long_value w target_indices)
              (proj2 Hk) Hin) as (ks & Eks & _).
  exists ps, ks.
  split; [rewrite <- (index_rows_mod _ N psh) by (apply Hp || assumption); exact Eps|].
  split; [rewrite <- (index_rows_mod _ N ksh) by (apply Hk || assumption); exact Eks|].
  subst call. cbv zeta.
  remember (construct_view_frustum_volume K G self spatial_volume t_embed v_embed poses Ks
              target_indices w) as o eqn:Eo.
  unfold construct_view_frustum_volume in Eo.
  rewrite Hs in Eo. cbn [unpack2] in Eo. unfold bind at 1 in Eo. cbn [lift] in Eo.
  unfold bind at 1 in Eo. unfold load_global at 1 in Eo. rewrite torch_bound in Eo. cbn [ret] in Eo.
  rewrite Hnear in Eo. unfold bind at 1 in Eo. cbn [lift] in Eo.
  unfold bind at 1 in Eo. cbn [new] in Eo.
  unfold bind at 1 in Eo. unfold load_global at 1 in Eo. rewrite torch_bound in Eo. cbn [ret] in Eo.
  rewrite Hfar in Eo. unfold bind at 1 in Eo. cbn [lift] in Eo.
  unfold bind at 1 in Eo. cbn [new heap rng] in Eo.
  rewrite (flat_view_ok target_indices w B TN Hs Hl Hc Ha HB HTN) in Eo.
  unfold bind at 1 in Eo. cbn [lift] in Eo.
  rewrite <- app_assoc in Eo. cbn [app] in Eo.
  set (ti := mkHandle _ [B * TN] Long _) in Eo.
  unfold bind at 1 in Eo. unfold index at 1 in Eo. rewrite (proj1 Hp) in Eo.
  change (dtype ti) with Long in Eo. cbv iota in Eo.
  rewrite (value_app w poses _ _ Hap) in Eo.
  replace (long_value _ ti) with (long_value w target_indices) in Eo
    by (symmetry; apply (long_value_app w target_indices _ _ Ha)).
  change (sizes ti) with [B * TN] in Eo.
  unfold bind at 1 in Eo. unfold lift at 1 in Eo. rewrite Eps in Eo.
  unfold new at 1 in Eo. cbn [heap rng] in Eo.
  rewrite <- app_assoc in Eo. cbn [app] in Eo.
  unfold bind at 1 in Eo. unfold index at 1 in Eo. rewrite (proj1 Hk) in Eo.
  change (dtype ti) with Long in Eo. cbv iota in Eo.
  rewrite (value_app w Ks _ _ Hak) in Eo.
  replace (long_value _ ti) with (long_value w target_indices) in Eo
    by (symmetry; apply (long_value_app w target_indices _ _ Ha)).
  change (sizes ti) with [B * TN] in Eo.
  unfold bind at 1 in Eo. unfold lift at 1 in Eo. rewrite Eks in Eo.
  unfold new at 1 in Eo. cbn [heap rng] in Eo.
  rewrite <- app_assoc in Eo. cbn [app] in Eo.
  set (w4 := mkWorld _ _) in Eo.
  unfold bind at 1 in Eo. unfold load_global at 1 in Eo.
  split.
  - intros Hn. rewrite Hn in Eo. rewrite Eo. reflexivity.
  - intros f Hb. rewrite Hb in Eo. cbn [ret call_volume] in Eo.
    eexists _, _, _, _, w4. split; [|split].
    3: { intros e w2 Hraise. unfold bind at 1 in Eo. rewrite Hraise in Eo. exact Eo. }
    + subst w4.
      change (heap w ++ [FloatStorage (data near); FloatStorage (data far);
                         FloatStorage (data ps); FloatStorage (data ks)])
        with (heap w ++ [FloatStorage (data near); FloatStorage (data far)] ++
                        FloatStorage (data ps) :: [FloatStorage (data ks)]).
      rewrite app_assoc. apply value_of_new.
    + subst w4.
      change (heap w ++ [FloatStorage (data near); FloatStorage (data far);
                         FloatStorage (data ps); FloatStorage (data ks)])
        with (heap w ++ [FloatStorage (data near); FloatStorage (data far); FloatStorage (data ps)] ++
                        FloatStorage (data ks) :: []).
      rewrite app_assoc. apply value_of_new.
Qed.

End SelectedViews.

Section SelectedViewsScene.
Import Tensor Torch Python View_feature_extractor Example.

Lemma setup_with_alive (idx : list Z) (s : Scene) (ti : Handle) (w : World) :
  setup_with idx empty = (Ok (s, ti), w) ->
  (cell (poses s) < length (heap w))%nat /\ (cell (Ks s) < length (heap w))%nat.
Proof.
  destruct globals_classes_bound as (H1 & H2 & H3).
  destruct (returns_SpatialVolumeNet_init shape_only globals H1 H2 H3 4 4 2 8 2 2 0.5%R 0.86603%R
              ltac:(lia) ltac:(lia) ltac:(lia) empty) as (self & w1 & E & _).
  unfold setup_with, setup, bind. rewrite E. cbn [new new_long ret heap rng].
  intros [= <- _ <-]. cbn [poses Ks cell heap]. rewrite !length_app. cbn [length]. lia.
Qed.

Lemma target_indices_count_from_end_witness :
  exists s ti w ps ks,
    setup_with [-1] empty = (Ok (s, ti), w) /\
    index_rows (value w (poses s)) [1] [1] = Ok ps /\
    index_rows (value w (Ks s)) [1] [1] = Ok ks /\
    fst (construct_view_frustum_volume shape_only globals (net s) (spatial_volume s)
           (t_embed s) (v_embed s) (poses s) (Ks s) ti w)
    = Raise (NameError "create_target_volume").
Proof.
  destruct (setup_with_returns [-1])
    as (s & ti & w & E & Hself & Hp & Hk & Hx & Ht & Hv & Hs & Hl & Hc & Ha & Hi & _).
  destruct (setup_with_alive [-1] s ti w E) as [Hap Hak].
  destruct (target_indices_count_from_end shape_only globals (net s)
              (spatial_volume s) (t_embed s) (v_embed s) (poses s) (Ks s) ti w 1 1 2
              [3; 4] [3; 3] (ex_intro _ PyModule globals_torch_bound) Hs Hl Hc Ha Hap Hak)
    as (ps & ks & Hps & Hks & Hunbound & _);
    [lia | lia | | exact Hp | exact Hk | rewrite Hi; repeat constructor; lia |].
  { destruct Hself as (_ & _ & _ & _ & -> & _). vm_compute. discriminate. }
  rewrite Hi in Hps, Hks.
  exists s, ti, w, ps, ks.
  split; [exact E|]. split; [exact Hps|]. split; [exact Hks|].
  exact (Hunbound globals_volume_unbound).
Defined.

End SelectedViewsScene.

(** ** The camera buffers of [_init_multiview] *)

Section CameraBuffers.
Import Tensor Torch Python View_feature_extractor.SyncMultiviewDiffusion.

Lemma diag_matmul_3x3 (r : R) (k : list R) :
  length k = 9%nat ->
  exists k00 k01 k02 k10 k11 k12 k20 k21 k22,
    k = [k00; k01; k02; k10; k11; k12; k20; k21; k22] /\
    diag_matmul [r; r; 1%R] (mk [3; 3] k)
    = Ok (mk [3; 3] [r * k00; r * k01; r * k02; r * k10; r * k11; r * k12;
                     1 * k20; 1 * k21; 1 * k22]%R).
Proof.
  intros Hl.
  do 9 (destruct k as [|? k]; [discriminate|]). destruct k; [|discriminate].
  eexists _, _, _, _, _, _, _, _, _. split; reflexivity.
Qed.

Lemma repeat_views (n : Z) (k : list R) :
  0 <= n -> length k = 9%nat ->
  repeat_ [n; 1; 1] (mk [1; 3; 3] k) = Ok (mk [n; 3; 3] (concat (repeat k (Z.to_nat n)))).
Proof.
  intros Hn Hl.
  do 9 (destruct k as [|? k]; [discriminate|]). destruct k; [|discriminate].
  unfold repeat_. cbn [shape length Nat.leb forallb].
  rewrite (proj2 (Z.leb_le 0 n) Hn). cbn [Z.leb Z.compare andb].
  cbn [pad_ones length Nat.sub repeat app zip_with]. rewrite Z.mul_1_l.
  change (3 * 1) with 3. f_equal.
Qed.

Lemma value_at (w : World) (c : nat) (x : Tensor.t) (l : list Storage) :
  c = length (heap w) ->
  value (mkWorld (heap w ++ FloatStorage (data x) :: l) (rng w))
    (mkHandle c (shape x) Float (seq 0 (length (data x)))) = x.
Proof.
  intros ->. unfold value. cbn [heap cell sizes sel].
  rewrite nth_middle. cbn [floats]. rewrite map_nth_seq. destruct x; reflexivity.
Qed.

(** X10: With [read_pickle] bound to a loader whose table has a 3 by 3
    intrinsic matrix, [_init_multiview] returns its three buffers and
    leaves the storages that existed as they were.  Numbers are real
    numbers here: the casts to [float32] of lines 169, 171 and 175 are not
    modelled, so the buffers are described before that rounding.  Up to
    it, [poses] is the table as loaded, [Ks] holds one copy per view of the
    intrinsics with the first two rows scaled by [image_size / 256], and
    [azimuth] is the loaded table after the map of line 174. *)
Theorem init_multiview_buffers (G : gmap string PyObj) (f : string -> result (list Tensor.t))
    (view_num image_size : Z) (K_ azs e1 e2 poses_ : Tensor.t) (w : World) :
  G !! "read_pickle"%string = Some (PyReadPickle f) ->
  f ("meta_info/camera-" +:+ pretty view_num +:+ ".pkl") = Ok [K_; azs; e1; e2; poses_] ->
  shape K_ = [3; 3] -> length (data K_) = 9%nat -> 0 <= view_num ->
  exists p k a w',
    _init_multiview G view_num image_size w = (Ok (p, k, a), w') /\
    firstn (length (heap w)) (heap w') = heap w /\
    value w' p = poses_ /\
    is_float [view_num; 3; 3] k /\
    (forall n i j x, 0 <= n < view_num -> 0 <= i < 3 -> 0 <= j < 3 ->
       get K_ [i; j] = Some x ->
       get (value w' k) [n; i; j]
       = Some ((if i <? 2 then IZR image_size / 256 else 1) * x)%R) /\
    value w' a = normalize_azimuth azs.
Proof.
  intros HG Hf HsK HlK Hn.
  unfold _init_multiview.
  unfold bind at 1. unfold load_global at 1. rewrite HG. cbn [ret].
  unfold bind at 1. cbn [call_read_pickle lift]. rewrite Hf.
  set (ratio := (IZR image_size / IZR 256)%R).
  destruct K_ as [shK k]. cbn [shape data] in HsK, HlK. subst shK.
  destruct (diag_matmul_3x3 ratio k HlK)
    as (k00 & k01 & k02 & k10 & k11 & k12 & k20 & k21 & k22 & Ek & Ed).
  unfold bind at 1. cbn [lift]. rewrite Ed.
  unfold bind at 1. cbn [lift].
  change (Tensor.unsqueeze 0 (mk [3; 3] ?d)) with (Ok (mk [1; 3; 3] d)).
  unfold bind at 1. cbn [lift]. rewrite repeat_views by (assumption || reflexivity).
  set (ks := concat (repeat _ (Z.to_nat view_num))).
  unfold bind at 1. cbn [new shape data heap rng].
  unfold bind at 1. cbn [new shape data heap rng].
  unfold bind at 1. cbn [new shape data heap rng ret].
  rewrite <- !app_assoc. cbn [app].
  eexists _, _, _, _. split; [reflexivity|].
  split; [cbn [heap]; rewrite firstn_app, firstn_all, Nat.sub_diag; cbn [firstn];
          apply app_nil_r|].
  split; [apply value_at; reflexivity|].
  split; [split; reflexivity|].
  assert (Hks : forall d, nth (length (heap w ++ [FloatStorage (data poses_)]))
                  (heap w ++ [FloatStorage (data poses_); FloatStorage ks;
                              FloatStorage (data (normalize_azimuth azs))]) d
                = FloatStorage ks).
  { intros d. rewrite length_app. cbn [length]. rewrite app_nth2 by lia.
    replace (length (heap w) + 1 - length (heap w))%nat with 1%nat by lia. reflexivity. }
  assert (Haz : forall d, nth (length (heap w ++ [FloatStorage (data poses_); FloatStorage ks]))
                  (heap w ++ [FloatStorage (data poses_); FloatStorage ks;
                              FloatStorage (data (normalize_azimuth azs))]) d
                = FloatStorage (data (normalize_azimuth azs))).
  { intros d. rewrite length_app. cbn [length]. rewrite app_nth2 by lia.
    replace (length (heap w) + 2 - length (heap w))%nat with 2%nat by lia. reflexivity. }
  assert (Hva : value
                  (mkWorld (heap w ++ [FloatStorage (data poses_); FloatStorage ks;
                                       FloatStorage (data (normalize_azimuth azs))]) (rng w))
                  (mkHandle (length (heap w ++ [FloatStorage (data poses_); FloatStorage ks]))
                     (shape (normalize_azimuth azs)) Float
                     (seq 0 (length (data (normalize_azimuth azs)))))
                = normalize_azimuth azs).
  { unfold value. cbn [cell sizes sel heap]. rewrite Haz. cbn [floats].
    rewrite map_nth_seq. destruct (normalize_azimuth azs); reflexivity. }
  split.
  - intros n i j x Hn' Hi Hj Hx.
    unfold value, get. cbn [cell sizes sel heap shape data].
    rewrite Hks. cbn [floats]. rewrite map_nth_seq.
    rewrite (ravel3 view_num 3 3 n i j Hn' Hi Hj).
    unfold get in Hx. cbn [shape data ravel numel fold_right] in Hx.
    destruct (Z.leb_spec 0 i); [|lia]. destruct (Z.ltb_spec i 3); [|lia].
    destruct (Z.leb_spec 0 j); [|lia]. destruct (Z.ltb_spec j 3); [|lia].
    cbn [andb] in Hx.
    replace (Z.to_nat (n * (3 * (3 * 1)) + (i * (3 * 1) + (j * 1 + 0))))
      with (Z.to_nat n * 9 + Z.to_nat (i * 3 + j))%nat by lia.
    subst ks.
    match goal with |- context [concat (repeat ?xs _)] =>
      pose proof (lookup_concat_repeat xs (Z.to_nat view_num) (Z.to_nat n)
                    (Z.to_nat (i * 3 + j)) ltac:(lia) ltac:(cbn [length]; lia)) as Hlk
    end.
    cbn [length] in Hlk. rewrite Hlk. clear Hlk.
    replace (i * (3 * 1) + (j * 1 + 0)) with (i * 3 + j) in Hx by lia.
    subst k.
    assert (Hij : (i = 0 \/ i = 1 \/ i = 2) /\ (j = 0 \/ j = 1 \/ j = 2)) by lia.
    destruct Hij as [[-> | [-> | ->]] [-> | [-> | ->]]];
      cbn in Hx |- *; injection Hx as <-; reflexivity.
  - exact Hva.
Qed.

Lemma init_multiview_buffers_witness :
  exists p k a w',
    _init_multiview
      (<["read_pickle"%string :=
           PyReadPickle (fun _ => Ok [mk [3; 3] [280; 0; 128; 0; 280; 128; 0; 0; 1]%R;
                                      mk [2] [0; 3 * PI / 2]%R; mk [] [0%R]; mk [] [0%R];
                                      mk [2; 3; 4] (repeat 0%R 24)])]>
         View_feature_extractor.globals) 2 128 (mkWorld [] 0)
    = (Ok (p, k, a), w') /\
    get (value w' k) [1; 0; 0] = Some (128 / 256 * 280)%R /\
    get (value w' k) [1; 2; 2] = Some (1 * 1)%R /\
    value w' a = normalize_azimuth (mk [2] [0; 3 * PI / 2]%R).
Proof.
  destruct (init_multiview_buffers
              (<["read_pickle"%string :=
                   PyReadPickle (fun _ => Ok [mk [3; 3] [280; 0; 128; 0; 280; 128; 0; 0; 1]%R;
                                              mk [2] [0; 3 * PI / 2]%R; mk [] [0%R]; mk [] [0%R];
                                              mk [2; 3; 4] (repeat 0%R 24)])]>
                 View_feature_extractor.globals)
              (fun _ => Ok [mk [3; 3] [280; 0; 128; 0; 280; 128; 0; 0; 1]%R;
                            mk [2] [0; 3 * PI / 2]%R; mk [] [0%R]; mk [] [0%R];
                            mk [2; 3; 4] (repeat 0%R 24)])
              2 128 (mk [3; 3] [280; 0; 128; 0; 280; 128; 0; 0; 1]%R)
              (mk [2] [0; 3 * PI / 2]%R) (mk [] [0%R]) (mk [] [0%R])
              (mk [2; 3; 4] (repeat 0%R 24)) (mkWorld [] 0))
    as (p & k & a & w' & E & _ & _ & _ & Hk & Ha);
    [apply lookup_insert_eq | reflexivity | reflexivity | reflexivity | lia |].
  exists p, k, a, w'. split; [exact E|].
  split; [apply (Hk 1 0 0 280%R); [lia | lia | lia | reflexivity]|].
  split; [apply (Hk 1 2 2 1%R); [lia | lia | lia | reflexivity]|].
  exact Ha.
Defined.

(** X11: What stops [_init_multiview]: in the namespace of its file
    [read_pickle] is not bound, so the call ends in [NameError]; with a
    loader bound, a table that does not have exactly five entries fails
    the unpacking with [ValueError], and so does an intrinsic matrix that
    does not have three rows, in the product with the scaling matrix. *)
Theorem init_multiview_rejects (view_num image_size : Z) :
  raises (_init_multiview View_feature_extractor.globals view_num image_size)
    (NameError "read_pickle") /\
  (forall G f meta,
     G !! "read_pickle"%string = Some (PyReadPickle f) ->
     f ("meta_info/camera-" +:+ pretty view_num +:+ ".pkl") = Ok meta ->
     length meta <> 5%nat ->
     raises (_init_multiview G view_num image_size) ValueError) /\
  (forall G f K_ azs e1 e2 poses_ rows cols,
     G !! "read_pickle"%string = Some (PyReadPickle f) ->
     f ("meta_info/camera-" +:+ pretty view_num +:+ ".pkl") = Ok [K_; azs; e1; e2; poses_] ->
     shape K_ = [rows; cols] -> rows <> 3 ->
     raises (_init_multiview G view_num image_size) ValueError).
Proof.
  split; [|split].
  - apply raises_bind, raises_unbound. vm_compute. reflexivity.
  - intros G f meta HG Hf Hlen w. unfold _init_multiview.
    unfold bind at 1. unfold load_global at 1. rewrite HG. cbn [ret].
    unfold bind at 1. cbn [call_read_pickle lift]. rewrite Hf.
    do 5 (destruct meta as [|? meta]; [exists w; reflexivity|]).
    destruct meta; [cbn [length] in Hlen; lia|]. exists w. reflexivity.
  - intros G f K_ azs e1 e2 poses_ rows cols HG Hf Hs Hrows w. unfold _init_multiview.
    unfold bind at 1. unfold load_global at 1. rewrite HG. cbn [ret].
    unfold bind at 1. cbn [call_read_pickle lift]. rewrite Hf.
    unfold bind at 1. cbn [lift]. unfold diag_matmul. rewrite Hs. cbn [length].
    change (Z.of_nat 3) with 3.
    rewrite (proj2 (Z.eqb_neq rows 3) Hrows). exists w. reflexivity.
Qed.

End CameraBuffers.

(** ** The noise schedule *)

Section ScheduleFacts.
Import Tensor Schedule.
Open Scope R_scope.

(** *** Running products *)

Lemma cumprod_from_length (acc : R) (xs : list R) :
  length (cumprod_from acc xs) = length xs.
Proof. revert acc. induction xs as [|x xs IH]; intros acc; cbn; [reflexivity|]. now rewrite IH. Qed.

Lemma cumprod_from_first (acc x : R) (xs : list R) :
  xs !! 0%nat = Some x -> cumprod_from acc xs !! 0%nat = Some (acc * x).
Proof. destruct xs; intros [= ->]. reflexivity. Qed.

Lemma cumprod_from_step (acc : R) (xs : list R) (k : nat) (c x : R) :
  cumprod_from acc xs !! k = Some c -> xs !! S k = Some x ->
  cumprod_from acc xs !! S k = Some (c * x).
Proof.
  revert acc k. induction xs as [|x0 xs IH]; intros acc k Hc Hx; [discriminate|].
  destruct k as [|k].
  - cbn in Hc. injection Hc as <-. cbn in Hx |- *. destruct xs; [discriminate|].
    cbn in Hx |- *. injection Hx as ->. reflexivity.
  - cbn in Hc, Hx |- *. apply (IH (acc * x0) k Hc Hx).
Qed.

Lemma cumprod_from_bounds (acc : R) (xs : list R) :
  0 < acc -> Forall (fun x => 0 < x < 1) xs ->
  Forall (fun c => 0 < c < acc) (cumprod_from acc xs).
Proof.
  intros Hacc Hxs. revert acc Hacc. induction Hxs as [|x xs Hx _ IH]; intros acc Hacc; cbn.
  - constructor.
  - constructor; [nra|].
    eapply Forall_impl; [apply IH; nra|]. cbn. intros c Hc. nra.
Qed.

Lemma lookup_removelast {A} (l : list A) (k : nat) :
  (S k < length l)%nat -> removelast l !! k = l !! k.
Proof.
  intros Hk. rewrite removelast_firstn_len. apply lookup_take_lt. lia.
Qed.

Lemma length_removelast_pred {A} (l : list A) : length (removelast l) = pred (length l).
Proof. rewrite removelast_firstn_len, length_take. lia. Qed.

(** Element-wise operations on two vectors of the same length. *)
Lemma binop_vectors (f : R -> R -> R) (xs ys : list R) (n : Z) :
  Z.of_nat (length xs) = n -> Z.of_nat (length ys) = n ->
  binop f (mk [n] xs) (mk [n] ys) = Ok (mk [n] (zip_with f xs ys)).
Proof.
  intros Hx Hy. unfold binop, broadcast_shapes.
  cbn [shape length Nat.max pad_ones Nat.sub repeat app broadcast_aligned].
  rewrite Z.eqb_refl. rewrite (expand_vector xs n Hx), (expand_vector ys n Hy). reflexivity.
Qed.

Lemma linspace_schedule :
  linspace (R_sqrt.sqrt 0.00085) (R_sqrt.sqrt 0.0120) 1000
  = Ok (mk [1000%Z]
          (map (fun i : nat => R_sqrt.sqrt 0.00085
                               + INR i * ((R_sqrt.sqrt 0.0120 - R_sqrt.sqrt 0.00085) / 999))
               (seq 0 (Z.to_nat 1000)))).
Proof.
  unfold linspace. change (1000 <? 0)%Z with false. cbv iota. do 2 f_equal.
  apply map_ext. intros i. change (1000 =? 1)%Z with false. cbv iota.
  rewrite <- INR_IZR_INZ. change (1000 - 1)%Z with 999%Z. reflexivity.
Qed.

Lemma schedule_roots :
  0 < R_sqrt.sqrt 0.00085 /\ R_sqrt.sqrt 0.00085 < R_sqrt.sqrt 0.0120 /\
  R_sqrt.sqrt 0.0120 < 1 /\
  R_sqrt.sqrt 0.00085 * R_sqrt.sqrt 0.00085 = 0.00085 /\
  R_sqrt.sqrt 0.0120 * R_sqrt.sqrt 0.0120 = 0.0120.
Proof.
  split; [apply sqrt_lt_R0; lra|].
  split; [apply sqrt_lt_1_alt; lra|].
  split; [apply Rlt_le_trans with (R_sqrt.sqrt 1); [apply sqrt_lt_1_alt; lra | rewrite sqrt_1; lra]|].
  split; apply sqrt_sqrt; lra.
Qed.

Lemma init_schedule_value :
  exists B C Cp PV : list R,
    B = map (fun a => a * a)
          (map (fun i : nat => R_sqrt.sqrt 0.00085
                               + INR i * ((R_sqrt.sqrt 0.0120 - R_sqrt.sqrt 0.00085) / 999))
               (seq 0 (Z.to_nat 1000))) /\
    C = cumprod_from 1 (map (fun a => 1 - a) B) /\
    Cp = 1 :: removelast C /\
    PV = zip_with Rdiv (zip_with Rmult B (map (fun a => 1 - a) Cp)) (map (fun a => 1 - a) C) /\
    _init_schedule
    = Passed (mkBuffers 1000 (mk [1000%Z] B) (mk [1000%Z] (map (fun a => 1 - a) B))
                (mk [1000%Z] C) (mk [1000%Z] (map R_sqrt.sqrt C))
                (mk [1000%Z] (map R_sqrt.sqrt (map (fun a => 1 - a) C)))
                (mk [1000%Z] PV)
                (mk [1000%Z] (map (Rmax (-10)) (map ln (map (Rmax 1e-20) PV))))).
Proof.
  eexists _, _, _, _. split; [reflexivity|]. split; [reflexivity|]. split; [reflexivity|].
  split; [reflexivity|].
  unfold _init_schedule. rewrite linspace_schedule. cbn [run].
  set (L := map _ (seq 0 (Z.to_nat 1000))).
  assert (HL : length L = Z.to_nat 1000) by (subst L; rewrite length_map, length_seq; reflexivity).
  unfold square, map_data at 1. cbn [shape data hd].
  change (1000 =? 1000)%Z with true. cbn [negb].
  set (B := map (fun a => a * a) L).
  assert (HB : length B = Z.to_nat 1000) by (subst B; rewrite length_map; exact HL).
  unfold rsub_scalar, cumprod, map_data. cbn [shape data].
  set (A := map (fun a => 1 - a) B).
  assert (HA : length A = Z.to_nat 1000) by (subst A; rewrite length_map; exact HB).
  set (C := cumprod_from 1 A).
  assert (HC : length C = Z.to_nat 1000) by (subst C; rewrite cumprod_from_length; exact HA).
  change (ones [1%Z]) with (Ok (mk [1%Z] [1])). cbn [run].
  unfold cat, drop_last. cbn [shape data hd].
  change (1 + Z.max 0 (1000 - 1))%Z with 1000%Z. cbn [run app shape data].
  rewrite (binop_vectors Rmult B _ 1000).
  2:{ lia. }
  2:{ repeat first [rewrite length_map | rewrite length_cons | rewrite length_removelast_pred
                   | rewrite cumprod_from_length]. rewrite HL. lia. }
  cbn [run].
  rewrite (binop_vectors Rdiv _ _ 1000).
  2:{ repeat first [rewrite length_map | rewrite length_cons | rewrite length_removelast_pred
                   | rewrite cumprod_from_length | rewrite length_zip_with]. rewrite HL. lia. }
  2:{ repeat first [rewrite length_map | rewrite cumprod_from_length]. rewrite HL. lia. }
  cbn [run]. unfold log, clamp_min, sqrt, map_data. cbn [shape data]. reflexivity.
Qed.

Lemma schedule_point_bounds (k : nat) :
  (k < 1000)%nat ->
  let x := (R_sqrt.sqrt 0.00085 + INR k * ((R_sqrt.sqrt 0.0120 - R_sqrt.sqrt 0.00085) / 999))
           * (R_sqrt.sqrt 0.00085 + INR k * ((R_sqrt.sqrt 0.0120 - R_sqrt.sqrt 0.00085) / 999)) in
  0.00085 <= x <= 0.0120 /\ (k = 0%nat -> x = 0.00085) /\ (k = 999%nat -> x = 0.0120).
Proof.
  intros Hk x. subst x.
  destruct schedule_roots as (Hs & Hse & He & Hss & Hee).
  set (s := R_sqrt.sqrt 0.00085) in *. set (e := R_sqrt.sqrt 0.0120) in *.
  assert (Hk0 : 0 <= INR k) by apply pos_INR.
  assert (Hk1 : INR k <= 999).
  { replace 999 with (INR 999) by (rewrite INR_IZR_INZ; reflexivity). apply le_INR. lia. }
  set (p := s + INR k * ((e - s) / 999)).
  assert (Hp : s <= p <= e) by (subst p; split; nra).
  split; [split; nra|]. split.
  - intros ->. subst p. cbn [INR]. rewrite Rmult_0_l, Rplus_0_r. exact Hss.
  - intros ->. subst p.
    replace (INR 999) with 999 by (rewrite INR_IZR_INZ; reflexivity).
    replace (s + 999 * ((e - s) / 999)) with e by lra. exact Hee.
Qed.

Lemma schedule_point_increasing (k : nat) :
  (S k < 1000)%nat ->
  (R_sqrt.sqrt 0.00085 + INR k * ((R_sqrt.sqrt 0.0120 - R_sqrt.sqrt 0.00085) / 999))
  * (R_sqrt.sqrt 0.00085 + INR k * ((R_sqrt.sqrt 0.0120 - R_sqrt.sqrt 0.00085) / 999))
  < (R_sqrt.sqrt 0.00085 + INR (S k) * ((R_sqrt.sqrt 0.0120 - R_sqrt.sqrt 0.00085) / 999))
    * (R_sqrt.sqrt 0.00085 + INR (S k) * ((R_sqrt.sqrt 0.0120 - R_sqrt.sqrt 0.00085) / 999)).
Proof.
  intros Hk. destruct schedule_roots as (Hs & Hse & He & Hss & Hee).
  set (s := R_sqrt.sqrt 0.00085) in *. set (e := R_sqrt.sqrt 0.0120) in *.
  assert (Hk0 : 0 <= INR k) by apply pos_INR.
  rewrite S_INR.
  set (d := (e - s) / 999). assert (Hd : 0 < d) by (subst d; lra).
  nra.
Qed.

(** The entries of the seven vectors at one step. *)
Lemma schedule_entries (B C Cp PV : list R) (k : nat) :
  B = map (fun a => a * a)
        (map (fun i : nat => R_sqrt.sqrt 0.00085
                             + INR i * ((R_sqrt.sqrt 0.0120 - R_sqrt.sqrt 0.00085) / 999))
             (seq 0 (Z.to_nat 1000))) ->
  C = cumprod_from 1 (map (fun a => 1 - a) B) ->
  Cp = 1 :: removelast C ->
  PV = zip_with Rdiv (zip_with Rmult B (map (fun a => 1 - a) Cp)) (map (fun a => 1 - a) C) ->
  (k < 1000)%nat ->
  exists x c cp,
    B !! k = Some x /\ C !! k = Some c /\ Cp !! k = Some cp /\
    PV !! k = Some (x * (1 - cp) / (1 - c)) /\
    0.00085 <= x <= 0.0120 /\ (k = 0%nat -> x = 0.00085) /\ (k = 999%nat -> x = 0.0120) /\
    c = cp * (1 - x) /\ 0 < c < 1 /\ 0 < cp <= 1 /\ (k = 0%nat -> cp = 1) /\
    (forall k', k = S k' -> C !! k' = Some cp /\ exists x', B !! k' = Some x' /\ x' < x).
Proof.
  intros HB HC HCp HPV Hk.
  assert (Hn : Z.to_nat 1000 = 1000%nat) by reflexivity.
  assert (HBk : forall j, (j < 1000)%nat ->
            B !! j = Some ((R_sqrt.sqrt 0.00085
                            + INR j * ((R_sqrt.sqrt 0.0120 - R_sqrt.sqrt 0.00085) / 999))
                           * (R_sqrt.sqrt 0.00085
                              + INR j * ((R_sqrt.sqrt 0.0120 - R_sqrt.sqrt 0.00085) / 999)))).
  { intros j Hj. rewrite HB, !list_lookup_fmap, lookup_seq_lt by (rewrite Hn; exact Hj).
    reflexivity. }
  assert (HlB : length B = 1000%nat) by (rewrite HB, !length_map, length_seq; exact Hn).
  assert (HBall : Forall (fun a => 0 < a < 1) (map (fun a => 1 - a) B)).
  { apply Forall_lookup. intros j a Hj.
    assert (Hj' : (j < 1000)%nat).
    { apply lookup_lt_Some in Hj. rewrite length_map, HlB in Hj. exact Hj. }
    rewrite list_lookup_fmap, (HBk j Hj') in Hj. injection Hj as <-.
    pose proof (schedule_point_bounds j Hj') as [Hb _]. cbv zeta in Hb. lra. }
  assert (HlC : length C = 1000%nat) by (rewrite HC, cumprod_from_length, length_map; exact HlB).
  assert (HCall : Forall (fun c => 0 < c < 1) C).
  { rewrite HC. apply cumprod_from_bounds; [lra | exact HBall]. }
  assert (HCk : forall j, (j < 1000)%nat -> exists c, C !! j = Some c /\ 0 < c < 1).
  { intros j Hj. destruct (lookup_lt_is_Some_2 C j) as [c Hc]; [lia|].
    exists c. split; [exact Hc|]. exact (proj1 (Forall_lookup _ _) HCall j c Hc). }
  pose proof (schedule_point_bounds k Hk) as (Hx & Hx0 & Hx9). cbv zeta in Hx, Hx0, Hx9.
  set (x := (R_sqrt.sqrt 0.00085 + INR k * ((R_sqrt.sqrt 0.0120 - R_sqrt.sqrt 0.00085) / 999))
            * (R_sqrt.sqrt 0.00085
               + INR k * ((R_sqrt.sqrt 0.0120 - R_sqrt.sqrt 0.00085) / 999))) in *.
  assert (HAk : map (fun a => 1 - a) B !! k = Some (1 - x)).
  { rewrite list_lookup_fmap, (HBk k Hk). reflexivity. }
  destruct (HCk k Hk) as (c & Hc & Hcb).
  assert (Hprev : exists cp, Cp !! k = Some cp /\ c = cp * (1 - x) /\ 0 < cp <= 1 /\
                    (k = 0%nat -> cp = 1) /\
                    (forall k', k = S k' -> C !! k' = Some cp)).
  { destruct k as [|k'].
    - exists 1. rewrite HCp. split; [reflexivity|].
      rewrite HC in Hc. rewrite (cumprod_from_first 1 (1 - x) _ HAk) in Hc.
      injection Hc as <-. repeat split; try lra. intros k' [=].
    - destruct (HCk k' ltac:(lia)) as (cp & Hcp & Hcpb).
      exists cp. rewrite HCp. cbn [lookup list_lookup].
      split; [change (removelast C !! k' = Some cp); rewrite lookup_removelast by lia; exact Hcp|].
      split.
      + rewrite HC in Hcp, Hc. rewrite (cumprod_from_step 1 _ k' cp (1 - x) Hcp HAk) in Hc.
        injection Hc as <-. reflexivity.
      + split; [lra|]. split; [intros [=]|]. intros k'' [= <-]. exact Hcp. }
  destruct Hprev as (cp & Hcp & Hrel & Hcpb & Hcp0 & Hcps).
  exists x, c, cp.
  split; [apply HBk, Hk|]. split; [exact Hc|]. split; [exact Hcp|].
  split.
  { rewrite HPV. apply lookup_zip_with_Some. exists (x * (1 - cp)), (1 - c).
    split; [reflexivity|]. split.
    - apply lookup_zip_with_Some. exists x, (1 - cp).
      split; [reflexivity|]. split; [apply HBk, Hk|].
      rewrite list_lookup_fmap, Hcp. reflexivity.
    - rewrite list_lookup_fmap, Hc. reflexivity. }
  split; [exact Hx|]. split; [exact Hx0|]. split; [exact Hx9|].
  split; [exact Hrel|]. split; [exact Hcb|]. split; [exact Hcpb|]. split; [exact Hcp0|].
  intros k' ->. split; [apply Hcps; reflexivity|].
  eexists. split; [apply HBk; lia|]. apply schedule_point_increasing. exact Hk.
Qed.

Lemma get_vector_lookup (n t : Z) (xs : list R) :
  (0 <= t < n)%Z -> get (mk [n] xs) [t] = xs !! Z.to_nat t.
Proof.
  intros Ht. unfold get. cbn [shape data]. rewrite (ravel1 n t Ht).
  replace (t * 1 + 0)%Z with t by lia. reflexivity.
Qed.

Lemma ln_clamp_floor : ln 1e-20 < -10.
Proof.
  replace 1e-20 with (/ 10 ^ 20) by lra.
  rewrite ln_Rinv by (apply pow_lt; lra). rewrite ln_pow by lra.
  assert (H : 1 < ln 10).
  { rewrite <- (ln_exp 1). apply ln_increasing; [apply exp_pos|].
    pose proof exp_le_3. lra. }
  replace (INR 20) with 20 by (rewrite INR_IZR_INZ; reflexivity). lra.
Qed.

(** X12: [_init_schedule] returns, its [assert] holds, and the thousand
    [betas] rise from 0.00085 at step 0 to 0.0120 at step 999; [alphas]
    is [1 - betas]. *)
Theorem schedule_betas_range :
  exists b, _init_schedule = Passed b /\ num_timesteps b = 1000%Z /\
    shape (betas b) = [1000%Z] /\ shape (alphas b) = [1000%Z] /\
    get (betas b) [0%Z] = Some 0.00085 /\ get (betas b) [999%Z] = Some 0.0120 /\
    forall t, (0 <= t < 1000)%Z ->
      exists x, get (betas b) [t] = Some x /\ get (alphas b) [t] = Some (1 - x) /\
        0.00085 <= x <= 0.0120 /\
        ((0 < t)%Z -> exists x', get (betas b) [(t - 1)%Z] = Some x' /\ x' < x).
Proof.
  destruct init_schedule_value as (B & C & Cp & PV & HB & HC & HCp & HPV & E).
  eexists. split; [exact E|]. cbn [num_timesteps betas alphas shape].
  split; [reflexivity|]. split; [reflexivity|]. split; [reflexivity|].
  split.
  { destruct (schedule_entries B C Cp PV 0 HB HC HCp HPV ltac:(lia))
      as (x & c & cp & Hx & _ & _ & _ & _ & Hx0 & _).
    rewrite get_vector_lookup by lia. rewrite <- (Hx0 eq_refl). exact Hx. }
  split.
  { destruct (schedule_entries B C Cp PV 999 HB HC HCp HPV ltac:(lia))
      as (x & c & cp & Hx & _ & _ & _ & _ & _ & Hx9 & _).
    rewrite get_vector_lookup by lia. rewrite <- (Hx9 eq_refl). exact Hx. }
  intros t Ht.
  destruct (schedule_entries B C Cp PV (Z.to_nat t) HB HC HCp HPV ltac:(lia))
    as (x & c & cp & Hx & _ & _ & _ & Hxb & _ & _ & _ & _ & _ & _ & Hprev).
  exists x. rewrite !get_vector_lookup by lia.
  split; [exact Hx|]. split; [rewrite list_lookup_fmap, Hx; reflexivity|].
  split; [exact Hxb|]. intros Hpos.
  destruct (Hprev (Z.to_nat (t - 1)) ltac:(lia)) as (_ & x' & Hx' & Hlt).
  exists x'. rewrite get_vector_lookup by lia. split; assumption.
Qed.

(** X13: At every step the cumulative product of [alphas] lies strictly
    between 0 and 1 and is smaller than at the step before, and the two
    coefficients [add_noise] reads are positive with squares that sum to
    1. *)
Theorem schedule_signal_and_noise :
  exists b, _init_schedule = Passed b /\
    forall t, (0 <= t < 1000)%Z ->
      exists c s1 s2,
        get (alphas_cumprod b) [t] = Some c /\
        get (sqrt_alphas_cumprod b) [t] = Some s1 /\
        get (sqrt_one_minus_alphas_cumprod b) [t] = Some s2 /\
        0 < c < 1 /\ 0 < s1 /\ 0 < s2 /\ s1 * s1 + s2 * s2 = 1 /\
        ((0 < t)%Z -> exists c', get (alphas_cumprod b) [(t - 1)%Z] = Some c' /\ c < c').
Proof.
  destruct init_schedule_value as (B & C & Cp & PV & HB & HC & HCp & HPV & E).
  eexists. split; [exact E|].
  cbn [alphas_cumprod sqrt_alphas_cumprod sqrt_one_minus_alphas_cumprod].
  intros t Ht.
  destruct (schedule_entries B C Cp PV (Z.to_nat t) HB HC HCp HPV ltac:(lia))
    as (x & c & cp & _ & Hc & _ & _ & Hxb & _ & _ & Hrel & Hcb & Hcpb & _ & Hprev).
  exists c, (R_sqrt.sqrt c), (R_sqrt.sqrt (1 - c)). rewrite !get_vector_lookup by lia.
  split; [exact Hc|].
  split; [rewrite list_lookup_fmap, Hc; reflexivity|].
  split; [rewrite !list_lookup_fmap, Hc; reflexivity|].
  split; [exact Hcb|].
  split; [apply sqrt_lt_R0; lra|]. split; [apply sqrt_lt_R0; lra|].
  split; [rewrite !sqrt_sqrt by lra; lra|].
  intros Hpos. destruct (Hprev (Z.to_nat (t - 1)) ltac:(lia)) as (Hc' & _).
  exists cp. rewrite get_vector_lookup by lia. split; [exact Hc'|]. nra.
Qed.

(** X14: The posterior variance is 0 at step 0, where the clipped logarithm
    is the lower clamp -10; at every step it lies between 0 and the
    step's beta (no division by zero occurs), it is positive after step
    0, and the clipped logarithm lies in [[-10, 0)]. *)
Theorem schedule_posterior_variance :
  exists b, _init_schedule = Passed b /\
    get (posterior_variance b) [0%Z] = Some 0 /\
    get (posterior_log_variance_clipped b) [0%Z] = Some (-10) /\
    forall t, (0 <= t < 1000)%Z ->
      exists x c pv l,
        get (betas b) [t] = Some x /\ get (alphas_cumprod b) [t] = Some c /\
        get (posterior_variance b) [t] = Some pv /\
        get (posterior_log_variance_clipped b) [t] = Some l /\
        1 - c <> 0 /\ 0 <= pv <= x /\ ((0 < t)%Z -> 0 < pv) /\ -10 <= l < 0.
Proof.
  destruct init_schedule_value as (B & C & Cp & PV & HB & HC & HCp & HPV & E).
  eexists. split; [exact E|].
  cbn [betas alphas_cumprod posterior_variance posterior_log_variance_clipped].
  assert (H0 : PV !! 0%nat = Some 0).
  { destruct (schedule_entries B C Cp PV 0 HB HC HCp HPV ltac:(lia))
      as (x & c & cp & _ & _ & _ & Hpv & _ & _ & _ & _ & _ & _ & Hcp0 & _).
    rewrite Hpv, (Hcp0 eq_refl). f_equal. unfold Rdiv. rewrite Rminus_diag, Rmult_0_r.
    apply Rmult_0_l. }
  split; [rewrite get_vector_lookup by lia; exact H0|].
  split.
  { rewrite get_vector_lookup by lia. change (Z.to_nat 0) with 0%nat.
    rewrite !list_lookup_fmap, H0. cbn [fmap option_fmap option_map]. f_equal.
    rewrite (Rmax_left 1e-20 0) by lra. apply Rmax_left.
    pose proof ln_clamp_floor. lra. }
  intros t Ht.
  destruct (schedule_entries B C Cp PV (Z.to_nat t) HB HC HCp HPV ltac:(lia))
    as (x & c & cp & Hx & Hc & _ & Hpv & Hxb & _ & _ & Hrel & Hcb & Hcpb & Hcp0 & Hprev).
  exists x, c, (x * (1 - cp) / (1 - c)), (Rmax (-10) (ln (Rmax 1e-20 (x * (1 - cp) / (1 - c))))).
  rewrite !get_vector_lookup by lia.
  split; [exact Hx|]. split; [exact Hc|]. split; [exact Hpv|].
  split; [rewrite !list_lookup_fmap, Hpv; reflexivity|].
  split; [lra|].
  assert (Hq : 0 <= (1 - cp) / (1 - c) <= 1).
  { split.
    - apply Rmult_le_pos; [lra|]. apply Rlt_le, Rinv_0_lt_compat. lra.
    - apply (Rmult_le_reg_r (1 - c)); [lra|].
      unfold Rdiv. rewrite Rmult_assoc, Rinv_l by lra. nra. }
  assert (Hpvb : 0 <= x * (1 - cp) / (1 - c) <= x).
  { unfold Rdiv in *. rewrite Rmult_assoc. split; nra. }
  split; [exact Hpvb|]. split.
  { intros Hpos. destruct (Hprev (Z.to_nat (t - 1)) ltac:(lia)) as (Hc' & _).
    assert (Hcp1 : cp < 1).
    { destruct (schedule_entries B C Cp PV (Z.to_nat (t - 1)) HB HC HCp HPV ltac:(lia))
        as (x1 & c1 & cp1 & _ & Hc1 & _ & _ & _ & _ & _ & _ & Hc1b & _).
      rewrite Hc1 in Hc'. injection Hc' as ->. lra. }
    unfold Rdiv. apply Rmult_lt_0_compat; [nra|]. apply Rinv_0_lt_compat. lra. }
  split; [apply Rmax_l|].
  apply Rmax_lub_lt; [lra|].
  rewrite <- ln_1. apply ln_increasing.
  - eapply Rlt_le_trans; [|apply Rmax_l]. lra.
  - apply Rmax_lub_lt; lra.
Qed.

End ScheduleFacts.

(** ** Noising: [add_noise] *)

Section Broadcasting.
Import Tensor.

Lemma nnumel_ones (k : nat) : nnumel (repeat 1%nat k) = 1%nat.
Proof. induction k as [|k IH]; [reflexivity|]. cbn [repeat nnumel fold_right] in *. unfold nnumel in IH. lia. Qed.

Lemma concat_repeat_repeat {A} (x : A) (m d : nat) :
  concat (repeat (repeat x m) d) = repeat x (d * m).
Proof.
  induction d as [|d IH]; [reflexivity|].
  cbn [repeat concat Nat.mul]. rewrite IH, repeat_app. reflexivity.
Qed.

Lemma repeat_data_ones_entry (dims : list nat) (x : R) :
  repeat_data (repeat 1%nat (length dims)) dims [x] = repeat x (nnumel dims).
Proof.
  induction dims as [|d dims IH]; [reflexivity|].
  cbn [length repeat repeat_data]. rewrite nnumel_ones.
  cbn [chunks firstn skipn flat_map]. rewrite app_nil_r, IH.
  apply concat_repeat_repeat.
Qed.

Lemma repeat_data_coefficients (dims : list nat) (cs : list R) :
  repeat_data (length cs :: repeat 1%nat (length dims)) (1%nat :: dims) cs
  = flat_map (fun c => repeat c (nnumel dims)) cs.
Proof.
  cbn [repeat_data repeat concat]. rewrite app_nil_r, nnumel_ones, flat_map_chunks1.
  apply flat_map_ext. intros c. apply repeat_data_ones_entry.
Qed.

Lemma flat_map_chunks_id {A} (f : list A -> list A) (n d : nat) (xs : list A) :
  (forall l, length l = n -> f l = l) -> length xs = (d * n)%nat ->
  flat_map f (chunks n d xs) = xs.
Proof.
  intros Hf. revert xs. induction d as [|d IH]; intros xs Hl.
  - destruct xs; [reflexivity | discriminate].
  - cbn [chunks flat_map]. rewrite Hf by (rewrite length_take; lia).
    rewrite IH by (rewrite length_drop; lia). apply firstn_skipn.
Qed.

Lemma repeat_data_id (sh : list nat) (xs : list R) :
  length xs = nnumel sh -> repeat_data sh (repeat 1%nat (length sh)) xs = xs.
Proof.
  revert xs. induction sh as [|d sh IH]; intros xs Hl; [reflexivity|].
  cbn [length repeat repeat_data concat]. rewrite app_nil_r.
  apply flat_map_chunks_id; [exact IH | exact Hl].
Qed.

Lemma nnumel_nshape (sh : list Z) :
  Forall (fun d => 0 <= d) sh -> nnumel (nshape sh) = Z.to_nat (numel sh).
Proof.
  induction 1 as [|d sh Hd Hsh IH]; [reflexivity|].
  cbn [nshape map nnumel numel fold_right] in *. unfold nnumel, nshape in IH. rewrite IH.
  assert (0 <= fold_right Z.mul 1 sh).
  { clear IH. induction Hsh; cbn [fold_right]; [lia | nia]. }
  unfold numel. nia.
Qed.

Lemma broadcast_aligned_ones_left (sh : list Z) :
  broadcast_aligned (repeat 1 (length sh)) sh = Some sh.
Proof.
  induction sh as [|e sh IH]; [reflexivity|].
  cbn [length repeat broadcast_aligned]. rewrite IH.
  destruct (Z.eqb_spec 1 e) as [<-|_]; reflexivity.
Qed.

Lemma pad_ones_length (n : nat) (sh : list Z) : n = length sh -> pad_ones n sh = sh.
Proof. intros ->. unfold pad_ones. rewrite Nat.sub_diag. reflexivity. Qed.

Lemma zip_with_ones (sh : list Z) :
  zip_with (fun d e => if d =? e then 1 else e) (repeat 1 (length sh)) sh = sh.
Proof.
  induction sh as [|e sh IH]; [reflexivity|].
  cbn [length repeat zip_with]. rewrite IH.
  destruct (Z.eqb_spec 1 e) as [<-|_]; reflexivity.
Qed.

Lemma zip_with_same (sh : list Z) :
  zip_with (fun d e => if d =? e then 1 else e) sh sh = repeat 1 (length sh).
Proof.
  induction sh as [|e sh IH]; [reflexivity|].
  cbn [length repeat zip_with]. rewrite IH, Z.eqb_refl. reflexivity.
Qed.

(** A tensor of shape [(B, 1, ..., 1)] against one of shape [(B, ...)]:
    every coefficient is repeated over its batch element. *)
Lemma binop_coefficients (f : R -> R -> R) (B : Z) (sh : list Z) (cs xs : list R) :
  Z.of_nat (length cs) = B -> Forall (fun d => 0 <= d) sh ->
  length xs = Z.to_nat (numel (B :: sh)) ->
  binop f (mk (B :: repeat 1 (length sh)) cs) (mk (B :: sh) xs)
  = Ok (mk (B :: sh)
          (zip_with f (flat_map (fun c => repeat c (Z.to_nat (numel sh))) cs) xs)).
Proof.
  intros HB Hsh Hxs. unfold binop, broadcast_shapes. cbn [shape].
  rewrite !pad_ones_length by (cbn [length]; rewrite ?repeat_length; lia).
  cbn [broadcast_aligned]. rewrite broadcast_aligned_ones_left, Z.eqb_refl.
  unfold expand_data. cbn [shape data].
  rewrite !pad_ones_length by (cbn [length]; rewrite ?repeat_length; lia).
  cbn [zip_with]. rewrite Z.eqb_refl, zip_with_ones, zip_with_same.
  cbn [nshape map]. fold (nshape sh).
  assert (HBn : Z.to_nat B = length cs) by lia.
  rewrite HBn.
  replace (map Z.to_nat (repeat 1 (length sh))) with (repeat 1%nat (length (nshape sh)))
    by (unfold nshape; rewrite length_map, map_repeat; reflexivity).
  change (Z.to_nat 1) with 1%nat.
  rewrite (repeat_data_coefficients (nshape sh) cs), (nnumel_nshape sh Hsh).
  change (1%nat :: repeat 1%nat (length (nshape sh)))
    with (repeat 1%nat (length (length cs :: nshape sh))).
  rewrite repeat_data_id; [reflexivity|].
  rewrite Hxs. cbn [nnumel fold_right numel]. fold (nnumel (nshape sh)).
  rewrite (nnumel_nshape sh Hsh).
  assert (0 <= numel sh).
  { clear -Hsh. induction Hsh; cbn [numel fold_right]; [lia|]. unfold numel in *. nia. }
  unfold numel in *. nia.
Qed.

Lemma binop_same_shape (f : R -> R -> R) (sh : list Z) (xs ys : list R) :
  Forall (fun d => 0 <= d) sh ->
  length xs = Z.to_nat (numel sh) -> length ys = Z.to_nat (numel sh) ->
  binop f (mk sh xs) (mk sh ys) = Ok (mk sh (zip_with f xs ys)).
Proof.
  intros Hsh Hxs Hys. unfold binop, broadcast_shapes. cbn [shape].
  rewrite !pad_ones_length by lia. rewrite broadcast_aligned_refl.
  unfold expand_data. cbn [shape data]. rewrite !pad_ones_length by reflexivity.
  rewrite zip_with_same.
  replace (nshape (repeat 1 (length sh))) with (repeat 1%nat (length (nshape sh)))
    by (unfold nshape; rewrite length_map, map_repeat; reflexivity).
  rewrite !repeat_data_id by (rewrite nnumel_nshape by exact Hsh; assumption).
  reflexivity.
Qed.

End Broadcasting.

Section Noising.
Import Tensor Torch Python AddNoise.

Lemma value_fresh (hp l : list Storage) (d : list R) (r : N) (sh : list Z) :
  value (mkWorld (hp ++ FloatStorage d :: l) r) (mkHandle (length hp) sh Float (seq 0 (length d)))
  = mk sh d.
Proof.
  unfold value. cbn [heap cell sizes sel]. rewrite nth_middle. cbn [floats].
  rewrite map_nth_seq. reflexivity.
Qed.

Lemma apply2_value (f : Tensor.t -> Tensor.t -> result Tensor.t) (x y : Handle) (w : World)
    (z : Tensor.t) :
  dtype x = Float -> dtype y = Float -> f (value w x) (value w y) = Ok z ->
  apply2 f x y w
  = (Ok (mkHandle (length (heap w)) (shape z) Float (seq 0 (length (data z)))),
     mkWorld (heap w ++ [FloatStorage (data z)]) (rng w)).
Proof.
  intros Hx Hy E. unfold apply2. rewrite Hx, Hy. unfold bind, lift. rewrite E. reflexivity.
Qed.

Lemma index_value (x idx : Handle) (w : World) (y : Tensor.t) :
  dtype x = Float -> dtype idx = Long ->
  index_rows (value w x) (sizes idx) (long_value w idx) = Ok y ->
  index x idx w
  = (Ok (mkHandle (length (heap w)) (shape y) Float (seq 0 (length (data y)))),
     mkWorld (heap w ++ [FloatStorage (data y)]) (rng w)).
Proof.
  intros Hx Hi E. unfold index. rewrite Hx, Hi. unfold bind, lift. rewrite E. reflexivity.
Qed.

(** Rows of a vector of coefficients picked by a list of steps. *)
Lemma coefficient_rows (cs : list R) (T : Z) (ish ts : list Z) :
  Z.of_nat (length cs) = T -> Forall (fun i => - T <= i < T) ts ->
  exists picked,
    index_rows (mk [T] cs) ish ts = Ok (mk (ish ++ []) picked) /\
    length picked = length ts /\
    forall b i, ts !! b = Some i -> picked !! b = cs !! Z.to_nat (i mod T).
Proof.
  intros HT Hts. unfold index_rows. cbn [shape].
  induction Hts as [|i ts Hi _ IH].
  - exists []. repeat split. intros b i [=].
  - destruct IH as (picked & E & Hl & Hp).
    destruct (rmap (index0 (mk [T] cs)) ts) as [rows|] eqn:Er; [|discriminate].
    cbn [rbind] in E. injection E as E.
    assert (Hm : 0 <= i mod T < T) by (apply Z.mod_pos_bound; lia).
    destruct (lookup_lt_is_Some_2 cs (Z.to_nat (i mod T)) ltac:(lia)) as [c Hc].
    exists (c :: picked). cbn [rmap].
    rewrite (index0_mod (mk [T] cs) T i [] eq_refl Hi).
    unfold index0 at 1. cbn [shape data].
    destruct (Z.leb_spec (- T) (i mod T)); [|lia]. destruct (Z.ltb_spec (i mod T) T); [|lia].
    destruct (Z.ltb_spec (i mod T) 0); [lia|]. cbn [andb rbind].
    rewrite Er. cbn [rbind flat_map data].
    change (Z.to_nat (numel [])) with 1%nat. rewrite Nat.mul_1_r.
    assert (Hrow : firstn 1 (skipn (Z.to_nat (i mod T)) cs) = [c]).
    { apply take_drop_middle in Hc. rewrite <- Hc at 1.
      rewrite drop_app_length'; [reflexivity|]. rewrite length_take. lia. }
    rewrite Hrow. cbn [app]. rewrite E.
    split; [reflexivity|]. split; [cbn [length]; lia|].
    intros [|b] j Hj; cbn in Hj |- *; [injection Hj as <-; exact (eq_sym Hc) | apply Hp, Hj].
Qed.

Lemma numel_nonneg (sh : list Z) : Forall (fun d => 0 <= d) sh -> 0 <= numel sh.
Proof. induction 1; cbn [numel fold_right]; [lia|]. unfold numel in *. nia. Qed.

Lemma view_coefficients (h : Handle) (B : Z) (k : nat) :
  sizes h = [B] -> 0 <= B ->
  view (B :: repeat 1 k) h = Ok (mkHandle (cell h) (B :: repeat 1 k) (dtype h) (sel h)).
Proof.
  intros Hs HB.
  assert (Hn : numel (repeat 1 k) = 1).
  { induction k as [|k IH]; [reflexivity|]. cbn [repeat numel fold_right] in *.
    unfold numel in IH. rewrite IH. reflexivity. }
  apply view_regroup.
  - cbn [forallb]. rewrite (proj2 (Z.leb_le 0 B) HB). cbn [andb]. clear.
    induction k as [|k IH]; [reflexivity|]. cbn [repeat forallb]. exact IH.
  - rewrite Hs. cbn [numel fold_right]. fold (numel (repeat 1 k)). rewrite Hn. reflexivity.
  - rewrite Hs. change (B :: repeat 1 k) with ([B] ++ repeat 1 k).
    apply strip_ones_app_ones.
Qed.

Context (randn : N -> list Z -> list R) (G : gmap string PyObj).

(** X15: [add_noise] draws the noise once, for the whole batch, and returns
    two new tensors of the shape of [x_start]: the noise and
    [sqrt_alphas_cumprod[t[b]] * x_start + sqrt_one_minus_alphas_cumprod[t[b]] * noise],
    entry by entry, batch element [b] with the coefficients of its own
    step [t[b]] (a negative step counts from the end).  The generator
    advances by that one draw, and no tensor that existed before the call
    is changed. *)
Theorem add_noise_formula (self : SyncMultiviewDiffusion) (x_start t : Handle) (w : World)
    (B T : Z) (sh : list Z) :
  is_Some (G !! "torch"%string) ->
  is_float (B :: sh) x_start -> 0 <= B -> Forall (fun d => 0 <= d) sh ->
  length (sel x_start) = Z.to_nat (numel (B :: sh)) ->
  length (randn (rng w) (B :: sh)) = Z.to_nat (numel (B :: sh)) ->
  is_float [T] (sqrt_alphas_cumprod self) ->
  Z.of_nat (length (sel (sqrt_alphas_cumprod self))) = T ->
  is_float [T] (sqrt_one_minus_alphas_cumprod self) ->
  Z.of_nat (length (sel (sqrt_one_minus_alphas_cumprod self))) = T ->
  dtype t = Long -> sizes t = [B] -> Z.of_nat (length (sel t)) = B ->
  Forall (fun i => - T <= i < T) (long_value w t) ->
  (cell x_start < length (heap w))%nat -> (cell t < length (heap w))%nat ->
  (cell (sqrt_alphas_cumprod self) < length (heap w))%nat ->
  (cell (sqrt_one_minus_alphas_cumprod self) < length (heap w))%nat ->
  exists x_noisy noise w',
    add_noise randn G self x_start t w = (Ok (x_noisy, noise), w') /\
    is_float (B :: sh) x_noisy /\ is_float (B :: sh) noise /\
    rng w' = N.succ (rng w) /\ unchanged w w' /\
    length (heap w') = (length (heap w) + 6)%nat /\
    data (value w' noise) = randn (rng w) (B :: sh) /\
    forall b j i x e a s,
      0 <= b < B -> 0 <= j < numel sh ->
      long_value w t !! Z.to_nat b = Some i ->
      data (value w x_start) !! Z.to_nat (b * numel sh + j) = Some x ->
      randn (rng w) (B :: sh) !! Z.to_nat (b * numel sh + j) = Some e ->
      get (value w (sqrt_alphas_cumprod self)) [i mod T] = Some a ->
      get (value w (sqrt_one_minus_alphas_cumprod self)) [i mod T] = Some s ->
      data (value w' x_noisy) !! Z.to_nat (b * numel sh + j) = Some (a * x + s * e)%R.
Proof.
  intros [torch_ Htorch] [Hxd Hxs] HB Hsh Hxl Hrl [Had Has] Hal [Hbd Hbs] Hbl
    Htd Hts Htl Hin Hxa Hta Haa Hba.
  set (nz := randn (rng w) (B :: sh)) in *.
  set (xs := data (value w x_start)).
  assert (Hxv : value w x_start = mk (B :: sh) xs) by (unfold xs, value; rewrite Hxs; reflexivity).
  assert (Hxsl : length xs = Z.to_nat (numel (B :: sh))).
  { unfold xs, value. cbn [data]. rewrite length_map. exact Hxl. }
  set (sad := data (value w (sqrt_alphas_cumprod self))).
  set (sbd := data (value w (sqrt_one_minus_alphas_cumprod self))).
  assert (Hav : value w (sqrt_alphas_cumprod self) = mk [T] sad)
    by (unfold sad, value; rewrite Has; reflexivity).
  assert (Hbv : value w (sqrt_one_minus_alphas_cumprod self) = mk [T] sbd)
    by (unfold sbd, value; rewrite Hbs; reflexivity).
  assert (Hsal : Z.of_nat (length sad) = T)
    by (unfold sad, value; cbn [data]; rewrite length_map; exact Hal).
  assert (Hsbl : Z.of_nat (length sbd) = T)
    by (unfold sbd, value; cbn [data]; rewrite length_map; exact Hbl).
  set (ts := long_value w t) in *.
  assert (Htsl : Z.of_nat (length ts) = B)
    by (unfold ts, long_value; rewrite length_map; exact Htl).
  destruct (coefficient_rows sad T [B] ts Hsal Hin) as (ca & Eca & Hcal & Hca).
  destruct (coefficient_rows sbd T [B] ts Hsbl Hin) as (cb & Ecb & Hcbl & Hcb).
  cbn [app] in Eca, Ecb.
  set (n := Z.to_nat (numel sh)).
  set (sig := zip_with Rmult (flat_map (fun c => repeat c n) ca) xs).
  set (scl := zip_with Rmult (flat_map (fun c => repeat c n) cb) nz).
  set (out := zip_with Rplus sig scl).
  assert (Hnn : 0 <= numel sh) by (apply numel_nonneg, Hsh).
  assert (Htot : Z.to_nat (numel (B :: sh)) = (Z.to_nat B * n)%nat).
  { cbn [numel fold_right]. fold (numel sh). subst n. nia. }
  assert (Hfl : forall cs : list R, length cs = length ts ->
            length (flat_map (fun c => repeat c n) cs) = Z.to_nat (numel (B :: sh))).
  { intros cs Hcs. rewrite length_flat_map_repeat, Hcs, Htot. lia. }
  assert (Hsigl : length sig = Z.to_nat (numel (B :: sh))).
  { subst sig. rewrite length_zip_with, (Hfl ca Hcal), Hxsl. lia. }
  assert (Hscll : length scl = Z.to_nat (numel (B :: sh))).
  { subst scl. rewrite length_zip_with, (Hfl cb Hcbl), Hrl. lia. }
  (* the call, step by step *)
  unfold add_noise.
  unfold bind at 1. unfold lift at 1, shape_at0. rewrite Hxs.
  unfold bind at 1. unfold load_global at 1. rewrite Htorch. cbn [ret].
  unfold bind at 1. unfold randn_like at 1. rewrite Hxd, Hxs. cbn [new heap rng shape data].
  fold nz.
  set (w1 := mkWorld (heap w ++ [FloatStorage nz]) (N.succ (rng w))).
  set (noise := mkHandle (length (heap w)) (B :: sh) Float (seq 0 (length nz))).
  assert (Hv1 : forall h, (cell h < length (heap w))%nat ->
            value w1 h = value w h /\ long_value w1 h = long_value w h).
  { intros h Hh. split; [apply value_app | apply long_value_app]; exact Hh. }
  unfold bind at 1.
  rewrite (index_value (sqrt_alphas_cumprod self) t w1 (mk [B] ca) Had Htd).
  2:{ rewrite (proj1 (Hv1 _ Haa)), (proj2 (Hv1 _ Hta)), Hav, Hts. exact Eca. }
  cbn [shape data heap rng w1].
  set (w2 := mkWorld ((heap w ++ [FloatStorage nz]) ++ [FloatStorage ca]) (N.succ (rng w))).
  assert (Hv2 : forall h, (cell h < length (heap w))%nat ->
            value w2 h = value w h /\ long_value w2 h = long_value w h).
  { intros h Hh. subst w2. rewrite <- app_assoc.
    split; [apply value_app | apply long_value_app]; exact Hh. }
  unfold bind at 1.
  rewrite (index_value (sqrt_one_minus_alphas_cumprod self) t w2 (mk [B] cb) Hbd Htd).
  2:{ rewrite (proj1 (Hv2 _ Hba)), (proj2 (Hv2 _ Hta)), Hbv, Hts. exact Ecb. }
  cbn [shape data heap rng w2].
  unfold bind at 1. unfold lift at 1. rewrite view_coefficients by (reflexivity || exact HB).
  unfold bind at 1. unfold lift at 1. rewrite view_coefficients by (reflexivity || exact HB).
  cbn [cell dtype sel length Nat.sub].
  replace (length sh - 0)%nat with (length sh) by lia.
  set (hp := heap w).
  set (ha := mkHandle (length (hp ++ [FloatStorage nz])) (B :: repeat 1 (length sh)) Float
               (seq 0 (length ca))).
  set (hb := mkHandle (length ((hp ++ [FloatStorage nz]) ++ [FloatStorage ca]))
               (B :: repeat 1 (length sh)) Float (seq 0 (length cb))).
  set (w3 := mkWorld (((hp ++ [FloatStorage nz]) ++ [FloatStorage ca]) ++ [FloatStorage cb])
               (N.succ (rng w))).
  assert (Hha : forall l r, value (mkWorld ((((hp ++ [FloatStorage nz]) ++ [FloatStorage ca])
                                              ++ [FloatStorage cb]) ++ l) r) ha
                            = mk (B :: repeat 1 (length sh)) ca).
  { intros l r. subst ha.
    replace ((((hp ++ [FloatStorage nz]) ++ [FloatStorage ca]) ++ [FloatStorage cb]) ++ l)
      with ((hp ++ [FloatStorage nz]) ++ FloatStorage ca :: FloatStorage cb :: l)
      by (rewrite <- !app_assoc; reflexivity).
    apply value_fresh. }
  assert (Hhb : forall l r, value (mkWorld ((((hp ++ [FloatStorage nz]) ++ [FloatStorage ca])
                                              ++ [FloatStorage cb]) ++ l) r) hb
                            = mk (B :: repeat 1 (length sh)) cb).
  { intros l r. subst hb.
    replace ((((hp ++ [FloatStorage nz]) ++ [FloatStorage ca]) ++ [FloatStorage cb]) ++ l)
      with (((hp ++ [FloatStorage nz]) ++ [FloatStorage ca]) ++ FloatStorage cb :: l)
      by (rewrite <- !app_assoc; reflexivity).
    apply value_fresh. }
  assert (Hnoise : forall l r, value (mkWorld ((((hp ++ [FloatStorage nz]) ++ [FloatStorage ca])
                                              ++ [FloatStorage cb]) ++ l) r) noise
                            = mk (B :: sh) nz).
  { intros l r. subst noise.
    replace ((((hp ++ [FloatStorage nz]) ++ [FloatStorage ca]) ++ [FloatStorage cb]) ++ l)
      with (hp ++ FloatStorage nz :: FloatStorage ca :: FloatStorage cb :: l)
      by (rewrite <- !app_assoc; reflexivity).
    apply value_fresh. }
  assert (Hold : forall l r h, (cell h < length hp)%nat ->
            value (mkWorld ((((hp ++ [FloatStorage nz]) ++ [FloatStorage ca])
                             ++ [FloatStorage cb]) ++ l) r) h = value w h /\
            long_value (mkWorld ((((hp ++ [FloatStorage nz]) ++ [FloatStorage ca])
                             ++ [FloatStorage cb]) ++ l) r) h = long_value w h).
  { intros l r h Hh. rewrite <- !app_assoc.
    split; [apply (value_app w) | apply (long_value_app w)]; exact Hh. }
  (* the two products and the sum *)
  unfold bind at 1. unfold mul at 1.
  rewrite (apply2_value (binop Rmult) ha x_start w3 (mk (B :: sh) sig) eq_refl Hxd).
  2:{ subst w3. rewrite <- (app_nil_r (_ ++ [FloatStorage cb])).
      rewrite Hha, (proj1 (Hold [] _ x_start Hxa)), Hxv.
      apply binop_coefficients; [lia | exact Hsh | exact Hxsl]. }
  cbn [shape data heap rng w3].
  unfold bind at 1. unfold mul at 1.
  rewrite (apply2_value (binop Rmult) hb noise _ (mk (B :: sh) scl) eq_refl eq_refl).
  2:{ cbn [heap]. rewrite Hhb, Hnoise.
      apply binop_coefficients; [lia | exact Hsh | exact Hrl]. }
  cbn [shape data heap rng].
  unfold bind at 1.
  rewrite (apply2_value Tensor.add _ _ _ (mk (B :: sh) out)); [| reflexivity | reflexivity |].
  2:{ cbn [heap].
      rewrite <- (app_assoc _ [FloatStorage sig] [FloatStorage scl]). cbn [app].
      rewrite (value_fresh _ [FloatStorage scl] sig).
      rewrite (app_assoc _ [FloatStorage sig] [FloatStorage scl]).
      rewrite <- (app_nil_r ((_ ++ [FloatStorage sig]) ++ [FloatStorage scl])).
      rewrite <- (app_assoc _ [FloatStorage scl] []). cbn [app].
      rewrite (value_fresh _ [] scl).
      apply binop_same_shape; [constructor; assumption | exact Hsigl | exact Hscll]. }
  cbn [shape data heap rng ret].
  eexists _, _, _. split; [reflexivity|].
  split; [split; reflexivity|]. split; [split; reflexivity|].
  split; [reflexivity|].
  split.
  { intros h Hh. cbn [heap]. rewrite <- !app_assoc.
    split; [apply (value_app w) | apply (long_value_app w)]; exact Hh. }
  split; [cbn [heap]; rewrite !length_app; cbn [length]; lia|].
  split.
  { rewrite <- !app_assoc. cbn [app]. subst noise hp.
    rewrite (value_fresh (heap w) _ nz). reflexivity. }
  intros b j i x e a s Hb Hj Hi Hx He Ha Hs.
  rewrite <- (app_nil_r (_ ++ [FloatStorage out])).
  rewrite <- (app_assoc _ [FloatStorage out] []). cbn [app].
  rewrite (value_fresh _ [] out). cbn [data].
  assert (Hp : Z.to_nat (b * numel sh + j) = (Z.to_nat b * n + Z.to_nat j)%nat)
    by (subst n; nia).
  assert (Hjn : (Z.to_nat j < n)%nat) by (subst n; lia).
  assert (Hm : 0 <= i mod T < T).
  { apply Z.mod_pos_bound. apply (proj1 (Forall_lookup _ _) Hin) in Hi. lia. }
  rewrite Hav, get_vector_lookup in Ha by exact Hm.
  rewrite Hbv, get_vector_lookup in Hs by exact Hm.
  subst out. apply lookup_zip_with_Some. exists (a * x)%R, (s * e)%R.
  split; [reflexivity|]. split.
  - subst sig. apply lookup_zip_with_Some. exists a, x. split; [reflexivity|].
    split; [|exact Hx].
    rewrite Hp, lookup_flat_map_repeat by exact Hjn. rewrite (Hca _ _ Hi). exact Ha.
  - subst scl. apply lookup_zip_with_Some. exists s, e. split; [reflexivity|].
    split; [|exact He].
    rewrite Hp, lookup_flat_map_repeat by exact Hjn. rewrite (Hcb _ _ Hi). exact Hs.
Qed.

Lemma view_size_mismatch (h : Handle) (B B' : Z) (k : nat) :
  sizes h = [B'] -> 0 <= B -> B <> B' -> view (B :: repeat 1 k) h = Raise RuntimeError.
Proof.
  intros Hs HB Hne.
  assert (Hn : numel (repeat 1 k) = 1).
  { induction k as [|k IH]; [reflexivity|]. cbn [repeat numel fold_right] in *.
    unfold numel in IH. rewrite IH. reflexivity. }
  assert (Hpos : forallb (Z.leb 0) (B :: repeat 1 k) = true).
  { cbn [forallb]. rewrite (proj2 (Z.leb_le 0 B) HB). cbn [andb]. clear.
    induction k as [|k IH]; [reflexivity|]. cbn [repeat forallb]. exact IH. }
  unfold view, infer_sizes. rewrite (filter_nonneg_id _ Hpos), Hpos, Nat.sub_diag, Hs.
  cbn [numel fold_right]. fold (numel (repeat 1 k)). rewrite Hn.
  destruct (Z.eqb_spec (B * 1) (B' * 1)) as [E|_]; [lia | reflexivity].
Qed.

(** X16: What stops [add_noise] on a batch of steps [t]: a step outside
    [[-T, T)], for [T] stored coefficients, ends the call in the runtime's
    [IndexError], after the noise was drawn (the generator has advanced);
    steps in range but not one per batch element end it in
    [RuntimeError], at the [view] of the selected coefficients. *)
Theorem add_noise_rejects (self : SyncMultiviewDiffusion) (x_start t : Handle) (w : World)
    (B B' T : Z) (sh : list Z) :
  is_Some (G !! "torch"%string) ->
  is_float (B :: sh) x_start -> 0 <= B ->
  is_float [T] (sqrt_alphas_cumprod self) ->
  Z.of_nat (length (sel (sqrt_alphas_cumprod self))) = T ->
  is_float [T] (sqrt_one_minus_alphas_cumprod self) ->
  Z.of_nat (length (sel (sqrt_one_minus_alphas_cumprod self))) = T ->
  dtype t = Long -> sizes t = [B'] ->
  (Exists (fun i => ~ (- T <= i < T)) (long_value (mkWorld (heap w ++ [FloatStorage
       (randn (rng w) (B :: sh))]) (N.succ (rng w))) t) ->
   exists w', add_noise randn G self x_start t w = (Raise IndexError, w') /\
              rng w' = N.succ (rng w)) /\
  (Forall (fun i => - T <= i < T) (long_value w t) -> (cell t < length (heap w))%nat ->
   (cell (sqrt_alphas_cumprod self) < length (heap w))%nat ->
   (cell (sqrt_one_minus_alphas_cumprod self) < length (heap w))%nat ->
   B' <> B ->
   exists w', add_noise randn G self x_start t w = (Raise RuntimeError, w')).
Proof.
  intros [torch_ Htorch] [Hxd Hxs] HB [Had Has] Hal [Hbd Hbs] Hbl Htd Hts.
  split.
  - intros Hout. unfold add_noise.
    unfold bind at 1. unfold lift at 1, shape_at0. rewrite Hxs.
    unfold bind at 1. unfold load_global at 1. rewrite Htorch. cbn [ret].
    unfold bind at 1. unfold randn_like at 1. rewrite Hxd, Hxs. cbn [new heap rng shape data].
    unfold bind at 1.
    rewrite (index_out_of_range _ (sqrt_alphas_cumprod self) t T [] Had Htd Has Hout).
    eexists. split; reflexivity.
  - intros Hin Hta Haa Hba Hne.
    set (sad := data (value w (sqrt_alphas_cumprod self))).
    set (sbd := data (value w (sqrt_one_minus_alphas_cumprod self))).
    assert (Hav : value w (sqrt_alphas_cumprod self) = mk [T] sad)
      by (unfold sad, value; rewrite Has; reflexivity).
    assert (Hbv : value w (sqrt_one_minus_alphas_cumprod self) = mk [T] sbd)
      by (unfold sbd, value; rewrite Hbs; reflexivity).
    assert (Hsal : Z.of_nat (length sad) = T)
      by (unfold sad, value; cbn [data]; rewrite length_map; exact Hal).
    assert (Hsbl : Z.of_nat (length sbd) = T)
      by (unfold sbd, value; cbn [data]; rewrite length_map; exact Hbl).
    destruct (coefficient_rows sad T [B'] _ Hsal Hin) as (ca & Eca & _).
    destruct (coefficient_rows sbd T [B'] _ Hsbl Hin) as (cb & Ecb & _).
    cbn [app] in Eca, Ecb.
    unfold add_noise.
    unfold bind at 1. unfold lift at 1, shape_at0. rewrite Hxs.
    unfold bind at 1. unfold load_global at 1. rewrite Htorch. cbn [ret].
    unfold bind at 1. unfold randn_like at 1. rewrite Hxd, Hxs. cbn [new heap rng shape data].
    unfold bind at 1.
    rewrite (index_value (sqrt_alphas_cumprod self) t _ (mk [B'] ca) Had Htd).
    2:{ rewrite (value_app w _ _ _ Haa), (long_value_app w _ _ _ Hta), Hav, Hts. exact Eca. }
    cbn [shape data heap rng].
    unfold bind at 1.
    rewrite (index_value (sqrt_one_minus_alphas_cumprod self) t _ (mk [B'] cb) Hbd Htd).
    2:{ cbn [heap]. rewrite <- app_assoc.
        rewrite (value_app w _ _ _ Hba), (long_value_app w _ _ _ Hta), Hbv, Hts. exact Ecb. }
    cbn [shape data heap rng].
    unfold bind at 1. unfold lift at 1.
    rewrite (view_size_mismatch _ B B') by (reflexivity || lia).
    eexists. reflexivity.
Qed.

End Noising.

Section NoisingExample.
Import Tensor Torch Python AddNoise.

Lemma add_noise_formula_witness :
  exists x_noisy noise w',
    add_noise (fun _ sh => repeat 0.5%R (Z.to_nat (numel sh))) View_feature_extractor.globals
      (mkSyncMultiviewDiffusion (mkHandle 0 [2] Float [0; 1]%nat)
         (mkHandle 1 [2] Float [0; 1]%nat))
      (mkHandle 2 [1; 2] Float [0; 1]%nat) (mkHandle 3 [1] Long [0%nat])
      (mkWorld [FloatStorage [0.8; 0.6]%R; FloatStorage [0.6; 0.8]%R; FloatStorage [1; 2]%R;
                LongStorage [-1]] 7)
    = (Ok (x_noisy, noise), w') /\
    rng w' = 8%N /\
    data (value w' x_noisy) !! 1%nat = Some (0.6 * 2 + 0.8 * 0.5)%R.
Proof.
  destruct (add_noise_formula (fun _ sh => repeat 0.5%R (Z.to_nat (numel sh)))
              View_feature_extractor.globals
              (mkSyncMultiviewDiffusion (mkHandle 0 [2] Float [0; 1]%nat)
                 (mkHandle 1 [2] Float [0; 1]%nat))
              (mkHandle 2 [1; 2] Float [0; 1]%nat) (mkHandle 3 [1] Long [0%nat])
              (mkWorld [FloatStorage [0.8; 0.6]%R; FloatStorage [0.6; 0.8]%R;
                        FloatStorage [1; 2]%R; LongStorage [-1]] 7)
              1 2 [2])
    as (x_noisy & noise & w' & E & _ & _ & Hr & _ & _ & _ & Hv);
    [exists PyModule; apply globals_torch_bound | split; reflexivity | lia
    | repeat constructor; lia | reflexivity | reflexivity
    | split; reflexivity | reflexivity | split; reflexivity | reflexivity
    | reflexivity | reflexivity | reflexivity
    | repeat constructor; cbn; lia
    | cbn; lia | cbn; lia | cbn; lia | cbn; lia |].
  exists x_noisy, noise, w'. split; [exact E|]. split; [exact Hr|].
  apply (Hv 0 1 (-1) 2%R 0.5%R 0.6%R 0.8%R); first [lia | reflexivity | (cbn; lia)].
Defined.

Lemma add_noise_rejects_witness :
  exists w',
    add_noise (fun _ sh => repeat 0.5%R (Z.to_nat (numel sh))) View_feature_extractor.globals
      (mkSyncMultiviewDiffusion (mkHandle 0 [2] Float [0; 1]%nat)
         (mkHandle 1 [2] Float [0; 1]%nat))
      (mkHandle 2 [1; 2] Float [0; 1]%nat) (mkHandle 3 [1] Long [0%nat])
      (mkWorld [FloatStorage [0.8; 0.6]%R; FloatStorage [0.6; 0.8]%R; FloatStorage [1; 2]%R;
                LongStorage [2]] 7)
    = (Raise IndexError, w') /\
    rng w' = 8%N.
Proof.
  refine (proj1 (add_noise_rejects (fun _ sh => repeat 0.5%R (Z.to_nat (numel sh)))
                   View_feature_extractor.globals
                   (mkSyncMultiviewDiffusion (mkHandle 0 [2] Float [0; 1]%nat)
                      (mkHandle 1 [2] Float [0; 1]%nat))
                   (mkHandle 2 [1; 2] Float [0; 1]%nat) (mkHandle 3 [1] Long [0%nat])
                   (mkWorld [FloatStorage [0.8; 0.6]%R; FloatStorage [0.6; 0.8]%R;
                             FloatStorage [1; 2]%R; LongStorage [2]] 7)
                   1 1 2 [2] _ _ _ _ _ _ _ _ _) _);
    [exists PyModule; apply globals_torch_bound | split; reflexivity | lia
    | split; reflexivity | reflexivity | split; reflexivity | reflexivity
    | reflexivity | reflexivity |].
  unfold long_value. cbn [heap cell sel nth app map longs].
  constructor. lia.
Defined.

End NoisingExample.

(** ** The spatial volume, with the warp helper supplied *)

Section SpatialVolumeReturns.
Import Tensor Torch Python View_feature_extractor.

Lemma returns_for_each {A B} (xs : list A) (body : A -> M B) (P : B -> Prop) :
  (forall x, In x xs -> returns (body x) P) ->
  returns (for_each xs body) (fun ys => length ys = length xs /\ Forall P ys).
Proof.
  induction xs as [|x xs IH]; intros Hb; cbn [for_each].
  - apply returns_ret. split; [reflexivity | constructor].
  - eapply returns_bind; [apply Hb; left; reflexivity|]. intros y Hy.
    eapply returns_bind; [apply IH; intros x' Hx'; apply Hb; right; exact Hx'|].
    intros ys [Hl Hys]. apply returns_ret. split; [cbn [length]; lia | constructor; assumption].
Qed.

Lemma returns_load_global_eq (G : gmap string PyObj) (name : string) (o : PyObj) :
  G !! name = Some o -> returns (load_global G name) (fun o' => o' = o).
Proof. intros H w. exists o, w. unfold load_global. rewrite H. split; reflexivity. Qed.

Lemma select1_float_at (h : Handle) (d0 d1 i : Z) (sh : list Z) :
  is_float (d0 :: d1 :: sh) h -> 0 <= i < d1 ->
  exists h', select1 h i = Ok h' /\ is_float (d0 :: sh) h'.
Proof.
  intros [Hd Hs] Hi. unfold select1. rewrite Hs.
  destruct (Z.leb_spec (- d1) i); [|lia]. destruct (Z.ltb_spec i d1); [|lia].
  cbn [andb]. eexists. split; [reflexivity|]. split; [exact Hd | reflexivity].
Qed.

Lemma returns_apply2_dense (f : Tensor.t -> Tensor.t -> result Tensor.t) (x y : Handle)
    (sh : list Z) :
  dtype x = Float -> dtype y = Float ->
  (forall u v, shape u = sizes x -> shape v = sizes y -> exists z, f u v = Ok z /\ shape z = sh) ->
  returns (apply2 f x y) (is_dense sh).
Proof.
  intros Hx Hy Hf w. unfold apply2. rewrite Hx, Hy.
  destruct (Hf (value w x) (value w y) eq_refl eq_refl) as (z & E & Hz).
  unfold bind, lift. rewrite E. cbn. eexists _, _. split; [reflexivity|].
  split; [split; [reflexivity | exact Hz] | apply contiguous_seq].
Qed.

Lemma view_dense (h : Handle) (sh sh' : list Z) :
  is_dense sh h -> forallb (Z.leb 0) sh' = true -> numel sh' = numel sh ->
  exists h', view sh' h = Ok h' /\ is_float sh' h'.
Proof.
  intros [[Hd Hs] Hc] Hn He. unfold view.
  rewrite infer_sizes_nonneg by (rewrite ?Hs; assumption). cbn [rbind].
  rewrite Hc. cbn [orb]. eexists. split; [reflexivity|]. split; [exact Hd | reflexivity].
Qed.

Lemma returns_stack (xs : list Handle) (b : Z) (sh : list Z) :
  xs <> [] -> Forall (is_float (b :: sh)) xs ->
  returns (stack xs) (is_dense (b :: Z.of_nat (length xs) :: sh)).
Proof.
  intros Hne Hxs w. unfold stack.
  assert (Hf : forallb (fun x => match dtype x with Float => true | Long => false end) xs = true).
  { apply forallb_forall. intros x Hx.
    rewrite (proj1 (proj1 (List.Forall_forall _ _) Hxs x Hx)). reflexivity. }
  rewrite Hf. unfold bind, lift, stack1.
  destruct xs as [|x rest]; [congruence|]. cbn [map].
  assert (Hsh : forall y, In y (x :: rest) -> shape (value w y) = b :: sh).
  { intros y Hy. unfold value. cbn [shape].
    exact (proj2 (proj1 (List.Forall_forall _ _) Hxs y Hy)). }
  assert (Hall : forallb (fun y => bool_decide (shape y = shape (value w x)))
                   (map (value w) rest) = true).
  { apply forallb_forall. intros y Hy. apply in_map_iff in Hy as (h & <- & Hh).
    apply bool_decide_eq_true. rewrite (Hsh h (or_intror Hh)), (Hsh x (or_introl eq_refl)).
    reflexivity. }
  rewrite Hall, (Hsh x (or_introl eq_refl)). cbn [new].
  eexists _, _. split; [reflexivity|].
  split; [split; [reflexivity|] | apply contiguous_seq].
  cbn [sizes shape length]. rewrite length_map. reflexivity.
Qed.

Context (K : Kernels) (G : gmap string PyObj).
Hypothesis encoder_bound : is_Some (G !! "NoisyTargetViewEncoder"%string).
Hypothesis spatial_net_bound : is_Some (G !! "SpatialTime3DNet"%string).
Hypothesis frustum_net_bound : is_Some (G !! "FrustumTV3DNet"%string).

(** What [SpatialVolumeNet.__init__] sets up, the two 3-D networks
    included. *)
Lemma returns_SpatialVolumeNet_init_nets (td vd view_num isz fvd V : Z) (L FL : R) :
  0 < td -> 0 < vd -> 0 < view_num ->
  returns (SpatialVolumeNet_init K G td vd view_num isz fvd V L FL)
    (fun self => SpatialVolumeNet_is self td vd isz fvd V L FL /\
       SpatialTime3DNet_is (spatial_volume_feats self) td (16 * view_num) (64, 128, 256, 512) /\
       FrustumTV3DNet_is (frustum_volume_feats self) 64 td vd (64, 128, 256, 512)).
Proof.
  intros Ht Hv Hn. unfold SpatialVolumeNet_init.
  destruct encoder_bound as [o1 H1], spatial_net_bound as [o2 H2], frustum_net_bound as [o3 H3].
  eapply returns_bind; [exact (returns_load_global G _ o1 H1)|]. intros _ _.
  eapply returns_bind;
    [apply (returns_NoisyTargetViewEncoder_init K td vd 16 16); (lia || reflexivity)|].
  intros enc Henc.
  eapply returns_bind; [exact (returns_load_global G _ o2 H2)|]. intros _ _.
  eapply returns_bind;
    [apply (returns_SpatialTime3DNet_init_is K td (16 * view_num) 64 128 256 512);
       (lia || reflexivity)|].
  intros s3 Hs3.
  eapply returns_bind; [exact (returns_load_global G _ o3 H3)|]. intros _ _.
  eapply returns_bind.
  { apply (returns_FrustumTV3DNet_init K 64 td vd 64 128 256 512); (lia || reflexivity). }
  intros f3 Hf3.
  apply returns_ret. split; [|split; [exact Hs3 | exact Hf3]].
  split; [exact Henc|]. repeat split.
Qed.

Hypothesis torch_bound : is_Some (G !! "torch"%string).
Hypothesis F_bound : is_Some (G !! "F"%string).

Variables (B V : Z).
Variable warp : Handle -> Z -> Z -> Handle -> Handle -> M Handle.
Hypothesis warp_bound : G !! "get_warp_coordinates"%string = Some (PyWarp warp).
Hypothesis warp_coordinates :
  forall verts size image_size K_ pose,
    returns (warp verts size image_size K_ pose) (is_dense [B; V * V * V; 2]).

Section Reaches.
Variable ends : M Handle -> Prop.
Hypothesis ends_after :
  forall (A : Type) (m : M A) (f : A -> M Handle) (P : A -> Prop),
    returns m P -> (forall a, P a -> ends (f a)) -> ends (bind m f).

(** [construct_spatial_volume] on [N] source views encodes and
    unprojects every view, and hands the stacked features
    [(B, N * 16, V, V, V)] to the spatial network. *)
Lemma construct_spatial_volume_reaches_network (self : SpatialVolumeNet)
    (x t_embed v_embed target_poses target_Ks : Handle)
    (td vd N isz fvd Nv Np Nk H W : Z) (L FL : R) :
  SpatialVolumeNet_is self td vd isz fvd V L FL ->
  0 < td -> 0 < vd -> 0 < N -> 0 < B -> 0 < H -> 0 < W -> 0 < V ->
  N <= Nv -> N <= Np -> N <= Nk ->
  is_float [B; N; 4; H; W] x -> is_float [B; td] t_embed ->
  is_float [B; Nv; vd] v_embed ->
  is_float [Np; 3; 4] target_poses -> is_float [Nk; 3; 3] target_Ks ->
  (forall feats, is_float [B; N * 16; V; V; V] feats ->
     ends (View_feature_extractor_net.SpatialTime3DNet_forward K (spatial_volume_feats self)
             feats t_embed)) ->
  ends (construct_spatial_volume K G self x t_embed v_embed target_poses target_Ks).
Proof.
  intros (Henc & Htd & Hvd & _ & _ & _ & HVs & _) Ht Hv Hvn HB HH HW HV
    HNv HNp HNk Hx Hte Hve Hp Hk Hfinal.
  destruct torch_bound as [o Ho]. destruct F_bound as [oF HoF].
  unfold construct_spatial_volume. rewrite Htd, HVs.
  eapply ends_after with (P := fun p => p = (B, N, 4, H, W)).
  { apply returns_lift with (a := (B, N, 4, H, W)); [|reflexivity].
    destruct Hx as [_ ->]. reflexivity. }
  intros ? ->.
  eapply ends_after; [exact (returns_load_global G _ o Ho)|]. intros ? _.
  destruct (spatial_volume_verts_ok self B) as [verts Hverts]; [rewrite HVs; lia | lia |].
  eapply ends_after; [exact (returns_lift _ verts (fun _ => True) Hverts I)|]. intros ? _.
  eapply ends_after; [apply returns_new|]. intros vh _.
  eapply ends_after with (P := is_float [B; 1; td]).
  { eapply returns_lift.
    - apply view_regroup.
      + cbn [forallb]. rewrite (proj2 (Z.leb_le 0 B)), (proj2 (Z.leb_le 0 td)) by lia. reflexivity.
      + rewrite (proj2 Hte). cbn. lia.
      + rewrite (proj2 Hte), !strip_ones_cons. destruct (decide (1 <> 1)); [congruence|].
        reflexivity.
    - split; [apply Hte | reflexivity]. }
  intros t1 Ht1.
  eapply ends_after with (P := is_float [B; N; td]).
  { eapply returns_mono; [apply (returns_repeat [1; N; 1] t1 [B; 1; td] Ht1 eq_refl)|].
    - cbn [forallb]. rewrite (proj2 (Z.leb_le 0 N)) by lia. reflexivity.
    - cbn [zip_with]. rewrite Z.mul_1_r, Z.mul_1_l, Z.mul_1_r. auto. }
  intros t2 Ht2.
  eapply ends_after with (P := is_float [B; N; td]).
  { eapply returns_lift.
    - apply view_regroup.
      + cbn [forallb]. rewrite (proj2 (Z.leb_le 0 B)), (proj2 (Z.leb_le 0 N)),
          (proj2 (Z.leb_le 0 td)) by lia. reflexivity.
      + rewrite (proj2 Ht2). reflexivity.
      + rewrite (proj2 Ht2). reflexivity.
    - split; [apply Ht2 | reflexivity]. }
  intros t_embed_ Ht_.
  eapply ends_after with (P := is_float [1; Nk; 3; 3]).
  { eapply returns_lift.
    - unfold unsqueeze, unsqueeze_shape. rewrite (proj2 Hk). reflexivity.
    - split; [apply Hk | reflexivity]. }
  intros k1 Hk1.
  eapply ends_after with (P := is_float [B; Nk; 3; 3]).
  { eapply returns_mono; [apply (returns_repeat [B; 1; 1; 1] k1 [1; Nk; 3; 3] Hk1 eq_refl)|].
    - cbn [forallb]. rewrite (proj2 (Z.leb_le 0 B)) by lia. reflexivity.
    - cbn [zip_with]. rewrite Z.mul_1_l, Z.mul_1_r. auto. }
  intros Ks_ HKs.
  eapply ends_after with (P := is_float [1; Np; 3; 4]).
  { eapply returns_lift.
    - unfold unsqueeze, unsqueeze_shape. rewrite (proj2 Hp). reflexivity.
    - split; [apply Hp | reflexivity]. }
  intros p1 Hp1.
  eapply ends_after with (P := is_float [B; Np; 3; 4]).
  { eapply returns_mono; [apply (returns_repeat [B; 1; 1; 1] p1 [1; Np; 3; 4] Hp1 eq_refl)|].
    - cbn [forallb]. rewrite (proj2 (Z.leb_le 0 B)) by lia. reflexivity.
    - cbn [zip_with]. rewrite Z.mul_1_l, Z.mul_1_r. auto. }
  intros poses_ Hposes.
  (* the loop over the source views *)
  eapply ends_after.
  { apply returns_for_each
      with (P := fun p : Handle * Z => is_float [B; 16; V; V; V] (fst p) /\ snd p = 16).
    intros ni Hni. apply in_map_iff in Hni as (n & <- & Hn). apply in_seq in Hn.
    assert (Hi : 0 <= Z.of_nat n < N) by lia.
    destruct (select1_float_at poses_ B Np (Z.of_nat n) [3; 4] Hposes) as (ps & -> & Hps); [lia|].
    eapply returns_bind; [exact (returns_lift _ ps (fun _ => True) eq_refl I)|]. intros ? _.
    destruct (select1_float_at Ks_ B Nk (Z.of_nat n) [3; 3] HKs) as (ks & -> & Hks); [lia|].
    eapply returns_bind; [exact (returns_lift _ ks (fun _ => True) eq_refl I)|]. intros ? _.
    destruct (select1_float_at x B N (Z.of_nat n) [4; H; W] Hx) as (xi & -> & Hxi); [lia|].
    eapply returns_bind; [exact (returns_lift _ xi (is_float [B; 4; H; W]) eq_refl Hxi)|].
    intros xi' Hxi'.
    destruct (select1_float_at t_embed_ B N (Z.of_nat n) [td] Ht_) as (ti & -> & Hti);
      [lia|].
    eapply returns_bind; [exact (returns_lift _ ti (is_float [B; td]) eq_refl Hti)|].
    intros ti' Hti'.
    destruct (select1_float_at v_embed B Nv (Z.of_nat n) [vd] Hve) as (vi & -> & Hvi); [lia|].
    eapply returns_bind; [exact (returns_lift _ vi (is_float [B; vd]) eq_refl Hvi)|].
    intros vi' Hvi'.
    eapply returns_bind.
    { apply (returns_NoisyTargetViewEncoder_forward K _ xi' ti' vi' td vd 16 16 B H W Henc);
        try assumption; try reflexivity; try lia.
      replace (B * 16 / 8) with (2 * B) by (apply Z.div_unique_exact; lia).
      intros E. assert (E2 : 2 * (B * (H * W)) = 1) by (rewrite <- E; ring). lia. }
    intros x_ Hx_.
    eapply returns_bind with (P := fun C => C = 16).
    { eapply returns_lift; [|reflexivity]. unfold shape_at1. rewrite (proj2 Hx_). reflexivity. }
    intros C ->.
    eapply returns_bind; [exact (returns_load_global_eq G _ _ warp_bound)|]. intros ? ->.
    eapply returns_bind with (P := fun _ => True).
    { eapply returns_lift; [|exact I]. unfold shape_last. rewrite (proj2 Hx_). reflexivity. }
    intros size _.
    eapply returns_bind; [apply warp_coordinates|]. intros coords Hcoords.
    destruct (view_dense coords [B; V * V * V; 2] [B; V; V * V; 2] Hcoords) as (cs & Ecs & Hcs).
    { cbn [forallb]. rewrite (proj2 (Z.leb_le 0 B)), (proj2 (Z.leb_le 0 V)),
        (proj2 (Z.leb_le 0 (V * V))) by nia. reflexivity. }
    { cbn [numel fold_right]. ring. }
    eapply returns_bind; [exact (returns_lift _ cs (is_float [B; V; V * V; 2]) Ecs Hcs)|].
    intros coords_source Hcsrc.
    eapply returns_bind; [exact (returns_load_global G _ _ HoF)|]. intros ? _.
    eapply returns_bind with (P := is_dense [B; 16; V; V * V]).
    { apply returns_apply2_dense; [apply Hx_ | apply Hcsrc |].
      intros u v Hu Hv'. unfold grid_sample. rewrite Hu, Hv', (proj2 Hx_), (proj2 Hcsrc).
      rewrite Z.eqb_refl. cbn. eexists. split; reflexivity. }
    intros unproj Hunproj.
    destruct (view_dense unproj [B; 16; V; V * V] [B; 16; V; V; V] Hunproj) as (u5 & Eu5 & Hu5).
    { cbn [forallb]. rewrite (proj2 (Z.leb_le 0 B)), (proj2 (Z.leb_le 0 V)) by lia. reflexivity. }
    { cbn [numel fold_right]. ring. }
    eapply returns_bind; [exact (returns_lift _ u5 (is_float [B; 16; V; V; V]) Eu5 Hu5)|].
    intros unproj_feats_ Hfeat.
    apply returns_ret. split; [exact Hfeat | reflexivity]. }
  intros feats [Hlen Hfeats].
  rewrite length_map, length_seq in Hlen.
  eapply ends_after; [exact (returns_load_global G _ o Ho)|]. intros ? _.
  assert (Hfst : Forall (is_float [B; 16; V; V; V]) (map fst feats)).
  { apply List.Forall_forall. intros h Hh. apply in_map_iff in Hh as (p & <- & Hp').
    exact (proj1 (proj1 (List.Forall_forall _ _) Hfeats p Hp')). }
  assert (Hne : map fst feats <> []).
  { destruct feats; [cbn [length] in Hlen; lia | discriminate]. }
  eapply ends_after; [exact (returns_stack (map fst feats) B [16; V; V; V] Hne Hfst)|].
  rewrite length_map, Hlen, Z2Nat.id by lia.
  intros stacked Hstacked.
  eapply ends_after with (P := fun n => n = N).
  { eapply returns_lift; [|reflexivity]. unfold shape_at1.
    rewrite (proj2 (proj1 Hstacked)). reflexivity. }
  intros N' ->.
  assert (HC : List.last (map snd feats) 0 = 16).
  { assert (Hsnd : Forall (fun c => c = 16) (map snd feats)).
    { apply List.Forall_forall. intros c Hc. apply in_map_iff in Hc as (p & <- & Hp').
      exact (proj2 (proj1 (List.Forall_forall _ _) Hfeats p Hp')). }
    assert (Hne' : map snd feats <> []).
    { destruct feats; [cbn [length] in Hlen; lia | discriminate]. }
    destruct (exists_last Hne') as (l & c & El). rewrite El in Hsnd |- *.
    rewrite last_last. apply Forall_app in Hsnd as [_ Hc]. inversion Hc. assumption. }
  rewrite HC.
  destruct (view_dense stacked [B; N; 16; V; V; V] [B; N * 16; V; V; V] Hstacked)
    as (sv & Esv & Hsv).
  { cbn [forallb]. rewrite (proj2 (Z.leb_le 0 B)), (proj2 (Z.leb_le 0 V)),
      (proj2 (Z.leb_le 0 (N * 16))) by lia. reflexivity. }
  { cbn [numel fold_right]. ring. }
  eapply ends_after;
    [exact (returns_lift _ sv (is_float [B; N * 16; V; V; V]) Esv Hsv)|].
  intros spatial_volume_feats_ Hin.
  apply Hfinal. exact Hin.
Qed.

End Reaches.

Lemma returns_construct_spatial_volume (self : SpatialVolumeNet)
    (x t_embed v_embed target_poses target_Ks : Handle)
    (td vd view_num isz fvd Nv Np Nk H W : Z) (L FL : R) :
  SpatialVolumeNet_is self td vd isz fvd V L FL ->
  SpatialTime3DNet_is (spatial_volume_feats self) td (16 * view_num) (64, 128, 256, 512) ->
  0 < td -> 0 < vd -> 0 < view_num -> 0 < B -> 0 < H -> 0 < W -> 0 < V -> V mod 8 = 0 ->
  view_num <= Nv -> view_num <= Np -> view_num <= Nk ->
  is_float [B; view_num; 4; H; W] x -> is_float [B; td] t_embed ->
  is_float [B; Nv; vd] v_embed ->
  is_float [Np; 3; 4] target_poses -> is_float [Nk; 3; 3] target_Ks ->
  returns (construct_spatial_volume K G self x t_embed v_embed target_poses target_Ks)
    (is_float [B; 64; V; V; V]).
Proof.
  intros Hself Hnet Ht Hv Hvn HB HH HW HV HV8 HNv HNp HNk Hx Hte Hve Hp Hk.
  apply (construct_spatial_volume_reaches_network
           (fun m => returns m (is_float [B; 64; V; V; V]))
           (fun A m f P => returns_bind m f P _)
           self x t_embed v_embed target_poses target_Ks td vd view_num isz fvd Nv Np Nk H W
           L FL Hself); try assumption.
  intros feats Hin.
  assert (EV : V = 8 * (V / 8)) by (apply Z_div_exact_full_2; lia).
  assert (HV8' : 0 < V / 8) by lia.
  rewrite EV. rewrite EV in Hin.
  apply (returns_SpatialTime3DNet_forward K td (16 * view_num) 64 128 256 512);
    try assumption; try reflexivity; try lia.
  - change (512 / 8) with 64. nia.
  - replace (16 * view_num) with (view_num * 16) by ring. exact Hin.
Qed.

(** The spatial network is built for [16 * view_num] input channels:
    features of another number of views are refused by its first
    convolution. *)
Lemma raises_SpatialTime3DNet_forward_channels (net : View_feature_extractor_net.SpatialTime3DNet) (x t : Handle)
    (td input_dim C D : Z) (dims : Z * Z * Z * Z) (sp : list Z) :
  SpatialTime3DNet_is net td input_dim dims ->
  is_float [D; td] t -> 0 <= D -> 0 <= td ->
  is_float (D :: C :: sp) x -> length sp = 3%nat -> C <> input_dim ->
  raises (View_feature_extractor_net.SpatialTime3DNet_forward K net x t) RuntimeError.
Proof.
  intros Hnet Ht HD Htd Hx Hsp HC. destruct dims as [[[d0 d1] d2] d3].
  destruct Hnet as (Hinit & _).
  unfold View_feature_extractor_net.SpatialTime3DNet_forward.
  eapply raises_after with (P := fun p => p = (D, td)).
  { apply returns_lift with (a := (D, td)); [|reflexivity]. rewrite (proj2 Ht). reflexivity. }
  intros ? ->.
  eapply raises_after with (P := fun _ => True).
  { eapply returns_lift; [|exact I].
    exact (view_embed t D td 3 (proj2 Ht) HD Htd). }
  intros t' _.
  apply raises_bind. intros w. exists w.
  unfold Conv_forward, apply1. rewrite (proj1 Hx). unfold bind, lift, conv.
  cbn [shape value]. rewrite (proj2 Hx), Hinit. cbn [length rank in_channels]. rewrite Hsp.
  cbn [Nat.eqb Nat.add].
  rewrite (proj2 (Z.eqb_neq C input_dim) HC). reflexivity.
Qed.

Lemma raises_construct_spatial_volume_views (self : SpatialVolumeNet)
    (x t_embed v_embed target_poses target_Ks : Handle)
    (td vd view_num N isz fvd Nv Np Nk H W : Z) (L FL : R) :
  SpatialVolumeNet_is self td vd isz fvd V L FL ->
  SpatialTime3DNet_is (spatial_volume_feats self) td (16 * view_num) (64, 128, 256, 512) ->
  0 < td -> 0 < vd -> 0 < N -> N <> view_num -> 0 < B -> 0 < H -> 0 < W -> 0 < V ->
  N <= Nv -> N <= Np -> N <= Nk ->
  is_float [B; N; 4; H; W] x -> is_float [B; td] t_embed ->
  is_float [B; Nv; vd] v_embed ->
  is_float [Np; 3; 4] target_poses -> is_float [Nk; 3; 3] target_Ks ->
  raises (construct_spatial_volume K G self x t_embed v_embed target_poses target_Ks)
    RuntimeError.
Proof.
  intros Hself Hnet Ht Hv HN Hne HB HH HW HV HNv HNp HNk Hx Hte Hve Hp Hk.
  apply (construct_spatial_volume_reaches_network
           (fun m => raises m RuntimeError)
           (fun A m f P => raises_after m f P RuntimeError)
           self x t_embed v_embed target_poses target_Ks td vd N isz fvd Nv Np Nk H W
           L FL Hself); try assumption.
  intros feats Hin.
  apply (raises_SpatialTime3DNet_forward_channels (spatial_volume_feats self) feats t_embed
           td (16 * view_num) (N * 16) B (64, 128, 256, 512) [V; V; V] Hnet Hte);
    [lia | lia | exact Hin | reflexivity | lia].
Qed.

End SpatialVolumeReturns.

(** X17: With [get_warp_coordinates] bound to a helper that returns, for
    every view, a dense tensor of [(B, V * V * V, 2)] image coordinates, a
    constructed [SpatialVolumeNet] builds its spatial volume:
    [construct_spatial_volume] on [view_num] latent images [(B, view_num,
    4, H, W)] returns a tensor of shape [(B, 64, V, V, V)], for a volume
    size [V] that is a positive multiple of 8. *)
Theorem construct_spatial_volume_returns (K : Tensor.Kernels) (G : gmap string Python.PyObj)
    (warp : Torch.Handle -> Z -> Z -> Torch.Handle -> Torch.Handle -> Torch.M Torch.Handle)
    (td vd view_num isz fvd V B H W : Z) (L FL : R) :
  is_Some (G !! "NoisyTargetViewEncoder"%string) ->
  is_Some (G !! "SpatialTime3DNet"%string) ->
  is_Some (G !! "FrustumTV3DNet"%string) ->
  is_Some (G !! "torch"%string) -> is_Some (G !! "F"%string) ->
  G !! "get_warp_coordinates"%string = Some (Python.PyWarp warp) ->
  (forall verts size image_size K_ pose,
     returns (warp verts size image_size K_ pose) (is_dense [B; V * V * V; 2])) ->
  0 < td -> 0 < vd -> 0 < view_num -> 0 < B -> 0 < H -> 0 < W -> 0 < V -> V mod 8 = 0 ->
  returns (View_feature_extractor.SpatialVolumeNet_init K G td vd view_num isz fvd V L FL)
    (fun self => forall x t_embed v_embed target_poses target_Ks Nv Np Nk,
       view_num <= Nv -> view_num <= Np -> view_num <= Nk ->
       is_float [B; view_num; 4; H; W] x -> is_float [B; td] t_embed ->
       is_float [B; Nv; vd] v_embed ->
       is_float [Np; 3; 4] target_poses -> is_float [Nk; 3; 3] target_Ks ->
       returns (View_feature_extractor.construct_spatial_volume K G self x t_embed v_embed
                  target_poses target_Ks)
         (is_float [B; 64; V; V; V])).
Proof.
  intros Hc1 Hc2 Hc3 Htorch HF Hwarp Hcontract Ht Hv Hvn HB HH HW HV HV8.
  eapply returns_mono.
  { exact (returns_SpatialVolumeNet_init_nets K G Hc1 Hc2 Hc3 td vd view_num isz fvd V L FL
             Ht Hv Hvn). }
  intros self (Hself & Hnet & _) x t_embed v_embed target_poses target_Ks Nv Np Nk
    HNv HNp HNk Hx Hte Hve Hp Hk.
  exact (returns_construct_spatial_volume K G Htorch HF B V warp Hwarp Hcontract self
           x t_embed v_embed target_poses target_Ks td vd view_num isz fvd Nv Np Nk H W L FL
           Hself Hnet Ht Hv Hvn HB HH HW HV HV8 HNv HNp HNk Hx Hte Hve Hp Hk).
Qed.

(** X18: The spatial network of a [SpatialVolumeNet] is built for exactly
    [view_num] source views: with the warp helper supplied as above,
    [construct_spatial_volume] on latent images of another number [N] of
    views goes through the loop over the views and then ends in
    [RuntimeError], at the first convolution of the spatial network. *)
Theorem construct_spatial_volume_view_count (K : Tensor.Kernels) (G : gmap string Python.PyObj)
    (warp : Torch.Handle -> Z -> Z -> Torch.Handle -> Torch.Handle -> Torch.M Torch.Handle)
    (td vd view_num N isz fvd V B H W : Z) (L FL : R) :
  is_Some (G !! "NoisyTargetViewEncoder"%string) ->
  is_Some (G !! "SpatialTime3DNet"%string) ->
  is_Some (G !! "FrustumTV3DNet"%string) ->
  is_Some (G !! "torch"%string) -> is_Some (G !! "F"%string) ->
  G !! "get_warp_coordinates"%string = Some (Python.PyWarp warp) ->
  (forall verts size image_size K_ pose,
     returns (warp verts size image_size K_ pose) (is_dense [B; V * V * V; 2])) ->
  0 < td -> 0 < vd -> 0 < view_num -> 0 < N -> N <> view_num ->
  0 < B -> 0 < H -> 0 < W -> 0 < V ->
  returns (View_feature_extractor.SpatialVolumeNet_init K G td vd view_num isz fvd V L FL)
    (fun self => forall x t_embed v_embed target_poses target_Ks Nv Np Nk,
       N <= Nv -> N <= Np -> N <= Nk ->
       is_float [B; N; 4; H; W] x -> is_float [B; td] t_embed ->
       is_float [B; Nv; vd] v_embed ->
       is_float [Np; 3; 4] target_poses -> is_float [Nk; 3; 3] target_Ks ->
       raises (View_feature_extractor.construct_spatial_volume K G self x t_embed v_embed
                 target_poses target_Ks)
         RuntimeError).
Proof.
  intros Hc1 Hc2 Hc3 Htorch HF Hwarp Hcontract Ht Hv Hvn HN Hne HB HH HW HV.
  eapply returns_mono.
  { exact (returns_SpatialVolumeNet_init_nets K G Hc1 Hc2 Hc3 td vd view_num isz fvd V L FL
             Ht Hv Hvn). }
  intros self (Hself & Hnet & _) x t_embed v_embed target_poses target_Ks Nv Np Nk
    HNv HNp HNk Hx Hte Hve Hp Hk.
  exact (raises_construct_spatial_volume_views K G Htorch HF B V warp Hwarp Hcontract self
           x t_embed v_embed target_poses target_Ks td vd view_num N isz fvd Nv Np Nk H W L FL
           Hself Hnet Ht Hv HN Hne HB HH HW HV HNv HNp HNk Hx Hte Hve Hp Hk).
Qed.

Section SpatialVolumeExample.
Import Tensor Torch Python View_feature_extractor Example.

Lemma construct_spatial_volume_returns_witness :
  returns
    (SpatialVolumeNet_init shape_only
       (<["get_warp_coordinates"%string := PyWarp (fun _ _ _ _ _ => new (zeros [1; 512; 2]))]>
          globals)
       4 4 2 8 2 8 0.5%R 0.86603%R)
    (fun self => forall x t_embed v_embed target_poses target_Ks Nv Np Nk,
       2 <= Nv -> 2 <= Np -> 2 <= Nk ->
       is_float [1; 2; 4; 1; 1] x -> is_float [1; 4] t_embed ->
       is_float [1; Nv; 4] v_embed ->
       is_float [Np; 3; 4] target_poses -> is_float [Nk; 3; 3] target_Ks ->
       returns (construct_spatial_volume shape_only
                  (<["get_warp_coordinates"%string :=
                       PyWarp (fun _ _ _ _ _ => new (zeros [1; 512; 2]))]> globals)
                  self x t_embed v_embed target_poses target_Ks)
         (is_float [1; 64; 8; 8; 8])).
Proof.
  destruct globals_classes_bound as (H1 & H2 & H3).
  apply (construct_spatial_volume_returns shape_only
           (<["get_warp_coordinates"%string := PyWarp (fun _ _ _ _ _ => new (zeros [1; 512; 2]))]>
              globals)
           (fun _ _ _ _ _ => new (zeros [1; 512; 2])) 4 4 2 8 2 8 1 1 1 0.5%R 0.86603%R);
    [rewrite lookup_insert_ne by discriminate; exact H1
    |rewrite lookup_insert_ne by discriminate; exact H2
    |rewrite lookup_insert_ne by discriminate; exact H3
    |rewrite lookup_insert_ne by discriminate; exists PyModule; apply globals_torch_bound
    |rewrite lookup_insert_ne by discriminate; exists PyModule; vm_compute; reflexivity
    |apply lookup_insert_eq
    | | lia | lia | lia | lia | lia | lia | lia | reflexivity].
  intros verts size image_size K_ pose w. eexists _, _. split; [reflexivity|].
  split; [split; reflexivity | apply contiguous_seq].
Defined.

Lemma construct_spatial_volume_view_count_witness :
  returns
    (SpatialVolumeNet_init shape_only
       (<["get_warp_coordinates"%string := PyWarp (fun _ _ _ _ _ => new (zeros [1; 512; 2]))]>
          globals)
       4 4 2 8 2 8 0.5%R 0.86603%R)
    (fun self => forall x t_embed v_embed target_poses target_Ks Nv Np Nk,
       1 <= Nv -> 1 <= Np -> 1 <= Nk ->
       is_float [1; 1; 4; 1; 1] x -> is_float [1; 4] t_embed ->
       is_float [1; Nv; 4] v_embed ->
       is_float [Np; 3; 4] target_poses -> is_float [Nk; 3; 3] target_Ks ->
       raises (construct_spatial_volume shape_only
                 (<["get_warp_coordinates"%string :=
                      PyWarp (fun _ _ _ _ _ => new (zeros [1; 512; 2]))]> globals)
                 self x t_embed v_embed target_poses target_Ks)
         RuntimeError).
Proof.
  destruct globals_classes_bound as (H1 & H2 & H3).
  apply (construct_spatial_volume_view_count shape_only
           (<["get_warp_coordinates"%string := PyWarp (fun _ _ _ _ _ => new (zeros [1; 512; 2]))]>
              globals)
           (fun _ _ _ _ _ => new (zeros [1; 512; 2])) 4 4 2 1 8 2 8 1 1 1 0.5%R 0.86603%R);
    [rewrite lookup_insert_ne by discriminate; exact H1
    |rewrite lookup_insert_ne by discriminate; exact H2
    |rewrite lookup_insert_ne by discriminate; exact H3
    |rewrite lookup_insert_ne by discriminate; exists PyModule; apply globals_torch_bound
    |rewrite lookup_insert_ne by discriminate; exists PyModule; vm_compute; reflexivity
    |apply lookup_insert_eq
    | | lia | lia | lia | lia | lia | lia | lia | lia | lia].
  intros verts size image_size K_ pose w. eexists _, _. split; [reflexivity|].
  split; [split; reflexivity | apply contiguous_seq].
Defined.

End SpatialVolumeExample.

(** ** The frustum volume, with the geometry helper supplied *)

Section Succeeds.
Import Tensor Torch Python.
Context (n0 : nat) (Inv : World -> Prop).
Hypothesis Inv_stable : forall w w', stable n0 w w' -> Inv w -> Inv w'.

Lemma succeeds_bind {A B} (m : M A) (f : A -> M B) (P : A -> Prop) (Q : B -> Prop) :
  succeeds n0 Inv m P -> (forall a, P a -> succeeds n0 Inv (f a) Q) ->
  succeeds n0 Inv (bind m f) Q.
Proof.
  intros Hm Hf w Hw Hi. destruct (Hm w Hw Hi) as (a & w1 & E & S1 & Ha).
  destruct (Hf a Ha w1 (proj1 (proj2 S1)) (Inv_stable w w1 S1 Hi)) as (b & w2 & E2 & S2 & Hb).
  exists b, w2. unfold bind. rewrite E. split; [exact E2|].
  split; [exact (stable_trans n0 w w1 w2 S1 S2) | exact Hb].
Qed.

Lemma succeeds_pure {A} (m : M A) (P Q : A -> Prop) :
  returns m P -> keeps n0 m Q -> succeeds n0 Inv m (fun a => P a /\ Q a).
Proof.
  intros Hr Hk w Hw _. destruct (Hr w) as (a & w' & E & Ha).
  destruct (Hk w Hw) as [S Hq]. rewrite E in S, Hq. cbn [fst snd] in S, Hq.
  exists a, w'. split; [exact E|]. split; [exact S|]. split; [exact Ha | exact (Hq a eq_refl)].
Qed.

Lemma succeeds_lift {A} (r : result A) (a : A) (P : A -> Prop) :
  r = Ok a -> P a -> succeeds n0 Inv (lift r) P.
Proof.
  intros -> Ha w Hw _. exists a, w. split; [reflexivity|]. split; [apply stable_refl, Hw | exact Ha].
Qed.

Lemma succeeds_ret {A} (a : A) (P : A -> Prop) : P a -> succeeds n0 Inv (ret a) P.
Proof.
  intros Ha w Hw _. exists a, w. split; [reflexivity|]. split; [apply stable_refl, Hw | exact Ha].
Qed.

Lemma succeeds_load_global (G : gmap string PyObj) (name : string) (o : PyObj) :
  G !! name = Some o -> succeeds n0 Inv (load_global G name) (fun o' => o' = o).
Proof.
  intros H w Hw _. exists o, w. unfold load_global. rewrite H.
  split; [reflexivity|]. split; [apply stable_refl, Hw | reflexivity].
Qed.

Lemma succeeds_mono {A} (m : M A) (P Q : A -> Prop) :
  succeeds n0 Inv m P -> (forall a, P a -> Q a) -> succeeds n0 Inv m Q.
Proof.
  intros Hm H w Hw Hi. destruct (Hm w Hw Hi) as (a & w' & E & S & Ha).
  exists a, w'. auto.
Qed.

End Succeeds.

Section FrustumVolumeReturns.
Import Tensor Torch Python View_feature_extractor.

Lemma rmap_ok {A B} (f : A -> result B) (xs : list A) (P : B -> Prop) :
  (forall a, In a xs -> exists b, f a = Ok b /\ P b) ->
  exists bs, rmap f xs = Ok bs /\ Forall P bs.
Proof.
  induction xs as [|a xs IH]; intros H; cbn [rmap].
  - exists []. split; [reflexivity | constructor].
  - destruct (H a (or_introl eq_refl)) as (b & -> & Hb).
    destruct IH as (bs & -> & Hbs); [intros a' Ha'; apply H; right; exact Ha'|].
    cbn [rbind]. exists (b :: bs). split; [reflexivity | constructor; assumption].
Qed.

Lemma index_pairs_in_range (x : Tensor.t) (B Nv TN : Z) (sh idx : list Z) :
  shape x = B :: Nv :: sh -> 0 < Nv -> Forall (fun i => - Nv <= i < Nv) idx ->
  exists y, index_pairs x B TN idx = Ok y /\ shape y = B :: TN :: sh.
Proof.
  intros Hs HNv Hidx. unfold index_pairs. rewrite Hs.
  destruct (rmap_ok
              (fun b => rbind (index0 x (Z.of_nat b))
                          (fun xb => rmap (fun j => index0 xb (nth (b * Z.to_nat TN + j) idx 0))
                                          (seq 0 (Z.to_nat TN))))
              (seq 0 (Z.to_nat B)) (fun _ => True)) as (rows & -> & _).
  - intros b Hb. apply in_seq in Hb.
    destruct (index0_in_range x B (Z.of_nat b) (Nv :: sh) Hs) as (xb & -> & Hxb); [lia|].
    cbn [rbind].
    destruct (rmap_ok (fun j => index0 xb (nth (b * Z.to_nat TN + j) idx 0))
                (seq 0 (Z.to_nat TN)) (fun _ => True)) as (r & -> & _).
    + intros j _.
      destruct (index0_in_range xb Nv (nth (b * Z.to_nat TN + j) idx 0) sh Hxb)
        as (y & -> & _).
      * destruct (nth_in_or_default (b * Z.to_nat TN + j) idx 0) as [Hin | ->]; [|lia].
        exact (proj1 (List.Forall_forall _ _) Hidx _ Hin).
      * eexists. split; [reflexivity | exact I].
    + eexists. split; [reflexivity | exact I].
  - cbn [rbind]. eexists. split; reflexivity.
Qed.

Lemma returns_apply1_dense (f : Tensor.t -> result Tensor.t) (x : Handle) (sh : list Z) :
  dtype x = Float ->
  (forall v, shape v = sizes x -> exists y, f v = Ok y /\ shape y = sh) ->
  returns (apply1 f x) (is_dense sh).
Proof.
  intros Hd Hf w. unfold apply1. rewrite Hd.
  destruct (Hf (value w x) eq_refl) as (y & E & Hy).
  unfold bind, lift. rewrite E. cbn. eexists _, _. split; [reflexivity|].
  split; [split; [reflexivity | exact Hy] | apply contiguous_seq].
Qed.

(** A size [-1] in second place is the quotient of the number of
    entries by the product of the other sizes. *)
Lemma infer_sizes_second (a c : Z) (rest : list Z) (total : Z) :
  0 <= a -> forallb (Z.leb 0) rest = true -> 0 < a * numel rest ->
  total = a * c * numel rest ->
  infer_sizes (a :: -1 :: rest) total = Ok (a :: c :: rest).
Proof.
  intros Ha Hrest Hpos Htot. unfold infer_sizes.
  assert (Hf : filter (fun d : Z => d <> -1) (a :: -1 :: rest) = a :: rest).
  { rewrite filter_cons. destruct (decide (a <> -1)) as [_|Hc]; [|exfalso; apply Hc; lia].
    rewrite filter_cons. destruct (decide (-1 <> -1)) as [Hc|_]; [congruence|].
    rewrite (filter_nonneg_id rest Hrest). reflexivity. }
  rewrite Hf. cbn [forallb]. rewrite (proj2 (Z.leb_le 0 a) Ha), Hrest. cbn [andb length].
  replace (S (S (length rest)) - S (length rest))%nat with 1%nat by lia.
  cbn [numel fold_right]. fold (numel rest).
  assert (Hm : total mod (a * numel rest) = 0).
  { rewrite Htot. replace (a * c * numel rest) with (c * (a * numel rest)) by ring.
    apply Z_mod_mult. }
  rewrite Hm. destruct (Z.eqb_spec (a * numel rest) 0) as [E|_]; [lia|].
  cbn [orb negb Z.eqb map].
  destruct (Z.eqb_spec a (-1)) as [E|_]; [lia|].
  assert (Hq : total / (a * numel rest) = c).
  { rewrite Htot. replace (a * c * numel rest) with (c * (a * numel rest)) by ring.
    apply Z_div_mult_full. lia. }
  rewrite Hq. do 3 f_equal.
  clear -Hrest. induction rest as [|d rest IH]; [reflexivity|].
  cbn [forallb] in Hrest. apply andb_prop in Hrest as [Hd Hr]. apply Z.leb_le in Hd.
  cbn [map]. destruct (Z.eqb_spec d (-1)) as [E|_]; [lia|]. rewrite IH by exact Hr. reflexivity.
Qed.

Lemma view_dense_second (h : Handle) (sh : list Z) (a c : Z) (rest : list Z) :
  is_dense sh h -> 0 <= a -> forallb (Z.leb 0) rest = true -> 0 < a * numel rest ->
  numel sh = a * c * numel rest ->
  exists h', view (a :: -1 :: rest) h = Ok h' /\ is_float (a :: c :: rest) h'.
Proof.
  intros [[Hd Hs] Hc] Ha Hrest Hpos Hn. unfold view.
  rewrite (infer_sizes_second a c rest) by (rewrite ?Hs; assumption). cbn [rbind].
  rewrite Hc. cbn [orb]. eexists. split; [reflexivity|]. split; [exact Hd | reflexivity].
Qed.

Lemma long_value_stable (n0 : nat) (w w' : World) (h : Handle) :
  stable n0 w w' -> (cell h < n0)%nat -> (n0 <= length (heap w))%nat ->
  long_value w' h = long_value w h.
Proof.
  intros (Hf & Hl & _) Hc Hw. unfold long_value.
  assert (E : forall d, nth (cell h) (heap w') d = nth (cell h) (heap w) d).
  { intros d.
    rewrite <- (firstn_skipn n0 (heap w')), <- (firstn_skipn n0 (heap w)) at 1.
    rewrite Hf, !app_nth1 by (rewrite length_take; lia). reflexivity. }
  rewrite E. reflexivity.
Qed.

Context (K : Kernels) (G : gmap string PyObj) (HG : helpers_keep G).
Hypothesis torch_bound : is_Some (G !! "torch"%string).
Hypothesis F_bound : is_Some (G !! "F"%string).

Variables (B TN fvd S : Z).
Variable volume : Z -> Z -> Z -> Handle -> Handle -> Handle -> Handle -> M (Handle * Handle).
Hypothesis volume_bound : G !! "create_target_volume"%string = Some (PyVolume volume).
Hypothesis volume_grid :
  forall D size image_size poses Ks near far,
    returns (volume D size image_size poses Ks near far)
      (fun p => is_float [B * TN; 3; fvd; S; S] (fst p)).

Variables (self : SpatialVolumeNet)
  (spatial_volume t_embed v_embed poses Ks target_indices : Handle).
Variables (td vd V N Nv : Z) (psh ksh idx : list Z) (n0 : nat).
Hypothesis net_is : FrustumTV3DNet_is (frustum_volume_feats self) 64 td vd (64, 128, 256, 512).
Hypothesis size_is : frustum_volume_size self = S.
Hypothesis depth_is : frustum_volume_depth self = fvd.
Hypothesis volume_size_is : spatial_volume_size self = V.
Hypothesis dims_positive : 0 < td /\ 0 < vd /\ 0 < B /\ 0 < TN /\ 0 < V /\ 0 < Nv.
Hypothesis grid_extents : 0 < fvd /\ fvd mod 8 = 0 /\ 0 < S /\ S mod 8 = 0.
Hypothesis volume_float : is_float [B; 64; V; V; V] spatial_volume.
Hypothesis t_float : is_float [B; td] t_embed.
Hypothesis v_float : is_float [B; Nv; vd] v_embed.
Hypothesis poses_float : is_float (N :: psh) poses.
Hypothesis Ks_float : is_float (N :: ksh) Ks.
Hypothesis indices_sizes : sizes target_indices = [B; TN].
Hypothesis indices_long : dtype target_indices = Long.
Hypothesis indices_contiguous : contiguous target_indices = true.
Hypothesis indices_old : (cell target_indices < n0)%nat.
Hypothesis indices_tables : Forall (fun i => - N <= i < N) idx.
Hypothesis indices_views : Forall (fun i => - Nv <= i < Nv) idx.

Lemma indices_kept (w w' : World) :
  stable n0 w w' -> (n0 <= length (heap w))%nat /\ long_value w target_indices = idx ->
  (n0 <= length (heap w'))%nat /\ long_value w' target_indices = idx.
Proof.
  intros Hs [Hw Hi]. split; [exact (proj1 (proj2 Hs))|].
  rewrite (long_value_stable n0 w w' target_indices Hs indices_old Hw). exact Hi.
Qed.

Lemma succeeds_index (x : Handle) (ti : Handle) (M0 : Z) (sh : list Z) :
  is_float (M0 :: sh) x -> dtype ti = Long ->
  cell ti = cell target_indices -> sel ti = sel target_indices ->
  Forall (fun i => - M0 <= i < M0) idx ->
  succeeds n0 (fun w => (n0 <= length (heap w))%nat /\ long_value w target_indices = idx)
    (index x ti) (is_float (sizes ti ++ sh)).
Proof.
  intros [Hd Hs] Hl Hc Hsel Hin w Hw [_ Hi].
  assert (Hv : long_value w ti = idx).
  { rewrite <- Hi. unfold long_value. rewrite Hc, Hsel. reflexivity. }
  destruct (index_ok w x ti M0 sh Hd Hl Hs) as (y & E); [rewrite Hv; exact Hin|].
  eexists _, _. split; [exact E|].
  destruct (keeps_index n0 x ti w Hw) as [St _]. rewrite E in St. cbn [snd] in St.
  split; [exact St|]. split; reflexivity.
Qed.

Lemma succeeds_index_arange (ti : Handle) :
  dtype ti = Long -> cell ti = cell target_indices -> sel ti = sel target_indices ->
  succeeds n0 (fun w => (n0 <= length (heap w))%nat /\ long_value w target_indices = idx)
    (index_arange v_embed B TN ti) (is_dense [B; TN; vd]).
Proof.
  intros Hl Hc Hsel w Hw [_ Hi].
  assert (Hv : long_value w ti = idx).
  { rewrite <- Hi. unfold long_value. rewrite Hc, Hsel. reflexivity. }
  destruct (index_pairs_in_range (value w v_embed) B Nv TN [vd] idx) as (y & E & Hy);
    [unfold value; cbn [shape]; exact (proj2 v_float) | apply dims_positive | exact indices_views|].
  destruct (keeps_index_arange n0 v_embed B TN ti w Hw) as [St _].
  unfold index_arange in St |- *. rewrite (proj1 v_float), Hl in St |- *.
  unfold bind, lift in St |- *. rewrite Hv, E in St |- *. cbn [new snd] in St |- *.
  eexists _, _. split; [reflexivity|]. split; [exact St|].
  split; [split; [reflexivity | exact Hy] | apply contiguous_seq].
Qed.

Ltac pure_step R Kp :=
  eapply (succeeds_bind n0 _ indices_kept);
  [apply (succeeds_pure n0); [R | Kp] |].

Ltac lift_step a P E :=
  eapply (succeeds_bind n0 _ indices_kept);
  [apply (succeeds_lift n0 _ _ a P); [E |] |].

Ltac lift_eq a E :=
  eapply (succeeds_bind n0 _ indices_kept);
  [apply (succeeds_lift n0 _ _ a (fun x => x = a)); [E | reflexivity] | intros ? ->].

Ltac load_step H :=
  eapply (succeeds_bind n0 _ indices_kept);
  [exact (succeeds_load_global n0 _ G _ _ H) | intros ? ->].

Lemma succeeds_construct_view_frustum_volume :
  succeeds n0 (fun w => (n0 <= length (heap w))%nat /\ long_value w target_indices = idx)
    (construct_view_frustum_volume K G self spatial_volume t_embed v_embed poses Ks
       target_indices)
    (fun r => pyramid (64, 128, 256, 512) (B * TN) fvd S S (fst r)).
Proof.
  destruct dims_positive as (Htd & Hvd & HB & HTN & HV & HNv).
  destruct grid_extents as (Hd & Hd8 & HS & HS8).
  destruct torch_bound as [o Ho]. destruct F_bound as [oF HoF].
  unfold construct_view_frustum_volume.
  rewrite indices_sizes, size_is, depth_is, volume_size_is. cbn [unpack2].
  lift_eq (B, TN) ltac:(reflexivity).
  load_step Ho.
  assert (Hplanes : exists near far, near_plane self B TN S S = Ok near /\
                                     far_plane self B TN S S = Ok far).
  { unfold near_plane, far_plane, ones. cbn [forallb].
    rewrite (proj2 (Z.leb_le 0 (B * TN))) by nia.
    rewrite (proj2 (Z.leb_le 0 S)) by lia.
    cbn [andb Z.leb rbind]. eexists _, _. split; reflexivity. }
  destruct Hplanes as (near_ & far_ & Hnear & Hfar).
  lift_step near_ (fun _ : Tensor.t => True) ltac:(exact Hnear); [exact I | intros ? _].
  pure_step ltac:(apply returns_new) ltac:(apply keeps_new). intros near _.
  load_step Ho.
  lift_step far_ (fun _ : Tensor.t => True) ltac:(exact Hfar); [exact I | intros ? _].
  pure_step ltac:(apply returns_new) ltac:(apply keeps_new). intros far _.
  assert (Hflat : view [B * TN] target_indices
                  = Ok (mkHandle (cell target_indices) [B * TN] Long (sel target_indices))).
  { unfold view. rewrite infer_sizes_nonneg.
    - cbn [rbind]. rewrite indices_contiguous, indices_long. reflexivity.
    - cbn [forallb]. rewrite (proj2 (Z.leb_le 0 (B * TN))) by nia. reflexivity.
    - rewrite indices_sizes. cbn. lia. }
  lift_eq (mkHandle (cell target_indices) [B * TN] Long (sel target_indices))
          ltac:(exact Hflat).
  eapply (succeeds_bind n0 _ indices_kept).
  { apply (succeeds_index poses _ N psh poses_float); try reflexivity. exact indices_tables. }
  intros poses_ _.
  eapply (succeeds_bind n0 _ indices_kept).
  { apply (succeeds_index Ks _ N ksh Ks_float); try reflexivity. exact indices_tables. }
  intros Ks_ _.
  load_step volume_bound. cbn [call_volume].
  pure_step ltac:(apply volume_grid) ltac:(apply (proj2 HG _ volume_bound)).
  intros [volume_xyz volume_depth] [Hxyz _]. cbn [fst] in Hxyz.
  (* the sampling grid *)
  pure_step ltac:(apply (returns_apply1 _ volume_xyz [B * TN; 3; fvd; S; S] (proj1 Hxyz));
                  intros v Hv; eexists; split; [reflexivity | rewrite <- (proj2 Hxyz); exact Hv])
            ltac:(apply keeps_apply1).
  intros xyz1 [Hxyz1 _].
  assert (Hperm : Torch.permute [0; 2; 3; 4; 1]%nat xyz1
                  = Ok (mkHandle (cell xyz1) [B * TN; fvd; S; S; 3] Float
                          (permute_list O [0; 2; 3; 4; 1]%nat (sizes xyz1) (sel xyz1)))).
  { unfold Torch.permute. rewrite (proj2 Hxyz1), (proj1 Hxyz1). cbn [length seq].
    rewrite bool_decide_eq_true_2; [reflexivity|].
    change [0; 2; 3; 4; 1]%nat with ([0%nat] ++ [2; 3; 4]%nat ++ [1%nat]).
    change [0; 1; 2; 3; 4]%nat with ([0%nat] ++ [1%nat] ++ [2; 3; 4]%nat).
    apply Permutation_app_head. apply Permutation_app_comm. }
  lift_step (mkHandle (cell xyz1) [B * TN; fvd; S; S; 3] Float
               (permute_list O [0; 2; 3; 4; 1]%nat (sizes xyz1) (sel xyz1)))
            (is_float [B * TN; fvd; S; S; 3]) ltac:(exact Hperm);
    [split; reflexivity | intros grid Hgrid].
  (* the spatial volume, once per target view *)
  lift_step (mkHandle (cell spatial_volume) [B; 1; 64; V; V; V] Float (sel spatial_volume))
            (is_float [B; 1; 64; V; V; V])
            ltac:(unfold unsqueeze, unsqueeze_shape;
                  rewrite (proj2 volume_float), (proj1 volume_float); reflexivity);
    [split; reflexivity | intros s1 Hs1].
  pure_step ltac:(apply (returns_apply1_dense _ s1 [B; TN; 64; V; V; V] (proj1 Hs1));
                  intros v Hv;
                  destruct (repeat_ok [1; TN; 1; 1; 1; 1] v) as (y & Ey & Hy);
                  [rewrite Hv, (proj2 Hs1); reflexivity
                  |cbn [forallb]; rewrite (proj2 (Z.leb_le 0 TN)) by lia; reflexivity
                  |exists y; split; [exact Ey|];
                   rewrite Hy, Hv, (proj2 Hs1); cbn [zip_with];
                   rewrite !Z.mul_1_r, Z.mul_1_l; reflexivity])
            ltac:(apply keeps_apply1).
  intros s2 [Hs2 _].
  destruct (view_dense_second s2 [B; TN; 64; V; V; V] (B * TN) 64 [V; V; V] Hs2)
    as (sv & Esv & Hsv).
  { nia. }
  { cbn [forallb]. rewrite (proj2 (Z.leb_le 0 V)) by lia. reflexivity. }
  { cbn [numel fold_right]. nia. }
  { cbn [numel fold_right]. ring. }
  lift_step sv (is_float [B * TN; 64; V; V; V]) ltac:(exact Esv);
    [exact Hsv | intros spatial_volume_ Hsv_].
  load_step HoF.
  pure_step ltac:(apply (returns_apply2 _ spatial_volume_ grid [B * TN; 64; fvd; S; S]
                           (proj1 Hsv_) (proj1 Hgrid));
                  intros u v Hu Hv; unfold grid_sample;
                  rewrite Hu, Hv, (proj2 Hsv_), (proj2 Hgrid), Z.eqb_refl;
                  cbn; eexists; split; reflexivity)
            ltac:(apply keeps_apply2).
  intros volume_feats [Hfeats _].
  load_step Ho.
  assert (Hti : view [B; TN] (mkHandle (cell target_indices) [B * TN] Long (sel target_indices))
                = Ok (mkHandle (cell target_indices) [B; TN] Long (sel target_indices))).
  { unfold view. cbn [sizes]. rewrite infer_sizes_nonneg.
    - cbn [rbind dtype cell sel].
      replace (contiguous _) with (contiguous target_indices) by reflexivity.
      rewrite indices_contiguous. reflexivity.
    - cbn [forallb]. rewrite (proj2 (Z.leb_le 0 B)), (proj2 (Z.leb_le 0 TN)) by lia.
      reflexivity.
    - cbn [numel fold_right]. ring. }
  lift_eq (mkHandle (cell target_indices) [B; TN] Long (sel target_indices)) ltac:(exact Hti).
  eapply (succeeds_bind n0 _ indices_kept).
  { apply succeeds_index_arange; reflexivity. }
  intros ve Hve.
  destruct (view_dense_second ve [B; TN; vd] (B * TN) vd [] Hve) as (v2 & Ev2 & Hv2).
  { nia. }
  { reflexivity. }
  { cbn [numel fold_right]. nia. }
  { cbn [numel fold_right]. ring. }
  lift_step v2 (is_float [B * TN; vd]) ltac:(exact Ev2); [exact Hv2 | intros v_embed_ Hve_].
  lift_step (mkHandle (cell t_embed) [B; 1; td] Float (sel t_embed))
            (is_float [B; 1; td])
            ltac:(unfold unsqueeze, unsqueeze_shape;
                  rewrite (proj2 t_float), (proj1 t_float); reflexivity);
    [split; reflexivity | intros t1 Ht1].
  pure_step ltac:(apply (returns_apply1_dense _ t1 [B; TN; td] (proj1 Ht1));
                  intros v Hv;
                  destruct (repeat_ok [1; TN; 1] v) as (y & Ey & Hy);
                  [rewrite Hv, (proj2 Ht1); reflexivity
                  |cbn [forallb]; rewrite (proj2 (Z.leb_le 0 TN)) by lia; reflexivity
                  |exists y; split; [exact Ey|];
                   rewrite Hy, Hv, (proj2 Ht1); cbn [zip_with];
                   rewrite !Z.mul_1_r, Z.mul_1_l; reflexivity])
            ltac:(apply keeps_apply1).
  intros t2 [Ht2 _].
  destruct (view_dense_second t2 [B; TN; td] (B * TN) td [] Ht2) as (t3 & Et3 & Ht3).
  { nia. }
  { reflexivity. }
  { cbn [numel fold_right]. nia. }
  { cbn [numel fold_right]. ring. }
  lift_step t3 (is_float [B * TN; td]) ltac:(exact Et3); [exact Ht3 | intros t_embed_ Hte_].
  (* the network *)
  assert (Ed : fvd = 8 * (fvd / 8)) by (apply Z_div_exact_full_2; lia).
  assert (ES : S = 8 * (S / 8)) by (apply Z_div_exact_full_2; lia).
  assert (Hin : is_float [B * TN; 64; 8 * (fvd / 8); 8 * (S / 8); 8 * (S / 8)] volume_feats).
  { rewrite <- Ed, <- ES. exact Hfeats. }
  eapply (succeeds_bind n0 _ indices_kept).
  { apply (succeeds_pure n0).
    - apply (returns_FrustumTV3DNet_forward K 64 td vd 64 128 256 512
               ltac:(lia) ltac:(lia) ltac:(lia) ltac:(lia) ltac:(lia) ltac:(lia)
               eq_refl eq_refl eq_refl eq_refl (B * TN) (fvd / 8) (S / 8) (S / 8)
               ltac:(nia) ltac:(lia) ltac:(lia) ltac:(lia));
        [change (512 / 8) with 64; nia | exact net_is | exact Hin | exact Hte_ | exact Hve_].
    - apply keeps_FrustumTV3DNet_forward. }
  intros p [(Hsz & (x0 & Hp0 & Hx0) & (x1 & Hp1 & Hx1) & (x2 & Hp2 & Hx2) & (x3 & Hp3 & Hx3)) _].
  apply succeeds_ret. cbn [fst]. unfold pyramid.
  assert (E2 : forall n, 0 < n -> n mod 8 = 0 ->
             n / 2 = 4 * (n / 8) /\ n / 4 = 2 * (n / 8) /\ n = 8 * (n / 8)).
  { intros n Hn Hn8. assert (En : n = 8 * (n / 8)) by (apply Z_div_exact_full_2; lia).
    set (q := n / 8) in *. repeat split; try exact En.
    - rewrite En. replace (8 * q) with (4 * q * 2) by ring. apply Z_div_mult_full. lia.
    - rewrite En. replace (8 * q) with (2 * q * 4) by ring. apply Z_div_mult_full. lia. }
  destruct (E2 fvd Hd Hd8) as (Ed2 & Ed4 & _). destruct (E2 S HS HS8) as (ES2 & ES4 & _).
  rewrite Ed2, Ed4, ES2, ES4.
  split; [exact Hsz|].
  split; [exists x0; split; [rewrite ES at 1; exact Hp0 | rewrite Ed, ES; exact Hx0]|].
  split; [exists x1; split; [exact Hp1 | exact Hx1]|].
  split; [exists x2; split; [exact Hp2 | exact Hx2]|].
  exists x3. split; [exact Hp3 | exact Hx3].
Qed.

End FrustumVolumeReturns.

(** X19: With [create_target_volume] bound to a helper that returns the
    sampling grid [(B * TN, 3, D, S, S)] and leaves existing tensors
    alone, a constructed [SpatialVolumeNet] builds its frustum volumes:
    on target indices [(B, TN)] in range of the camera tables and of the
    viewpoint embeddings (negative ones counted from the end),
    [construct_view_frustum_volume] returns the four-level pyramid for
    [B * TN] targets, keyed by [S], [S / 2], [S / 4] and [S / 8] with 64,
    128, 256 and 512 channels, where [D = frustum_volume_depth] and
    [S = input_image_size // 8] are positive multiples of 8; no tensor
    that existed before the call is changed. *)
Theorem construct_view_frustum_volume_returns (K : Tensor.Kernels)
    (G : gmap string Python.PyObj)
    (volume : Z -> Z -> Z -> Torch.Handle -> Torch.Handle -> Torch.Handle -> Torch.Handle ->
              Torch.M (Torch.Handle * Torch.Handle))
    (td vd view_num isz fvd V : Z) (SL FL : R) (w0 w1 : Torch.World)
    (self : View_feature_extractor.SpatialVolumeNet)
    (spatial_volume t_embed v_embed poses Ks target_indices : Torch.Handle) (w : Torch.World)
    (B TN N Nv : Z) (psh ksh : list Z) :
  View_feature_extractor.SpatialVolumeNet_init K G td vd view_num isz fvd V SL FL w0
  = (Ok self, w1) ->
  is_Some (G !! "NoisyTargetViewEncoder"%string) ->
  is_Some (G !! "SpatialTime3DNet"%string) ->
  is_Some (G !! "FrustumTV3DNet"%string) ->
  is_Some (G !! "torch"%string) -> is_Some (G !! "F"%string) ->
  helpers_keep G ->
  G !! "create_target_volume"%string = Some (Python.PyVolume volume) ->
  (forall D size image_size poses Ks near far,
     returns (volume D size image_size poses Ks near far)
       (fun p => is_float [B * TN; 3; fvd; isz / 8; isz / 8] (fst p))) ->
  0 < td -> 0 < vd -> 0 < view_num -> 0 < B -> 0 < TN -> 0 < V -> 0 < Nv ->
  0 < fvd -> fvd mod 8 = 0 -> 0 < isz / 8 -> (isz / 8) mod 8 = 0 ->
  is_float [B; 64; V; V; V] spatial_volume -> is_float [B; td] t_embed ->
  is_float [B; Nv; vd] v_embed -> is_float (N :: psh) poses -> is_float (N :: ksh) Ks ->
  Torch.sizes target_indices = [B; TN] -> Torch.dtype target_indices = Torch.Long ->
  Torch.contiguous target_indices = true ->
  (Torch.cell target_indices < length (Torch.heap w))%nat ->
  Forall (fun i => - N <= i < N) (Torch.long_value w target_indices) ->
  Forall (fun i => - Nv <= i < Nv) (Torch.long_value w target_indices) ->
  exists p depth w',
    View_feature_extractor.construct_view_frustum_volume K G self spatial_volume t_embed
      v_embed poses Ks target_indices w = (Ok (p, depth), w') /\
    pyramid (64, 128, 256, 512) (B * TN) fvd (isz / 8) (isz / 8) p /\
    unchanged w w'.
Proof.
  intros Hinit Hc1 Hc2 Hc3 Htorch HF HG Hvol Hgrid Ht Hv Hvn HB HTN HV HNv Hd Hd8 HS HS8
    Hsv Hte Hve Hp Hk Hs Hl Hc Ha Hin1 Hin2.
  destruct (returns_SpatialVolumeNet_init_nets K G Hc1 Hc2 Hc3 td vd view_num isz fvd V SL FL
              Ht Hv Hvn w0) as (self' & w1' & E & Hself & _ & Hnet).
  rewrite Hinit in E. injection E as <- _.
  destruct Hself as (_ & _ & _ & _ & Hsize & Hdepth & HVs & _).
  destruct (succeeds_construct_view_frustum_volume K G HG Htorch HF B TN fvd (isz / 8)
              volume Hvol Hgrid self spatial_volume t_embed v_embed poses Ks target_indices
              td vd V N Nv psh ksh (Torch.long_value w target_indices) (length (Torch.heap w))
              Hnet Hsize Hdepth HVs
              (conj Ht (conj Hv (conj HB (conj HTN (conj HV HNv)))))
              (conj Hd (conj Hd8 (conj HS HS8)))
              Hsv Hte Hve Hp Hk Hs Hl Hc Ha Hin1 Hin2 w (Nat.le_refl _)
              (conj (Nat.le_refl _) eq_refl))
    as ([p depth] & w' & Ecall & Hst & Hpyr).
  exists p, depth, w'. split; [exact Ecall|]. split; [exact Hpyr|].
  apply stable_unchanged, Hst.
Qed.

Section FrustumVolumeExample.
Import Tensor Torch Python View_feature_extractor Example.

Lemma construct_view_frustum_volume_returns_witness :
  exists self w1 p depth w',
    SpatialVolumeNet_init shape_only
      (<["create_target_volume"%string :=
           PyVolume (fun _ _ _ _ _ _ _ =>
                       bind (new (zeros [1; 3; 8; 8; 8]))
                            (fun v => bind (new (zeros [1])) (fun d => ret (v, d))))]> globals)
      4 4 2 64 8 2 0.5%R 0.86603%R empty = (Ok self, w1) /\
    construct_view_frustum_volume shape_only
      (<["create_target_volume"%string :=
           PyVolume (fun _ _ _ _ _ _ _ =>
                       bind (new (zeros [1; 3; 8; 8; 8]))
                            (fun v => bind (new (zeros [1])) (fun d => ret (v, d))))]> globals)
      self (mkHandle 1 [1; 64; 2; 2; 2] Float []) (mkHandle 1 [1; 4] Float [])
      (mkHandle 1 [1; 2; 4] Float []) (mkHandle 1 [2; 3; 4] Float [])
      (mkHandle 1 [2; 3; 3] Float []) (mkHandle 0 [1; 1] Long [0%nat])
      (mkWorld [LongStorage [-1]] 0)
    = (Ok (p, depth), w') /\
    pyramid (64, 128, 256, 512) (1 * 1) 8 (64 / 8) (64 / 8) p.
Proof.
  set (vol := fun (_ _ _ : Z) (_ _ _ _ : Handle) =>
                bind (new (zeros [1; 3; 8; 8; 8]))
                     (fun v => bind (new (zeros [1])) (fun d => ret (v, d)))).
  set (G := <["create_target_volume"%string := PyVolume vol]> globals).
  destruct globals_classes_bound as (H1 & H2 & H3).
  assert (G1 : is_Some (G !! "NoisyTargetViewEncoder"%string))
    by (subst G; rewrite lookup_insert_ne by discriminate; exact H1).
  assert (G2 : is_Some (G !! "SpatialTime3DNet"%string))
    by (subst G; rewrite lookup_insert_ne by discriminate; exact H2).
  assert (G3 : is_Some (G !! "FrustumTV3DNet"%string))
    by (subst G; rewrite lookup_insert_ne by discriminate; exact H3).
  assert (G4 : is_Some (G !! "torch"%string)).
  { subst G. rewrite lookup_insert_ne by discriminate. exists PyModule.
    apply globals_torch_bound. }
  assert (G5 : is_Some (G !! "F"%string)).
  { subst G. rewrite lookup_insert_ne by discriminate. exists PyModule.
    vm_compute. reflexivity. }
  assert (G6 : G !! "create_target_volume"%string = Some (PyVolume vol))
    by (subst G; apply lookup_insert_eq).
  assert (HG : helpers_keep G).
  { split; intros f Hf.
    - subst G. rewrite lookup_insert_ne in Hf by discriminate.
      rewrite globals_warp_unbound in Hf. discriminate.
    - rewrite G6 in Hf. injection Hf as <-. intros n0 D size isz poses Ks near far.
      subst vol. cbv beta.
      eapply keeps_bind; [apply keeps_new|]. intros v _.
      eapply keeps_bind; [apply keeps_new|]. intros d _.
      apply keeps_ret. exact I. }
  assert (Hgrid : forall D size image_size poses Ks near far,
            returns (vol D size image_size poses Ks near far)
              (fun p => is_float [1 * 1; 3; 8; 64 / 8; 64 / 8] (fst p))).
  { intros D size isz poses Ks near far w. eexists _, _. split; [reflexivity|].
    split; reflexivity. }
  destruct (returns_SpatialVolumeNet_init shape_only G G1 G2 G3 4 4 2 64 8 2 0.5%R 0.86603%R
              ltac:(lia) ltac:(lia) ltac:(lia) empty) as (self & w1 & E & _).
  destruct (construct_view_frustum_volume_returns shape_only G vol 4 4 2 64 8 2
              0.5%R 0.86603%R empty w1 self
              (mkHandle 1 [1; 64; 2; 2; 2] Float []) (mkHandle 1 [1; 4] Float [])
              (mkHandle 1 [1; 2; 4] Float []) (mkHandle 1 [2; 3; 4] Float [])
              (mkHandle 1 [2; 3; 3] Float []) (mkHandle 0 [1; 1] Long [0%nat])
              (mkWorld [LongStorage [-1]] 0) 1 1 2 2 [3; 4] [3; 3]
              E G1 G2 G3 G4 G5 HG G6 Hgrid)
    as (p & depth & w' & Ecall & Hp & _);
    try lia; try reflexivity; try (split; reflexivity);
    try (repeat constructor; cbn; lia).
  exists self, w1, p, depth, w'. split; [exact E|]. split; [exact Ecall | exact Hp].
Defined.

End FrustumVolumeExample.

(** ** Two calls in two stores: [construct_spatial_volume] is a function of values *)

Section SameParametersFacts.
Import Tensor Torch View_feature_extractor_net.
Context (R Q : Handle -> Handle -> Prop).
Hypothesis R_Q : forall h1 h2, R h1 h2 -> Q h1 h2.

Lemma Conv_alike_impl (c1 c2 : Conv) : Conv_alike R c1 c2 -> Conv_alike Q c1 c2.
Proof. intros (Hs & Hw & Hb). repeat split; auto. Qed.

Lemma GroupNorm_alike_impl (g1 g2 : GroupNorm) : GroupNorm_alike R g1 g2 -> GroupNorm_alike Q g1 g2.
Proof. intros (Hg & Hc & Hw & Hb). repeat split; auto. Qed.

Lemma Layer_alike_impl (l1 l2 : Layer) : Layer_alike R l1 l2 -> Layer_alike Q l1 l2.
Proof.
  destruct l1, l2; cbn [Layer_alike]; auto using Conv_alike_impl, GroupNorm_alike_impl.
Qed.

Lemma Layers_alike_impl (ls1 ls2 : list Layer) :
  Forall2 (Layer_alike R) ls1 ls2 -> Forall2 (Layer_alike Q) ls1 ls2.
Proof. intros H. induction H; constructor; auto using Layer_alike_impl. Qed.

Lemma Image2DResBlockWithTV_alike_impl (b1 b2 : Image2DResBlockWithTV) :
  Image2DResBlockWithTV_alike R b1 b2 -> Image2DResBlockWithTV_alike Q b1 b2.
Proof.
  intros (Ht & Hv & Hl). split; [|split]; auto using Conv_alike_impl, Layers_alike_impl.
Qed.

Lemma NoisyTargetViewEncoder_alike_impl (e1 e2 : NoisyTargetViewEncoder) :
  NoisyTargetViewEncoder_alike R e1 e2 -> NoisyTargetViewEncoder_alike Q e1 e2.
Proof.
  intros (Hi & H0 & H1 & H2 & Hf).
  repeat (split; [solve [auto using Conv_alike_impl, Image2DResBlockWithTV_alike_impl]|]).
  auto using Layers_alike_impl.
Qed.

Lemma SpatialTimeBlock_alike_impl (b1 b2 : SpatialTimeBlock) :
  SpatialTimeBlock_alike R b1 b2 -> SpatialTimeBlock_alike Q b1 b2.
Proof.
  intros (Ht & Hn & Hs & Hc).
  repeat (split; [solve [auto using Conv_alike_impl, GroupNorm_alike_impl]|]).
  auto using Conv_alike_impl.
Qed.

Lemma SpatialTime3DNet_alike_impl (n1 n2 : SpatialTime3DNet) :
  SpatialTime3DNet_alike R n1 n2 -> SpatialTime3DNet_alike Q n1 n2.
Proof.
  intros (Hi & H0 & H1 & H20 & H21 & H3 & H40 & H41 & H5 & H60 & H61 & H7 & H8 & H9).
  repeat (split; [solve [auto using Conv_alike_impl, SpatialTimeBlock_alike_impl]|]).
  auto using SpatialTimeBlock_alike_impl.
Qed.

Lemma SpatialVolumeNet_alike_impl (m1 m2 : View_feature_extractor.SpatialVolumeNet) :
  SpatialVolumeNet_alike R m1 m2 -> SpatialVolumeNet_alike Q m1 m2.
Proof.
  intros (He & Hn & H). split; [|split];
    auto using NoisyTargetViewEncoder_alike_impl, SpatialTime3DNet_alike_impl.
Qed.

End SameParametersFacts.

Section InStep.
Import Tensor Torch Python View_feature_extractor_net.
Context (start1 start2 : World).

Local Abbreviation in_step := (in_step start1 start2).
Local Abbreviation alike := (alike start1 start2).
Local Abbreviation made_alike := (made_alike start1 start2).
Local Abbreviation given_alike := (given_alike start1 start2).
Local Abbreviation in_step_calls := (in_step_calls start1 start2).

Lemma made_is_alike (h1 h2 : Handle) : made_alike h1 h2 -> alike h1 h2.
Proof. intros H. right. exact H. Qed.

Lemma alike_meta (h1 h2 : Handle) :
  alike h1 h2 -> dtype h1 = dtype h2 /\ sizes h1 = sizes h2 /\ sel h1 = sel h2.
Proof.
  intros [(Hd & Hl & _ & _ & Hv) | (Hd & Hs & Hl & _)]; [|auto].
  unfold value in Hv. injection Hv as Hs _. auto.
Qed.

(** Alike tensor objects have the same value, at every point of the two
    runs. *)
Lemma alike_value (w1 w2 : World) (h1 h2 : Handle) :
  in_step w1 w2 -> alike h1 h2 -> value w1 h1 = value w2 h2.
Proof.
  intros (made & E1 & E2) [(_ & _ & L1 & L2 & Hv) | (_ & Hs & Hl & j & C1 & C2)].
  - unfold value in *. rewrite E1, E2, !app_nth1 by assumption. exact Hv.
  - unfold value. rewrite E1, E2, C1, C2, !app_nth2_plus, Hs, Hl. reflexivity.
Qed.

Lemma alike_values (w1 w2 : World) (xs1 xs2 : list Handle) :
  in_step w1 w2 -> Forall2 alike xs1 xs2 -> map (value w1) xs1 = map (value w2) xs2.
Proof.
  intros Hw Hx. induction Hx as [|x1 x2 xs1 xs2 Hx _ IH]; [reflexivity|].
  cbn [map]. rewrite (alike_value w1 w2 x1 x2 Hw Hx), IH. reflexivity.
Qed.

(** *** The monad *)

Lemma in_step_ret {A} (R : A -> A -> Prop) (a1 a2 : A) :
  R a1 a2 -> in_step_calls R (ret a1) (ret a2).
Proof. intros H w1 w2 Hw. split; [exact H | exact Hw]. Qed.

Lemma in_step_raise {A} (R : A -> A -> Prop) (e : PyError) :
  in_step_calls R (raise e) (raise e).
Proof. intros w1 w2 Hw. split; [reflexivity | exact Hw]. Qed.

Lemma in_step_lift {A} (R : A -> A -> Prop) (r1 r2 : result A) :
  result_alike R r1 r2 -> in_step_calls R (lift r1) (lift r2).
Proof. intros H w1 w2 Hw. split; [exact H | exact Hw]. Qed.

Lemma in_step_lift_same {A} (r : result A) : in_step_calls eq (lift r) (lift r).
Proof. apply in_step_lift. destruct r; reflexivity. Qed.

Lemma in_step_bind {A B} (R : A -> A -> Prop) (Q : B -> B -> Prop)
    (m1 m2 : M A) (f1 f2 : A -> M B) :
  in_step_calls R m1 m2 ->
  (forall a1 a2, R a1 a2 -> in_step_calls Q (f1 a1) (f2 a2)) ->
  in_step_calls Q (bind m1 f1) (bind m2 f2).
Proof.
  intros Hm Hf w1 w2 Hw. unfold bind.
  destruct (Hm w1 w2 Hw) as [Hr Hs].
  destruct (m1 w1) as [[a1|e1] w1'], (m2 w2) as [[a2|e2] w2']; cbn [fst snd] in *;
    try contradiction.
  - exact (Hf a1 a2 Hr w1' w2' Hs).
  - split; [exact Hr | exact Hs].
Qed.

Lemma in_step_mono {A} (R Q : A -> A -> Prop) (m1 m2 : M A) :
  in_step_calls R m1 m2 -> (forall a1 a2, R a1 a2 -> Q a1 a2) -> in_step_calls Q m1 m2.
Proof.
  intros Hm HRQ w1 w2 Hw. destruct (Hm w1 w2 Hw) as [Hr Hs]. split; [|exact Hs].
  destruct (fst (m1 w1)), (fst (m2 w2)); cbn in *; auto.
Qed.

Lemma in_step_load_global (G : gmap string PyObj) (name : string) :
  in_step_calls eq (load_global G name) (load_global G name).
Proof.
  unfold load_global. destruct (G !! name); [apply in_step_ret; reflexivity | apply in_step_raise].
Qed.

Lemma in_step_for_each {A B} (R : B -> B -> Prop) (xs : list A) (body1 body2 : A -> M B) :
  (forall x, in_step_calls R (body1 x) (body2 x)) ->
  in_step_calls (Forall2 R) (for_each xs body1) (for_each xs body2).
Proof.
  intros Hb. induction xs as [|x xs IH]; cbn [for_each].
  - apply in_step_ret. constructor.
  - eapply in_step_bind; [apply Hb|]. intros y1 y2 Hy.
    eapply in_step_bind; [exact IH|]. intros ys1 ys2 Hys.
    apply in_step_ret. constructor; assumption.
Qed.

(** *** Allocation and the operators *)

Lemma in_step_new (x : Tensor.t) : in_step_calls made_alike (new x) (new x).
Proof.
  intros w1 w2 (made & E1 & E2). cbn [new fst snd result_alike]. split.
  - repeat split. exists (length made). cbn [cell]. rewrite E1, E2, !length_app. split; reflexivity.
  - exists (made ++ [FloatStorage (data x)]). cbn [heap]. rewrite E1, E2, <- !app_assoc.
    split; reflexivity.
Qed.

Lemma in_step_lift_new (r1 r2 : result Tensor.t) :
  r1 = r2 -> in_step_calls made_alike (bind (lift r1) new) (bind (lift r2) new).
Proof.
  intros <-. eapply in_step_bind; [apply in_step_lift_same|]. intros a1 a2 <-. apply in_step_new.
Qed.

(** An out-of-place operator whose kernel may read parameters from the
    state. *)
Lemma in_step_apply1 (F1 F2 : World -> Tensor.t -> result Tensor.t) (x1 x2 : Handle) :
  alike x1 x2 ->
  (forall w1 w2 v, in_step w1 w2 -> F1 w1 v = F2 w2 v) ->
  in_step_calls made_alike (fun w => apply1 (F1 w) x1 w) (fun w => apply1 (F2 w) x2 w).
Proof.
  intros Hx HF w1 w2 Hw. unfold apply1.
  destruct (alike_meta x1 x2 Hx) as (<- & _ & _).
  destruct (dtype x1).
  - apply in_step_lift_new; [|exact Hw].
    rewrite (alike_value w1 w2 x1 x2 Hw Hx). apply HF. exact Hw.
  - split; [reflexivity | exact Hw].
Qed.

Lemma in_step_apply1_pure (f : Tensor.t -> result Tensor.t) (x1 x2 : Handle) :
  alike x1 x2 -> in_step_calls made_alike (apply1 f x1) (apply1 f x2).
Proof. intros Hx. apply (in_step_apply1 (fun _ => f) (fun _ => f) x1 x2 Hx). reflexivity. Qed.

Lemma in_step_apply2 (f : Tensor.t -> Tensor.t -> result Tensor.t) (x1 x2 y1 y2 : Handle) :
  alike x1 x2 -> alike y1 y2 -> in_step_calls made_alike (apply2 f x1 y1) (apply2 f x2 y2).
Proof.
  intros Hx Hy w1 w2 Hw. unfold apply2.
  destruct (alike_meta x1 x2 Hx) as (<- & _ & _).
  destruct (alike_meta y1 y2 Hy) as (<- & _ & _).
  destruct (dtype x1), (dtype y1); try (split; [reflexivity | exact Hw]).
  apply in_step_lift_new; [|exact Hw].
  rewrite (alike_value w1 w2 x1 x2 Hw Hx), (alike_value w1 w2 y1 y2 Hw Hy). reflexivity.
Qed.

Lemma alike_all_float (xs1 xs2 : list Handle) :
  Forall2 alike xs1 xs2 ->
  forallb (fun x => match dtype x with Float => true | Long => false end) xs1
  = forallb (fun x => match dtype x with Float => true | Long => false end) xs2.
Proof.
  intros Hx. induction Hx as [|x1 x2 xs1 xs2 Hx _ IH]; [reflexivity|].
  cbn [forallb]. destruct (alike_meta x1 x2 Hx) as (-> & _ & _). rewrite IH. reflexivity.
Qed.

Lemma in_step_stack (xs1 xs2 : list Handle) :
  Forall2 alike xs1 xs2 -> in_step_calls made_alike (stack xs1) (stack xs2).
Proof.
  intros Hx w1 w2 Hw. unfold stack. rewrite (alike_all_float xs1 xs2 Hx).
  destruct (forallb _ xs2).
  - apply in_step_lift_new; [|exact Hw]. rewrite (alike_values w1 w2 xs1 xs2 Hw Hx). reflexivity.
  - split; [reflexivity | exact Hw].
Qed.

(** An in-place write through tensor objects made alike changes the
    storage both runs allocated, in the same way. *)
Lemma in_step_write (h1 h2 : Handle) (ys : list R) (w1 w2 : World) :
  in_step w1 w2 -> made_alike h1 h2 ->
  in_step (snd (write h1 ys w1)) (snd (write h2 ys w2)).
Proof.
  intros (made & E1 & E2) (_ & _ & Hl & j & C1 & C2). cbn [write snd heap].
  exists (alter (fun s => FloatStorage (scatter (floats s) (sel h1) ys)) j made).
  rewrite E1, E2, C1, C2, <- Hl, !alter_app_r. split; reflexivity.
Qed.

(** *** Views *)

Lemma map_agree {A B} (f g : A -> B) (xs : list A) :
  map f xs = map g xs -> forall x, In x xs -> f x = g x.
Proof.
  induction xs as [|y xs IH]; intros E x Hx; [contradiction|].
  cbn [map] in E. injection E as E0 E'. destruct Hx as [<- | Hx]; [exact E0 | exact (IH E' x Hx)].
Qed.

(** A view keeps the storage and selects among the entries of its base. *)
Lemma alike_view_of (h1 h2 : Handle) (sh : list Z) (sl : list nat) :
  alike h1 h2 -> incl sl (sel h1) ->
  alike (mkHandle (cell h1) sh (dtype h1) sl) (mkHandle (cell h2) sh (dtype h2) sl).
Proof.
  intros [(Hd & Hl & L1 & L2 & Hv) | (Hd & _ & _ & j & C1 & C2)] Hin.
  - left. repeat split; try assumption.
    unfold value in *. cbn [cell sizes sel]. f_equal.
    injection Hv as _ Hv. rewrite <- Hl in Hv.
    apply map_ext_in. intros p Hp. exact (map_agree _ _ _ Hv p (Hin p Hp)).
  - right. repeat split; [assumption|]. exists j. split; assumption.
Qed.

Lemma incl_firstn_skipn {A} (n k : nat) (xs : list A) : incl (firstn n (skipn k xs)) xs.
Proof.
  intros x Hx. rewrite <- (firstn_skipn k xs). apply in_or_app. right.
  rewrite <- (firstn_skipn n (skipn k xs)). apply in_or_app. left. exact Hx.
Qed.

Lemma alike_contiguous (h1 h2 : Handle) : alike h1 h2 -> contiguous h1 = contiguous h2.
Proof. intros H. unfold contiguous. destruct (alike_meta h1 h2 H) as (_ & _ & ->). reflexivity. Qed.

Lemma alike_view (sh : list Z) (h1 h2 : Handle) :
  alike h1 h2 -> result_alike alike (view sh h1) (view sh h2).
Proof.
  intros H. unfold view. rewrite (alike_contiguous h1 h2 H).
  destruct (alike_meta h1 h2 H) as (_ & Hs & Hl). rewrite <- Hs, <- Hl.
  destruct (infer_sizes sh (numel (sizes h1))) as [sh'|e]; cbn [rbind result_alike]; [|reflexivity].
  destruct (contiguous h2 || _); cbn [result_alike]; [|reflexivity].
  apply alike_view_of; [exact H | apply incl_refl].
Qed.

Lemma alike_unsqueeze (dim : Z) (h1 h2 : Handle) :
  alike h1 h2 -> result_alike alike (unsqueeze dim h1) (unsqueeze dim h2).
Proof.
  intros H. unfold unsqueeze.
  destruct (alike_meta h1 h2 H) as (_ & Hs & Hl). rewrite <- Hs, <- Hl.
  destruct (unsqueeze_shape dim (sizes h1)) as [sh'|e]; cbn [rbind result_alike]; [|reflexivity].
  apply alike_view_of; [exact H | apply incl_refl].
Qed.

Lemma alike_select1 (h1 h2 : Handle) (i : Z) :
  alike h1 h2 -> result_alike alike (select1 h1 i) (select1 h2 i).
Proof.
  intros H. unfold select1.
  destruct (alike_meta h1 h2 H) as (_ & Hs & Hl). rewrite <- Hs, <- Hl.
  destruct (sizes h1) as [|d0 [|d1 sh]]; cbn [result_alike]; try reflexivity.
  destruct ((- d1 <=? i) && (i <? d1)); cbn [result_alike]; [|reflexivity].
  apply alike_view_of; [exact H|].
  intros p Hp. apply in_flat_map in Hp. destruct Hp as (b & _ & Hp).
  exact (incl_firstn_skipn _ _ _ p Hp).
Qed.

Lemma alike_shape_at1 (h1 h2 : Handle) : alike h1 h2 -> shape_at1 h1 = shape_at1 h2.
Proof. intros H. unfold shape_at1. destruct (alike_meta h1 h2 H) as (_ & -> & _). reflexivity. Qed.

Lemma alike_shape_last (h1 h2 : Handle) : alike h1 h2 -> shape_last h1 = shape_last h2.
Proof. intros H. unfold shape_last. destruct (alike_meta h1 h2 H) as (_ & -> & _). reflexivity. Qed.

(** *** The layers and the networks *)

Context (K : Kernels).

Lemma in_step_Conv_forward (c1 c2 : Conv) (x1 x2 : Handle) :
  Conv_alike alike c1 c2 -> alike x1 x2 ->
  in_step_calls made_alike (Conv_forward K c1 x1) (Conv_forward K c2 x2).
Proof.
  intros (Hs & Hw & Hb) Hx. unfold Conv_forward.
  apply (in_step_apply1
           (fun w => conv K (conv_spec c1) (value w (conv_weight c1)) (value w (conv_bias c1)))
           (fun w => conv K (conv_spec c2) (value w (conv_weight c2)) (value w (conv_bias c2)))
           x1 x2 Hx).
  intros w1 w2 v Hst.
  rewrite Hs, (alike_value w1 w2 _ _ Hst Hw), (alike_value w1 w2 _ _ Hst Hb). reflexivity.
Qed.

Lemma in_step_GroupNorm_forward (g1 g2 : GroupNorm) (x1 x2 : Handle) :
  GroupNorm_alike alike g1 g2 -> alike x1 x2 ->
  in_step_calls made_alike (GroupNorm_forward K g1 x1) (GroupNorm_forward K g2 x2).
Proof.
  intros (Hg & Hc & Hw & Hb) Hx. unfold GroupNorm_forward.
  apply (in_step_apply1
           (fun w => group_norm K (num_groups g1) (num_channels g1)
                       (value w (gn_weight g1)) (value w (gn_bias g1)))
           (fun w => group_norm K (num_groups g2) (num_channels g2)
                       (value w (gn_weight g2)) (value w (gn_bias g2)))
           x1 x2 Hx).
  intros w1 w2 v Hst.
  rewrite Hg, Hc, (alike_value w1 w2 _ _ Hst Hw), (alike_value w1 w2 _ _ Hst Hb). reflexivity.
Qed.

(** [nn.SiLU(True)] overwrites its input: in the networks the input is
    always the output of the normalisation before it, made in the call. *)
Lemma in_step_SiLU_forward (s : SiLU) (x1 x2 : Handle) :
  made_alike x1 x2 -> in_step_calls made_alike (SiLU_forward K s x1) (SiLU_forward K s x2).
Proof.
  intros Hx w1 w2 Hw. unfold SiLU_forward.
  pose proof (made_is_alike x1 x2 Hx) as Ha.
  destruct (alike_meta x1 x2 Ha) as (Hd & Hsz & _). rewrite <- Hd.
  destruct (dtype x1); [|split; [reflexivity | exact Hw]].
  rewrite <- (alike_value w1 w2 x1 x2 Hw Ha), <- Hsz.
  destruct (inplace s).
  - unfold bind. cbn [write ret fst snd result_alike]. split; [exact Hx|].
    exact (in_step_write x1 x2 _ w1 w2 Hw Hx).
  - apply in_step_new. exact Hw.
Qed.

Lemma in_step_add (x1 x2 y1 y2 : Handle) :
  alike x1 x2 -> alike y1 y2 -> in_step_calls made_alike (add x1 y1) (add x2 y2).
Proof. apply in_step_apply2. Qed.

Lemma in_step_Layer_forward (l1 l2 : Layer) (x1 x2 : Handle) :
  Layer_alike alike l1 l2 -> made_alike x1 x2 ->
  in_step_calls made_alike (Layer_forward K l1 x1) (Layer_forward K l2 x2).
Proof.
  intros Hl Hx. destruct l1, l2; cbn [Layer_alike] in Hl; try contradiction;
    cbn [Layer_forward].
  - apply in_step_Conv_forward; [exact Hl | apply made_is_alike; exact Hx].
  - apply in_step_GroupNorm_forward; [exact Hl | apply made_is_alike; exact Hx].
  - subst. apply in_step_SiLU_forward. exact Hx.
Qed.

Lemma in_step_Sequential_forward (ls1 ls2 : list Layer) (x1 x2 : Handle) :
  Forall2 (Layer_alike alike) ls1 ls2 -> made_alike x1 x2 ->
  in_step_calls made_alike (Sequential_forward K ls1 x1) (Sequential_forward K ls2 x2).
Proof.
  intros Hl. revert x1 x2. induction Hl as [|l1 l2 ls1 ls2 Hl _ IH]; intros x1 x2 Hx;
    cbn [Sequential_forward].
  - apply in_step_ret. exact Hx.
  - eapply in_step_bind; [apply in_step_Layer_forward; assumption|]. exact IH.
Qed.

(** One step of a method: the next operation of both runs, then the
    rest on its two results. *)
Ltac alike_now := solve [assumption | apply made_is_alike; assumption].

Ltac in_step_op :=
  first
    [ apply in_step_Conv_forward; [assumption | alike_now]
    | apply in_step_GroupNorm_forward; [assumption | alike_now]
    | apply in_step_SiLU_forward; assumption
    | apply in_step_Sequential_forward; assumption
    | apply in_step_add; alike_now
    | apply in_step_apply2; alike_now
    | apply in_step_apply1_pure; alike_now
    | apply in_step_new
    | apply in_step_lift, alike_view; alike_now
    | apply in_step_lift, alike_unsqueeze; alike_now
    | apply in_step_lift, alike_select1; alike_now ].

Ltac in_step_next := eapply in_step_bind; [in_step_op | intros ? ? ?].

Ltac in_step_same := eapply in_step_bind; [apply in_step_lift_same | intros ? ? <-].

Lemma in_step_Image2DResBlockWithTV_forward (b1 b2 : Image2DResBlockWithTV)
    (x1 x2 t1 t2 v1 v2 : Handle) :
  Image2DResBlockWithTV_alike alike b1 b2 -> alike x1 x2 -> alike t1 t2 -> alike v1 v2 ->
  in_step_calls made_alike (Image2DResBlockWithTV_forward K b1 x1 t1 v1)
    (Image2DResBlockWithTV_forward K b2 x2 t2 v2).
Proof.
  intros (Ht & Hv & Hl) Hx Ht' Hv'. unfold Image2DResBlockWithTV_forward.
  do 5 in_step_next. in_step_op.
Qed.

Lemma in_step_NoisyTargetViewEncoder_forward (e1 e2 : NoisyTargetViewEncoder)
    (x1 x2 t1 t2 v1 v2 : Handle) :
  NoisyTargetViewEncoder_alike alike e1 e2 -> alike x1 x2 -> alike t1 t2 -> alike v1 v2 ->
  in_step_calls made_alike (NoisyTargetViewEncoder_forward K e1 x1 t1 v1)
    (NoisyTargetViewEncoder_forward K e2 x2 t2 v2).
Proof.
  intros (Hi & H0 & H1 & H2 & Hf) Hx Ht Hv. unfold NoisyTargetViewEncoder_forward.
  destruct (alike_meta t1 t2 Ht) as (_ & Hts & _).
  destruct (alike_meta v1 v2 Hv) as (_ & Hvs & _). rewrite <- Hts, <- Hvs.
  in_step_same. destruct a1 as [B DT]. in_step_next.
  in_step_same. destruct a0 as [B' DV]. in_step_next.
  in_step_next.
  do 3 (eapply in_step_bind;
        [apply in_step_Image2DResBlockWithTV_forward; [assumption | alike_now ..]
        | intros ? ? ?]).
  in_step_next. apply in_step_ret. assumption.
Qed.

Lemma in_step_SpatialTimeBlock_forward (b1 b2 : SpatialTimeBlock) (x1 x2 t1 t2 : Handle) :
  SpatialTimeBlock_alike alike b1 b2 -> alike x1 x2 -> alike t1 t2 ->
  in_step_calls made_alike (SpatialTimeBlock_forward K b1 x1 t1)
    (SpatialTimeBlock_forward K b2 x2 t2).
Proof.
  intros (Ht & Hn & Hs & Hc) Hx Ht'. unfold SpatialTimeBlock_forward. rewrite <- Hs.
  do 4 in_step_next. in_step_op.
Qed.

Ltac in_step_block :=
  eapply in_step_bind;
  [ apply in_step_SpatialTimeBlock_forward; [assumption | alike_now ..] | intros ? ? ? ].

Lemma in_step_SpatialTime3DNet_forward (n1 n2 : SpatialTime3DNet) (x1 x2 t1 t2 : Handle) :
  SpatialTime3DNet_alike alike n1 n2 -> alike x1 x2 -> alike t1 t2 ->
  in_step_calls made_alike (SpatialTime3DNet_forward K n1 x1 t1)
    (SpatialTime3DNet_forward K n2 x2 t2).
Proof.
  intros (Hi & H0 & H1 & H20 & H21 & H3 & H40 & H41 & H5 & H60 & H61 & H7 & H8 & H9) Hx Ht.
  unfold SpatialTime3DNet_forward.
  destruct (alike_meta t1 t2 Ht) as (_ & Hts & _). rewrite <- Hts.
  in_step_same. destruct a1 as [B C]. in_step_next.
  in_step_next.
  do 11 in_step_block.
  in_step_next. in_step_block. in_step_next. in_step_block. in_step_next.
  apply in_step_ret. assumption.
Qed.

Lemma in_step_bind_load {B} (Q : B -> B -> Prop) (G : gmap string PyObj) (name : string)
    (f1 f2 : PyObj -> M B) :
  (forall o, G !! name = Some o -> in_step_calls Q (f1 o) (f2 o)) ->
  in_step_calls Q (bind (load_global G name) f1) (bind (load_global G name) f2).
Proof.
  intros Hf. unfold load_global. destruct (G !! name) as [o|].
  - intros w1 w2 Hw. exact (Hf o eq_refl w1 w2 Hw).
  - intros w1 w2 Hw. split; [reflexivity | exact Hw].
Qed.

Section MainFile.
Import View_feature_extractor.
Context (G : gmap string PyObj) (HG : helper_functional G).

Lemma in_step_construct_spatial_volume (m1 m2 : SpatialVolumeNet)
    (x1 x2 t1 t2 v1 v2 p1 p2 k1 k2 : Handle) :
  SpatialVolumeNet_alike alike m1 m2 ->
  alike x1 x2 -> alike t1 t2 -> alike v1 v2 -> alike p1 p2 -> alike k1 k2 ->
  in_step_calls made_alike (construct_spatial_volume K G m1 x1 t1 v1 p1 k1)
    (construct_spatial_volume K G m2 x2 t2 v2 p2 k2).
Proof.
  intros (Henc & Hnet & His & Hvs & Hvl & Htd) Hx Ht Hv Hp Hk.
  unfold construct_spatial_volume, spatial_volume_verts.
  rewrite <- His, <- Hvs, <- Hvl, <- Htd.
  destruct (alike_meta x1 x2 Hx) as (_ & Hxs & _). rewrite <- Hxs.
  in_step_same. destruct a1 as [[[[B N] c] H] W].
  apply in_step_bind_load. intros _ _.
  in_step_same. do 8 in_step_next.
  eapply in_step_bind.
  { apply (in_step_for_each (fun q1 q2 => alike (fst q1) (fst q2) /\ snd q1 = snd q2)).
    intros ni. do 5 in_step_next.
    eapply in_step_bind;
      [apply in_step_NoisyTargetViewEncoder_forward; [assumption | alike_now ..]|].
    intros e1 e2 He.
    rewrite <- (alike_shape_at1 e1 e2 (made_is_alike e1 e2 He)).
    rewrite <- (alike_shape_last e1 e2 (made_is_alike e1 e2 He)).
    in_step_same.
    apply in_step_bind_load. intros o Ho.
    in_step_same.
    eapply in_step_bind with (R := alike).
    { destruct o; cbn [call_warp]; try apply in_step_raise.
      apply (HG f Ho); alike_now. }
    intros c1 c2 Hc. in_step_next.
    apply in_step_bind_load. intros _ _.
    do 2 in_step_next.
    apply in_step_ret. split; [assumption | reflexivity]. }
  intros feats1 feats2 Hfeats.
  assert (Hboth : Forall2 alike (map fst feats1) (map fst feats2) /\
                  map snd feats1 = map snd feats2).
  { induction Hfeats as [|q1 q2 f1 f2 [Hq1 Hq2] _ [IH1 IH2]]; [split; [constructor | reflexivity]|].
    cbn [map]. split; [constructor; assumption | congruence]. }
  destruct Hboth as [Hfst Hsnd].
  rewrite <- Hsnd.
  apply in_step_bind_load. intros _ _.
  eapply in_step_bind; [apply in_step_stack; exact Hfst|]. intros s1 s2 Hs.
  rewrite <- (alike_shape_at1 s1 s2 (made_is_alike s1 s2 Hs)).
  in_step_same. in_step_next.
  apply in_step_SpatialTime3DNet_forward; [assumption | alike_now ..].
Qed.

End MainFile.

End InStep.

(** ** The parameters a constructor creates are in the store it leaves *)

Section Allocates.
Import Tensor Torch Python View_feature_extractor_net.

Lemma allocates_bind {A B} (P : nat -> A -> Prop) (Q : nat -> B -> Prop) (m : M A) (f : A -> M B) :
  (forall n n' a, (n <= n')%nat -> P n a -> P n' a) ->
  allocates m P -> (forall a, allocates (f a) (fun n b => P n a -> Q n b)) ->
  allocates (bind m f) Q.
Proof.
  intros Hmono Hm Hf w b w2 E. unfold bind in E.
  destruct (m w) as [[a|e] w1] eqn:Em; [|discriminate].
  destruct (Hm w a w1 Em) as [L1 Pa]. destruct (Hf a w1 b w2 E) as [L2 HQ].
  split; [lia|]. apply HQ. exact (Hmono _ _ a L2 Pa).
Qed.

Lemma allocates_ret {A} (P : nat -> A -> Prop) (a : A) : (forall n, P n a) -> allocates (ret a) P.
Proof. intros H w a' w' [= <- <-]. split; [lia | apply H]. Qed.

Lemma allocates_raise {A} (P : nat -> A -> Prop) (e : PyError) : allocates (raise e) P.
Proof. intros w a w' E. discriminate. Qed.

Lemma allocates_lift {A} (r : result A) : allocates (lift r) (fun _ _ => True).
Proof. intros w a w' [= -> <-]. split; [lia | exact I]. Qed.

Lemma allocates_load_global (G : gmap string PyObj) (name : string) :
  allocates (load_global G name) (fun _ _ => True).
Proof.
  unfold load_global. destruct (G !! name); [apply allocates_ret; auto | apply allocates_raise].
Qed.

Lemma allocates_new (x : Tensor.t) : allocates (new x) (fun n h => (cell h < n)%nat).
Proof.
  intros w a w' [= <- <-]. cbn [heap cell]. rewrite length_app. cbn [length]. lia.
Qed.

Context (K : Kernels).

Lemma allocates_new_parameter (sh : list Z) :
  allocates (new_parameter K sh) (fun n h => (cell h < n)%nat).
Proof.
  intros w a w' E. unfold new_parameter in E. destruct (forallb _ sh); [|discriminate].
  destruct (allocates_new _ _ a w' E) as [L H]. cbn [heap] in L. auto.
Qed.

Lemma alive_mono (n n' : nat) (h1 h2 : Handle) : (n <= n')%nat -> alive n h1 h2 -> alive n' h1 h2.
Proof. intros Hn [E L]. split; [exact E | lia]. Qed.

Ltac grows :=
  let n := fresh in let n' := fresh in let a := fresh in let L := fresh in
  intros n n' a L; cbv beta;
  first [ exact (fun _ => I)
        | intros; lia
        | apply Conv_alike_impl; intros ? ?; apply alive_mono; exact L
        | apply GroupNorm_alike_impl; intros ? ?; apply alive_mono; exact L
        | apply Image2DResBlockWithTV_alike_impl; intros ? ?; apply alive_mono; exact L
        | apply NoisyTargetViewEncoder_alike_impl; intros ? ?; apply alive_mono; exact L
        | apply SpatialTimeBlock_alike_impl; intros ? ?; apply alive_mono; exact L
        | apply SpatialTime3DNet_alike_impl; intros ? ?; apply alive_mono; exact L ].

Lemma allocates_Conv_init (c : ConvSpec) :
  allocates (Conv_init K c) (fun n l => Conv_alike (alive n) l l).
Proof.
  unfold Conv_init.
  eapply allocates_bind; cycle 1; [apply allocates_new_parameter | intros weight | grows].
  eapply allocates_bind; cycle 1; [apply allocates_new_parameter | intros bias | grows].
  apply allocates_ret. intros n Hb Hw. repeat split; assumption.
Qed.

Lemma allocates_GroupNorm_init (groups channels : Z) :
  allocates (GroupNorm_init groups channels) (fun n g => GroupNorm_alike (alive n) g g).
Proof.
  unfold GroupNorm_init. destruct (negb _); [apply allocates_raise|].
  eapply allocates_bind; cycle 1; [apply allocates_lift | intros ones_ | grows].
  eapply allocates_bind; cycle 1; [apply allocates_new | intros weight | grows].
  eapply allocates_bind; cycle 1; [apply allocates_new | intros bias | grows].
  apply allocates_ret. intros n Hb Hw _. repeat split; assumption.
Qed.

Ltac allocates_op :=
  first [ apply allocates_Conv_init | apply allocates_GroupNorm_init
        | apply allocates_load_global | apply allocates_lift ].

Lemma allocates_Image2DResBlockWithTV_init (dim tdim vdim : Z) :
  allocates (Image2DResBlockWithTV_init K dim tdim vdim)
    (fun n b => Image2DResBlockWithTV_alike (alive n) b b).
Proof.
  unfold Image2DResBlockWithTV_init, Conv2d.
  do 6 (eapply allocates_bind; cycle 1; [allocates_op | intros ? | grows]).
  apply allocates_ret. intros n. intros.
  split; [assumption|]. split; [assumption|].
  cbn [res_conv enc_final_out].
  repeat (constructor; [cbn [Layer_alike]; first [assumption | reflexivity]|]). constructor.
Qed.

Lemma allocates_NoisyTargetViewEncoder_init (td vd run out : Z) :
  allocates (NoisyTargetViewEncoder_init K td vd run out)
    (fun n e => NoisyTargetViewEncoder_alike (alive n) e e).
Proof.
  unfold NoisyTargetViewEncoder_init, Conv2d.
  eapply allocates_bind; cycle 1; [allocates_op | intros ? | grows].
  do 3 (eapply allocates_bind; cycle 1; [apply allocates_Image2DResBlockWithTV_init | intros ? | grows]).
  do 2 (eapply allocates_bind; cycle 1; [allocates_op | intros ? | grows]).
  apply allocates_ret. intros n. intros.
  repeat (split; [assumption|]).
  cbn [res_conv enc_final_out].
  repeat (constructor; [cbn [Layer_alike]; first [assumption | reflexivity]|]). constructor.
Qed.

Lemma allocates_SpatialTimeBlock_init (x_in_dim t_in_dim out_dim stride : Z) :
  allocates (SpatialTimeBlock_init K x_in_dim t_in_dim out_dim stride)
    (fun n b => SpatialTimeBlock_alike (alive n) b b).
Proof.
  unfold SpatialTimeBlock_init, Conv3d.
  do 3 (eapply allocates_bind; cycle 1; [allocates_op | intros ? | grows]).
  apply allocates_ret. intros n. intros.
  split; [assumption|]. split; [assumption|]. split; [reflexivity | assumption].
Qed.

Lemma allocates_SpatialUpTimeBlock_init (x_in_dim t_in_dim out_dim : Z) :
  allocates (SpatialUpTimeBlock_init K x_in_dim t_in_dim out_dim)
    (fun n b => SpatialTimeBlock_alike (alive n) b b).
Proof.
  unfold SpatialUpTimeBlock_init, Conv3d, ConvTranspose3d.
  do 3 (eapply allocates_bind; cycle 1; [allocates_op | intros ? | grows]).
  apply allocates_ret. intros n. intros.
  split; [assumption|]. split; [assumption|]. split; [reflexivity | assumption].
Qed.

Lemma allocates_SpatialTime3DNet_init (time_dim input_dim : Z) (dims : Z * Z * Z * Z) :
  allocates (SpatialTime3DNet_init K time_dim input_dim dims)
    (fun n net => SpatialTime3DNet_alike (alive n) net net).
Proof.
  destruct dims as [[[d0 d1] d2] d3]. unfold SpatialTime3DNet_init, Conv3d.
  eapply allocates_bind; cycle 1; [allocates_op | intros ? | grows].
  do 10 (eapply allocates_bind; cycle 1; [apply allocates_SpatialTimeBlock_init | intros ? | grows]).
  do 3 (eapply allocates_bind; cycle 1; [apply allocates_SpatialUpTimeBlock_init | intros ? | grows]).
  apply allocates_ret. intros n. intros. repeat (split; [assumption|]). assumption.
Qed.

Lemma allocates_FrustumTVBlock_init (x_dim t_dim v_dim out_dim stride : Z) :
  allocates (FrustumTVBlock_init K x_dim t_dim v_dim out_dim stride) (fun _ _ => True).
Proof.
  unfold FrustumTVBlock_init, Conv3d.
  do 4 (eapply allocates_bind; cycle 1; [allocates_op | intros ? | grows]).
  apply allocates_ret. intros; exact I.
Qed.

Lemma allocates_FrustumTVUpBlock_init (x_dim t_dim v_dim out_dim : Z) :
  allocates (FrustumTVUpBlock_init K x_dim t_dim v_dim out_dim) (fun _ _ => True).
Proof.
  unfold FrustumTVUpBlock_init, Conv3d, ConvTranspose3d.
  do 4 (eapply allocates_bind; cycle 1; [allocates_op | intros ? | grows]).
  apply allocates_ret. intros; exact I.
Qed.

Lemma allocates_FrustumTV3DNet_init (in_dim t_dim v_dim : Z) (dims : Z * Z * Z * Z) :
  allocates (FrustumTV3DNet_init K in_dim t_dim v_dim dims) (fun _ _ => True).
Proof.
  destruct dims as [[[d0 d1] d2] d3]. unfold FrustumTV3DNet_init, Conv3d.
  eapply allocates_bind; cycle 1; [allocates_op | intros ? | grows].
  do 6 (eapply allocates_bind; cycle 1; [apply allocates_FrustumTVBlock_init | intros ? | grows]).
  do 3 (eapply allocates_bind; cycle 1; [apply allocates_FrustumTVUpBlock_init | intros ? | grows]).
  apply allocates_ret. intros; exact I.
Qed.

Lemma allocates_SpatialVolumeNet_init (G : gmap string PyObj)
    (td vd view_num isz fvd V : Z) (L FL : R) :
  allocates (View_feature_extractor.SpatialVolumeNet_init K G td vd view_num isz fvd V L FL)
    (fun n self => SpatialVolumeNet_alike (alive n) self self).
Proof.
  unfold View_feature_extractor.SpatialVolumeNet_init.
  eapply allocates_bind; cycle 1; [allocates_op | intros ? | grows].
  eapply allocates_bind; cycle 1; [apply allocates_NoisyTargetViewEncoder_init | intros ? | grows].
  eapply allocates_bind; cycle 1; [allocates_op | intros ? | grows].
  eapply allocates_bind; cycle 1; [apply allocates_SpatialTime3DNet_init | intros ? | grows].
  eapply allocates_bind; cycle 1; [allocates_op | intros ? | grows].
  eapply allocates_bind; cycle 1; [apply allocates_FrustumTV3DNet_init | intros ? | grows].
  apply allocates_ret. intros n. intros.
  split; [assumption|]. split; [assumption|]. repeat split.
Qed.

(** A tensor object on one of the storages two stores begin with is the
    same tensor in both. *)
Lemma alive_given (w : World) (A1 A2 : list Storage) (r1 r2 : N) (h1 h2 : Handle) :
  alive (length (heap w)) h1 h2 ->
  given_alike (mkWorld (heap w ++ A1) r1) (mkWorld (heap w ++ A2) r2) h1 h2.
Proof.
  intros [<- L]. unfold given_alike, value. cbn [heap].
  repeat split; try (rewrite length_app; lia).
  rewrite !app_nth1 by exact L. reflexivity.
Qed.

End Allocates.

Section Deterministic.
Import Tensor Torch Python View_feature_extractor.

Lemma in_step_start (w1 w2 : World) : in_step w1 w2 w1 w2.
Proof. exists []. rewrite !app_nil_r. split; reflexivity. Qed.

Lemma rng_free_keeps_rng {A} (m : M A) (w : World) : rng_free m -> rng (snd (m w)) = rng w.
Proof.
  intros Hf. pose proof (Hf w (rng w)) as E. destruct w as [h r]. cbn [heap rng] in *.
  rewrite E at 1. reflexivity.
Qed.

(** C8: [construct_spatial_volume] is deterministic.  Take two calls in
    two stores that need have nothing in common: the models may be two
    objects and the arguments may sit anywhere.  If the parameters of the
    two models are equal tensors (same dtype, same layout, same value),
    and so are the latent images, the timestep embeddings, the viewpoint
    embeddings, the camera poses and the intrinsics, then the two calls
    end the same way: both raise the same exception, or both return, and
    the two volumes returned have the same value.  Neither call advances
    the random generator, and the states of the two generators play no
    part.  The warp helper, which is not in the file, is assumed to be a
    function of the values it is given too. *)
Theorem construct_spatial_volume_deterministic (K : Kernels) (G : gmap string PyObj)
    (self1 self2 : SpatialVolumeNet)
    (x1 x2 t_embed1 t_embed2 v_embed1 v_embed2 poses1 poses2 Ks1 Ks2 : Handle)
    (w1 w2 : World) :
  helper_functional G -> helpers_rng_free G ->
  SpatialVolumeNet_alike (given_alike w1 w2) self1 self2 ->
  given_alike w1 w2 x1 x2 ->
  given_alike w1 w2 t_embed1 t_embed2 ->
  given_alike w1 w2 v_embed1 v_embed2 ->
  given_alike w1 w2 poses1 poses2 ->
  given_alike w1 w2 Ks1 Ks2 ->
  let o1 := construct_spatial_volume K G self1 x1 t_embed1 v_embed1 poses1 Ks1 w1 in
  let o2 := construct_spatial_volume K G self2 x2 t_embed2 v_embed2 poses2 Ks2 w2 in
  rng (snd o1) = rng w1 /\ rng (snd o2) = rng w2 /\
  match fst o1, fst o2 with
  | Ok volume1, Ok volume2 => value (snd o1) volume1 = value (snd o2) volume2
  | Raise e1, Raise e2 => e1 = e2
  | _, _ => False
  end.
Proof.
  intros HG Hrng Hself Hx Ht Hv Hp Hk o1 o2.
  split; [apply rng_free_keeps_rng, rng_free_construct_spatial_volume; exact Hrng|].
  split; [apply rng_free_keeps_rng, rng_free_construct_spatial_volume; exact Hrng|].
  assert (Hself' : SpatialVolumeNet_alike (alike w1 w2) self1 self2).
  { revert Hself. apply SpatialVolumeNet_alike_impl. intros h1 h2 Hh. left. exact Hh. }
  destruct (in_step_construct_spatial_volume w1 w2 K G HG self1 self2
              x1 x2 t_embed1 t_embed2 v_embed1 v_embed2 poses1 poses2 Ks1 Ks2 Hself'
              (or_introl Hx) (or_introl Ht) (or_introl Hv) (or_introl Hp) (or_introl Hk)
              w1 w2 (in_step_start w1 w2)) as [Hr Hs].
  fold o1 o2 in Hr, Hs.
  destruct (fst o1) as [y1|e1], (fst o2) as [y2|e2]; cbn [result_alike] in Hr;
    try contradiction; [|exact Hr].
  apply (alike_value w1 w2); [exact Hs | right; exact Hr].
Qed.

End Deterministic.

Section TwoScenesFacts.
Import Tensor Torch Python View_feature_extractor Example TwoScenes.

Lemma globals_with_warp_bound :
  is_Some (globals_with_warp !! "NoisyTargetViewEncoder"%string) /\
  is_Some (globals_with_warp !! "SpatialTime3DNet"%string) /\
  is_Some (globals_with_warp !! "FrustumTV3DNet"%string) /\
  is_Some (globals_with_warp !! "torch"%string) /\
  is_Some (globals_with_warp !! "F"%string) /\
  globals_with_warp !! "get_warp_coordinates"%string
  = Some (PyWarp (fun _ _ _ _ _ => new (zeros [1; 512; 2]))) /\
  globals_with_warp !! "create_target_volume"%string = None.
Proof.
  unfold globals_with_warp.
  repeat split;
    first [ apply lookup_insert_eq
          | rewrite lookup_insert_ne by discriminate;
            first [eexists; vm_compute; reflexivity | vm_compute; reflexivity] ].
Qed.

Lemma globals_with_warp_functional : helper_functional globals_with_warp.
Proof.
  intros f Hf s1 s2 verts1 verts2 size isz K1 K2 p1 p2 _ _ _.
  destruct globals_with_warp_bound as (_ & _ & _ & _ & _ & Hw & _).
  rewrite Hw in Hf. injection Hf as <-.
  eapply in_step_mono; [apply in_step_new|]. intros h1 h2 H. right. exact H.
Qed.

Lemma globals_with_warp_rng_free : helpers_rng_free globals_with_warp.
Proof.
  destruct globals_with_warp_bound as (_ & _ & _ & _ & _ & Hw & Hv). split.
  - intros f Hf. rewrite Hw in Hf. injection Hf as <-. intros. apply rng_free_new.
  - intros f Hf. rewrite Hv in Hf. discriminate.
Qed.

Lemma first_inputs_at (w : World) :
  first_inputs w =
    (Ok (mkInputs (placed w 0 (zeros [1; 2; 4; 1; 1])) (placed w 1 (zeros [1; 4]))
           (placed w 2 (zeros [1; 2; 4])) (placed w 3 (zeros [2; 3; 4]))
           (placed w 4 (zeros [2; 3; 3]))),
     mkWorld (heap w ++ [FloatStorage (data (zeros [1; 2; 4; 1; 1]));
                         FloatStorage (data (zeros [1; 4]));
                         FloatStorage (data (zeros [1; 2; 4]));
                         FloatStorage (data (zeros [2; 3; 4]));
                         FloatStorage (data (zeros [2; 3; 3]))]) (rng w)).
Proof.
  unfold first_inputs, bind, new, ret, placed. cbn [heap rng].
  rewrite <- !app_assoc. cbn [app]. rewrite !length_app. cbn [length].
  repeat f_equal; lia.
Qed.

Lemma second_inputs_at (w : World) :
  second_inputs w =
    (Ok (mkInputs (placed w 5 (zeros [1; 2; 4; 1; 1])) (placed w 4 (zeros [1; 4]))
           (placed w 3 (zeros [1; 2; 4])) (placed w 1 (zeros [2; 3; 4]))
           (placed w 0 (zeros [2; 3; 3]))),
     mkWorld (heap w ++ [FloatStorage (data (zeros [2; 3; 3]));
                         FloatStorage (data (zeros [2; 3; 4]));
                         FloatStorage (data (zeros [7]));
                         FloatStorage (data (zeros [1; 2; 4]));
                         FloatStorage (data (zeros [1; 4]));
                         FloatStorage (data (zeros [1; 2; 4; 1; 1]))]) (rng w)).
Proof.
  unfold second_inputs, bind, new, ret, placed. cbn [heap rng].
  rewrite <- !app_assoc. cbn [app]. rewrite !length_app. cbn [length].
  repeat f_equal; lia.
Qed.

(** The same tensor placed in two stores. *)
Lemma placed_given (w1 w2 : World) (A1 A2 : list Storage) (r1 r2 : N) (j1 j2 : nat)
    (z : Tensor.t) :
  nth_error A1 j1 = Some (FloatStorage (data z)) ->
  nth_error A2 j2 = Some (FloatStorage (data z)) ->
  given_alike (mkWorld (heap w1 ++ A1) r1) (mkWorld (heap w2 ++ A2) r2)
    (placed w1 j1 z) (placed w2 j2 z).
Proof.
  intros H1 H2. unfold given_alike, placed, value. cbn [dtype sizes sel cell heap].
  pose proof (proj1 (nth_error_Some A1 j1) ltac:(congruence)) as L1.
  pose proof (proj1 (nth_error_Some A2 j2) ltac:(congruence)) as L2.
  repeat split; try (rewrite length_app; lia).
  rewrite !app_nth2_plus.
  rewrite (nth_error_nth A1 j1 _ H1), (nth_error_nth A2 j2 _ H2). reflexivity.
Qed.

Lemma construct_spatial_volume_deterministic_witness :
  exists self wp a w1 b w2 volume1 w1' volume2 w2',
    model empty = (Ok self, wp) /\
    first_inputs wp = (Ok a, w1) /\
    second_inputs (mkWorld (heap wp) 5) = (Ok b, w2) /\
    cell (in_x a) <> cell (in_x b) /\
    construct_spatial_volume shape_only globals_with_warp self
      (in_x a) (in_t_embed a) (in_v_embed a) (in_poses a) (in_Ks a) w1 = (Ok volume1, w1') /\
    construct_spatial_volume shape_only globals_with_warp self
      (in_x b) (in_t_embed b) (in_v_embed b) (in_poses b) (in_Ks b) w2 = (Ok volume2, w2') /\
    value w1' volume1 = value w2' volume2.
Proof.
  destruct globals_with_warp_bound as (Hc1 & Hc2 & Hc3 & Htorch & HF & Hwarp & _).
  destruct (returns_SpatialVolumeNet_init_nets shape_only globals_with_warp Hc1 Hc2 Hc3
              4 4 2 8 2 8 0.5%R 0.86603%R ltac:(lia) ltac:(lia) ltac:(lia) empty)
    as (self & wp & Em & Hself & Hnet & _).
  destruct (allocates_SpatialVolumeNet_init shape_only globals_with_warp 4 4 2 8 2 8
              0.5%R 0.86603%R empty self wp Em) as [_ Halive].
  pose proof (first_inputs_at wp) as E1.
  pose proof (second_inputs_at (mkWorld (heap wp) 5)) as E2.
  lazymatch type of E1 with _ = (Ok ?a0, ?w0) => set (a := a0) in *; set (w1 := w0) in * end.
  lazymatch type of E2 with _ = (Ok ?b0, ?w0) => set (b := b0) in *; set (w2 := w0) in * end.
  assert (Hcontract : forall (verts : Handle) (size image_size : Z) (K_ pose : Handle),
            returns ((fun (_ : Handle) (_ _ : Z) (_ _ : Handle) => new (zeros [1; 512; 2]))
                       verts size image_size K_ pose)
              (is_dense [1; 8 * 8 * 8; 2])).
  { intros verts size image_size K_ pose w. eexists _, _. split; [reflexivity|].
    split; [split; reflexivity | apply contiguous_seq]. }
  destruct (returns_construct_spatial_volume shape_only globals_with_warp Htorch HF 1 8 _ Hwarp
              Hcontract self (in_x a) (in_t_embed a) (in_v_embed a) (in_poses a) (in_Ks a)
              4 4 2 8 2 2 2 2 1 1 0.5%R 0.86603%R Hself Hnet
              ltac:(lia) ltac:(lia) ltac:(lia) ltac:(lia) ltac:(lia) ltac:(lia) ltac:(lia)
              ltac:(reflexivity) ltac:(lia) ltac:(lia) ltac:(lia)
              ltac:(split; reflexivity) ltac:(split; reflexivity) ltac:(split; reflexivity)
              ltac:(split; reflexivity) ltac:(split; reflexivity) w1)
    as (volume1 & w1' & C1 & _).
  destruct (returns_construct_spatial_volume shape_only globals_with_warp Htorch HF 1 8 _ Hwarp
              Hcontract self (in_x b) (in_t_embed b) (in_v_embed b) (in_poses b) (in_Ks b)
              4 4 2 8 2 2 2 2 1 1 0.5%R 0.86603%R Hself Hnet
              ltac:(lia) ltac:(lia) ltac:(lia) ltac:(lia) ltac:(lia) ltac:(lia) ltac:(lia)
              ltac:(reflexivity) ltac:(lia) ltac:(lia) ltac:(lia)
              ltac:(split; reflexivity) ltac:(split; reflexivity) ltac:(split; reflexivity)
              ltac:(split; reflexivity) ltac:(split; reflexivity) w2)
    as (volume2 & w2' & C2 & _).
  exists self, wp, a, w1, b, w2, volume1, w1', volume2, w2'.
  split; [exact Em|]. split; [exact E1|]. split; [exact E2|].
  split; [cbn [a b in_x placed cell heap]; lia|].
  split; [exact C1|]. split; [exact C2|].
  pose proof (construct_spatial_volume_deterministic shape_only globals_with_warp self self
                (in_x a) (in_x b) (in_t_embed a) (in_t_embed b) (in_v_embed a) (in_v_embed b)
                (in_poses a) (in_poses b) (in_Ks a) (in_Ks b) w1 w2
                globals_with_warp_functional globals_with_warp_rng_free) as Hdet.
  cbv zeta in Hdet. rewrite C1, C2 in Hdet. cbn [fst snd] in Hdet.
  apply Hdet.
  - revert Halive. apply SpatialVolumeNet_alike_impl. intros h1 h2.
    apply (alive_given wp).
  - apply (placed_given wp (mkWorld (heap wp) 5)); reflexivity.
  - apply (placed_given wp (mkWorld (heap wp) 5)); reflexivity.
  - apply (placed_given wp (mkWorld (heap wp) 5)); reflexivity.
  - apply (placed_given wp (mkWorld (heap wp) 5)); reflexivity.
  - apply (placed_given wp (mkWorld (heap wp) 5)); reflexivity.
Defined.

End TwoScenesFacts.
